(** * ProSCAPE ARINC-429 message processing core

    A shallow embedding of the ARINC-429 codec (ARINC_common.c, ARINC.c),
    the derived-word calculators (calculateNewARINCLabels.c) and the
    software-version generator (SoftwareVersion.c), with the properties
    the specification states about them.

    Conventions of the embedding.
    - [uint32_t], [uint8_t], [uint16_t], [size_t] and [int32_t] values are
      integers of [Z]; every operation that can leave the 32-bit range has
      its wrap-around written out ([wrap32]).  [int] is taken to be at least
      32 bits wide.
    - [float] is IEEE-754 binary32 and [double] is binary64, both carried by
      [spec_float] and computed with the operations of [SpecFloat].
    - A C expression without defined behaviour (a conversion of a NaN or of
      an out-of-range value to an integer, a shift by a negative count or by
      32 or more, a read past the end of an array) makes the enclosing
      function return [None].
    - Pointers are replaced by the values they point to; output parameters
      become components of the result, and the NULL checks disappear.
    - [Timer23_GetTimestamp_ms] reads a hardware counter: the value it
      returns is an argument of the functions that call it. *)

From Stdlib Require Import ZArith Bool Lia QArith Qabs Qpower Lqa.
From Stdlib Require Import Floats.SpecFloat.
From stdpp Require Import base list.

Local Open Scope Z_scope.

(** ** Machine integers *)

Definition UINT32_MAX : Z := 0xFFFFFFFF.
Definition INT32_MAX : Z := 2147483647.
Definition INT32_MIN : Z := -2147483648.
Definition NUM_BITS_IN_UINT32 : Z := 32.
Definition INT32_SIGN_BIT_MASK : Z := 0x80000000.

Definition EXIT_SUCCESS : Z := 0.
Definition EXIT_FAILURE : Z := 1.

(** Reduction of an integer to [uint32_t]. *)
Definition wrap32 (z : Z) : Z := z mod 2 ^ 32.

(** Reinterpretation of a [uint32_t] as [int32_t] (two's complement). *)
Definition to_int32 (z : Z) : Z :=
  if wrap32 z <? 2 ^ 31 then wrap32 z else wrap32 z - 2 ^ 32.

(** [a << n] on [uint32_t], for [0 <= n < 32]. *)
Definition shl32 (a n : Z) : Z := wrap32 (Z.shiftl a n).

(** [a >> n] on [uint32_t], for [0 <= n < 32]. *)
Definition shr32 (a n : Z) : Z := Z.shiftr a n.

(** Sequencing of computations that may be undefined. *)
Notation "'do' x <- e 'in' k" :=
  (match e with Some x => k | None => None end)
  (at level 10, x name, e at level 100, k at level 200, only parsing).
Notation "'do' ' p <- e 'in' k" :=
  (match e with Some p => k | None => None end)
  (at level 10, p pattern, e at level 100, k at level 200, only parsing).

(** ** Floating point *)

Definition float := spec_float.

Module F32.
Definition prec : Z := 24.
Definition emax : Z := 128.
Definition of_Z (z : Z) : float := binary_normalize prec emax z 0 false.
Definition add : float -> float -> float := SFadd prec emax.
Definition sub : float -> float -> float := SFsub prec emax.
Definition mul : float -> float -> float := SFmul prec emax.
Definition div : float -> float -> float := SFdiv prec emax.
(** The binary32 value of the decimal literal [m]e-[k]: [m] and [10^k] are
    converted first, so the literal is rounded once when both are exact
    in binary32 (as they are for every literal used below). *)
Definition dec (m k : Z) : float := div (of_Z m) (of_Z (10 ^ k)).
End F32.

Module F64.
Definition prec : Z := 53.
Definition emax : Z := 1024.
Definition of_Z (z : Z) : float := binary_normalize prec emax z 0 false.
Definition add : float -> float -> float := SFadd prec emax.
(** Every binary32 value is a binary64 value: [spec_float] carries the
    sign, mantissa and exponent, so the widening conversion keeps them. *)
Definition of_float (x : float) : float := x.
End F64.

(** Sign, significand and exponent of a zero or finite value: the value is
    [z * 2^e]. *)
Definition Fnum (x : float) : Z * Z :=
  match x with
  | S754_finite s m e => (if s then Z.neg m else Z.pos m, e)
  | _ => (0, 0)
  end.

(** IEEE-754 comparison, on the values: unordered ([None]) when an operand
    is a NaN, zeros of either sign equal.  The mantissas are aligned, so the
    result does not depend on their normalisation. *)
Definition Fcompare (x y : float) : option comparison :=
  match x, y with
  | S754_nan, _ | _, S754_nan => None
  | S754_infinity s1, S754_infinity s2 =>
      Some (match s1, s2 with
            | true, false => Lt
            | false, true => Gt
            | _, _ => Eq
            end)
  | S754_infinity s, _ => Some (if s then Lt else Gt)
  | _, S754_infinity s => Some (if s then Gt else Lt)
  | _, _ =>
      let '(mx, ex) := Fnum x in
      let '(my, ey) := Fnum y in
      let e := Z.min ex ey in
      Some (Z.compare (mx * 2 ^ (ex - e)) (my * 2 ^ (ey - e)))
  end.

(** [x < y], [x > y] and [x != y] of C. *)
Definition Flt (x y : float) : bool :=
  match Fcompare x y with Some Lt => true | _ => false end.
Definition Fgt (x y : float) : bool :=
  match Fcompare x y with Some Gt => true | _ => false end.
Definition Fne (x y : float) : bool :=
  match Fcompare x y with Some Eq => false | _ => true end.

Definition Fzero : float := S754_zero false.
Definition Fhalf : float := S754_finite false 1 (-1).
Definition Fmhalf : float := S754_finite true 1 (-1).

(** The integer part of a finite value, rounded toward zero. *)
Definition Ftrunc (x : float) : option Z :=
  match x with
  | S754_zero _ => Some 0
  | S754_finite s m e =>
      let a := if 0 <=? e then Z.pos m * 2 ^ e else Z.pos m / 2 ^ (- e) in
      Some (if s then - a else a)
  | _ => None
  end.

(** [(int32_t) x] and [(uint32_t) x]: defined when the truncated value is
    representable. *)
Definition cast_int32 (x : float) : option Z :=
  do z <- Ftrunc x in
  if (INT32_MIN <=? z) && (z <=? INT32_MAX) then Some z else None.

Definition cast_uint32 (x : float) : option Z :=
  do z <- Ftrunc x in
  if (0 <=? z) && (z <=? UINT32_MAX) then Some z else None.

(** [#define clamp(value, low, high)] of ARINC_common.h, at type [double]
    with integer bounds. *)
Definition clamp (value : float) (low high : Z) : float :=
  if Fgt value (F64.of_Z high) then F64.of_Z high
  else if Flt value (F64.of_Z low) then F64.of_Z low
  else value.

(** Modelled from the spec: the macro [min] that ARINC_common.c uses is
    defined in none of the files of the repository, and the specification
    says no more than that the value is decomposed into digits.  It is
    taken as the usual [((a) < (b) ? (a) : (b))], at type [float] with the
    bound [UINT32_MAX] converted to [float]. *)
Definition min_f (a : float) (b : Z) : float :=
  if Flt a (F32.of_Z b) then a else F32.of_Z b.

(** The exact rational value of a zero or finite float (0 otherwise). *)
Definition F2Q (x : float) : Q :=
  let '(m, e) := Fnum x in (inject_Z m * Qpower 2 e)%Q.

(** A zero or a finite value: neither an infinity nor a NaN. *)
Definition Ffinite (x : float) : bool :=
  match x with
  | S754_zero _ | S754_finite _ _ _ => true
  | _ => false
  end.

(** The sign bit and the exact magnitude. *)
Definition Fsign (x : float) : bool :=
  match x with
  | S754_zero s | S754_infinity s | S754_finite s _ _ => s
  | S754_nan => false
  end.

Definition Fmag (x : float) : Q :=
  match x with
  | S754_finite _ m e => (inject_Z (Z.pos m) * Qpower 2 e)%Q
  | _ => 0%Q
  end.

(** ** ARINC_common.h: word format parameters *)

Definition ARINC429_LBL_MASK : Z := 0xFF.
Definition ARINC429_LBL_OCT_SHIFT_TENS_DIG : Z := 3.
Definition ARINC429_LBL_OCT_SHIFT_HUNDREDS_DIG : Z := 6.

Definition ARINC429_SSM_FIELD_SHIFT_VAL : Z := 29.
Definition ARINC429_SSM_FIELD_LIMIT_MASK : Z := 0x3.
Definition ARINC429_SDI_FIELD_SHIFT_VAL : Z := 8.
Definition ARINC429_SDI_FIELD_LIMIT_MASK : Z := 0x3.

Definition ARINC429_BNR_MAX_DATA_FIELD_SHIFT : Z := 28.
Definition ARINC429_BNR_STD_MSG_NUM_SIGBITS_18 : Z := 18.
Definition ARINC429_BNR_STD_MSG_NUM_SIGBITS_19 : Z := 19.
Definition ARINC429_BNR_STD_MSG_NUM_SIGBITS_20 : Z := 20.
Definition ARINC429_BNR_STD_MSG_MAX_NUM_SIGBITS : Z := 20.

Definition ARINC429_BNR_STD_MSG_DATAFIELDMASK_UPTO18SIGBITS : Z := 0x1FFFFC00.
Definition ARINC429_BNR_STD_MSG_DATAFIELDMASK_19SIGBITS : Z := 0x1FFFFE00.
Definition ARINC429_BNR_STD_MSG_DATAFIELDMASK_20SIGBITS : Z := 0x1FFFFF00.

Definition ARINC429_BNR_BCD_MSG_DISCRETE_BITS_SHIFT_VAL : Z := 10.

Definition ARINC429_BCD_MAX_DIGIT_VAL : Z := 9.
Definition ARINC429_BCD_DATAFIELDMASK : Z := 0x1FFFFC00.
Definition ARINC429_BCD_STD_DATA_MAX_DATA_FIELD_SIZE : Z := 19.
Definition ARINC429_BCD_STD_MSG_DATA_FIELD_SHIFT : Z := 10.
Definition ARINC429_BCD_BITS_PER_DIGIT : Z := 4.
Definition ARINC429_BCD_STD_MSG_MAX_NUM_SIGDIGITS : Z := 5.
Definition ARINC429_BCD_STD_MSG_MAX_NUM_BITS_MSC : Z := 3.

Definition ARINC429_DISCRETE_MSG_MAX_NUM_BITS : Z := 19.

(** [RevBitsInByte]: swap the nibbles, then the bit pairs, then the bits. *)
Definition RevBitsInByte (byte : Z) : Z :=
  let nib :=
    Z.lor (Z.shiftr (Z.land byte 0xF0) 4) (Z.shiftl (Z.land byte 0x0F) 4) in
  let pair :=
    Z.lor (Z.shiftr (Z.land nib 0xCC) 2) (Z.shiftl (Z.land nib 0x33) 2) in
  Z.lor (Z.shiftr (Z.land pair 0xAA) 1) (Z.shiftl (Z.land pair 0x55) 1).

(** [FormatLabelNumber]: the decimal digits of the argument are read as an
    octal label, which is then bit-reversed into wire order. *)
Definition FormatLabelNumber (labelInOctal : Z) : Z :=
  RevBitsInByte
    (Z.lor
       (Z.lor
          (Z.shiftl (labelInOctal / 100) ARINC429_LBL_OCT_SHIFT_HUNDREDS_DIG)
          (Z.shiftl (labelInOctal / 10 - labelInOctal / 100 * 10)
                    ARINC429_LBL_OCT_SHIFT_TENS_DIG))
       (labelInOctal - labelInOctal / 10 * 10)).

(** ** ARINC_typedefs.h *)

(** Sign/status matrix values ([ARINC429_SM]); the enumeration gives several
    names to each of the four values of the two-bit field. *)
Definition ARNIC429_SSM_BCD_PLUS : Z := 0.
Definition ARNIC429_SSM_BCD_NO_COMPUTED_DATA : Z := 1.
Definition ARINC429_SSM_BNR_FAILURE_WARNING : Z := 0.
Definition ARINC429_SSM_BNR_NORMAL_OPERATION : Z := 3.
Definition ARINC429_SSM_DIS_NORMAL_OPERATION : Z := 0.

Inductive ARINC429_MsgType : Type :=
  | ARINC429_STD_BNR_MSG
  | ARINC429_STD_BCD_MSG
  | ARINC429_DISCRETE_MSG.

(** [ARINC429_GetLabelDataReturnStatus] *)
Definition ARINC429_GET_LABEL_DATA_ERROR_NO_MATCHING_LABEL : Z := -3.
Definition ARINC429_GET_LABEL_DATA_MSG_SUCCESS : Z := 0.

(** [ARINC429_ReadMsgReturnStatus] (ARINC.h) *)
Definition ARINC429_READ_MSG_ERROR_NO_MATCHING_LABEL : Z := -6.
Definition ARINC429_READ_MSG_ERROR_INVALID_MESSAGE : Z := -5.
Definition ARINC429_READ_MSG_ERROR : Z := -4.
Definition ARINC429_READ_MSG_SUCCESS : Z := 0.

(** [ARINC429_WriteMsgReturnStatus] (ARINC.h) *)
Definition ARINC429_WRITE_MSG_ERROR_INVALID_MSG_DATA : Z := -5.
Definition ARINC429_WRITE_MSG_ERROR_INVALID_MSG_CONFIG : Z := -4.
Definition ARINC429_WRITE_MSG_ERROR : Z := -3.
Definition ARINC429_WRITE_MSG_SENT_DATA_CLIPPED : Z := -1.
Definition ARINC429_WRITE_MSG_SUCCESS : Z := 0.

Record ARINC429_RxMsgData : Type := mkRxMsgData {
  rawARINCword : Z;
  SM : Z;
  SDI : Z;
  engDataFloat : float;
  engDataInt : Z;
  discreteBits : Z;
  sysTimeLastGoodMsg_ms : Z;
  isEngDataInBounds : bool;
  isNotBabbling : bool;
  isDataFresh : bool
}.

Record ARINC429_LabelConfig : Type := mkLabelConfig {
  label : Z;
  msgType : ARINC429_MsgType;
  numSigBits : Z;
  numSigDigits : Z;
  resolution : float;
  maxValidValue : float;
  minValidValue : float;
  numDiscreteBits : Z;
  minTransmitInterval_ms : Z;
  maxTransmitInterval_ms : Z
}.

Record ARINC429_RxMsg : Type := mkRxMsg {
  msgConfig : ARINC429_LabelConfig;
  data : ARINC429_RxMsgData
}.

Record ARINC429_RxMsgArray : Type := mkRxMsgArray {
  numMsgs : Z;
  rxMsgs : list ARINC429_RxMsg;
  maxBusFailureCounts : Z;
  currentCounts : Z;
  hasBusFailed : bool
}.

Record ARINC429_TxMsg : Type := mkTxMsg {
  tx_msgConfig : ARINC429_LabelConfig;
  tx_SM : Z;
  tx_SDI : Z;
  tx_engData : float;
  tx_discreteBits : Z
}.

(** Assignments to the fields of a slot. *)
Definition set_rawARINCword (w : Z) (d : ARINC429_RxMsgData) :=
  mkRxMsgData w (SM d) (SDI d) (engDataFloat d) (engDataInt d)
    (discreteBits d) (sysTimeLastGoodMsg_ms d) (isEngDataInBounds d)
    (isNotBabbling d) (isDataFresh d).

Definition set_data (d : ARINC429_RxMsgData) (m : ARINC429_RxMsg) :=
  mkRxMsg (msgConfig m) d.

Definition set_rxMsgs (l : list ARINC429_RxMsg) (a : ARINC429_RxMsgArray) :=
  mkRxMsgArray (numMsgs a) l (maxBusFailureCounts a) (currentCounts a)
    (hasBusFailed a).

(** ** ARINC_common.c *)

(** The scaling and rounding of ARINC429_BNR_ConvertEngValToRawBNRmsgData:
    [dataEng / resolution] in [float], widened to [double], moved half a
    unit away from zero, clamped to the [int32_t] range and truncated. *)
Definition BNR_calcValueAsInt (resolution dataEng : float) : option Z :=
  let calcValue :=
    F64.of_float
      (if Fne resolution Fzero then F32.div dataEng resolution else Fzero) in
  let calcValue :=
    F64.add calcValue (if Flt calcValue Fzero then Fmhalf else Fhalf) in
  let calcValue := clamp calcValue INT32_MIN INT32_MAX in
  cast_int32 calcValue.

(** The overflow check of the same function, on the scaled value seen as
    [uint32_t]: the result is the data field and the clipped flag. *)
Definition BNR_limitDataField (numSigBits calcValueAsUint : Z) : Z * bool :=
  let datafieldOvfCheckMaskVal := shl32 UINT32_MAX numSigBits in
  if negb (Z.land calcValueAsUint INT32_SIGN_BIT_MASK =? 0) then
    if negb (Z.land calcValueAsUint datafieldOvfCheckMaskVal
             =? datafieldOvfCheckMaskVal)
    then (Z.shiftl 1 numSigBits, true)
    else (calcValueAsUint, false)
  else
    if negb (Z.land calcValueAsUint datafieldOvfCheckMaskVal =? 0)
    then (shr32 UINT32_MAX (NUM_BITS_IN_UINT32 - numSigBits), true)
    else (calcValueAsUint, false).

(** [result] and [isDataClipped] are the values the output parameters hold
    on entry; they are returned unchanged on [EXIT_FAILURE]. *)
Definition ARINC429_BNR_ConvertEngValToRawBNRmsgData
    (numSigBits : Z) (resolution dataEng : float)
    (result : Z) (isDataClipped : bool) : option (Z * Z * bool) :=
  if (numSigBits <? 1) || (ARINC429_BNR_STD_MSG_MAX_NUM_SIGBITS <? numSigBits)
  then Some (EXIT_FAILURE, result, isDataClipped)
  else
    do calcValueAsInt <- BNR_calcValueAsInt resolution dataEng in
    let calcValueAsUint := wrap32 calcValueAsInt in
    let '(calcValueAsUint, isClipped) :=
      BNR_limitDataField numSigBits calcValueAsUint in
    Some (EXIT_SUCCESS, calcValueAsUint, isClipped).

Definition ARINC429_BNR_ConvertRawMsgDataToEngUnits
    (numSigBits : Z) (resolution : float) (dataEng : float) (rawMsgData : Z)
  : Z * float :=
  if (numSigBits <? 1) || (ARINC429_BNR_STD_MSG_MAX_NUM_SIGBITS <? numSigBits)
  then (EXIT_FAILURE, dataEng)
  else
    let rawMsgData_SignExt :=
      if negb (Z.land (shl32 1 numSigBits) rawMsgData =? 0)
      then Z.lor rawMsgData (shl32 UINT32_MAX numSigBits)
      else rawMsgData in
    let msgDataAsInt := to_int32 rawMsgData_SignExt in
    (EXIT_SUCCESS, F32.mul (F32.of_Z msgDataAsInt) resolution).

Definition ARINC429_ExtractSDIbits (ARINCMsg : Z) : Z :=
  Z.land (shr32 ARINCMsg ARINC429_SDI_FIELD_SHIFT_VAL)
         ARINC429_SDI_FIELD_LIMIT_MASK.

Definition ARINC429_ExtractSSMbits (ARINCMsg : Z) : Z :=
  Z.land (shr32 ARINCMsg ARINC429_SSM_FIELD_SHIFT_VAL)
         ARINC429_SSM_FIELD_LIMIT_MASK.

(** The digit loop of ARINC429_BCD_ConvertBCDvalToEngVal.  [fuel] is
    [numSigDigits - count], the number of iterations the guard
    [count < numSigDigits] still allows; the result is the pair of
    [calcValue] and [tempVal] when the loop is left. *)
Fixpoint BCDvalToEngVal_loop (fuel : nat) (calcValue tempVal multVal : Z)
  : Z * Z :=
  match fuel with
  | O => (calcValue, tempVal)
  | S fuel' =>
      if 0 <? tempVal then
        let thisDigit := Z.land tempVal 0xF in
        if ARINC429_BCD_MAX_DIGIT_VAL <? thisDigit
        then (calcValue, tempVal)
        else BCDvalToEngVal_loop fuel'
               (wrap32 (calcValue + multVal * thisDigit))
               (shr32 tempVal ARINC429_BCD_BITS_PER_DIGIT)
               (wrap32 (multVal * 10))
      else (calcValue, tempVal)
  end.

Definition ARINC429_BCD_ConvertBCDvalToEngVal
    (numSigDigits : Z) (resolution : float) (dataEng : float) (rawBCDdata : Z)
  : Z * float :=
  if (numSigDigits <? 1)
     || (ARINC429_BCD_STD_MSG_MAX_NUM_SIGDIGITS <? numSigDigits)
  then (EXIT_FAILURE, dataEng)
  else
    let '(calcValue, tempVal) :=
      BCDvalToEngVal_loop (Z.to_nat numSigDigits) 0 rawBCDdata 1 in
    (if tempVal =? 0 then EXIT_SUCCESS else EXIT_FAILURE,
     if tempVal =? 0 then F32.mul (F32.of_Z calcValue) resolution else Fzero).

(** The first loop of ARINC429_BCD_ConvertEngValToBCD; [fuel] is
    [numSigDigits - count].  The result is [(tempValue, asBCD)]. *)
Fixpoint EngValToBCD_loop (fuel : nat) (numSigDigits numBitsMSC : Z)
    (tempValue asBCD count : Z) : Z * Z :=
  match fuel with
  | O => (tempValue, asBCD)
  | S fuel' =>
      if 0 <? tempValue then
        let thisDigit := tempValue mod 10 in
        if (numSigDigits =? count + 1)
           && (shr32 UINT32_MAX (NUM_BITS_IN_UINT32 - numBitsMSC) <? thisDigit)
        then (tempValue, asBCD)
        else EngValToBCD_loop fuel' numSigDigits numBitsMSC
               (tempValue / 10)
               (wrap32 (asBCD + shl32 thisDigit
                                  (ARINC429_BCD_BITS_PER_DIGIT * count)))
               (count + 1)
      else (tempValue, asBCD)
  end.

(** The second loop of the same function: the largest pattern of
    [numSigDigits] digits. *)
Fixpoint BCDmax_loop (fuel : nat) (numSigDigits numBitsMSC : Z)
    (asBCD count : Z) : Z :=
  match fuel with
  | O => asBCD
  | S fuel' =>
      let thisDigit :=
        if negb (count =? numSigDigits - 1) then ARINC429_BCD_MAX_DIGIT_VAL
        else shr32 UINT32_MAX (NUM_BITS_IN_UINT32 - numBitsMSC) in
      BCDmax_loop fuel' numSigDigits numBitsMSC
        (wrap32 (asBCD + shl32 thisDigit
                           (ARINC429_BCD_BITS_PER_DIGIT * count)))
        (count + 1)
  end.

(** The scaling of ARINC429_BCD_ConvertEngValToBCD, all in [float]. *)
Definition BCD_tempValue (resolution dataEng : float) : option Z :=
  let calcValue :=
    if Fne resolution Fzero then F32.div dataEng resolution else Fzero in
  cast_uint32 (min_f (F32.add calcValue Fhalf) UINT32_MAX).

Definition ARINC429_BCD_ConvertEngValToBCD
    (numSigDigits : Z) (resolution : float) (numBitsMSC : Z) (dataEng : float)
    (rawBCDdata : Z) (isDataClipped : bool) : option (Z * Z * bool) :=
  if (numSigDigits <? 1)
     || (ARINC429_BCD_STD_MSG_MAX_NUM_SIGDIGITS <? numSigDigits)
     || (numBitsMSC <? 1)
     || (ARINC429_BCD_BITS_PER_DIGIT <? numBitsMSC)
  then Some (EXIT_FAILURE, rawBCDdata, isDataClipped)
  else
    do tempValue <- BCD_tempValue resolution dataEng in
    let '(tempValue, asBCD) :=
      EngValToBCD_loop (Z.to_nat numSigDigits) numSigDigits numBitsMSC
        tempValue 0 0 in
    if tempValue =? 0
    then Some (EXIT_SUCCESS, asBCD, false)
    else Some (EXIT_SUCCESS,
               BCDmax_loop (Z.to_nat numSigDigits) numSigDigits numBitsMSC 0 0,
               true).

(** ** ARINC.c *)

Definition maxNumRxMsgsInArray : Z := 64.

(** A shift count is usable when it lies in [0, 32). *)
Definition shift_ok (n : Z) : bool := (0 <=? n) && (n <? NUM_BITS_IN_UINT32).

(** The discrete bits of a BNR or BCD word, when the label has some. *)
Definition extract_discreteBits (numDiscreteBits ARINCMsg : Z) : option Z :=
  if 0 <? numDiscreteBits then
    if shift_ok (NUM_BITS_IN_UINT32 - numDiscreteBits) then
      Some (Z.land
              (shr32 ARINCMsg ARINC429_BNR_BCD_MSG_DISCRETE_BITS_SHIFT_VAL)
              (shr32 UINT32_MAX (NUM_BITS_IN_UINT32 - numDiscreteBits)))
    else None
  else Some 0.

(** The local [dataEng] of the decoders is not initialised; it is read only
    after the conversion has written it, so its first value ([Fzero] here)
    never shows. *)
Definition ARINC429_ProcessStdBNRmessage
    (thisRxMsg : ARINC429_RxMsg) (ARINCMsg : Z)
  : option (Z * ARINC429_RxMsg) :=
  let cfg := msgConfig thisRxMsg in
  let d := set_rawARINCword ARINCMsg (data thisRxMsg) in
  if negb (shift_ok (ARINC429_BNR_MAX_DATA_FIELD_SHIFT - numSigBits cfg)
           && shift_ok (NUM_BITS_IN_UINT32 - numSigBits cfg - 1))
  then None
  else
    let rawDataField :=
      shr32 ARINCMsg (ARINC429_BNR_MAX_DATA_FIELD_SHIFT - numSigBits cfg) in
    let rawDataField :=
      Z.land rawDataField
        (shr32 UINT32_MAX (NUM_BITS_IN_UINT32 - numSigBits cfg - 1)) in
    let '(status, dataEng) :=
      ARINC429_BNR_ConvertRawMsgDataToEngUnits
        (numSigBits cfg) (resolution cfg) Fzero rawDataField in
    if status =? EXIT_FAILURE
    then Some (ARINC429_READ_MSG_ERROR, set_data d thisRxMsg)
    else
      let calcValue :=
        F64.of_float
          (if Flt (F64.of_float dataEng) Fzero
           then F32.sub dataEng Fhalf else F32.add dataEng Fhalf) in
      let calcValue := clamp calcValue INT32_MIN INT32_MAX in
      do engInt <- cast_int32 calcValue in
      do discrete <- extract_discreteBits (numDiscreteBits cfg) ARINCMsg in
      Some (ARINC429_READ_MSG_SUCCESS,
            mkRxMsg cfg
              (mkRxMsgData ARINCMsg
                 (ARINC429_ExtractSSMbits ARINCMsg)
                 (if numSigBits cfg <=? ARINC429_BNR_STD_MSG_NUM_SIGBITS_18
                  then ARINC429_ExtractSDIbits ARINCMsg else 0)
                 dataEng engInt discrete
                 (sysTimeLastGoodMsg_ms d) (isEngDataInBounds d)
                 (isNotBabbling d) (isDataFresh d))).

Definition ARINC429_ProcessStdBCDmessage
    (thisRxMsg : ARINC429_RxMsg) (arincMsg : Z)
  : option (Z * ARINC429_RxMsg) :=
  let cfg := msgConfig thisRxMsg in
  let d := data thisRxMsg in
  if (numSigDigits cfg <? 1)
     || (ARINC429_BCD_STD_MSG_MAX_NUM_SIGDIGITS <? numSigDigits cfg)
     || (ARINC429_BCD_STD_DATA_MAX_DATA_FIELD_SIZE
         <? numSigDigits cfg * 4 - 1 + numDiscreteBits cfg)
  then Some (ARINC429_READ_MSG_ERROR_INVALID_MESSAGE, thisRxMsg)
  else
    let bcdData := Z.land arincMsg ARINC429_BCD_DATAFIELDMASK in
    let bcdData :=
      shr32 bcdData
        (ARINC429_BCD_STD_MSG_DATA_FIELD_SHIFT
         + ARINC429_BCD_BITS_PER_DIGIT
           * (ARINC429_BCD_STD_MSG_MAX_NUM_SIGDIGITS - numSigDigits cfg)) in
    let '(status, dataEng) :=
      ARINC429_BCD_ConvertBCDvalToEngVal
        (numSigDigits cfg) (resolution cfg) Fzero bcdData in
    if status =? EXIT_FAILURE
    then Some (ARINC429_READ_MSG_ERROR_INVALID_MESSAGE, thisRxMsg)
    else
      let calcValue :=
        F64.of_float
          (F32.add dataEng
             (if Flt (F64.of_float dataEng) Fzero then Fmhalf else Fhalf)) in
      let calcValue := clamp calcValue INT32_MIN INT32_MAX in
      do engInt <- cast_int32 calcValue in
      do discrete <- extract_discreteBits (numDiscreteBits cfg) arincMsg in
      Some (ARINC429_READ_MSG_SUCCESS,
            mkRxMsg cfg
              (mkRxMsgData (rawARINCword d)
                 (ARINC429_ExtractSSMbits arincMsg)
                 (ARINC429_ExtractSDIbits arincMsg)
                 dataEng engInt discrete
                 (sysTimeLastGoodMsg_ms d) (isEngDataInBounds d)
                 (isNotBabbling d) (isDataFresh d))).

(** The configuration error is returned as
    [ARINC429_WRITE_MSG_ERROR_INVALID_MSG_CONFIG], a constant of the write
    enumeration, as in the source. *)
Definition ARINC429_ProcessDiscreteMessage
    (thisRxMsg : ARINC429_RxMsg) (arincMsg : Z)
  : option (Z * ARINC429_RxMsg) :=
  let cfg := msgConfig thisRxMsg in
  let d := data thisRxMsg in
  if (numDiscreteBits cfg <? 1)
     || (ARINC429_DISCRETE_MSG_MAX_NUM_BITS <? numDiscreteBits cfg)
  then Some (ARINC429_WRITE_MSG_ERROR_INVALID_MSG_CONFIG, thisRxMsg)
  else
    let discrete := shr32 arincMsg 10 in
    let discrete :=
      Z.land discrete
        (shr32 UINT32_MAX (NUM_BITS_IN_UINT32 - numDiscreteBits cfg)) in
    Some (ARINC429_READ_MSG_SUCCESS,
          mkRxMsg cfg
            (mkRxMsgData (rawARINCword d)
               (ARINC429_ExtractSSMbits arincMsg)
               (ARINC429_ExtractSDIbits arincMsg)
               Fzero 0 discrete
               (sysTimeLastGoodMsg_ms d) false
               (isNotBabbling d) (isDataFresh d))).

Definition ARINC429_IsLabelDataFresh (clock_ms : Z) (rxMsg : ARINC429_RxMsg)
  : bool :=
  let elapsedTime_ms := wrap32 (clock_ms - sysTimeLastGoodMsg_ms (data rxMsg)) in
  elapsedTime_ms <=? maxTransmitInterval_ms (msgConfig rxMsg).

Definition ARINC429_IsLabelDataNotBabbling
    (clock_ms : Z) (rxMsg : ARINC429_RxMsg) : bool :=
  let elapsedTime := wrap32 (clock_ms - sysTimeLastGoodMsg_ms (data rxMsg)) in
  minTransmitInterval_ms (msgConfig rxMsg) <=? elapsedTime.

(** The [switch] of ARINC429_ProcessReceivedMessage on the message type of
    the slot whose label matches.  The BNR decoder stores the received word
    itself; for the other two types the word is stored before the decoder
    is called. *)
Definition ProcessReceivedMessage_decode
    (thisRxMsg : ARINC429_RxMsg) (ARINCMsg : Z)
  : option (Z * ARINC429_RxMsg) :=
  match msgType (msgConfig thisRxMsg) with
  | ARINC429_STD_BNR_MSG =>
      ARINC429_ProcessStdBNRmessage thisRxMsg ARINCMsg
  | ARINC429_STD_BCD_MSG =>
      ARINC429_ProcessStdBCDmessage
        (set_data (set_rawARINCword ARINCMsg (data thisRxMsg)) thisRxMsg)
        ARINCMsg
  | ARINC429_DISCRETE_MSG =>
      ARINC429_ProcessDiscreteMessage
        (set_data (set_rawARINCword ARINCMsg (data thisRxMsg)) thisRxMsg)
        ARINCMsg
  end.

(** The body of the search loop on the slot whose label matches: decode,
    then, on success, update the babbling flag and the time of the last
    good message. *)
Definition ProcessReceivedMessage_slot
    (thisRxMsg : ARINC429_RxMsg) (ARINCMsg timestamp_now_ms : Z)
  : option (Z * ARINC429_RxMsg) :=
  do '(readMsgReturnStatus, thisRxMsg) <-
    ProcessReceivedMessage_decode thisRxMsg ARINCMsg in
  if readMsgReturnStatus =? ARINC429_READ_MSG_SUCCESS then
    let d := data thisRxMsg in
    let notBabbling :=
      ARINC429_IsLabelDataNotBabbling timestamp_now_ms thisRxMsg in
    Some (readMsgReturnStatus,
          set_data
            (mkRxMsgData (rawARINCword d) (SM d) (SDI d) (engDataFloat d)
               (engDataInt d) (discreteBits d) timestamp_now_ms
               (isEngDataInBounds d) notBabbling (isDataFresh d))
            thisRxMsg)
  else Some (readMsgReturnStatus, thisRxMsg).

(** The search loop of ARINC429_ProcessReceivedMessage.  The guard
    [count < maxNumRxMsgsInArray] bounds the iterations that start at
    [count] by [maxNumRxMsgsInArray - count], which is what [fuel] holds.
    The result is [(readMsgReturnStatus, labelMatchFound, array)]. *)
Fixpoint ProcessReceivedMessage_loop (fuel : nat)
    (rxMsgArray : ARINC429_RxMsgArray) (ARINCMsg timestamp_now_ms : Z)
    (msgLabel count : Z) : option (Z * bool * ARINC429_RxMsgArray) :=
  match fuel with
  | O => Some (ARINC429_READ_MSG_SUCCESS, false, rxMsgArray)
  | S fuel' =>
      if (count <? numMsgs rxMsgArray) && (count <? maxNumRxMsgsInArray) then
        do thisRxMsg <- rxMsgs rxMsgArray !! Z.to_nat count in
        if label (msgConfig thisRxMsg) =? msgLabel then
          do '(readMsgReturnStatus, thisRxMsg) <-
            ProcessReceivedMessage_slot thisRxMsg ARINCMsg timestamp_now_ms in
          Some (readMsgReturnStatus, true,
                set_rxMsgs
                  (<[Z.to_nat count := thisRxMsg]> (rxMsgs rxMsgArray))
                  rxMsgArray)
        else
          ProcessReceivedMessage_loop fuel' rxMsgArray ARINCMsg
            timestamp_now_ms msgLabel (count + 1)
      else Some (ARINC429_READ_MSG_SUCCESS, false, rxMsgArray)
  end.

Definition ARINC429_ProcessReceivedMessage
    (rxMsgArray : ARINC429_RxMsgArray) (ARINCMsg timestamp_now_ms : Z)
  : option (Z * ARINC429_RxMsgArray) :=
  let msgLabel := Z.land ARINCMsg ARINC429_LBL_MASK in
  do '(readMsgReturnStatus, labelMatchFound, rxMsgArray) <-
    ProcessReceivedMessage_loop (Z.to_nat maxNumRxMsgsInArray)
      rxMsgArray ARINCMsg timestamp_now_ms msgLabel 0 in
  if labelMatchFound then Some (readMsgReturnStatus, rxMsgArray)
  else Some (ARINC429_READ_MSG_ERROR_NO_MATCHING_LABEL, rxMsgArray).

(** The discrete bits of a transmitted BNR or BCD word, in place. *)
Definition format_discreteBits (numDiscreteBits discreteBits : Z) : option Z :=
  if 0 <? numDiscreteBits then
    if shift_ok (NUM_BITS_IN_UINT32 - numDiscreteBits) then
      Some (shl32
              (Z.land discreteBits
                 (shr32 UINT32_MAX (NUM_BITS_IN_UINT32 - numDiscreteBits)))
              ARINC429_BNR_BCD_MSG_DISCRETE_BITS_SHIFT_VAL)
    else None
  else Some 0.

(** [ARINCMsg] is the value the output parameter holds on entry; the result
    is the returned status and the value it holds on return. *)
Definition ARINC429_AssembleStdBNRmessage
    (txMsg : ARINC429_TxMsg) (ARINCMsg : Z) : option (Z * Z) :=
  let cfg := tx_msgConfig txMsg in
  do '(status, dataField, isDataClipped) <-
    ARINC429_BNR_ConvertEngValToRawBNRmsgData
      (numSigBits cfg) (resolution cfg) (tx_engData txMsg) 0 false in
  if status =? EXIT_FAILURE
  then Some (ARINC429_WRITE_MSG_ERROR, ARINCMsg)
  else
    let writeMsgReturnStatus :=
      if isDataClipped then ARINC429_WRITE_MSG_SENT_DATA_CLIPPED
      else ARINC429_WRITE_MSG_SUCCESS in
    let dataField_Shifted :=
      shl32 dataField (ARINC429_BNR_MAX_DATA_FIELD_SHIFT - numSigBits cfg) in
    let dataField_Shifted :=
      if ARINC429_BNR_STD_MSG_NUM_SIGBITS_20 =? numSigBits cfg
      then Z.land dataField_Shifted
             ARINC429_BNR_STD_MSG_DATAFIELDMASK_20SIGBITS
      else if ARINC429_BNR_STD_MSG_NUM_SIGBITS_19 =? numSigBits cfg
      then Z.land dataField_Shifted
             ARINC429_BNR_STD_MSG_DATAFIELDMASK_19SIGBITS
      else Z.land dataField_Shifted
             ARINC429_BNR_STD_MSG_DATAFIELDMASK_UPTO18SIGBITS in
    do discreteBits_shifted <-
      format_discreteBits (numDiscreteBits cfg) (tx_discreteBits txMsg) in
    let arincMsgTemp := label cfg in
    let arincMsgTemp := Z.lor arincMsgTemp dataField_Shifted in
    let arincMsgTemp := Z.lor arincMsgTemp discreteBits_shifted in
    let arincMsgTemp :=
      if numSigBits cfg <=? ARINC429_BNR_STD_MSG_NUM_SIGBITS_18
      then Z.lor arincMsgTemp
             (Z.shiftl (Z.land (tx_SDI txMsg) ARINC429_SDI_FIELD_LIMIT_MASK)
                       ARINC429_SDI_FIELD_SHIFT_VAL)
      else arincMsgTemp in
    let arincMsgTemp :=
      Z.lor arincMsgTemp
        (shl32 (Z.land (tx_SM txMsg) ARINC429_SSM_FIELD_LIMIT_MASK)
               ARINC429_SSM_FIELD_SHIFT_VAL) in
    Some (writeMsgReturnStatus, arincMsgTemp).

Definition ARINC429_AssembleStdBCDmessage
    (txMsg : ARINC429_TxMsg) (arincMsg : Z) : option (Z * Z) :=
  let cfg := tx_msgConfig txMsg in
  if (numSigDigits cfg <? 1)
     || (ARINC429_BCD_STD_MSG_MAX_NUM_SIGDIGITS <? numSigDigits cfg)
     || (ARINC429_BCD_STD_DATA_MAX_DATA_FIELD_SIZE
         <? numSigDigits cfg * 4 - 1 + numDiscreteBits cfg)
  then Some (ARINC429_WRITE_MSG_ERROR_INVALID_MSG_CONFIG, arincMsg)
  else if Flt (tx_engData txMsg) (F32.of_Z 0)
  then Some (ARINC429_WRITE_MSG_ERROR_INVALID_MSG_DATA, arincMsg)
  else
    do '(status, dataField, isDataClipped) <-
      ARINC429_BCD_ConvertEngValToBCD
        (numSigDigits cfg) (resolution cfg)
        ARINC429_BCD_STD_MSG_MAX_NUM_BITS_MSC (tx_engData txMsg) 0 false in
    if status =? EXIT_FAILURE
    then Some (ARINC429_WRITE_MSG_ERROR, arincMsg)
    else
      let writeMsgReturnStatus :=
        if isDataClipped then ARINC429_WRITE_MSG_SENT_DATA_CLIPPED
        else ARINC429_WRITE_MSG_SUCCESS in
      let dataField_shifted :=
        shl32 dataField
          (ARINC429_BCD_STD_MSG_DATA_FIELD_SHIFT
           + ARINC429_BCD_BITS_PER_DIGIT
             * (ARINC429_BCD_STD_MSG_MAX_NUM_SIGDIGITS - numSigDigits cfg)) in
      let dataField_shifted :=
        Z.land dataField_shifted ARINC429_BCD_DATAFIELDMASK in
      do discreteBits_shifted <-
        format_discreteBits (numDiscreteBits cfg) (tx_discreteBits txMsg) in
      let arincMsgTemp := label cfg in
      let arincMsgTemp := Z.lor arincMsgTemp dataField_shifted in
      let arincMsgTemp := Z.lor arincMsgTemp discreteBits_shifted in
      let arincMsgTemp :=
        Z.lor arincMsgTemp
          (Z.shiftl (Z.land (tx_SDI txMsg) ARINC429_SDI_FIELD_LIMIT_MASK)
                    ARINC429_SDI_FIELD_SHIFT_VAL) in
      let arincMsgTemp :=
        Z.lor arincMsgTemp
          (shl32 (Z.land (tx_SM txMsg) ARINC429_SSM_FIELD_LIMIT_MASK)
                 ARINC429_SSM_FIELD_SHIFT_VAL) in
      Some (writeMsgReturnStatus, arincMsgTemp).

Definition ARINC429_CheckValidityOfARINC_BNR_Data
    (engData : float) (lblCfg : ARINC429_LabelConfig) : Z :=
  if Flt engData (minValidValue lblCfg) || Fgt engData (maxValidValue lblCfg)
  then ARINC429_SSM_BNR_FAILURE_WARNING
  else ARINC429_SSM_BNR_NORMAL_OPERATION.

(** The search loop of ARINC429_GetLatestLabelData; [fuel] is
    [maxNumRxMsgsInArray - count].  The result is [None] when the loop ends
    without a match, else the copied data with its freshness. *)
Fixpoint GetLatestLabelData_loop (fuel : nat)
    (rxMsgArray : ARINC429_RxMsgArray) (hexFlippedLabel current_time_ms : Z)
    (count : Z) : option (option ARINC429_RxMsgData) :=
  match fuel with
  | O => Some None
  | S fuel' =>
      if (count <? numMsgs rxMsgArray) && (count <? maxNumRxMsgsInArray) then
        do rxMsg <- rxMsgs rxMsgArray !! Z.to_nat count in
        if label (msgConfig rxMsg) =? hexFlippedLabel then
          let d := data rxMsg in
          Some (Some
                  (mkRxMsgData (rawARINCword d) (SM d) (SDI d)
                     (engDataFloat d) (engDataInt d) (discreteBits d)
                     (sysTimeLastGoodMsg_ms d) (isEngDataInBounds d)
                     (isNotBabbling d)
                     (ARINC429_IsLabelDataFresh current_time_ms rxMsg)))
        else
          GetLatestLabelData_loop fuel' rxMsgArray hexFlippedLabel
            current_time_ms (count + 1)
      else Some None
  end.

(** [rxMsgData] is what the output parameter holds on entry: it is returned
    as it is when no slot has the label. *)
Definition ARINC429_GetLatestLabelData
    (rxMsgArray : ARINC429_RxMsgArray) (hexFlippedLabel : Z)
    (rxMsgData : ARINC429_RxMsgData) (current_time_ms : Z)
  : option (Z * ARINC429_RxMsgData) :=
  do found <-
    GetLatestLabelData_loop (Z.to_nat maxNumRxMsgsInArray)
      rxMsgArray hexFlippedLabel current_time_ms 0 in
  match found with
  | Some d => Some (ARINC429_GET_LABEL_DATA_MSG_SUCCESS, d)
  | None => Some (ARINC429_GET_LABEL_DATA_ERROR_NO_MATCHING_LABEL, rxMsgData)
  end.

(** ** calculateNewARINCLabels.c *)

Definition AHRS_STATUS_SDI_SSM_MASK : Z := 0x60000300.
Definition AHRS_272_BIT_25_SET : Z := 0x2000000.
Definition AHRS_LABEL_271_MSU_FAIL_MASK : Z := 0x400.
Definition A429_DISC_SSM_FAIL_MASK : Z := 0x60000000.

Definition filterGoodThreshold : Z := 10.

(** [PI] is the [float] nearest to 3.14159265358979. *)
Definition PI : float := S754_finite false 13176795 (-22).
Definition radToDeg (angleInRadians : float) : float :=
  F32.div (F32.mul angleInRadians (F32.of_Z 180)) PI.

(** Slip/skid indicated side slip angle. *)
Definition arincLabel250Config : ARINC429_LabelConfig :=
  {| label := FormatLabelNumber 250;
     msgType := ARINC429_STD_BNR_MSG;
     numSigBits := 12;
     numSigDigits := 0;
     resolution := F32.dec 439453 7;
     maxValidValue := F32.of_Z 180;
     minValidValue := F32.of_Z (-180);
     numDiscreteBits := 0;
     minTransmitInterval_ms := 0;
     maxTransmitInterval_ms := 0 |}.

(** Turn rate. *)
Definition arincLabel340Config : ARINC429_LabelConfig :=
  {| label := FormatLabelNumber 340;
     msgType := ARINC429_STD_BNR_MSG;
     numSigBits := 13;
     numSigDigits := 0;
     resolution := F32.dec 15625 6;
     maxValidValue := F32.of_Z 128;
     minValidValue := F32.of_Z (-128);
     numDiscreteBits := 0;
     minTransmitInterval_ms := 0;
     maxTransmitInterval_ms := 0 |}.

(** Baro correction. *)
Definition arincLabel235Config : ARINC429_LabelConfig :=
  {| label := FormatLabelNumber 235;
     msgType := ARINC429_STD_BCD_MSG;
     numSigBits := 19;
     numSigDigits := 5;
     resolution := F32.dec 1 3;
     maxValidValue := Fzero;
     minValidValue := Fzero;
     numDiscreteBits := 0;
     minTransmitInterval_ms := 0;
     maxTransmitInterval_ms := 0 |}.

(** A label is usable by a calculator when it was read, is fresh, does not
    babble and carries the expected status matrix. *)
Definition label_data_valid (status : Z) (d : ARINC429_RxMsgData) (sm : Z)
  : bool :=
  (ARINC429_GET_LABEL_DATA_MSG_SUCCESS =? status)
  && isDataFresh d && isNotBabbling d && (sm =? SM d).

Section Calculators.

(** The IIR differentiator, the IIR filter and the arc tangent come from
    COMIIRDifferentiator.h, COMIIRFilter.h and COMTrigModule.h, which are
    outside the repository: their state types and functions are
    parameters.  A function that updates the filter through its pointer
    returns the new filter. *)
Variable IIRDiff_Filter : Type.
Variable IIR_Differentiator_Limited :
  float -> IIRDiff_Filter -> float * IIRDiff_Filter.
Variable IIRDifferentiatorReset : IIRDiff_Filter -> IIRDiff_Filter.
Variable IIRDifferentiatorPreload :
  float -> IIRDiff_Filter -> IIRDiff_Filter.
Variable pastOutputOfDiff : IIRDiff_Filter -> float.

Variable sIIR_struct : Type.
Variable f32_IIRFilter : float -> sIIR_struct -> float * sIIR_struct.
Variable v_IIRReset : sIIR_struct -> sIIR_struct.
Variable v_IIRPreload : float -> sIIR_struct -> sIIR_struct.
Variable f32_ArcTan2 : float -> float -> float.

(** The file-level variables of the slip-angle filter. *)
Record SlipState : Type := mkSlipState {
  isIIRSlipFilterGood : bool;
  iirFilterGoodCount : Z;
  accelerationZFilter : sIIR_struct
}.

(** The file-level variables of the turn-rate differentiator. *)
Record TurnState : Type := mkTurnState {
  isIIRDiffGood : bool;
  iirDiffGoodCount : Z;
  magHeadingIIRDiff : IIRDiff_Filter
}.

(** The body of CalculateSlipAngle up to the composed message
    [txMsgSlipAngle].  [ayData] and [azData] are the contents of the locals
    of the same name on entry (they are not initialised and stay as they
    are when the label is not found).  Each of the two look-ups reads the
    clock for itself: [time_332_ms] and [time_333_ms] are what
    Timer23_GetTimestamp_ms returns in the first and in the second.  The
    discrete bits of the message are not assigned; label 250 has none. *)
Definition SlipAngle_txMsg (st : SlipState)
    (rxMsgArray : ARINC429_RxMsgArray) (ayData azData : ARINC429_RxMsgData)
    (time_332_ms time_333_ms : Z) : option (SlipState * ARINC429_TxMsg) :=
  do '(readStatusAY, ayData) <-
    ARINC429_GetLatestLabelData rxMsgArray (FormatLabelNumber 332)
      ayData time_332_ms in
  do '(readStatusAZ, azData) <-
    ARINC429_GetLatestLabelData rxMsgArray (FormatLabelNumber 333)
      azData time_333_ms in
  let isAYdataValid :=
    label_data_valid readStatusAY ayData ARINC429_SSM_BNR_NORMAL_OPERATION in
  let slip filt :=
    let '(filteredAZ, filt) := f32_IIRFilter (engDataFloat azData) filt in
    (radToDeg (f32_ArcTan2 (SFopp (engDataFloat ayData))
                           (F32.add filteredAZ (F32.of_Z 1))),
     filt) in
  let '(st, slipAngleInDegrees, sm) :=
    if label_data_valid readStatusAZ azData ARINC429_SSM_BNR_NORMAL_OPERATION
    then
      if isIIRSlipFilterGood st then
        let '(slipAngleInDegrees, filt) := slip (accelerationZFilter st) in
        (mkSlipState true (iirFilterGoodCount st) filt,
         slipAngleInDegrees,
         ARINC429_CheckValidityOfARINC_BNR_Data slipAngleInDegrees
           arincLabel250Config)
      else
        let '(slipAngleInDegrees, filt) :=
          if 0 =? iirFilterGoodCount st
          then (F32.of_Z 0,
                v_IIRPreload (engDataFloat azData)
                  (v_IIRReset (accelerationZFilter st)))
          else slip (accelerationZFilter st) in
        let count := iirFilterGoodCount st + 1 in
        (mkSlipState (filterGoodThreshold <? count) count filt,
         slipAngleInDegrees,
         ARINC429_SSM_BNR_FAILURE_WARNING)
    else
      (mkSlipState false 0 (accelerationZFilter st),
       Fzero,
       ARINC429_SSM_BNR_FAILURE_WARNING) in
  let sm := if isAYdataValid then sm else ARINC429_SSM_BNR_FAILURE_WARNING in
  Some (st, mkTxMsg arincLabel250Config sm (SDI azData) slipAngleInDegrees 0).

(** The word [slipAngleWord] is not initialised either; label 250 is a
    valid BNR label, so the assembly always writes it. *)
Definition CalculateSlipAngle (st : SlipState)
    (rxMsgArray : ARINC429_RxMsgArray) (ayData azData : ARINC429_RxMsgData)
    (time_332_ms time_333_ms : Z) : option (SlipState * Z) :=
  do '(st, txMsgSlipAngle) <-
    SlipAngle_txMsg st rxMsgArray ayData azData time_332_ms time_333_ms in
  do '(_, slipAngleWord) <-
    ARINC429_AssembleStdBNRmessage txMsgSlipAngle 0 in
  Some (st, slipAngleWord).

(** The body of CalculateTurnRate up to the composed message
    [txMsgTurnRate].  [magHeadingData] is the content of the local of the
    same name on entry. *)
Definition TurnRate_txMsg (st : TurnState)
    (rxMsgArray : ARINC429_RxMsgArray) (magHeadingData : ARINC429_RxMsgData)
    (current_time_ms : Z) : option (TurnState * ARINC429_TxMsg) :=
  do '(status, magHeadingData) <-
    ARINC429_GetLatestLabelData rxMsgArray (FormatLabelNumber 320)
      magHeadingData current_time_ms in
  let '(st, turnRate_dps, sm) :=
    if label_data_valid status magHeadingData
         ARINC429_SSM_BNR_NORMAL_OPERATION
    then
      if isIIRDiffGood st then
        let '(turnRate_dps, filt) :=
          IIR_Differentiator_Limited (engDataFloat magHeadingData)
            (magHeadingIIRDiff st) in
        (mkTurnState true (iirDiffGoodCount st) filt,
         turnRate_dps,
         ARINC429_CheckValidityOfARINC_BNR_Data turnRate_dps
           arincLabel340Config)
      else
        let '(turnRate_dps, filt) :=
          if 0 =? iirDiffGoodCount st
          then (Fzero,
                IIRDifferentiatorPreload (engDataFloat magHeadingData)
                  (IIRDifferentiatorReset (magHeadingIIRDiff st)))
          else IIR_Differentiator_Limited (engDataFloat magHeadingData)
                 (magHeadingIIRDiff st) in
        let count := iirDiffGoodCount st + 1 in
        (mkTurnState (filterGoodThreshold <=? count) count filt,
         turnRate_dps,
         ARINC429_SSM_BNR_FAILURE_WARNING)
    else
      (mkTurnState false 0 (magHeadingIIRDiff st),
       pastOutputOfDiff (magHeadingIIRDiff st),
       ARINC429_SSM_BNR_FAILURE_WARNING) in
  Some (st, mkTxMsg arincLabel340Config sm (SDI magHeadingData)
              turnRate_dps 0).

Definition CalculateTurnRate (st : TurnState)
    (rxMsgArray : ARINC429_RxMsgArray) (magHeadingData : ARINC429_RxMsgData)
    (current_time_ms : Z) : option (TurnState * Z) :=
  do '(st, txMsgTurnRate) <-
    TurnRate_txMsg st rxMsgArray magHeadingData current_time_ms in
  do '(_, turnRateWord) <-
    ARINC429_AssembleStdBNRmessage txMsgTurnRate 0 in
  Some (st, turnRateWord).

(** Successive cycles of a calculator, each on the group as it is at that
    cycle and with the time the clock shows then (for the slip angle, the
    times of its two look-ups).  Every cycle yields the message it composed
    and the word it returned. *)
Fixpoint CalculateTurnRate_cycles (st : TurnState)
    (cycles : list (ARINC429_RxMsgArray * Z))
    (magHeadingData : ARINC429_RxMsgData)
  : option (TurnState * list (ARINC429_TxMsg * Z)) :=
  match cycles with
  | [] => Some (st, [])
  | (a, now) :: cycles =>
      do '(st1, txMsg) <- TurnRate_txMsg st a magHeadingData now in
      do '(st2, w) <- CalculateTurnRate st a magHeadingData now in
      do '(st, ws) <- CalculateTurnRate_cycles st2 cycles magHeadingData in
      Some (st, (txMsg, w) :: ws)
  end.

Fixpoint CalculateSlipAngle_cycles (st : SlipState)
    (cycles : list (ARINC429_RxMsgArray * Z * Z))
    (ayData azData : ARINC429_RxMsgData)
  : option (SlipState * list (ARINC429_TxMsg * Z)) :=
  match cycles with
  | [] => Some (st, [])
  | (a, t332, t333) :: cycles =>
      do '(st1, txMsg) <- SlipAngle_txMsg st a ayData azData t332 t333 in
      do '(st2, w) <- CalculateSlipAngle st a ayData azData t332 t333 in
      do '(st, ws) <- CalculateSlipAngle_cycles st2 cycles ayData azData in
      Some (st, (txMsg, w) :: ws)
  end.

End Calculators.

(** [lbl271Data] is the content of the local of the same name on entry. *)
Definition CalculateARINCLabel272
    (rxMsgArray : ARINC429_RxMsgArray) (hasADCTimedOut : bool)
    (lbl271Data : ARINC429_RxMsgData) (current_time_ms : Z) : option Z :=
  do '(status, lbl271Data) <-
    ARINC429_GetLatestLabelData rxMsgArray (FormatLabelNumber 271)
      lbl271Data current_time_ms in
  let label272ARINCWord := 0x0000005D in
  if isDataFresh lbl271Data && isNotBabbling lbl271Data
     && (ARINC429_GET_LABEL_DATA_MSG_SUCCESS =? status)
     && (ARINC429_SSM_DIS_NORMAL_OPERATION =? SM lbl271Data)
  then
    let label272ARINCWord :=
      Z.lor label272ARINCWord
        (Z.land (rawARINCword lbl271Data) AHRS_STATUS_SDI_SSM_MASK) in
    let label272ARINCWord :=
      if hasADCTimedOut then Z.lor label272ARINCWord AHRS_272_BIT_25_SET
      else label272ARINCWord in
    let label272ARINCWord :=
      if negb (Z.land (rawARINCword lbl271Data) AHRS_LABEL_271_MSU_FAIL_MASK
               =? 0)
      then Z.lor label272ARINCWord 0xC00
      else label272ARINCWord in
    Some label272ARINCWord
  else Some (Z.lor label272ARINCWord A429_DISC_SSM_FAIL_MASK).

(** ** SoftwareVersion.c *)

Definition NUM_BYTES_PER_SCI_VERSION : Z := 16.
Definition NUM_AFC004_SCI : Z := 3.
Definition MAX_MSG_IDX_VALUE : Z := 16.
Definition MAX_SYS_IDX_VALUE : Z := 3.

Definition ARINC429_SDI_SHIFT_VAL : Z := 8.
Definition ARINC429_SUBSYS_IDX_SHIFT_VAL : Z := 23.
Definition ARINC429_MSGSUB_IDX_SHIFT_VAL : Z := 18.
Definition ARINC429_SWVER_DATA_SHIFT_VAL : Z := 10.
Definition ARINC429_SWVERSION_LABEL : Z := 0x0000007F.

Definition CC_AFC004 : Z := 0x12.
Definition CC_ADC : Z := 0x16.
Definition CC_PAOA : Z := 0x17.

Definition subsystemVersionArray : list Z := [CC_AFC004; CC_ADC; CC_PAOA].

(** The file-level variables of the module: the version table (three rows
    of sixteen bytes) and the two indices. *)
Record SWVerState : Type := mkSWVerState {
  swVersions : list (list Z);
  msg_idx : Z;
  sys_idx : Z
}.

Definition SWVer_GetNextVersionARINCMsg (st : SWVerState) (sdi : Z)
  : option (SWVerState * Z) :=
  let swVersionARINC429Word := ARINC429_SWVERSION_LABEL in
  do subSys <- subsystemVersionArray !! Z.to_nat (sys_idx st) in
  let msgSubIdx := wrap32 (msg_idx st) in
  do row <- swVersions st !! Z.to_nat (sys_idx st) in
  do data <- row !! Z.to_nat (msg_idx st) in
  let swVersionARINC429Word :=
    Z.lor swVersionARINC429Word (shl32 sdi ARINC429_SDI_SHIFT_VAL) in
  let swVersionARINC429Word :=
    Z.lor swVersionARINC429Word (shl32 subSys ARINC429_SUBSYS_IDX_SHIFT_VAL) in
  let swVersionARINC429Word :=
    Z.lor swVersionARINC429Word
      (shl32 msgSubIdx ARINC429_MSGSUB_IDX_SHIFT_VAL) in
  let swVersionARINC429Word :=
    Z.lor swVersionARINC429Word (shl32 data ARINC429_SWVER_DATA_SHIFT_VAL) in
  let msg_idx := msg_idx st + 1 in
  let '(msg_idx, sys_idx) :=
    if MAX_MSG_IDX_VALUE =? msg_idx then
      let sys_idx := sys_idx st + 1 in
      (0, if sys_idx =? MAX_SYS_IDX_VALUE then 0 else sys_idx)
    else (msg_idx, sys_idx st) in
  Some (mkSWVerState (swVersions st) msg_idx sys_idx, swVersionARINC429Word).

(** * Vocabulary of the properties *)

(** [slot_for a L i m]: slot [i] of the group holds [m], is configured for
    label [L] and is the slot that the search loops of ARINC.c stop at:
    it lies below [numMsgs] and below [maxNumRxMsgsInArray], and no slot
    before it has the label. *)
Definition slot_for (a : ARINC429_RxMsgArray) (L : Z) (i : nat)
    (m : ARINC429_RxMsg) : Prop :=
  rxMsgs a !! i = Some m
  /\ label (msgConfig m) = L
  /\ Z.of_nat i < numMsgs a
  /\ Z.of_nat i < maxNumRxMsgsInArray
  /\ forall (j : nat) (m' : ARINC429_RxMsg),
       (j < i)%nat -> rxMsgs a !! j = Some m' -> label (msgConfig m') <> L.

(** No slot that the search loops visit is configured for label [L]. *)
Definition no_slot_for (a : ARINC429_RxMsgArray) (L : Z) : Prop :=
  forall (j : nat) (m : ARINC429_RxMsg),
    Z.of_nat j < numMsgs a -> Z.of_nat j < maxNumRxMsgsInArray ->
    rxMsgs a !! j = Some m -> label (msgConfig m) <> L.

(** The labels of a group are pairwise distinct. *)
Definition unique_labels (a : ARINC429_RxMsgArray) : Prop :=
  forall (i j : nat) (m m' : ARINC429_RxMsg),
    rxMsgs a !! i = Some m -> rxMsgs a !! j = Some m' ->
    label (msgConfig m) = label (msgConfig m') -> i = j.

(** A slot as it is at start-up. *)
Definition RxMsgData_init : ARINC429_RxMsgData :=
  mkRxMsgData 0 0 0 Fzero 0 0 0 false false false.

(** ** AFC004MessageConfig.c: the words received from the AHR75 *)

Definition rx_slot (lbl : Z) (ty : ARINC429_MsgType)
    (sigBits sigDigits : Z) (res : float) (discBits minT maxT : Z)
  : ARINC429_RxMsg :=
  mkRxMsg
    (mkLabelConfig (FormatLabelNumber lbl) ty sigBits sigDigits res
       Fzero Fzero discBits minT maxT)
    RxMsgData_init.

Definition arincWordsRxFromAHR75 : list ARINC429_RxMsg :=
  [ rx_slot 270 ARINC429_DISCRETE_MSG 19 0 Fzero 4 450 550;
    rx_slot 271 ARINC429_DISCRETE_MSG 19 0 Fzero 1 450 550;
    rx_slot 320 ARINC429_STD_BNR_MSG 15 0 (F32.dec 55 4) 0 15 25;
    rx_slot 324 ARINC429_STD_BNR_MSG 14 0 (F32.dec 10986 6) 0 15 25;
    rx_slot 325 ARINC429_STD_BNR_MSG 14 0 (F32.dec 10986 6) 0 15 25;
    rx_slot 326 ARINC429_STD_BNR_MSG 13 0 (F32.dec 15625 6) 0 15 25;
    rx_slot 327 ARINC429_STD_BNR_MSG 13 0 (F32.dec 15625 6) 0 15 25;
    rx_slot 330 ARINC429_STD_BNR_MSG 13 0 (F32.dec 15625 6) 0 15 25;
    rx_slot 331 ARINC429_STD_BNR_MSG 12 0 (F32.dec 976563 9) 0 15 25;
    rx_slot 332 ARINC429_STD_BNR_MSG 12 0 (F32.dec 976563 9) 0 15 25;
    rx_slot 333 ARINC429_STD_BNR_MSG 12 0 (F32.dec 976563 9) 0 15 25;
    rx_slot 323 ARINC429_STD_BNR_MSG 12 0 (F32.dec 1 3) 0 15 25 ].

Definition arincAHR75array : ARINC429_RxMsgArray :=
  mkRxMsgArray 12 arincWordsRxFromAHR75 10 0 false.

(** ** AFC004MessageConfig.c: the words received from the PFD *)

Definition arincWordsRxFromPFD : list ARINC429_RxMsg :=
  [ rx_slot 235 ARINC429_STD_BCD_MSG 19 5 (F32.dec 1 3) 0 40 60;
    rx_slot 124 ARINC429_DISCRETE_MSG 0 0 Fzero 3 180 220;
    rx_slot 270 ARINC429_DISCRETE_MSG 0 0 Fzero 0 45 55;
    rx_slot 271 ARINC429_DISCRETE_MSG 0 0 Fzero 0 45 55 ].

Definition arincPFDarray : ARINC429_RxMsgArray :=
  mkRxMsgArray 4 arincWordsRxFromPFD 25 0 false.

(** ** Runs of the receive pipeline *)

(** The group after a list of received words, each with the time the clock
    shows when it is processed; the statuses are collected in order. *)
Fixpoint receive_all (a : ARINC429_RxMsgArray) (ws : list (Z * Z))
  : option (list Z * ARINC429_RxMsgArray) :=
  match ws with
  | [] => Some ([], a)
  | (w, now) :: ws =>
      do '(st, a) <- ARINC429_ProcessReceivedMessage a w now in
      do '(sts, a) <- receive_all a ws in
      Some (st :: sts, a)
  end.

(** The index of the slot the search loops stop at, if any. *)
Definition first_slot (a : ARINC429_RxMsgArray) (L : Z) : option nat :=
  fst <$>
    list_find (fun m => label (msgConfig m) = L)
      (take (Z.to_nat (Z.min (numMsgs a) maxNumRxMsgsInArray)) (rxMsgs a)).

(** The group of the AHR75 after a magnetic heading word received when the
    clock shows 4294967286, ten milliseconds before it wraps. *)
Definition ahr75_heading_received : ARINC429_RxMsgArray :=
  match ARINC429_ProcessReceivedMessage arincAHR75array 0x6000AA0B 4294967286
  with
  | Some (_, a) => a
  | None => arincAHR75array
  end.

(** The group of the AHR75 after the status word 271 with the MSU-fail bit
    and SDI 1, received when the clock shows 1000. *)
Definition ahr75_status_received : ARINC429_RxMsgArray :=
  match ARINC429_ProcessReceivedMessage arincAHR75array 0x0000059D 1000 with
  | Some (_, a) => a
  | None => arincAHR75array
  end.

(** ** Runs of the software-version generator *)

(** [n] successive calls of SWVer_GetNextVersionARINCMsg, with the words
    they return in the order of the calls. *)
Fixpoint SWVer_calls (n : nat) (st : SWVerState) (sdi : Z)
  : option (SWVerState * list Z) :=
  match n with
  | O => Some (st, [])
  | S n' =>
      do '(st, w) <- SWVer_GetNextVersionARINCMsg st sdi in
      do '(st, ws) <- SWVer_calls n' st sdi in
      Some (st, w :: ws)
  end.

(** The version table has [NUM_AFC004_SCI] rows of
    [NUM_BYTES_PER_SCI_VERSION] bytes. *)
Definition SWVer_table_ok (t : list (list Z)) : Prop :=
  Z.of_nat (length t) = NUM_AFC004_SCI
  /\ Forall (fun row => Z.of_nat (length row) = NUM_BYTES_PER_SCI_VERSION) t.

(** The word that carries byte [data] of row [sys] and column [msg]. *)
Definition SWVer_word (sdi subSys msg data : Z) : Z :=
  Z.lor
    (Z.lor
       (Z.lor
          (Z.lor ARINC429_SWVERSION_LABEL (shl32 sdi ARINC429_SDI_SHIFT_VAL))
          (shl32 subSys ARINC429_SUBSYS_IDX_SHIFT_VAL))
       (shl32 (wrap32 msg) ARINC429_MSGSUB_IDX_SHIFT_VAL))
    (shl32 data ARINC429_SWVER_DATA_SHIFT_VAL).

(** A table whose byte at row [r] and column [c] is [16 * r + c]. *)
Definition SWVer_sample_table : list (list Z) :=
  (fun r : nat => (fun c : nat => Z.of_nat (16 * r + c)) <$> seq 0 16)
    <$> seq 0 3.

(** ** Vocabulary of the BNR codec *)

(** The scaled value [v] fits in a field of [n] significant bits and a
    sign. *)
Definition BNR_fits (n v : Z) : bool := (- 2 ^ n <=? v) && (v <? 2 ^ n).

(** [v] limited to the values of such a field. *)
Definition BNR_clip (n v : Z) : Z := Z.max (- 2 ^ n) (Z.min v (2 ^ n - 1)).

(** The value of the low [n + 1] bits of [field], read as a two's
    complement number. *)
Definition BNR_field_value (n field : Z) : Z :=
  let r := field mod 2 ^ (n + 1) in
  if r <? 2 ^ n then r else r - 2 ^ (n + 1).

(** The discrete bits of a BNR label, if any, end below its data field. *)
Definition BNR_discrete_below_data (cfg : ARINC429_LabelConfig) : Prop :=
  numDiscreteBits cfg <= 0
  \/ numSigBits cfg + numDiscreteBits cfg
     <= ARINC429_BNR_STD_MSG_NUM_SIGBITS_18.

(** A BNR label of 12 significant bits with the resolution 0.1f. *)
Definition bnr_tenth_config : ARINC429_LabelConfig :=
  mkLabelConfig (FormatLabelNumber 250) ARINC429_STD_BNR_MSG 12 0
    (F32.dec 1 1) Fzero Fzero 0 15 25.

(** A BNR label of 18 significant bits, resolution 1, with one discrete bit,
    which then lies on the least significant bit of the data field. *)
Definition bnr_overlap_config : ARINC429_LabelConfig :=
  mkLabelConfig (FormatLabelNumber 250) ARINC429_STD_BNR_MSG 18 0
    (F32.of_Z 1) Fzero Fzero 1 15 25.

(** A BNR label of 3 significant bits whose resolution, about 1.14e38, is
    close to the largest [float]. *)
Definition bnr_large_config : ARINC429_LabelConfig :=
  mkLabelConfig (FormatLabelNumber 250) ARINC429_STD_BNR_MSG 3 0
    (S754_finite false 13421772 103) Fzero Fzero 0 15 25.

(** The largest finite [float], [FLT_MAX]. *)
Definition FLT_MAX : float := S754_finite false 16777215 104.

(** The allowance for the rounding of the [float] division and
    multiplication in a BNR round trip: a relative part of [2^-21] of the
    engineering value and the resolution, and two units of the smallest
    subnormal. *)
Definition BNR_rounding_allowance (resolution eng : float) : Q :=
  (Qpower 2 (-21) * (Qabs (F2Q eng) + F2Q resolution)
   + Qpower 2 (-148))%Q.

(** Assemble a BNR word, then decode it in a slot of the same label: the
    decoded [engDataFloat]. *)
Definition BNR_encode_decode (txMsg : ARINC429_TxMsg) : option float :=
  do '(_, W) <- ARINC429_AssembleStdBNRmessage txMsg 0 in
  do '(_, slot) <-
    ARINC429_ProcessStdBNRmessage
      (mkRxMsg (tx_msgConfig txMsg) RxMsgData_init) W in
  Some (engDataFloat (data slot)).

(** The same for a BCD word. *)
Definition BCD_encode_decode (txMsg : ARINC429_TxMsg) : option float :=
  do '(_, W) <- ARINC429_AssembleStdBCDmessage txMsg 0 in
  do '(_, slot) <-
    ARINC429_ProcessStdBCDmessage
      (mkRxMsg (tx_msgConfig txMsg) RxMsgData_init) W in
  Some (engDataFloat (data slot)).

(** ** Vocabulary of the BCD codec *)

(** The binary-coded decimal pattern of the [digits] low decimal digits of
    [t], least significant digit in the low four bits. *)
Fixpoint BCD_pattern (digits : nat) (t : Z) : Z :=
  match digits with
  | O => 0
  | S digits' => t mod 10 + 16 * BCD_pattern digits' (t / 10)
  end.

(** The scaled value [k] has at most [d] decimal digits and its most
    significant character fits in three bits. *)
Definition BCD_fits (d k : Z) : Prop := 0 <= k /\ k < 8 * 10 ^ (d - 1).

(** ** Runs of the calculators *)

(** The label [octalLabel] of the group passes the test that the calculators
    make on their input: read with success, fresh, not babbling and with
    the SSM [sm]. *)
Definition label_input_valid (a : ARINC429_RxMsgArray) (octalLabel : Z)
    (rxMsgData : ARINC429_RxMsgData) (current_time_ms sm : Z) : bool :=
  match
    ARINC429_GetLatestLabelData a (FormatLabelNumber octalLabel) rxMsgData
      current_time_ms
  with
  | Some (status, d) => label_data_valid status d sm
  | None => false
  end.

(** The groups seen by successive cycles: before each cycle the words of
    its batch are received, at the time the cycle then runs at. *)
Fixpoint cycles_of (a : ARINC429_RxMsgArray) (batches : list (list Z * Z))
  : list (ARINC429_RxMsgArray * Z) :=
  match batches with
  | [] => []
  | (ws, now) :: batches =>
      let a :=
        match receive_all a ((fun w => (w, now)) <$> ws) with
        | Some (_, a) => a
        | None => a
        end in
      (a, now) :: cycles_of a batches
  end.

(** Modelled from the spec: the rate-limited differentiator of
    COMIIRDifferentiator.h, which is outside the repository.  The raw value
    is the difference of the input and the past input times the sample
    rate, clamped to the limits; when the difference lies outside the delta
    window the past output is substituted.  Reset zeroes the past values
    and preload loads the past input. *)
Record IIRDiff_Filter_model : Type := mkIIRDiff {
  IIRDiffSampleRate_Hz : float;
  IIRDiffUpperLimit : float;
  IIRDiffLowerLimit : float;
  IIRDiffUpperDelta : float;
  IIRDiffLowerDelta : float;
  pastInputOfDiff_model : float;
  pastOutputOfDiff_model : float
}.

Definition IIR_Differentiator_Limited_model (x : float)
    (f : IIRDiff_Filter_model) : float * IIRDiff_Filter_model :=
  let delta := F32.sub x (pastInputOfDiff_model f) in
  let raw := F32.mul delta (IIRDiffSampleRate_Hz f) in
  let limited :=
    if Fgt raw (IIRDiffUpperLimit f) then IIRDiffUpperLimit f
    else if Flt raw (IIRDiffLowerLimit f) then IIRDiffLowerLimit f
    else raw in
  let out :=
    if Fgt delta (IIRDiffUpperDelta f) || Flt delta (IIRDiffLowerDelta f)
    then pastOutputOfDiff_model f
    else limited in
  (out,
   mkIIRDiff (IIRDiffSampleRate_Hz f) (IIRDiffUpperLimit f)
     (IIRDiffLowerLimit f) (IIRDiffUpperDelta f) (IIRDiffLowerDelta f)
     x out).

Definition IIRDifferentiatorReset_model (f : IIRDiff_Filter_model)
  : IIRDiff_Filter_model :=
  mkIIRDiff (IIRDiffSampleRate_Hz f) (IIRDiffUpperLimit f)
    (IIRDiffLowerLimit f) (IIRDiffUpperDelta f) (IIRDiffLowerDelta f)
    Fzero Fzero.

Definition IIRDifferentiatorPreload_model (x : float)
    (f : IIRDiff_Filter_model) : IIRDiff_Filter_model :=
  mkIIRDiff (IIRDiffSampleRate_Hz f) (IIRDiffUpperLimit f)
    (IIRDiffLowerLimit f) (IIRDiffUpperDelta f) (IIRDiffLowerDelta f)
    x (pastOutputOfDiff_model f).

(** Modelled from the spec: the low-pass filter of COMIIRFilter.h, which is
    outside the repository: y[n] = k1 y[n-1] + k2 x[n]; reset zeroes the
    past output and preload sets it. *)
Record sIIR_struct_model : Type := mkIIR {
  IIRFilterK1 : float;
  IIRFilterK2 : float;
  pastOutput_model : float
}.

Definition f32_IIRFilter_model (x : float) (f : sIIR_struct_model)
  : float * sIIR_struct_model :=
  let y :=
    F32.add (F32.mul (IIRFilterK1 f) (pastOutput_model f))
            (F32.mul (IIRFilterK2 f) x) in
  (y, mkIIR (IIRFilterK1 f) (IIRFilterK2 f) y).

Definition v_IIRReset_model (f : sIIR_struct_model) : sIIR_struct_model :=
  mkIIR (IIRFilterK1 f) (IIRFilterK2 f) Fzero.

Definition v_IIRPreload_model (x : float) (f : sIIR_struct_model)
  : sIIR_struct_model :=
  mkIIR (IIRFilterK1 f) (IIRFilterK2 f) x.

(** A stand-in for f32_ArcTan2 of COMTrigModule.h, which is outside the
    repository and which the specification does not describe: the
    constant zero, the arc tangent where the lateral acceleration is zero,
    as it is in the sample run below. *)
Definition f32_ArcTan2_level (y x : float) : float := Fzero.

(** The filters as the configuration block sets them up: the differentiator
    at 50 Hz with the limits of 180 and the delta window of 360 degrees,
    the low-pass filter with k1 = 0.7777678 and k2 = 0.2222322. *)
Definition magHeadingIIRDiff_sample : IIRDiff_Filter_model :=
  mkIIRDiff (F32.of_Z 50) (F32.of_Z 180) (F32.of_Z (-180))
    (F32.of_Z 360) (F32.of_Z (-360)) Fzero Fzero.

Definition accelerationZFilter_sample : sIIR_struct_model :=
  mkIIR (F32.dec 7777678 7) (F32.dec 2222322 7) Fzero.

(** A magnetic heading word of the AHR75 with SSM normal operation and the
    data field [k], in units of 0.0055 degrees. *)
Definition heading_word (k : Z) : Z :=
  Z.lor 0x60000000 (Z.lor (Z.shiftl k 13) (FormatLabelNumber 320)).

(** [n] cycles 20 ms apart, each after a new heading word; the heading
    grows by 18 units, about 0.1 degrees, from word to word. *)
Definition heading_cycles (n : nat) : list (ARINC429_RxMsgArray * Z) :=
  cycles_of arincAHR75array
    ((fun i : nat =>
        ([heading_word (1000 + 18 * Z.of_nat i)], 100 + 20 * Z.of_nat i))
     <$> seq 0 n).

(** [n] cycles 20 ms apart, each after new words of the lateral and the
    normal acceleration, both zero with SSM normal operation; the clock
    advances by a millisecond between the two look-ups of a cycle. *)
Definition accel_cycles (n : nat) : list (ARINC429_RxMsgArray * Z * Z) :=
  (fun c : ARINC429_RxMsgArray * Z => (c.1, c.2, c.2 + 1))
  <$> cycles_of arincAHR75array
        ((fun i : nat =>
            ([Z.lor 0x60000000 (FormatLabelNumber 332);
              Z.lor 0x60000000 (FormatLabelNumber 333)],
             100 + 20 * Z.of_nat i))
         <$> seq 0 n).

(** The calculators on the sample filters, from the state at start-up. *)
Abbreviation CalculateTurnRate_sample cycles :=
  (CalculateTurnRate_cycles IIRDiff_Filter_model
     IIR_Differentiator_Limited_model IIRDifferentiatorReset_model
     IIRDifferentiatorPreload_model pastOutputOfDiff_model
     (mkTurnState IIRDiff_Filter_model false 0 magHeadingIIRDiff_sample)
     cycles RxMsgData_init).

Abbreviation CalculateSlipAngle_sample cycles :=
  (CalculateSlipAngle_cycles sIIR_struct_model f32_IIRFilter_model
     v_IIRReset_model v_IIRPreload_model f32_ArcTan2_level
     (mkSlipState sIIR_struct_model false 0 accelerationZFilter_sample)
     cycles RxMsgData_init RxMsgData_init).

(** * The rest of the message processing *)

(** ** ARINC.c: discrete words and the latest word of a label *)

Definition ARINC429_DISCRETE_MSG_MAX_DATA_FIELD_SHIFT : Z := 28.
Definition MAX_OCTAL_LABEL_VALUE : Z := 377.

(** [arincMsg] is the value the output parameter holds on entry.  The
    discrete bits are shifted fully left in the data field; with 1 to 19
    discrete bits both shift counts lie between 10 and 31. *)
Definition ARINC429_AssembleDiscreteMessage
    (txMsg : ARINC429_TxMsg) (arincMsg : Z) : Z * Z :=
  let cfg := tx_msgConfig txMsg in
  if (numDiscreteBits cfg <? 1)
     || (ARINC429_DISCRETE_MSG_MAX_NUM_BITS <? numDiscreteBits cfg)
  then (ARINC429_WRITE_MSG_ERROR_INVALID_MSG_CONFIG, arincMsg)
  else
    let discreteData :=
      Z.land (tx_discreteBits txMsg)
        (shr32 UINT32_MAX (NUM_BITS_IN_UINT32 - numDiscreteBits cfg)) in
    let discreteData_shifted :=
      shl32 discreteData
        (ARINC429_DISCRETE_MSG_MAX_DATA_FIELD_SHIFT
         - numDiscreteBits cfg + 1) in
    let arincMsgTemp := label cfg in
    let arincMsgTemp := Z.lor arincMsgTemp discreteData_shifted in
    let arincMsgTemp :=
      Z.lor arincMsgTemp
        (Z.shiftl (Z.land (tx_SDI txMsg) ARINC429_SDI_FIELD_LIMIT_MASK)
                  ARINC429_SDI_FIELD_SHIFT_VAL) in
    let arincMsgTemp :=
      Z.lor arincMsgTemp
        (shl32 (Z.land (tx_SM txMsg) ARINC429_SSM_FIELD_LIMIT_MASK)
               ARINC429_SSM_FIELD_SHIFT_VAL) in
    (ARINC429_WRITE_MSG_SUCCESS, arincMsgTemp).

(** [arincWord] is the value the output parameter holds on entry and [data]
    the content of the local of that name; the result is the returned flag
    and the value of the output parameter on return. *)
Definition ARINC429_GetLatestARINC429Word
    (rxMsgArray : ARINC429_RxMsgArray) (octalStdLabel : Z) (arincWord : Z)
    (data : ARINC429_RxMsgData) (current_time_ms : Z) : option (bool * Z) :=
  if (0 =? octalStdLabel) || (MAX_OCTAL_LABEL_VALUE <? octalStdLabel)
  then Some (false, arincWord)
  else
    do '(status, data) <-
      ARINC429_GetLatestLabelData rxMsgArray
        (FormatLabelNumber octalStdLabel) data current_time_ms in
    if (ARINC429_GET_LABEL_DATA_MSG_SUCCESS =? status)
       && isDataFresh data && isNotBabbling data
    then Some (true, rawARINCword data)
    else Some (false, arincWord).

(** ** ArincDownload.c *)

Definition MAX_NUM_RX_MSGS : Z := 32.

Inductive ARINC429_TX_CHANNEL : Type :=
  | A429_CHANNEL_A
  | A429_CHANNEL_B.

(** The result is the word handed to the transmitter of the channel, if
    any.  [data] is the content of the local of that name on entry: its
    flags are read before the status of the lookup. *)
Definition TransmitLatestARINCMsgIfValid
    (rxMsgArray : ARINC429_RxMsgArray) (octalStdLabel : Z)
    (channel : ARINC429_TX_CHANNEL) (data : ARINC429_RxMsgData)
    (current_time_ms : Z) : option (option (ARINC429_TX_CHANNEL * Z)) :=
  if MAX_OCTAL_LABEL_VALUE <? octalStdLabel then Some None
  else
    let hexFlippedLabel := FormatLabelNumber octalStdLabel in
    do '(readStatus, data) <-
      ARINC429_GetLatestLabelData rxMsgArray hexFlippedLabel data
        current_time_ms in
    if isDataFresh data && isNotBabbling data
       && (ARINC429_GET_LABEL_DATA_MSG_SUCCESS =? readStatus)
    then Some (Some (channel, rawARINCword data))
    else Some None.

(** The counter is a [uint32_t]; the result is the returned flag and the
    group with the counter advanced. *)
Definition ProcessARINCBusFailure (ARINCMsgArray : ARINC429_RxMsgArray)
  : bool * ARINC429_RxMsgArray :=
  let counts := wrap32 (currentCounts ARINCMsgArray + 1) in
  (maxBusFailureCounts ARINCMsgArray <=? counts,
   mkRxMsgArray (numMsgs ARINCMsgArray) (rxMsgs ARINCMsgArray)
     (maxBusFailureCounts ARINCMsgArray) counts
     (hasBusFailed ARINCMsgArray)).

(** The loop of DownloadMessagesFromARINCtxvrArx2 and of
    DownloadMessagesFromARINCtxvrBrx2.  The receiver of the transceiver is
    the list of the words it still holds, each with the time the clock
    shows while it is processed; its data-ready pin is low as long as the
    list is not empty.  [fuel] is [MAX_NUM_RX_MSGS - numWordsProcessed].
    The result is the group and the words left in the receiver. *)
Fixpoint DownloadMessages_loop (fuel : nat)
    (ARINCMsgArray : ARINC429_RxMsgArray) (rx2 : list (Z * Z))
  : option (ARINC429_RxMsgArray * list (Z * Z)) :=
  match fuel, rx2 with
  | S fuel', (thisARINCRxMsg, timestamp_now_ms) :: rx2 =>
      if negb (Z.land thisARINCRxMsg 0x80000000 =? 0)
      then DownloadMessages_loop fuel' ARINCMsgArray rx2
      else
        do '(status, ARINCMsgArray) <-
          ARINC429_ProcessReceivedMessage ARINCMsgArray thisARINCRxMsg
            timestamp_now_ms in
        let ARINCMsgArray :=
          if ARINC429_READ_MSG_SUCCESS =? status
          then mkRxMsgArray (numMsgs ARINCMsgArray) (rxMsgs ARINCMsgArray)
                 (maxBusFailureCounts ARINCMsgArray) 0
                 (hasBusFailed ARINCMsgArray)
          else ARINCMsgArray in
        DownloadMessages_loop fuel' ARINCMsgArray rx2
  | _, _ => Some (ARINCMsgArray, rx2)
  end.

Definition DownloadMessagesFromARINCtxvrArx2
    (ARINCMsgArray : ARINC429_RxMsgArray) (txvrA_rx2 : list (Z * Z))
  : option (ARINC429_RxMsgArray * list (Z * Z)) :=
  DownloadMessages_loop (Z.to_nat MAX_NUM_RX_MSGS) ARINCMsgArray txvrA_rx2.

Definition DownloadMessagesFromARINCtxvrBrx2
    (ARINCMsgArray : ARINC429_RxMsgArray) (txvrB_rx2 : list (Z * Z))
  : option (ARINC429_RxMsgArray * list (Z * Z)) :=
  DownloadMessages_loop (Z.to_nat MAX_NUM_RX_MSGS) ARINCMsgArray txvrB_rx2.

(** ** calculateNewARINCLabels.c: the words derived from one label *)

(** The binary32 value of the decimal literal [m]e-[k], rounded once
    whatever the size of [m]. *)
Definition F32_decimal (m : positive) (k : Z) : float :=
  SFdiv F32.prec F32.emax
    (S754_finite false m 0) (S754_finite false (Z.to_pos (10 ^ k)) 0).

Definition AHRS_LABEL_270_CAL_MASK : Z := 0x400.

Definition arincLabel332Config : ARINC429_LabelConfig :=
  mkLabelConfig (FormatLabelNumber 332) ARINC429_STD_BNR_MSG 12 0
    (F32_decimal 976563 9) Fzero Fzero 0 15 25.

Definition Eclipse_ARINCLabel320Config : ARINC429_LabelConfig :=
  mkLabelConfig (FormatLabelNumber 320) ARINC429_STD_BNR_MSG 12 0
    (F32_decimal 43945 6) (F32.of_Z 180) (F32.of_Z (-180)) 0 0 0.

Definition Eclipse_ARINCLabel324Config : ARINC429_LabelConfig :=
  mkLabelConfig (FormatLabelNumber 324) ARINC429_STD_BNR_MSG 13 0
    (F32_decimal 10986328 9) (F32.of_Z 90) (F32.of_Z (-90)) 0 0 0.

Definition Eclipse_ARINClabel325Config : ARINC429_LabelConfig :=
  mkLabelConfig (FormatLabelNumber 325) ARINC429_STD_BNR_MSG 12 0
    (F32_decimal 43945313 9) (F32.of_Z 180) (F32.of_Z (-180)) 0 0 0.

Definition Eclipse_ARINClabel333Config : ARINC429_LabelConfig :=
  mkLabelConfig (FormatLabelNumber 333) ARINC429_STD_BNR_MSG 12 0
    (F32_decimal 976563 9) (F32.of_Z 5) (F32.of_Z (-3)) 0 0 0.

(** The test the calculators of this section make on their input: read
    with success, fresh and not babbling, whatever its SSM. *)
Definition label_data_received (status : Z) (d : ARINC429_RxMsgData) : bool :=
  (ARINC429_GET_LABEL_DATA_MSG_SUCCESS =? status)
  && isDataFresh d && isNotBabbling d.

(** In the calculators below the data parameters are the contents of the
    locals of the same names on entry, and the word local is not
    initialised: the labels are valid BNR labels, so the assembly always
    writes it.  The discrete bits of the message are not assigned; the
    labels have none.  Each lookup reads the clock for itself: a function
    that looks two labels up takes the two times. *)
Definition CalculateNewMagneticHeadingARINCWord
    (rxMsgArray : ARINC429_RxMsgArray)
    (magHeadingData lbl271Data : ARINC429_RxMsgData)
    (time_320_ms time_271_ms : Z) : option Z :=
  do '(magHeadReadStatus, magHeadingData) <-
    ARINC429_GetLatestLabelData rxMsgArray (FormatLabelNumber 320)
      magHeadingData time_320_ms in
  do '(lbl271ReadStatus, lbl271Data) <-
    ARINC429_GetLatestLabelData rxMsgArray (FormatLabelNumber 271)
      lbl271Data time_271_ms in
  let sm :=
    if label_data_received magHeadReadStatus magHeadingData
       && label_data_valid lbl271ReadStatus lbl271Data
            ARINC429_SSM_DIS_NORMAL_OPERATION
    then
      if negb (Z.land (rawARINCword lbl271Data) AHRS_LABEL_271_MSU_FAIL_MASK
               =? 0)
      then ARINC429_SSM_BNR_FAILURE_WARNING
      else SM magHeadingData
    else ARINC429_SSM_BNR_FAILURE_WARNING in
  let txMsgMagHeading :=
    mkTxMsg Eclipse_ARINCLabel320Config sm (SDI magHeadingData)
      (engDataFloat magHeadingData) 0 in
  do '(_, magHeadingWord) <-
    ARINC429_AssembleStdBNRmessage txMsgMagHeading 0 in
  Some magHeadingWord.

Definition CalculateNewPitchAngleARINCWord
    (rxMsgArray : ARINC429_RxMsgArray) (pitchData : ARINC429_RxMsgData)
    (current_time_ms : Z) : option Z :=
  do '(status, pitchData) <-
    ARINC429_GetLatestLabelData rxMsgArray (FormatLabelNumber 324)
      pitchData current_time_ms in
  let sm :=
    if label_data_received status pitchData then SM pitchData
    else ARINC429_SSM_BNR_FAILURE_WARNING in
  let txMsgPitchAngle :=
    mkTxMsg Eclipse_ARINCLabel324Config sm (SDI pitchData)
      (engDataFloat pitchData) 0 in
  do '(_, pitchAngleARINCWord) <-
    ARINC429_AssembleStdBNRmessage txMsgPitchAngle 0 in
  Some pitchAngleARINCWord.

Definition CalculateNewRollAngleARINCWord
    (rxMsgArray : ARINC429_RxMsgArray) (rollData : ARINC429_RxMsgData)
    (current_time_ms : Z) : option Z :=
  do '(status, rollData) <-
    ARINC429_GetLatestLabelData rxMsgArray (FormatLabelNumber 325)
      rollData current_time_ms in
  let sm :=
    if label_data_received status rollData then SM rollData
    else ARINC429_SSM_BNR_FAILURE_WARNING in
  let txMsgRollAngle :=
    mkTxMsg Eclipse_ARINClabel325Config sm (SDI rollData)
      (engDataFloat rollData) 0 in
  do '(_, rollAngleARINCWord) <-
    ARINC429_AssembleStdBNRmessage txMsgRollAngle 0 in
  Some rollAngleARINCWord.

Definition CalculateNewBodyLateralAccelARINCWord
    (rxMsgArray : ARINC429_RxMsgArray) (bodyLatAccelData : ARINC429_RxMsgData)
    (current_time_ms : Z) : option Z :=
  do '(status, bodyLatAccelData) <-
    ARINC429_GetLatestLabelData rxMsgArray (FormatLabelNumber 332)
      bodyLatAccelData current_time_ms in
  let sm :=
    if label_data_received status bodyLatAccelData then SM bodyLatAccelData
    else ARINC429_SSM_BNR_FAILURE_WARNING in
  let txMsgbodyLatAcc :=
    mkTxMsg arincLabel332Config sm (SDI bodyLatAccelData)
      (SFopp (engDataFloat bodyLatAccelData)) 0 in
  do '(_, bodyLatAccARINCWord) <-
    ARINC429_AssembleStdBNRmessage txMsgbodyLatAcc 0 in
  Some bodyLatAccARINCWord.

Definition CalculateNewNormalAccelerationARINCWord
    (rxMsgArray : ARINC429_RxMsgArray)
    (bodyNormAccelData : ARINC429_RxMsgData) (current_time_ms : Z)
  : option Z :=
  do '(status, bodyNormAccelData) <-
    ARINC429_GetLatestLabelData rxMsgArray (FormatLabelNumber 333)
      bodyNormAccelData current_time_ms in
  let azOffset := F32.add (engDataFloat bodyNormAccelData) (F32.of_Z 1) in
  let sm :=
    if label_data_received status bodyNormAccelData then
      if ARINC429_SSM_BNR_NORMAL_OPERATION =? SM bodyNormAccelData
      then ARINC429_CheckValidityOfARINC_BNR_Data azOffset
             Eclipse_ARINClabel333Config
      else SM bodyNormAccelData
    else ARINC429_SSM_BNR_FAILURE_WARNING in
  let txMsgNormAcc :=
    mkTxMsg Eclipse_ARINClabel333Config sm (SDI bodyNormAccelData)
      azOffset 0 in
  do '(_, az) <- ARINC429_AssembleStdBNRmessage txMsgNormAcc 0 in
  Some az.

(** ** calculateNewARINCLabels.c: the status words and the baro correction *)

Definition CalculateARINCLabel274
    (rxMsgArray : ARINC429_RxMsgArray) (hasADCTimedOut : bool)
    (lbl271Data lbl270Data : ARINC429_RxMsgData)
    (time_271_ms time_270_ms : Z) : option Z :=
  let label274ARINCWord := 0x0000003D in
  do '(status271, lbl271Data) <-
    ARINC429_GetLatestLabelData rxMsgArray (FormatLabelNumber 271)
      lbl271Data time_271_ms in
  do '(status270, lbl270Data) <-
    ARINC429_GetLatestLabelData rxMsgArray (FormatLabelNumber 270)
      lbl270Data time_270_ms in
  if isDataFresh lbl271Data && isNotBabbling lbl271Data
     && (ARINC429_SSM_DIS_NORMAL_OPERATION =? SM lbl271Data)
     && (ARINC429_GET_LABEL_DATA_MSG_SUCCESS =? status271)
     && isDataFresh lbl270Data && isNotBabbling lbl270Data
     && (ARINC429_SSM_DIS_NORMAL_OPERATION =? SM lbl270Data)
     && (ARINC429_GET_LABEL_DATA_MSG_SUCCESS =? status270)
  then
    let label274ARINCWord :=
      Z.lor label274ARINCWord
        (Z.land (rawARINCword lbl271Data) AHRS_STATUS_SDI_SSM_MASK) in
    let label274ARINCWord :=
      if negb (Z.land (rawARINCword lbl271Data) AHRS_LABEL_271_MSU_FAIL_MASK
               =? 0)
      then Z.lor label274ARINCWord 0x10000000
      else label274ARINCWord in
    let label274ARINCWord :=
      if negb (Z.land (rawARINCword lbl270Data) AHRS_LABEL_270_CAL_MASK =? 0)
      then Z.lor label274ARINCWord 0x800
      else label274ARINCWord in
    let label274ARINCWord :=
      if hasADCTimedOut then Z.lor label274ARINCWord 0x1000
      else label274ARINCWord in
    Some label274ARINCWord
  else Some (Z.lor label274ARINCWord A429_DISC_SSM_FAIL_MASK).

Definition CalculateARINCLabel275
    (rxMsgArray : ARINC429_RxMsgArray)
    (lbl271Data flightPathAccelData : ARINC429_RxMsgData)
    (time_271_ms time_323_ms : Z) : option Z :=
  do '(status, lbl271Data) <-
    ARINC429_GetLatestLabelData rxMsgArray (FormatLabelNumber 271)
      lbl271Data time_271_ms in
  do '(fpaStatus, flightPathAccelData) <-
    ARINC429_GetLatestLabelData rxMsgArray (FormatLabelNumber 323)
      flightPathAccelData time_323_ms in
  let label275ARINCWord := 0x000040BD in
  if (ARINC429_GET_LABEL_DATA_MSG_SUCCESS =? status)
     && isNotBabbling lbl271Data && isDataFresh lbl271Data
     && (ARINC429_SSM_DIS_NORMAL_OPERATION =? SM lbl271Data)
     && (ARINC429_GET_LABEL_DATA_MSG_SUCCESS =? fpaStatus)
     && isDataFresh flightPathAccelData && isNotBabbling flightPathAccelData
  then
    let label275ARINCWord :=
      Z.lor label275ARINCWord
        (Z.land (rawARINCword lbl271Data) AHRS_STATUS_SDI_SSM_MASK) in
    let label275ARINCWord :=
      if negb (Z.land (rawARINCword lbl271Data) AHRS_LABEL_271_MSU_FAIL_MASK
               =? 0)
      then Z.lor label275ARINCWord 0x400000
      else label275ARINCWord in
    Some (Z.lor label275ARINCWord
            (if negb (ARINC429_SSM_BNR_NORMAL_OPERATION
                      =? SM flightPathAccelData)
             then 0x3000000 else 0x2000000))
  else Some (Z.lor label275ARINCWord A429_DISC_SSM_FAIL_MASK).

(** [baroData] and [baroARINCWord] are the contents of the locals of the
    same names on entry; the word stays as it is when the assembly
    refuses the message.  The discrete bits of the message are not
    assigned; label 235 has none. *)
Definition CalculateBaroCorrection
    (rxMsgArray : ARINC429_RxMsgArray) (baroData : ARINC429_RxMsgData)
    (baroARINCWord : Z) (current_time_ms : Z) : option Z :=
  do '(status, baroData) <-
    ARINC429_GetLatestLabelData rxMsgArray (FormatLabelNumber 235)
      baroData current_time_ms in
  let baroMsg :=
    if label_data_valid status baroData ARNIC429_SSM_BCD_PLUS
    then mkTxMsg arincLabel235Config ARNIC429_SSM_BCD_PLUS (SDI baroData)
           (engDataFloat baroData) 0
    else mkTxMsg arincLabel235Config ARNIC429_SSM_BCD_NO_COMPUTED_DATA 0
           Fzero 0 in
  do '(_, baroARINCWord) <-
    ARINC429_AssembleStdBCDmessage baroMsg baroARINCWord in
  Some baroARINCWord.

(** ** SoftwareVersion.c *)

Definition asciiConverter (val : Z) : Z :=
  if val <? 0xA then (val + 0x30) mod 256 else (val + 0x37) mod 256.

Definition NUM_CHARS_IN_32BIT_CRC : Z := 8.
Definition NUM_BYTES_IN_32BIT_CRC : Z := 4.
Definition ECLIPSE_RS422_SWVERSION_CRC_POS_OFFSET : Z := 8.
Definition afcSCIidx : Z := 0.

(** The first of the two loops that end SWVer_GatherSWVersions, on the row
    [afcSCIidx] of the table: the eight characters of the CRC of the
    program memory.  [fuel] is [NUM_CHARS_IN_32BIT_CRC - crcCounter]. *)
Fixpoint SWVer_CRC_chars_loop (fuel : nat) (crcCounter u32PM_CRC : Z)
    (row : list Z) : list Z :=
  match fuel with
  | O => row
  | S fuel' =>
      let msgNibble :=
        shr32 (Z.land (shl32 u32PM_CRC (4 * crcCounter)) 0xF0000000) 28
        mod 2 ^ 8 in
      SWVer_CRC_chars_loop fuel' (crcCounter + 1) u32PM_CRC
        (<[Z.to_nat crcCounter := asciiConverter msgNibble]> row)
  end.

(** The second loop: the four bytes of the CRC.  [fuel] is
    [NUM_BYTES_IN_32BIT_CRC - crcCounter]. *)
Fixpoint SWVer_CRC_bytes_loop (fuel : nat) (crcCounter u32PM_CRC : Z)
    (row : list Z) : list Z :=
  match fuel with
  | O => row
  | S fuel' =>
      SWVer_CRC_bytes_loop fuel' (crcCounter + 1) u32PM_CRC
        (<[Z.to_nat (crcCounter + ECLIPSE_RS422_SWVERSION_CRC_POS_OFFSET)
           := Z.land (shr32 u32PM_CRC (8 * crcCounter)) 0xFF mod 2 ^ 8]> row)
  end.

(** The end of SWVer_GatherSWVersions, after the requests to the ADC: the
    version of the AFC004 itself, made from the CRC of the program
    memory, goes into the row [afcSCIidx] of the table. *)
Definition SWVer_GatherSWVersions_CRC
    (u32PM_CRC : Z) (swVersions : list (list Z)) : list (list Z) :=
  match swVersions !! Z.to_nat afcSCIidx with
  | Some row =>
      let row :=
        SWVer_CRC_chars_loop (Z.to_nat NUM_CHARS_IN_32BIT_CRC) 0 u32PM_CRC
          row in
      let row :=
        SWVer_CRC_bytes_loop (Z.to_nat NUM_BYTES_IN_32BIT_CRC) 0 u32PM_CRC
          row in
      <[Z.to_nat afcSCIidx := row]> swVersions
  | None => swVersions
  end.

(** ** Vocabulary of the further properties *)

(** The decimal digits of [L] are those of an octal label: 0 to 377 with no
    digit 8 or 9. *)
Definition octal_label (L : Z) : Prop :=
  0 <= L <= 377 /\ L / 10 mod 10 <= 7 /\ L mod 10 <= 7.

(** The value of the octal label whose digits are the decimal digits of
    [L]. *)
Definition octal_value (L : Z) : Z := 64 * (L / 100) + 8 * (L / 10 mod 10) + L mod 10.

(** The scaled value [k] of a BCD label of [d] digits, limited to the
    largest value whose most significant character fits in three bits. *)
Definition BCD_clip (d k : Z) : Z := Z.min k (8 * 10 ^ (d - 1) - 1).

(** [n] successive calls of ProcessARINCBusFailure, with the flags they
    return in the order of the calls. *)
Fixpoint ProcessARINCBusFailure_calls (n : nat) (a : ARINC429_RxMsgArray)
  : list bool * ARINC429_RxMsgArray :=
  match n with
  | O => ([], a)
  | S n =>
      let '(failed, a) := ProcessARINCBusFailure a in
      let '(flags, a) := ProcessARINCBusFailure_calls n a in
      (failed :: flags, a)
  end.

(** The group with its bus-failure counter set to [c]. *)
Definition set_currentCounts (c : Z) (a : ARINC429_RxMsgArray)
  : ARINC429_RxMsgArray :=
  mkRxMsgArray (numMsgs a) (rxMsgs a) (maxBusFailureCounts a) c
    (hasBusFailed a).

(** Bit 31 of a word read from the transceiver is clear: the transceiver
    has found its parity right. *)
Definition parity_ok (p : Z * Z) : bool := Z.land p.1 0x80000000 =? 0.

(** The group of the AHR75 after the status word 271 with the MSU-fail bit
    (clock 1000), the status word 270 with the calibration bit (clock
    1010) and a flight path acceleration word 323 with the status matrix of
    normal operation (clock 1020), all with SDI 1. *)
Definition ahr75_status_words_received : ARINC429_RxMsgArray :=
  match
    receive_all arincAHR75array
      [(0x0000059D, 1000); (0x0000051D, 1010); (0x600101CB, 1020)]
  with
  | Some (_, a) => a
  | None => arincAHR75array
  end.

(** [W] is the BNR word of the label [cfg] with the status matrix [sm],
    the SDI [sdi] and the scaled value [v]: the label in bits 0 to 7, the
    two low bits of [sdi] in bits 8 and 9, the two low bits of [sm] in
    bits 29 and 30, bit 31 clear, and a data field that reads, as a two's
    complement number, as [v] limited to the field. *)
Definition BNR_word_of (cfg : ARINC429_LabelConfig) (sm sdi v W : Z)
  : Prop :=
  Z.land W ARINC429_LBL_MASK = label cfg
  /\ ARINC429_ExtractSDIbits W = Z.land sdi ARINC429_SDI_FIELD_LIMIT_MASK
  /\ ARINC429_ExtractSSMbits W = Z.land sm ARINC429_SSM_FIELD_LIMIT_MASK
  /\ Z.land W 0x80000000 = 0
  /\ BNR_field_value (numSigBits cfg)
       (shr32 W (ARINC429_BNR_MAX_DATA_FIELD_SHIFT - numSigBits cfg))
     = BNR_clip (numSigBits cfg) v.

(** The group of the AHR75 after the status word 271 with the MSU-fail bit
    (clock 1000) and a magnetic heading word 320 with the status matrix of
    normal operation (clock 1010). *)
Definition ahr75_heading_msu_fail_received : ARINC429_RxMsgArray :=
  match
    receive_all arincAHR75array [(0x0000059D, 1000); (0x67FD810B, 1010)]
  with
  | Some (_, a) => a
  | None => arincAHR75array
  end.

(** The group of the AHR75 after a pitch angle of 10 degrees (label 324,
    clock 1000), a roll angle of -20 degrees (label 325, clock 1001), a
    lateral acceleration of 0.25 g (label 332, clock 1002) and a normal
    acceleration of -1 g (label 333, clock 1003), all with the status
    matrix of normal operation and SDI 1. *)
Definition ahr75_attitude_received : ARINC429_RxMsgArray :=
  match
    receive_all arincAHR75array
      [(0x60E3812B, 1000); (0x7E3901AB, 1001); (0x6100015B, 1002);
       (0x7C0001DB, 1003)]
  with
  | Some (_, a) => a
  | None => arincAHR75array
  end.

(** The group of the PFD after a baro correction word 235 of 29.920 with
    the status matrix "plus" and SDI 1, received when the clock shows
    1000. *)
Definition pfd_baro_received : ARINC429_RxMsgArray :=
  match ARINC429_ProcessReceivedMessage arincPFDarray 0x0A6481B9 1000 with
  | Some (_, a) => a
  | None => arincPFDarray
  end.

(** ** Timer23.c *)

Definition MS_WORD_MASK : Z := 0xFFFF0000.
Definition LS_WORD_MASK : Z := 0x0000FFFF.
Definition MAX_DELAY_MS : Z := 1000.

(** The statics of the module and the registers it writes: the
    configuration register of timer 2, the two period registers and the
    interrupt enable bits of timers 3 and 2. *)
Record Timer23_state : Type := mkTimer23 {
  scaleFactor : Z;
  isTimer23Initialized : bool;
  T2CON : Z;
  PR3 : Z;
  PR2 : Z;
  T3IE : Z;
  T2IE : Z
}.

Definition Timer23_Initialize
    (t2config timerPeriod configScaleFactor : Z) (st : Timer23_state)
  : Timer23_state :=
  if 0 =? configScaleFactor then st
  else
    mkTimer23 configScaleFactor true t2config
      (shr32 (Z.land timerPeriod MS_WORD_MASK) 16 mod 2 ^ 16)
      (Z.land timerPeriod LS_WORD_MASK mod 2 ^ 16)
      0 0.

(** [TMR2] and [TMR3HLD] are the contents of the two 16-bit counter
    registers when the function reads them. *)
Definition Timer23_GetTimestamp_ms
    (st : Timer23_state) (TMR2 TMR3HLD : Z) : Z :=
  if isTimer23Initialized st && negb (scaleFactor st =? 0) then
    let lsWord := TMR2 in
    let msWord := TMR3HLD in
    Z.lor (shl32 msWord 16) lsWord / scaleFactor st
  else 0.

(** The loop of Timer23_Delay_ms.  [counts] holds the contents of the
    counter registers at the successive readings of the timestamp; the
    result is [None] when they run out while the loop still waits, else
    the readings that are left when it breaks. *)
Fixpoint Timer23_Delay_loop
    (st : Timer23_state) (startTimestamp delayInMilliseconds : Z)
    (counts : list (Z * Z)) : option (list (Z * Z)) :=
  match counts with
  | [] => None
  | (TMR2, TMR3HLD) :: counts =>
      let currentTimestamp := Timer23_GetTimestamp_ms st TMR2 TMR3HLD in
      if delayInMilliseconds <? wrap32 (currentTimestamp - startTimestamp)
      then Some counts
      else Timer23_Delay_loop st startTimestamp delayInMilliseconds counts
  end.

Definition Timer23_Delay_ms
    (st : Timer23_state) (delayInMilliseconds : Z) (counts : list (Z * Z))
  : option (list (Z * Z)) :=
  if negb (isTimer23Initialized st) then Some counts
  else
    let delayInMilliseconds :=
      if MAX_DELAY_MS <? delayInMilliseconds then MAX_DELAY_MS
      else delayInMilliseconds in
    match counts with
    | [] => None
    | (TMR2, TMR3HLD) :: counts =>
        let startTimestamp := Timer23_GetTimestamp_ms st TMR2 TMR3HLD in
        Timer23_Delay_loop st startTimestamp delayInMilliseconds counts
    end.

(** ** main.c *)

(** The four rate groups of the main loop. *)
Inductive RateGroup : Type :=
  | RATE_50_HZ
  | RATE_20_HZ
  | RATE_16_HZ
  | RATE_10_HZ.

(** The rate groups that one 100 Hz pass of the main loop runs, in their
    order: [rateCounter] is the counter on entry, a [uint32_t], and the
    result holds the counter after its increment. *)
Definition main_100Hz_pass (rateCounter : Z) : Z * list RateGroup :=
  let rateCounter := wrap32 (rateCounter + 1) in
  (rateCounter,
   (if 0 =? rateCounter mod 4 then [RATE_50_HZ] else [])
   ++ (if 7 =? rateCounter mod 10 then [RATE_20_HZ] else [])
   ++ (if 2 =? rateCounter mod 12 then [RATE_16_HZ] else [])
   ++ (if 3 =? rateCounter mod 20 then [RATE_10_HZ] else [])).

(** A run of calls of TransmitLatestARINCMsgIfValid on one group and one
    channel, for the labels [labels] in their order.  Call number [k] of
    the enclosing function finds [data k] in its local and reads the
    clock as [clock k]; the result holds the words handed to the
    transmitter. *)
Fixpoint TransmitLatestARINCMsgIfValid_calls
    (rxMsgArray : ARINC429_RxMsgArray) (channel : ARINC429_TX_CHANNEL)
    (labels : list Z) (data : nat -> ARINC429_RxMsgData) (clock : nat -> Z)
    (k : nat) : option (list (ARINC429_TX_CHANNEL * Z)) :=
  match labels with
  | [] => Some []
  | octalStdLabel :: labels =>
      do sent <-
        TransmitLatestARINCMsgIfValid rxMsgArray octalStdLabel channel
          (data k) (clock k) in
      do rest <-
        TransmitLatestARINCMsgIfValid_calls rxMsgArray channel labels data
          clock (S k) in
      Some (match sent with Some w => w :: rest | None => rest end)
  end.

(** [baroWord] is the content of the local of that name on entry; the
    lookup of the baro correction is call number 0 for [data] and
    [clock], the twenty relays are the calls 1 to 20.  The result holds
    the words handed to the transmitters, the group of the AHR75 and the
    receiver of transceiver A after the download in the middle. *)
Definition TransmitA429ADCWords
    (arincPFDarray arincADCarray arincAHR75array : ARINC429_RxMsgArray)
    (txvrA_rx2 : list (Z * Z)) (baroWord : Z)
    (data : nat -> ARINC429_RxMsgData) (clock : nat -> Z)
  : option (list (ARINC429_TX_CHANNEL * Z) * ARINC429_RxMsgArray
            * list (Z * Z)) :=
  do '(isBaroWordValid, baroWord) <-
    ARINC429_GetLatestARINC429Word arincPFDarray 235 baroWord
      (data 0%nat) (clock 0%nat) in
  let baroSSM := ARINC429_ExtractSSMbits baroWord in
  let isAirDataValid :=
    isBaroWordValid && (ARNIC429_SSM_BCD_PLUS =? baroSSM) in
  do first <-
    if isAirDataValid then
      TransmitLatestARINCMsgIfValid_calls arincADCarray A429_CHANNEL_B
        [200; 203; 204; 205; 206; 210; 211; 212; 213; 215] data clock 1
    else Some [] in
  do '(arincAHR75array, txvrA_rx2) <-
    DownloadMessagesFromARINCtxvrArx2 arincAHR75array txvrA_rx2 in
  do second <-
    if isAirDataValid then
      TransmitLatestARINCMsgIfValid_calls arincADCarray A429_CHANNEL_B
        [221; 222; 223; 224; 231; 235; 242; 246; 271; 377] data clock 11
    else Some [] in
  Some (first ++ second, arincAHR75array, txvrA_rx2).

(** The strapping pins S1, S2, S3 and SP as one look at the port finds
    them. *)
Definition strap_pins : Type := bool * bool * bool * bool.

(** The consistency loop of ReadStrapping: [pins k] is what look number
    [k] finds, the delay between two looks only lets time pass, and [fuel]
    is [numReads - index]. *)
Fixpoint ReadStrapping_loop (fuel : nat) (index : nat)
    (pins : nat -> strap_pins) (strap1 strap2 strap3 strapParity : Z)
  : bool :=
  match fuel with
  | O => true
  | S fuel' =>
      let '(s1, s2, s3, sp) := pins index in
      if negb (Z.b2z s1 =? strap1) || negb (Z.b2z s2 =? strap2)
         || negb (Z.b2z s3 =? strap3) || negb (Z.b2z sp =? strapParity)
      then false
      else
        ReadStrapping_loop fuel' (S index) pins strap1 strap2 strap3
          strapParity
  end.

(** The result is the returned flag and the strapping written through the
    pointer. *)
Definition ReadStrapping (pins : nat -> strap_pins) : bool * Z :=
  let numReads := 10%nat in
  let strapping := 0 in
  let '(s1, s2, s3, sp) := pins 0%nat in
  let strap1 := Z.b2z s1 in
  let strap2 := Z.b2z s2 in
  let strap3 := Z.b2z s3 in
  let strapParity := Z.b2z sp in
  let isStrappingOK :=
    ReadStrapping_loop (numReads - 1) 1 pins strap1 strap2 strap3
      strapParity in
  if isStrappingOK then
    if 1 =? Z.land (strap1 + strap2 + strap3 + strapParity) 1
    then
      (true,
       (Z.shiftl strap1 2 + Z.shiftl strap2 1 + strap3) mod 2 ^ 8)
    else (false, strapping)
  else (false, strapping).

(** ** ARINC_HI3584.c: the 16-bit data bus *)

(** What a one-bit field holds after the assignment of [z]. *)
Definition bit_of (z : Z) : bool := Z.odd z.

(** The pins DB00 to DB15 as written, in this order. *)
Definition WriteDataTo16bitDataBus (dataBusWriteValue : Z) : list bool :=
  [ bit_of (Z.land dataBusWriteValue 1);
    bit_of (Z.land (Z.shiftr dataBusWriteValue 1) 1);
    bit_of (Z.land (Z.shiftr dataBusWriteValue 2) 1);
    bit_of (Z.land (Z.shiftr dataBusWriteValue 3) 1);
    bit_of (Z.land (Z.shiftr dataBusWriteValue 4) 1);
    bit_of (Z.land (Z.shiftr dataBusWriteValue 5) 1);
    bit_of (Z.land (Z.shiftr dataBusWriteValue 6) 1);
    bit_of (Z.land (Z.shiftr dataBusWriteValue 7) 1);
    bit_of (Z.land (Z.shiftr dataBusWriteValue 8) 1);
    bit_of (Z.land (Z.shiftr dataBusWriteValue 9) 1);
    bit_of (Z.land (Z.shiftr dataBusWriteValue 10) 1);
    bit_of (Z.land (Z.shiftr dataBusWriteValue 11) 1);
    bit_of (Z.land (Z.shiftr dataBusWriteValue 12) 1);
    bit_of (Z.land (Z.shiftr dataBusWriteValue 13) 1);
    bit_of (Z.land (Z.shiftr dataBusWriteValue 14) 1);
    bit_of (Z.land (Z.shiftr dataBusWriteValue 15) 1) ].

(** [busRead << 1] in [uint16_t]. *)
Definition shl16_1 (busRead : Z) : Z := Z.shiftl busRead 1 mod 2 ^ 16.

(** [pins] holds the pins DB00 to DB15 as read, in this order. *)
Definition ReadDataFrom16bitDataBus (pins : list bool) : Z :=
  let DB (k : nat) := Z.b2z (nth k pins false) in
  let busRead := Z.land (DB 15%nat) 1 in
  let busRead := Z.lor (shl16_1 busRead) (Z.land (DB 14%nat) 1) in
  let busRead := Z.lor (shl16_1 busRead) (Z.land (DB 13%nat) 1) in
  let busRead := Z.lor (shl16_1 busRead) (Z.land (DB 12%nat) 1) in
  let busRead := Z.lor (shl16_1 busRead) (Z.land (DB 11%nat) 1) in
  let busRead := Z.lor (shl16_1 busRead) (Z.land (DB 10%nat) 1) in
  let busRead := Z.lor (shl16_1 busRead) (Z.land (DB 9%nat) 1) in
  let busRead := Z.lor (shl16_1 busRead) (Z.land (DB 8%nat) 1) in
  let busRead := Z.lor (shl16_1 busRead) (Z.land (DB 7%nat) 1) in
  let busRead := Z.lor (shl16_1 busRead) (Z.land (DB 6%nat) 1) in
  let busRead := Z.lor (shl16_1 busRead) (Z.land (DB 5%nat) 1) in
  let busRead := Z.lor (shl16_1 busRead) (Z.land (DB 4%nat) 1) in
  let busRead := Z.lor (shl16_1 busRead) (Z.land (DB 3%nat) 1) in
  let busRead := Z.lor (shl16_1 busRead) (Z.land (DB 2%nat) 1) in
  let busRead := Z.lor (shl16_1 busRead) (Z.land (DB 1%nat) 1) in
  let busRead := Z.lor (shl16_1 busRead) (Z.land (DB 0%nat) 1) in
  busRead.

(** [readBack] holds the pins as the transceiver drives them when the
    control register is read back; the result is the pins written and the
    returned flag.  ARINC429_HI3584_txvrB_LoadCtrlReg differs only in the
    control pins it pulses. *)
Definition ARINC429_HI3584_txvrA_LoadCtrlReg
    (ctrlRegVal : Z) (readBack : list bool) : list bool * bool :=
  let written := WriteDataTo16bitDataBus ctrlRegVal in
  let readBack := ReadDataFrom16bitDataBus readBack in
  (written, ctrlRegVal =? readBack).

(** The two halves that the function writes to the bus, the lower one
    first.  ARINC429_HI3584_txvrB_TransmitWord differs only in the control
    pins it pulses. *)
Definition ARINC429_HI3584_txvrA_TransmitWord (ARINCword : Z)
  : list bool * list bool :=
  (WriteDataTo16bitDataBus (Z.land ARINCword 0xFFFF mod 2 ^ 16),
   WriteDataTo16bitDataBus
     (Z.land (shr32 ARINCword 16) 0xFFFF mod 2 ^ 16)).

(** The word that the function puts together from the two halves it finds
    on the bus, the lower one first.  The ReadWord functions of receiver 2
    and of transceiver B differ only in the control pins they pulse. *)
Definition ARINC429_HI3584_txvrA_rx1_ReadWord (lower upper : list bool)
  : Z :=
  let ARINCwordRead := ReadDataFrom16bitDataBus lower in
  Z.lor ARINCwordRead (shl32 (ReadDataFrom16bitDataBus upper) 16).

(** [P] holds of every list of [n] bits. *)
Fixpoint all_bits (n : nat) (P : list bool -> bool) : bool :=
  match n with
  | O => P []
  | S n =>
      all_bits n (fun l => P (true :: l))
      && all_bits n (fun l => P (false :: l))
  end.

(** Equality of two lists of bits. *)
Fixpoint bits_eqb (l k : list bool) : bool :=
  match l, k with
  | [], [] => true
  | b :: l, c :: k => Bool.eqb b c && bits_eqb l k
  | _, _ => false
  end.

(** The value of the hexadecimal digit with the ASCII code [c], for the
    digits 0 to 9 and the capital letters A to F. *)
Definition hex_value (c : Z) : Z :=
  if (0x30 <=? c) && (c <=? 0x39) then c - 0x30 else c - 0x37.

(** [c] is the ASCII code of a digit or of a capital letter from A to F. *)
Definition is_hex_char (c : Z) : Prop :=
  0x30 <= c <= 0x39 \/ 0x41 <= c <= 0x46.

(** The number that the characters [cs] spell in hexadecimal, the most
    significant digit first. *)
Definition hex_number (cs : list Z) : Z :=
  fold_left (fun acc c => 16 * acc + hex_value c) cs 0.

(** The number whose bytes are [bs], the least significant one first. *)
Definition little_endian (bs : list Z) : Z :=
  fold_right (fun b acc => b + 256 * acc) 0 bs.

(** A group with the first two labels of the ADC group of
    AFC004MessageConfig.c, 200 and 203, after a pressure altitude word 203
    of 10000 with the status matrix of normal operation, received when
    the clock shows 1000. *)
Definition adc_altitude_received : ARINC429_RxMsgArray :=
  let group :=
    mkRxMsgArray 2
      [ rx_slot 200 ARINC429_STD_BNR_MSG 14 0 (F32.dec 390625 8) 0 30 65;
        rx_slot 203 ARINC429_STD_BNR_MSG 17 0 (F32.of_Z 1) 0 30 65 ]
      30 0 false in
  match ARINC429_ProcessReceivedMessage group 0x609C40C1 1000 with
  | Some (_, a) => a
  | None => group
  end.

(** ** ARINC_HI3584.c: the label filters *)

Definition MAX_NUM_REGOCNIZED_LABELS : Z := 16.

(** The array [rxLabelsTxrA] after the two loops that fill it: the labels
    of the slots of the group, then zeros.  The result is [None] when the
    group has fewer slots than it says. *)
Definition SetupLabelFilters_rxLabels (msgs : ARINC429_RxMsgArray)
  : option (list Z) :=
  let n := Z.to_nat (numMsgs msgs) in
  if (n <=? length (rxMsgs msgs))%nat then
    Some (((fun m => label (msgConfig m)) <$> take n (rxMsgs msgs))
          ++ replicate (Z.to_nat MAX_NUM_REGOCNIZED_LABELS - n) 0)
  else None.

(** One pass of the retry loop: the sixteen labels are written to the
    pins, then the pins are read sixteen times and compared with them.
    [readBack counter] holds the pins at read number [counter]; the result
    is the pins written and [isReadBackValid]. *)
Definition SetupLabelFilters_pass
    (rxLabels : list Z) (readBack : nat -> list bool)
  : list (list bool) * bool :=
  (WriteDataTo16bitDataBus <$> rxLabels,
   forallb
     (fun counter : nat =>
        ReadDataFrom16bitDataBus (readBack counter)
        =? nth counter rxLabels 0)
     (seq 0 (Z.to_nat MAX_NUM_REGOCNIZED_LABELS))).

(** The retry loop; [fuel] is [maxNumRetries - retryCounter] and
    [readBack retryCounter] holds the pins read during that pass.  The
    result is [isReadBackValid] on leaving the loop and the pins written
    by the passes made. *)
Fixpoint SetupLabelFilters_loop (fuel : nat) (retryCounter : nat)
    (rxLabels : list Z) (readBack : nat -> nat -> list bool)
    (isReadBackValid : bool) : bool * list (list (list bool)) :=
  match fuel with
  | O => (isReadBackValid, [])
  | S fuel' =>
      let '(written, isReadBackValid) :=
        SetupLabelFilters_pass rxLabels (readBack retryCounter) in
      if isReadBackValid then (isReadBackValid, [written])
      else
        let '(isReadBackValid, passes) :=
          SetupLabelFilters_loop fuel' (S retryCounter) rxLabels readBack
            isReadBackValid in
        (isReadBackValid, written :: passes)
  end.

(** [currentControlReg] is the control register as it is read back on
    entry and [isReadBackValid] the content of the local of that name
    before the loop.  The result is the returned flag, the values loaded
    into the control register in their order, and the pins written by
    each pass.  ARINC429_HI3584_SetupLabelFiltersTxvrB differs in the
    control pins it pulses. *)
Definition ARINC429_HI3584_SetupLabelFiltersTxvrA
    (msgs : ARINC429_RxMsgArray) (currentControlReg : Z)
    (readBack : nat -> nat -> list bool) (isReadBackValid : bool)
  : option (bool * list Z * list (list (list bool))) :=
  if MAX_NUM_REGOCNIZED_LABELS <? numMsgs msgs then Some (false, [], [])
  else
    do rxLabelsTxrA <- SetupLabelFilters_rxLabels msgs in
    let maxNumRetries := 3%nat in
    let '(isReadBackValid, passes) :=
      SetupLabelFilters_loop maxNumRetries 0 rxLabelsTxrA readBack
        isReadBackValid in
    let currentControlReg :=
      if negb isReadBackValid then Z.land currentControlReg 0x0008
      else currentControlReg in
    Some (isReadBackValid,
          replicate (length passes) 0x02 ++ [currentControlReg],
          passes).

(** * Proofs *)

(** ** Machine integers and bits *)

Lemma wrap32_range z : 0 <= wrap32 z < 2 ^ 32.
Proof. unfold wrap32. apply Z.mod_pos_bound. lia. Qed.

Lemma wrap32_small z : 0 <= z < 2 ^ 32 -> wrap32 z = z.
Proof. intros. unfold wrap32. apply Z.mod_small. lia. Qed.

Lemma wrap32_add_sub T d :
  0 <= d < 2 ^ 32 -> wrap32 (wrap32 (T + d) - T) = d.
Proof.
  intros Hd. unfold wrap32.
  rewrite Zminus_mod_idemp_l.
  replace (T + d - T) with d by lia.
  apply Z.mod_small. lia.
Qed.

Lemma testbit_small a k i :
  0 <= a < 2 ^ k -> k <= i -> Z.testbit a i = false.
Proof.
  intros Ha Hk.
  destruct (Z.eq_dec a 0) as [->|Hne]; [apply Z.bits_0|].
  apply Z.bits_above_log2; [lia|].
  assert (0 <= k) by (destruct (Z.le_gt_cases 0 k); [done|];
                        rewrite Z.pow_neg_r in Ha by lia; lia).
  assert (Z.log2 a < k) by (apply Z.log2_lt_pow2; lia).
  lia.
Qed.

Lemma testbit_wrap32 a i :
  0 <= i -> Z.testbit (wrap32 a) i = (i <? 32) && Z.testbit a i.
Proof.
  intros Hi. unfold wrap32.
  destruct (Z.ltb_spec i 32).
  - rewrite Z.mod_pow2_bits_low by lia. reflexivity.
  - rewrite Z.mod_pow2_bits_high by lia. reflexivity.
Qed.

(** ** The search loops of ARINC.c *)

Lemma slot_for_lookup_lt a L i m j :
  slot_for a L i m -> (j <= i)%nat -> is_Some (rxMsgs a !! j).
Proof.
  intros (Hi & _) Hj. apply lookup_lt_is_Some.
  apply lookup_lt_Some in Hi. lia.
Qed.

Lemma in_loop_guard a (c : nat) :
  Z.of_nat c < numMsgs a -> Z.of_nat c < maxNumRxMsgsInArray ->
  (Z.of_nat c <? numMsgs a) && (Z.of_nat c <? maxNumRxMsgsInArray) = true.
Proof. intros. apply andb_true_iff; split; apply Z.ltb_lt; lia. Qed.

Lemma GetLatestLabelData_loop_found a L now i m :
  slot_for a L i m ->
  forall (fuel c : nat),
    (c <= i)%nat -> (i - c < fuel)%nat ->
    GetLatestLabelData_loop fuel a L now (Z.of_nat c)
    = Some (Some (let d := data m in
                  mkRxMsgData (rawARINCword d) (SM d) (SDI d)
                    (engDataFloat d) (engDataInt d) (discreteBits d)
                    (sysTimeLastGoodMsg_ms d) (isEngDataInBounds d)
                    (isNotBabbling d) (ARINC429_IsLabelDataFresh now m))).
Proof.
  intros Hs. pose proof Hs as (Hi & HL & Hn & H64 & Hfirst).
  induction fuel as [|fuel IH]; intros c Hc Hf; [lia|].
  cbn [GetLatestLabelData_loop].
  rewrite in_loop_guard by lia.
  rewrite Nat2Z.id.
  destruct (decide (c = i)) as [->|Hne].
  - rewrite Hi, HL, Z.eqb_refl. reflexivity.
  - destruct (slot_for_lookup_lt a L i m c Hs Hc) as [m' Hm'].
    rewrite Hm'.
    assert (label (msgConfig m') <> L) as Hl
      by (apply (Hfirst c m'); [lia|done]).
    apply Z.eqb_neq in Hl. rewrite Hl.
    replace (Z.of_nat c + 1) with (Z.of_nat (S c)) by lia.
    apply IH; lia.
Qed.

Lemma GetLatestLabelData_found a L g now i m :
  slot_for a L i m ->
  ARINC429_GetLatestLabelData a L g now
  = Some (ARINC429_GET_LABEL_DATA_MSG_SUCCESS,
          let d := data m in
          mkRxMsgData (rawARINCword d) (SM d) (SDI d)
            (engDataFloat d) (engDataInt d) (discreteBits d)
            (sysTimeLastGoodMsg_ms d) (isEngDataInBounds d)
            (isNotBabbling d) (ARINC429_IsLabelDataFresh now m)).
Proof.
  intros Hs. unfold ARINC429_GetLatestLabelData.
  rewrite (GetLatestLabelData_loop_found a L now i m Hs _ 0%nat).
  - reflexivity.
  - lia.
  - destruct Hs as (_ & _ & _ & H64 & _).
    unfold maxNumRxMsgsInArray in *. lia.
Qed.

Lemma ProcessReceivedMessage_loop_found a w now L i m :
  slot_for a L i m ->
  forall (fuel c : nat),
    (c <= i)%nat -> (i - c < fuel)%nat ->
    ProcessReceivedMessage_loop fuel a w now L (Z.of_nat c)
    = match ProcessReceivedMessage_slot m w now with
      | Some (st, m') =>
          Some (st, true, set_rxMsgs (<[i := m']> (rxMsgs a)) a)
      | None => None
      end.
Proof.
  intros Hs. pose proof Hs as (Hi & HL & Hn & H64 & Hfirst).
  induction fuel as [|fuel IH]; intros c Hc Hf; [lia|].
  cbn [ProcessReceivedMessage_loop].
  rewrite in_loop_guard by lia.
  rewrite Nat2Z.id.
  destruct (decide (c = i)) as [->|Hne].
  - rewrite Hi, HL, Z.eqb_refl.
    destruct (ProcessReceivedMessage_slot m w now) as [[st m']|]; reflexivity.
  - destruct (slot_for_lookup_lt a L i m c Hs Hc) as [m' Hm'].
    rewrite Hm'.
    assert (label (msgConfig m') <> L) as Hl
      by (apply (Hfirst c m'); [lia|done]).
    apply Z.eqb_neq in Hl. rewrite Hl.
    replace (Z.of_nat c + 1) with (Z.of_nat (S c)) by lia.
    apply IH; lia.
Qed.

Lemma ProcessReceivedMessage_found a w now i m :
  slot_for a (Z.land w ARINC429_LBL_MASK) i m ->
  ARINC429_ProcessReceivedMessage a w now
  = match ProcessReceivedMessage_slot m w now with
    | Some (st, m') => Some (st, set_rxMsgs (<[i := m']> (rxMsgs a)) a)
    | None => None
    end.
Proof.
  intros Hs. unfold ARINC429_ProcessReceivedMessage.
  rewrite (ProcessReceivedMessage_loop_found a w now _ i m Hs _ 0%nat).
  - destruct (ProcessReceivedMessage_slot m w now) as [[st m']|]; reflexivity.
  - lia.
  - destruct Hs as (_ & _ & _ & H64 & _).
    unfold maxNumRxMsgsInArray in *. lia.
Qed.

(** When the loop is defined and finds no slot, it has visited every slot
    below both bounds, and none has the label. *)
Lemma ProcessReceivedMessage_loop_not_found a w now L :
  forall (fuel c : nat) st a',
    (Z.to_nat maxNumRxMsgsInArray - c <= fuel)%nat ->
    ProcessReceivedMessage_loop fuel a w now L (Z.of_nat c)
    = Some (st, false, a') ->
    a' = a /\
    forall (j : nat) (m : ARINC429_RxMsg),
      (c <= j)%nat -> Z.of_nat j < numMsgs a ->
      Z.of_nat j < maxNumRxMsgsInArray ->
      rxMsgs a !! j = Some m -> label (msgConfig m) <> L.
Proof.
  induction fuel as [|fuel IH]; intros c st a' Hf H.
  - cbn in H. injection H as _ <-. split; [done|].
    intros j m Hj _ H64. unfold maxNumRxMsgsInArray in *. lia.
  - cbn [ProcessReceivedMessage_loop] in H.
    destruct ((Z.of_nat c <? numMsgs a)
              && (Z.of_nat c <? maxNumRxMsgsInArray)) eqn:Hg.
    + rewrite Nat2Z.id in H.
      destruct (rxMsgs a !! c) as [m0|] eqn:Hm0; [|discriminate].
      destruct (label (msgConfig m0) =? L) eqn:Hl.
      * destruct (ProcessReceivedMessage_slot m0 w now) as [[? ?]|];
          discriminate.
      * replace (Z.of_nat c + 1) with (Z.of_nat (S c)) in H by lia.
        apply IH in H; [|lia]. destruct H as [-> Hrest]. split; [done|].
        intros j m Hj Hn H64 Hm.
        destruct (decide (j = c)) as [->|Hne].
        -- rewrite Hm0 in Hm. injection Hm as <-. by apply Z.eqb_neq.
        -- apply (Hrest j m); [lia|done..].
    + injection H as _ <-. split; [done|].
      intros j m Hj Hn H64 Hm.
      apply andb_false_iff in Hg.
      destruct Hg as [Hg|Hg]; apply Z.ltb_ge in Hg.
      * (* numMsgs <= c <= j *) lia.
      * lia.
Qed.

(** When the loop finds a slot, that slot is the first one with the label,
    and only it changes. *)
Lemma ProcessReceivedMessage_loop_found_inv a w now L :
  forall (fuel c : nat) st a',
    ProcessReceivedMessage_loop fuel a w now L (Z.of_nat c)
    = Some (st, true, a') ->
    exists (i : nat) (m m' : ARINC429_RxMsg),
      (c <= i)%nat /\ rxMsgs a !! i = Some m /\ label (msgConfig m) = L
      /\ Z.of_nat i < numMsgs a /\ Z.of_nat i < maxNumRxMsgsInArray
      /\ ProcessReceivedMessage_slot m w now = Some (st, m')
      /\ a' = set_rxMsgs (<[i := m']> (rxMsgs a)) a.
Proof.
  induction fuel as [|fuel IH]; intros c st a' H; [discriminate|].
  cbn [ProcessReceivedMessage_loop] in H.
  destruct ((Z.of_nat c <? numMsgs a)
            && (Z.of_nat c <? maxNumRxMsgsInArray)) eqn:Hg; [|discriminate].
  apply andb_true_iff in Hg. destruct Hg as [Hn H64].
  apply Z.ltb_lt in Hn, H64.
  rewrite Nat2Z.id in H.
  destruct (rxMsgs a !! c) as [m0|] eqn:Hm0; [|discriminate].
  destruct (label (msgConfig m0) =? L) eqn:Hl.
  - destruct (ProcessReceivedMessage_slot m0 w now) as [[st0 m0']|] eqn:Hp;
      [|discriminate].
    injection H as <- <-.
    exists c, m0, m0'. apply Z.eqb_eq in Hl. repeat split; try done; lia.
  - replace (Z.of_nat c + 1) with (Z.of_nat (S c)) in H by lia.
    apply IH in H.
    destruct H as (i & m & m' & Hi & Hrest).
    exists i, m, m'. split; [lia|done].
Qed.

Lemma first_slot_spec a L i m :
  first_slot a L = Some i -> rxMsgs a !! i = Some m -> slot_for a L i m.
Proof.
  unfold first_slot. intros H Hm.
  destruct (list_find _ _) as [[i' m']|] eqn:Hf; [|discriminate].
  injection H as ->.
  apply list_find_Some in Hf. destruct Hf as (Hi & HL & Hfirst).
  pose proof (lookup_lt_Some _ _ _ Hi) as Hlen.
  rewrite length_take in Hlen.
  rewrite lookup_take_lt in Hi by lia.
  assert (m' = m) as -> by congruence.
  repeat split; try done; try lia.
  intros j mj Hj Hmj. apply (Hfirst j mj); [|done].
  rewrite lookup_take_lt by lia. done.
Qed.

(** ** Freshness *)

(** C7: every read recomputes the freshness of the slot as
    [(now - sysTimeLastGoodMsg_ms) <= maxTransmitInterval_ms] on [uint32_t],
    boundary included; with a maximum interval of 25 ms and the last good
    message at time [T], ARINC429_GetLatestLabelData reports fresh data
    when the clock shows [T + 25] and stale data when it shows [T + 26]. *)
Theorem freshness_boundary_inclusive
    (a : ARINC429_RxMsgArray) (L : Z) (i : nat) (m : ARINC429_RxMsg)
    (g : ARINC429_RxMsgData) (T : Z) :
  slot_for a L i m ->
  sysTimeLastGoodMsg_ms (data m) = T ->
  0 <= T < 2 ^ 32 ->
  (forall now : Z,
     exists d,
       ARINC429_GetLatestLabelData a L g now
       = Some (ARINC429_GET_LABEL_DATA_MSG_SUCCESS, d)
       /\ isDataFresh d
          = (wrap32 (now - T) <=? maxTransmitInterval_ms (msgConfig m)))
  /\ (maxTransmitInterval_ms (msgConfig m) = 25 ->
      (exists d,
         ARINC429_GetLatestLabelData a L g (wrap32 (T + 25))
         = Some (ARINC429_GET_LABEL_DATA_MSG_SUCCESS, d)
         /\ isDataFresh d = true)
      /\ (exists d,
            ARINC429_GetLatestLabelData a L g (wrap32 (T + 26))
            = Some (ARINC429_GET_LABEL_DATA_MSG_SUCCESS, d)
            /\ isDataFresh d = false)).
Proof.
  intros Hs HT Hr.
  assert (forall now : Z,
     exists d,
       ARINC429_GetLatestLabelData a L g now
       = Some (ARINC429_GET_LABEL_DATA_MSG_SUCCESS, d)
       /\ isDataFresh d
          = (wrap32 (now - T) <=? maxTransmitInterval_ms (msgConfig m)))
    as Hread.
  { intros now. eexists. split.
    - apply (GetLatestLabelData_found a L g now i m Hs).
    - cbn. unfold ARINC429_IsLabelDataFresh. rewrite HT. reflexivity. }
  split; [exact Hread|].
  intros Hmax. split.
  - destruct (Hread (wrap32 (T + 25))) as (d & Hd & Hf).
    exists d. split; [done|].
    rewrite Hf, Hmax, wrap32_add_sub by lia. reflexivity.
  - destruct (Hread (wrap32 (T + 26))) as (d & Hd & Hf).
    exists d. split; [done|].
    rewrite Hf, Hmax, wrap32_add_sub by lia. reflexivity.
Qed.

Lemma freshness_boundary_inclusive_witness :
  (exists d,
     ARINC429_GetLatestLabelData ahr75_heading_received
       (FormatLabelNumber 320) RxMsgData_init 15
     = Some (ARINC429_GET_LABEL_DATA_MSG_SUCCESS, d)
     /\ isDataFresh d = true)
  /\ (exists d,
        ARINC429_GetLatestLabelData ahr75_heading_received
          (FormatLabelNumber 320) RxMsgData_init 16
        = Some (ARINC429_GET_LABEL_DATA_MSG_SUCCESS, d)
        /\ isDataFresh d = false).
Proof.
  refine (proj2
    (freshness_boundary_inclusive ahr75_heading_received
       (FormatLabelNumber 320) 2
       (default (rx_slot 0 ARINC429_STD_BNR_MSG 0 0 Fzero 0 0 0)
          (rxMsgs ahr75_heading_received !! 2%nat))
       RxMsgData_init 4294967286 _ _ _) _).
  - apply first_slot_spec; vm_compute; reflexivity.
  - vm_compute; reflexivity.
  - lia.
  - vm_compute; reflexivity.
Defined.

(** ** The decoders, seen from the slot *)

(** What a decoder leaves alone, and what a failed decode leaves behind:
    the slot as it was, with the received word stored in [rawARINCword]. *)
Lemma ProcessStdBNRmessage_inv m w st m' :
  ARINC429_ProcessStdBNRmessage m w = Some (st, m') ->
  msgConfig m' = msgConfig m
  /\ rawARINCword (data m') = w
  /\ sysTimeLastGoodMsg_ms (data m') = sysTimeLastGoodMsg_ms (data m)
  /\ isNotBabbling (data m') = isNotBabbling (data m)
  /\ (st = ARINC429_READ_MSG_SUCCESS
      \/ st = ARINC429_READ_MSG_ERROR
         /\ m' = set_data (set_rawARINCword w (data m)) m).
Proof.
  unfold ARINC429_ProcessStdBNRmessage. intros H.
  repeat case_match; simplify_eq; cbn; auto 10.
Qed.

Lemma ProcessStdBCDmessage_inv m w st m' :
  ARINC429_ProcessStdBCDmessage m w = Some (st, m') ->
  msgConfig m' = msgConfig m
  /\ rawARINCword (data m') = rawARINCword (data m)
  /\ sysTimeLastGoodMsg_ms (data m') = sysTimeLastGoodMsg_ms (data m)
  /\ isNotBabbling (data m') = isNotBabbling (data m)
  /\ (st = ARINC429_READ_MSG_SUCCESS
      \/ st = ARINC429_READ_MSG_ERROR_INVALID_MESSAGE /\ m' = m).
Proof.
  unfold ARINC429_ProcessStdBCDmessage. intros H.
  repeat case_match; simplify_eq; cbn; auto 10.
Qed.

Lemma ProcessDiscreteMessage_inv m w st m' :
  ARINC429_ProcessDiscreteMessage m w = Some (st, m') ->
  msgConfig m' = msgConfig m
  /\ rawARINCword (data m') = rawARINCword (data m)
  /\ sysTimeLastGoodMsg_ms (data m') = sysTimeLastGoodMsg_ms (data m)
  /\ isNotBabbling (data m') = isNotBabbling (data m)
  /\ (st = ARINC429_READ_MSG_SUCCESS
      \/ st = ARINC429_WRITE_MSG_ERROR_INVALID_MSG_CONFIG /\ m' = m).
Proof.
  unfold ARINC429_ProcessDiscreteMessage. intros H.
  repeat case_match; simplify_eq; cbn; auto 10.
Qed.

(** The slot after ARINC429_ProcessReceivedMessage has run on it. *)
Lemma ProcessReceivedMessage_slot_inv m w now st m' :
  ProcessReceivedMessage_slot m w now = Some (st, m') ->
  msgConfig m' = msgConfig m
  /\ rawARINCword (data m') = w
  /\ (st = ARINC429_READ_MSG_SUCCESS ->
      isNotBabbling (data m') = ARINC429_IsLabelDataNotBabbling now m
      /\ sysTimeLastGoodMsg_ms (data m') = now)
  /\ (st <> ARINC429_READ_MSG_SUCCESS ->
      (st = ARINC429_READ_MSG_ERROR
       \/ st = ARINC429_READ_MSG_ERROR_INVALID_MESSAGE)
      /\ m' = set_data (set_rawARINCword w (data m)) m).
Proof.
  unfold ProcessReceivedMessage_slot. intros H.
  destruct (ProcessReceivedMessage_decode m w) as [[st0 m0]|] eqn:Hdec;
    [|discriminate].
  unfold ProcessReceivedMessage_decode in Hdec.
  assert (msgConfig m0 = msgConfig m
          /\ rawARINCword (data m0) = w
          /\ sysTimeLastGoodMsg_ms (data m0) = sysTimeLastGoodMsg_ms (data m)
          /\ isNotBabbling (data m0) = isNotBabbling (data m)
          /\ (st0 = ARINC429_READ_MSG_SUCCESS
              \/ (st0 = ARINC429_READ_MSG_ERROR
                  \/ st0 = ARINC429_READ_MSG_ERROR_INVALID_MESSAGE)
                 /\ m0 = set_data (set_rawARINCword w (data m)) m))
    as (Hc & Hw & Ht & Hb & Hst).
  { destruct (msgType (msgConfig m)).
    - apply ProcessStdBNRmessage_inv in Hdec. intuition.
    - apply ProcessStdBCDmessage_inv in Hdec. cbn in Hdec.
      intuition (subst; auto).
    - apply ProcessDiscreteMessage_inv in Hdec. cbn in Hdec.
      intuition (subst; auto). }
  destruct (st0 =? ARINC429_READ_MSG_SUCCESS) eqn:Hs0;
    injection H as <- <-.
  - apply Z.eqb_eq in Hs0. cbn.
    split; [done|]. split; [done|]. split.
    + intros _. split; [|done].
      unfold ARINC429_IsLabelDataNotBabbling. by rewrite Hc, Ht.
    + intros Hne. done.
  - apply Z.eqb_neq in Hs0.
    split; [done|]. split; [done|]. split; [done|].
    intros _. destruct Hst as [?|[? ?]]; done.
Qed.

Lemma ProcessReceivedMessage_slot_status m w now st m' :
  ProcessReceivedMessage_slot m w now = Some (st, m') ->
  exists m0, ProcessReceivedMessage_decode m w = Some (st, m0).
Proof.
  unfold ProcessReceivedMessage_slot. intros H.
  destruct (ProcessReceivedMessage_decode m w) as [[st0 m0]|]; [|discriminate].
  exists m0. destruct (st0 =? _); by injection H as <- <-.
Qed.

(** A call of ARINC429_ProcessReceivedMessage that is defined either finds
    no slot and changes nothing, or runs on the first slot with the label
    and replaces that slot only. *)
Lemma ProcessReceivedMessage_cases a w now st a' :
  ARINC429_ProcessReceivedMessage a w now = Some (st, a') ->
  let L := Z.land w ARINC429_LBL_MASK in
  (st = ARINC429_READ_MSG_ERROR_NO_MATCHING_LABEL
   /\ a' = a /\ no_slot_for a L)
  \/ (exists (i : nat) (m m' : ARINC429_RxMsg),
        slot_for a L i m
        /\ ProcessReceivedMessage_slot m w now = Some (st, m')
        /\ a' = set_rxMsgs (<[i := m']> (rxMsgs a)) a).
Proof.
  intros H L. unfold ARINC429_ProcessReceivedMessage in H. fold L in H.
  destruct (ProcessReceivedMessage_loop _ a w now L 0)
    as [[[st0 found] a0]|] eqn:Hloop; [|discriminate].
  change 0 with (Z.of_nat 0) in Hloop.
  destruct found; injection H as <- <-.
  - right.
    (* the first matching slot: take the least index the loop can stop at *)
    assert (forall (fuel c : nat) st1 a1,
              ProcessReceivedMessage_loop fuel a w now L (Z.of_nat c)
              = Some (st1, true, a1) ->
              (forall (j : nat) mj, (j < c)%nat -> rxMsgs a !! j = Some mj ->
                            label (msgConfig mj) <> L) ->
              exists (i : nat) (m m' : ARINC429_RxMsg),
                slot_for a L i m
                /\ ProcessReceivedMessage_slot m w now = Some (st1, m')
                /\ a1 = set_rxMsgs (<[i := m']> (rxMsgs a)) a) as Hgen.
    { induction fuel as [|fuel IH]; intros c st1 a1 H Hbefore; [discriminate|].
      cbn [ProcessReceivedMessage_loop] in H.
      destruct ((Z.of_nat c <? numMsgs a)
                && (Z.of_nat c <? maxNumRxMsgsInArray)) eqn:Hg;
        [|discriminate].
      apply andb_true_iff in Hg. destruct Hg as [Hn H64].
      apply Z.ltb_lt in Hn, H64.
      rewrite Nat2Z.id in H.
      destruct (rxMsgs a !! c) as [m0|] eqn:Hm0; [|discriminate].
      destruct (label (msgConfig m0) =? L) eqn:Hl.
      - destruct (ProcessReceivedMessage_slot m0 w now) as [[s0 m0']|] eqn:Hp;
          [|discriminate].
        injection H as <- <-. apply Z.eqb_eq in Hl.
        exists c, m0, m0'. unfold slot_for. auto 10.
      - replace (Z.of_nat c + 1) with (Z.of_nat (S c)) in H by lia.
        apply (IH (S c)); [done|].
        intros j mj Hj Hmj.
        destruct (decide (j = c)) as [->|Hne].
        + rewrite Hm0 in Hmj. injection Hmj as <-. by apply Z.eqb_neq.
        + apply (Hbefore j mj); [lia|done]. }
    apply (Hgen _ 0%nat _ _ Hloop). intros j mj Hj. lia.
  - left.
    apply ProcessReceivedMessage_loop_not_found in Hloop; [|lia].
    destruct Hloop as [-> Hnone].
    split; [done|]. split; [done|].
    intros j m Hn H64 Hm. apply (Hnone j m); [lia|done..].
Qed.

Lemma ProcessReceivedMessage_slot_not_no_label m w now st m' :
  ProcessReceivedMessage_slot m w now = Some (st, m') ->
  st <> ARINC429_READ_MSG_ERROR_NO_MATCHING_LABEL.
Proof.
  intros H. apply ProcessReceivedMessage_slot_inv in H.
  destruct H as (_ & _ & _ & Herr).
  destruct (decide (st = ARINC429_READ_MSG_SUCCESS)) as [->|Hne]; [done|].
  destruct (Herr Hne) as [[->| ->] _]; done.
Qed.

(** ** Label routing *)

(** A defined call of ARINC429_ProcessReceivedMessage on a word with label
    [L] leaves the size and the bus-failure fields of the group alone,
    changes no slot configured for another label and at most one slot in
    all, keeps the configuration of the slot it changes, and returns
    [ARINC429_READ_MSG_ERROR_NO_MATCHING_LABEL] exactly when none of the
    slots that the search visits is configured for [L]. *)
Lemma ProcessReceivedMessage_routing
    (a a' : ARINC429_RxMsgArray) (w now st : Z) :
  ARINC429_ProcessReceivedMessage a w now = Some (st, a') ->
  let L := Z.land w ARINC429_LBL_MASK in
  numMsgs a' = numMsgs a
  /\ length (rxMsgs a') = length (rxMsgs a)
  /\ maxBusFailureCounts a' = maxBusFailureCounts a
  /\ currentCounts a' = currentCounts a
  /\ hasBusFailed a' = hasBusFailed a
  /\ (forall (j : nat) (m : ARINC429_RxMsg),
        rxMsgs a !! j = Some m -> label (msgConfig m) <> L ->
        rxMsgs a' !! j = Some m)
  /\ (exists i : nat,
        forall j : nat, j <> i -> rxMsgs a' !! j = rxMsgs a !! j)
  /\ (forall (j : nat) (m m' : ARINC429_RxMsg),
        rxMsgs a !! j = Some m -> rxMsgs a' !! j = Some m' ->
        msgConfig m' = msgConfig m)
  /\ (st = ARINC429_READ_MSG_ERROR_NO_MATCHING_LABEL <-> no_slot_for a L).
Proof.
  intros H L. apply ProcessReceivedMessage_cases in H. fold L in H.
  destruct H as [(-> & -> & Hnone)|(i & m & m' & Hs & Hp & ->)].
  - repeat split; try done.
    + exists 0%nat. done.
    + intros j m m' Hj Hj'. congruence.
  - pose proof Hs as (Hi & HL & Hn & H64 & Hfirst).
    pose proof (ProcessReceivedMessage_slot_inv _ _ _ _ _ Hp) as (Hc & _).
    cbn. rewrite length_insert.
    repeat split; try done.
    + intros j mj Hj Hl.
      rewrite list_lookup_insert_ne; [done|]. congruence.
    + exists i. intros j Hj. by rewrite list_lookup_insert_ne.
    + intros j mj mj' Hj Hj'.
      destruct (decide (j = i)) as [->|Hne].
      * rewrite list_lookup_insert_eq in Hj'
          by (by apply lookup_lt_Some in Hi).
        congruence.
      * rewrite list_lookup_insert_ne in Hj' by done. congruence.
    + intros ->. by apply ProcessReceivedMessage_slot_not_no_label in Hp.
    + intros Hnone. exfalso. by apply (Hnone i m).
Qed.

Lemma NoDup_unique_labels a :
  NoDup ((fun m => label (msgConfig m)) <$> rxMsgs a) -> unique_labels a.
Proof.
  intros Hnd i j m m' Hi Hj Hl.
  apply (NoDup_lookup _ i j (label (msgConfig m)) Hnd).
  - by rewrite list_lookup_fmap, Hi.
  - by rewrite list_lookup_fmap, Hj, Hl.
Qed.

(** In a group that holds the slots it counts, a search for a label that
    no slot has runs to the end and changes nothing. *)
Lemma ProcessReceivedMessage_loop_absent a w now L :
  numMsgs a <= Z.of_nat (length (rxMsgs a)) ->
  (forall (j : nat) (m : ARINC429_RxMsg),
     rxMsgs a !! j = Some m -> label (msgConfig m) <> L) ->
  forall (fuel c : nat),
    ProcessReceivedMessage_loop fuel a w now L (Z.of_nat c)
    = Some (ARINC429_READ_MSG_SUCCESS, false, a).
Proof.
  intros Hlen Hnone. induction fuel as [|fuel IH]; intros c; [reflexivity|].
  cbn [ProcessReceivedMessage_loop].
  destruct ((Z.of_nat c <? numMsgs a)
            && (Z.of_nat c <? maxNumRxMsgsInArray)) eqn:Hg; [|reflexivity].
  apply andb_true_iff in Hg. destruct Hg as [Hn _]. apply Z.ltb_lt in Hn.
  rewrite Nat2Z.id.
  destruct (lookup_lt_is_Some_2 (rxMsgs a) c ltac:(lia)) as [m Hm].
  rewrite Hm. cbn [mbind option_bind].
  destruct (Z.eqb_spec (label (msgConfig m)) L) as [Hl|Hl].
  - by destruct (Hnone c m Hm).
  - replace (Z.of_nat c + 1) with (Z.of_nat (S c)) by lia. apply IH.
Qed.

(** C5: in a group of [N] slots ([N] at most 64, the bound of the groups)
    with pairwise distinct labels, a word with label [L] is routed to the
    slot configured for [L].  When no slot of the group is configured for
    [L], ARINC429_ProcessReceivedMessage returns
    [ARINC429_READ_MSG_ERROR_NO_MATCHING_LABEL] and leaves the group as it
    is.  When slot [i] is, the call is the decode of the word in that slot,
    and its result replaces slot [i] and nothing else.  Hence every call
    that returns leaves all slots configured for another label unchanged,
    together with the size and the bus-failure fields of the group and the
    configuration of every slot, and it returns
    [ARINC429_READ_MSG_ERROR_NO_MATCHING_LABEL] if and only if no slot of
    the group is configured for [L]. *)
Theorem label_routing (a : ARINC429_RxMsgArray) (w now : Z) :
  numMsgs a = Z.of_nat (length (rxMsgs a)) ->
  numMsgs a <= maxNumRxMsgsInArray ->
  unique_labels a ->
  let L := Z.land w ARINC429_LBL_MASK in
  let absent :=
    forall (j : nat) (m : ARINC429_RxMsg),
      rxMsgs a !! j = Some m -> label (msgConfig m) <> L in
  (absent ->
   ARINC429_ProcessReceivedMessage a w now
   = Some (ARINC429_READ_MSG_ERROR_NO_MATCHING_LABEL, a))
  /\ (forall (i : nat) (m : ARINC429_RxMsg),
        rxMsgs a !! i = Some m -> label (msgConfig m) = L ->
        ARINC429_ProcessReceivedMessage a w now
        = match ProcessReceivedMessage_slot m w now with
          | Some (st, m') =>
              Some (st, set_rxMsgs (<[i := m']> (rxMsgs a)) a)
          | None => None
          end)
  /\ (forall (st : Z) (a' : ARINC429_RxMsgArray),
        ARINC429_ProcessReceivedMessage a w now = Some (st, a') ->
        numMsgs a' = numMsgs a
        /\ length (rxMsgs a') = length (rxMsgs a)
        /\ maxBusFailureCounts a' = maxBusFailureCounts a
        /\ currentCounts a' = currentCounts a
        /\ hasBusFailed a' = hasBusFailed a
        /\ (forall (j : nat) (m : ARINC429_RxMsg),
              rxMsgs a !! j = Some m -> label (msgConfig m) <> L ->
              rxMsgs a' !! j = Some m)
        /\ (forall (j : nat) (m m' : ARINC429_RxMsg),
              rxMsgs a !! j = Some m -> rxMsgs a' !! j = Some m' ->
              msgConfig m' = msgConfig m)
        /\ (st = ARINC429_READ_MSG_ERROR_NO_MATCHING_LABEL <-> absent)).
Proof.
  intros Hlen H64 Huniq L absent.
  assert (absent <-> no_slot_for a L) as Habs.
  { split.
    - intros Hnone j m _ _ Hm. by apply (Hnone j m).
    - intros Hnone j m Hm. pose proof (lookup_lt_Some _ _ _ Hm).
      apply (Hnone j m); [lia|lia|done]. }
  split; [|split].
  - intros Hnone. unfold ARINC429_ProcessReceivedMessage. fold L.
    change 0 with (Z.of_nat 0).
    rewrite (ProcessReceivedMessage_loop_absent a w now L); [done|lia|done].
  - intros i m Hm HL. apply ProcessReceivedMessage_found.
    pose proof (lookup_lt_Some _ _ _ Hm).
    repeat split; try done; try lia.
    intros j m' Hj Hm' HL'.
    assert (j = i) by (apply (Huniq j i m' m); [done|done|by rewrite HL]).
    lia.
  - intros st a' H.
    pose proof (ProcessReceivedMessage_routing a a' w now st H)
      as (H1 & H2 & H3 & H4 & H5 & H6 & _ & H8 & H9).
    fold L in H6, H9. rewrite <- Habs in H9. done.
Qed.

Lemma label_routing_witness :
  let a := arincAHR75array in
  let w := 0x6000AA0B in
  let now := 1000 in
  let L := Z.land w ARINC429_LBL_MASK in
  let absent :=
    forall (j : nat) (m : ARINC429_RxMsg),
      rxMsgs a !! j = Some m -> label (msgConfig m) <> L in
  (absent ->
   ARINC429_ProcessReceivedMessage a w now
   = Some (ARINC429_READ_MSG_ERROR_NO_MATCHING_LABEL, a))
  /\ (forall (i : nat) (m : ARINC429_RxMsg),
        rxMsgs a !! i = Some m -> label (msgConfig m) = L ->
        ARINC429_ProcessReceivedMessage a w now
        = match ProcessReceivedMessage_slot m w now with
          | Some (st, m') =>
              Some (st, set_rxMsgs (<[i := m']> (rxMsgs a)) a)
          | None => None
          end)
  /\ (forall (st : Z) (a' : ARINC429_RxMsgArray),
        ARINC429_ProcessReceivedMessage a w now = Some (st, a') ->
        numMsgs a' = numMsgs a
        /\ length (rxMsgs a') = length (rxMsgs a)
        /\ maxBusFailureCounts a' = maxBusFailureCounts a
        /\ currentCounts a' = currentCounts a
        /\ hasBusFailed a' = hasBusFailed a
        /\ (forall (j : nat) (m : ARINC429_RxMsg),
              rxMsgs a !! j = Some m -> label (msgConfig m) <> L ->
              rxMsgs a' !! j = Some m)
        /\ (forall (j : nat) (m m' : ARINC429_RxMsg),
              rxMsgs a !! j = Some m -> rxMsgs a' !! j = Some m' ->
              msgConfig m' = msgConfig m)
        /\ (st = ARINC429_READ_MSG_ERROR_NO_MATCHING_LABEL <-> absent)).
Proof.
  apply (label_routing arincAHR75array 0x6000AA0B 1000).
  - vm_compute. reflexivity.
  - vm_compute. discriminate.
  - apply NoDup_unique_labels.
    apply (bool_decide_unpack _). vm_compute. exact I.
Defined.

(** ** Decode errors *)

(** C4, with the stored word written in: when the decoder of the matching
    slot fails, ARINC429_ProcessReceivedMessage returns the status of the
    decoder, and the group is as before except that [rawARINCword] of the
    matching slot holds the received word; the status matrix, the SDI, the
    engineering values, the discrete bits, the time of the last good
    message and the flags of that slot are unchanged. *)
Theorem decode_error_keeps_slot
    (a a' : ARINC429_RxMsgArray) (w now st : Z) (i : nat)
    (m : ARINC429_RxMsg) :
  slot_for a (Z.land w ARINC429_LBL_MASK) i m ->
  ARINC429_ProcessReceivedMessage a w now = Some (st, a') ->
  st <> ARINC429_READ_MSG_SUCCESS ->
  (exists m0, ProcessReceivedMessage_decode m w = Some (st, m0))
  /\ (st = ARINC429_READ_MSG_ERROR
      \/ st = ARINC429_READ_MSG_ERROR_INVALID_MESSAGE)
  /\ a' = set_rxMsgs
            (<[i := set_data (set_rawARINCword w (data m)) m]> (rxMsgs a)) a
  /\ exists m',
       rxMsgs a' !! i = Some m'
       /\ msgConfig m' = msgConfig m
       /\ rawARINCword (data m') = w
       /\ SM (data m') = SM (data m)
       /\ SDI (data m') = SDI (data m)
       /\ engDataFloat (data m') = engDataFloat (data m)
       /\ engDataInt (data m') = engDataInt (data m)
       /\ discreteBits (data m') = discreteBits (data m)
       /\ sysTimeLastGoodMsg_ms (data m')
          = sysTimeLastGoodMsg_ms (data m)
       /\ isEngDataInBounds (data m') = isEngDataInBounds (data m)
       /\ isNotBabbling (data m') = isNotBabbling (data m)
       /\ isDataFresh (data m') = isDataFresh (data m).
Proof.
  intros Hs H Hne.
  rewrite (ProcessReceivedMessage_found a w now i m Hs) in H.
  destruct (ProcessReceivedMessage_slot m w now) as [[st0 m']|] eqn:Hp;
    [|discriminate].
  injection H as <- <-.
  pose proof (ProcessReceivedMessage_slot_status _ _ _ _ _ Hp) as Hdec.
  apply ProcessReceivedMessage_slot_inv in Hp.
  destruct Hp as (_ & _ & _ & Herr).
  destruct (Herr Hne) as [Hst ->].
  split; [done|]. split; [done|]. split; [done|].
  exists (set_data (set_rawARINCword w (data m)) m).
  split; [|by repeat split].
  cbn. apply list_lookup_insert_eq.
  destruct Hs as (Hi & _). by apply lookup_lt_Some in Hi.
Qed.

Lemma decode_error_keeps_slot_witness :
  exists a',
    ARINC429_ProcessReceivedMessage arincPFDarray 0x000028B9 1000
    = Some (ARINC429_READ_MSG_ERROR_INVALID_MESSAGE, a')
    /\ a' = set_rxMsgs
              (<[0%nat := set_data (set_rawARINCword 0x000028B9 RxMsgData_init)
                            (rx_slot 235 ARINC429_STD_BCD_MSG 19 5
                               (F32.dec 1 3) 0 40 60)]>
                 (rxMsgs arincPFDarray)) arincPFDarray.
Proof.
  destruct (ARINC429_ProcessReceivedMessage arincPFDarray 0x000028B9 1000)
    as [[st a']|] eqn:H; [|vm_compute in H; discriminate].
  assert (st = ARINC429_READ_MSG_ERROR_INVALID_MESSAGE) as ->
    by (vm_compute in H; by injection H as <- _).
  exists a'. split; [reflexivity|].
  refine (proj1 (proj2 (proj2
    (decode_error_keeps_slot arincPFDarray a' 0x000028B9 1000 _ 0
       (rx_slot 235 ARINC429_STD_BCD_MSG 19 5 (F32.dec 1 3) 0 40 60)
       _ H _)))).
  - apply first_slot_spec; vm_compute; reflexivity.
  - vm_compute; discriminate.
Defined.

(** C4 as stated fails on [rawARINCword]: the baro correction slot of the
    PFD group, which holds the word 0 at start-up, holds the rejected word
    after a word with the invalid digit 0xA has been refused. *)
Lemma decode_error_keeps_slot_counterexample :
  exists a' m m',
    ARINC429_ProcessReceivedMessage arincPFDarray 0x000028B9 1000
    = Some (ARINC429_READ_MSG_ERROR_INVALID_MESSAGE, a')
    /\ slot_for arincPFDarray (Z.land 0x000028B9 ARINC429_LBL_MASK) 0 m
    /\ rxMsgs a' !! 0%nat = Some m'
    /\ rawARINCword (data m) = 0
    /\ rawARINCword (data m') = 0x000028B9
    /\ m' <> m.
Proof.
  eexists _, _, _. split; [vm_compute; reflexivity|].
  split; [apply first_slot_spec; vm_compute; reflexivity|].
  split; [vm_compute; reflexivity|].
  split; [reflexivity|]. split; [reflexivity|].
  vm_compute. discriminate.
Qed.

(** ** Babbling *)

(** C6: a successful receipt sets [isNotBabbling] of the slot to
    [(now - sysTimeLastGoodMsg_ms) >= minTransmitInterval_ms], computed on
    [uint32_t] with the time of the previous good message, and only then
    stores [now]; so after two successful receipts [Delta] apart on the
    same label the flag is [Delta >= minTransmitInterval_ms]. *)
Theorem babble_rule
    (a a1 a2 : ARINC429_RxMsgArray) (w1 w2 t1 Delta : Z) (i : nat)
    (m : ARINC429_RxMsg) :
  slot_for a (Z.land w1 ARINC429_LBL_MASK) i m ->
  Z.land w2 ARINC429_LBL_MASK = Z.land w1 ARINC429_LBL_MASK ->
  0 <= t1 < 2 ^ 32 ->
  0 <= Delta < 2 ^ 32 ->
  ARINC429_ProcessReceivedMessage a w1 t1
  = Some (ARINC429_READ_MSG_SUCCESS, a1) ->
  ARINC429_ProcessReceivedMessage a1 w2 (wrap32 (t1 + Delta))
  = Some (ARINC429_READ_MSG_SUCCESS, a2) ->
  exists m1 m2,
    rxMsgs a1 !! i = Some m1
    /\ rxMsgs a2 !! i = Some m2
    /\ isNotBabbling (data m1)
       = (minTransmitInterval_ms (msgConfig m)
          <=? wrap32 (t1 - sysTimeLastGoodMsg_ms (data m)))
    /\ sysTimeLastGoodMsg_ms (data m1) = t1
    /\ isNotBabbling (data m2)
       = (minTransmitInterval_ms (msgConfig m) <=? Delta)
    /\ sysTimeLastGoodMsg_ms (data m2) = wrap32 (t1 + Delta).
Proof.
  intros Hs Hw Ht HD H1 H2.
  pose proof Hs as (Hi & HL & Hn & H64 & Hfirst).
  pose proof (lookup_lt_Some _ _ _ Hi) as Hlen.
  rewrite (ProcessReceivedMessage_found a w1 t1 i m Hs) in H1.
  destruct (ProcessReceivedMessage_slot m w1 t1) as [[st1 m1]|] eqn:Hp1;
    [|discriminate].
  injection H1 as -> <-.
  apply ProcessReceivedMessage_slot_inv in Hp1.
  destruct Hp1 as (Hc1 & _ & Hok1 & _).
  destruct (Hok1 eq_refl) as [Hb1 Ht1].
  assert (slot_for (set_rxMsgs (<[i := m1]> (rxMsgs a)) a)
            (Z.land w2 ARINC429_LBL_MASK) i m1) as Hs1.
  { unfold slot_for. cbn. rewrite list_lookup_insert_eq by done.
    rewrite Hc1, Hw. repeat split; try done.
    intros j mj Hj Hmj.
    rewrite list_lookup_insert_ne in Hmj by lia.
    by apply (Hfirst j mj). }
  rewrite (ProcessReceivedMessage_found _ w2 _ i m1 Hs1) in H2.
  destruct (ProcessReceivedMessage_slot m1 w2 _) as [[st2 m2]|] eqn:Hp2;
    [|discriminate].
  injection H2 as -> <-.
  apply ProcessReceivedMessage_slot_inv in Hp2.
  destruct Hp2 as (Hc2 & _ & Hok2 & _).
  destruct (Hok2 eq_refl) as [Hb2 Ht2].
  exists m1, m2. cbn.
  rewrite !list_lookup_insert_eq by (by rewrite ?length_insert).
  repeat split; try done.
  rewrite Hb2. unfold ARINC429_IsLabelDataNotBabbling.
  rewrite Ht1, Hc1, wrap32_add_sub by done. reflexivity.
Qed.

Lemma babble_rule_witness :
  exists a1 a2 m2,
    ARINC429_ProcessReceivedMessage arincAHR75array 0x6000AA0B 4294967290
    = Some (ARINC429_READ_MSG_SUCCESS, a1)
    /\ ARINC429_ProcessReceivedMessage a1 0x6000AA0B 14
       = Some (ARINC429_READ_MSG_SUCCESS, a2)
    /\ rxMsgs a2 !! 2%nat = Some m2
    /\ isNotBabbling (data m2) = (15 <=? 20).
Proof.
  destruct (ARINC429_ProcessReceivedMessage arincAHR75array 0x6000AA0B
              4294967290) as [[st1 a1]|] eqn:H1;
    [|vm_compute in H1; discriminate].
  assert (st1 = ARINC429_READ_MSG_SUCCESS) as ->
    by (vm_compute in H1; by injection H1 as <- _).
  destruct (ARINC429_ProcessReceivedMessage a1 0x6000AA0B 14)
    as [[st2 a2]|] eqn:H2;
    [|vm_compute in H1; injection H1 as <-; vm_compute in H2; discriminate].
  assert (st2 = ARINC429_READ_MSG_SUCCESS) as ->
    by (vm_compute in H1; injection H1 as <-; vm_compute in H2;
        by injection H2 as <- _).
  destruct (babble_rule arincAHR75array a1 a2 0x6000AA0B 0x6000AA0B
              4294967290 20 2
              (rx_slot 320 ARINC429_STD_BNR_MSG 15 0 (F32.dec 55 4) 0 15 25))
    as (m1 & m2 & _ & Hm2 & _ & _ & Hb & _).
  - apply first_slot_spec; vm_compute; reflexivity.
  - reflexivity.
  - lia.
  - lia.
  - exact H1.
  - exact H2.
  - exists a1, a2, m2.
    split; [reflexivity|]. split; [exact H2|]. split; [exact Hm2|exact Hb].
Defined.

(** ** Status word 272 *)

(** C8: when label 271 is read successfully, is fresh, does not babble,
    has the status matrix of discrete normal operation and its raw word
    [R] has the MSU-fail bit (mask 0x400), and the ADC has timed out,
    CalculateARINCLabel272 returns
    [0x5D | (R & 0x60000300) | 0x2000000 | 0xC00]: bits 10, 11 and 25 are
    set, the SDI and SSM bits are those of [R], and the label byte is
    0x5D. *)
Theorem label272_composition
    (a : ARINC429_RxMsgArray) (g d : ARINC429_RxMsgData) (now R : Z) :
  ARINC429_GetLatestLabelData a (FormatLabelNumber 271) g now
  = Some (ARINC429_GET_LABEL_DATA_MSG_SUCCESS, d) ->
  isDataFresh d = true ->
  isNotBabbling d = true ->
  SM d = ARINC429_SSM_DIS_NORMAL_OPERATION ->
  rawARINCword d = R ->
  Z.land R AHRS_LABEL_271_MSU_FAIL_MASK <> 0 ->
  exists W,
    CalculateARINCLabel272 a true g now = Some W
    /\ W = Z.lor (Z.lor (Z.lor 0x5D (Z.land R AHRS_STATUS_SDI_SSM_MASK))
                        0x2000000) 0xC00
    /\ Z.testbit W 10 = true
    /\ Z.testbit W 11 = true
    /\ Z.testbit W 25 = true
    /\ Z.land W AHRS_STATUS_SDI_SSM_MASK = Z.land R AHRS_STATUS_SDI_SSM_MASK
    /\ Z.land W 0xFF = 0x5D.
Proof.
  intros Hget Hf Hb Hsm HR Hmsu.
  eexists. split.
  { unfold CalculateARINCLabel272. rewrite Hget, Hf, Hb, Hsm, HR. cbn.
    apply Z.eqb_neq in Hmsu. rewrite Hmsu. cbn. reflexivity. }
  split; [reflexivity|].
  unfold AHRS_STATUS_SDI_SSM_MASK, AHRS_272_BIT_25_SET.
  repeat split.
  - rewrite !Z.lor_spec. replace (Z.testbit 3072 10) with true by reflexivity.
    apply orb_true_r.
  - rewrite !Z.lor_spec. replace (Z.testbit 3072 11) with true by reflexivity.
    apply orb_true_r.
  - rewrite !Z.lor_spec.
    replace (Z.testbit 33554432 25) with true by reflexivity.
    rewrite orb_true_r. reflexivity.
  - rewrite !Z.land_lor_distr_l, <- Z.land_assoc, Z.land_diag.
    change (Z.land 93 1610613504) with 0.
    change (Z.land 33554432 1610613504) with 0.
    change (Z.land 3072 1610613504) with 0.
    rewrite Z.lor_0_l, !Z.lor_0_r. reflexivity.
  - rewrite !Z.land_lor_distr_l, <- Z.land_assoc.
    change (Z.land 1610613504 255) with 0.
    rewrite Z.land_0_r. reflexivity.
Qed.

Lemma label272_composition_witness :
  exists W,
    CalculateARINCLabel272 ahr75_status_received true RxMsgData_init 1200
    = Some W
    /\ W = Z.lor (Z.lor (Z.lor 0x5D (Z.land 0x0000059D
                                        AHRS_STATUS_SDI_SSM_MASK))
                        0x2000000) 0xC00.
Proof.
  destruct (ARINC429_GetLatestLabelData ahr75_status_received
              (FormatLabelNumber 271) RxMsgData_init 1200)
    as [[st d]|] eqn:Hget; [|vm_compute in Hget; discriminate].
  assert (st = ARINC429_GET_LABEL_DATA_MSG_SUCCESS) as ->
    by (vm_compute in Hget; by injection Hget as <- _).
  destruct (label272_composition ahr75_status_received RxMsgData_init d
              1200 0x0000059D Hget)
    as (W & HW & Hval & _).
  - vm_compute in Hget. by injection Hget as <-.
  - vm_compute in Hget. by injection Hget as <-.
  - vm_compute in Hget. by injection Hget as <-.
  - vm_compute in Hget. by injection Hget as <-.
  - vm_compute. discriminate.
  - exists W. split; [exact HW|exact Hval].
Defined.

(** ** The software-version generator *)

Lemma SWVer_table_lookup t (s c : Z) :
  SWVer_table_ok t -> 0 <= s < 3 -> 0 <= c < 16 ->
  exists row byte,
    t !! Z.to_nat s = Some row /\ row !! Z.to_nat c = Some byte.
Proof.
  intros [Hlen Hrows] Hs Hc.
  unfold NUM_AFC004_SCI, NUM_BYTES_PER_SCI_VERSION in *.
  destruct (lookup_lt_is_Some_2 t (Z.to_nat s)) as [row Hrow]; [lia|].
  pose proof (Forall_lookup_1 _ _ _ _ Hrows Hrow) as Hr. cbn in Hr.
  destruct (lookup_lt_is_Some_2 row (Z.to_nat c)) as [byte Hbyte]; [lia|].
  by exists row, byte.
Qed.

Lemma subsystemVersionArray_lookup (s : Z) :
  0 <= s < 3 -> exists subSys, subsystemVersionArray !! Z.to_nat s = Some subSys.
Proof.
  intros Hs. apply lookup_lt_is_Some_2. cbn. lia.
Qed.

(** One call from indices in range. *)
Lemma SWVer_GetNextVersionARINCMsg_step st sdi :
  SWVer_table_ok (swVersions st) ->
  0 <= msg_idx st < MAX_MSG_IDX_VALUE ->
  0 <= sys_idx st < MAX_SYS_IDX_VALUE ->
  exists st1 row byte subSys,
    SWVer_GetNextVersionARINCMsg st sdi
    = Some (st1, SWVer_word sdi subSys (msg_idx st) byte)
    /\ swVersions st !! Z.to_nat (sys_idx st) = Some row
    /\ row !! Z.to_nat (msg_idx st) = Some byte
    /\ subsystemVersionArray !! Z.to_nat (sys_idx st) = Some subSys
    /\ swVersions st1 = swVersions st
    /\ msg_idx st1
       = (if MAX_MSG_IDX_VALUE =? msg_idx st + 1 then 0 else msg_idx st + 1)
    /\ sys_idx st1
       = (if MAX_MSG_IDX_VALUE =? msg_idx st + 1
          then if sys_idx st + 1 =? MAX_SYS_IDX_VALUE then 0
               else sys_idx st + 1
          else sys_idx st).
Proof.
  intros Ht Hm Hs. unfold MAX_MSG_IDX_VALUE, MAX_SYS_IDX_VALUE in *.
  destruct (SWVer_table_lookup _ _ _ Ht Hs Hm) as (row & byte & Hrow & Hbyte).
  destruct (subsystemVersionArray_lookup _ Hs) as (subSys & Hsub).
  unfold SWVer_GetNextVersionARINCMsg. rewrite Hsub, Hrow, Hbyte.
  unfold MAX_MSG_IDX_VALUE, MAX_SYS_IDX_VALUE.
  destruct (16 =? msg_idx st + 1) eqn:E.
  - eexists _, row, byte, subSys. repeat split; done.
  - eexists _, row, byte, subSys. repeat split; done.
Qed.

(** C10: each call of SWVer_GetNextVersionARINCMsg advances [msg_idx];
    at 16 it returns to 0 and [sys_idx] advances; at 3 [sys_idx] returns to
    0.  From indices in range ([0 <= msg_idx < 16], [0 <= sys_idx < 3]),
    every number of calls is defined, leaves [msg_idx] in [0,15] and
    [sys_idx] in [0,2], and the word of call [k] carries the byte of the
    3 x 16 table at the position [k] places after the first one, the
    positions being taken row by row and cyclically. *)
Theorem SWVer_indices_walk_table (st : SWVerState) (sdi : Z) (n : nat) :
  SWVer_table_ok (swVersions st) ->
  0 <= msg_idx st < MAX_MSG_IDX_VALUE ->
  0 <= sys_idx st < MAX_SYS_IDX_VALUE ->
  let p := sys_idx st * 16 + msg_idx st in
  (exists st1 w1,
     SWVer_GetNextVersionARINCMsg st sdi = Some (st1, w1)
     /\ msg_idx st1
        = (if MAX_MSG_IDX_VALUE =? msg_idx st + 1 then 0
           else msg_idx st + 1)
     /\ sys_idx st1
        = (if MAX_MSG_IDX_VALUE =? msg_idx st + 1
           then if sys_idx st + 1 =? MAX_SYS_IDX_VALUE then 0
                else sys_idx st + 1
           else sys_idx st))
  /\ exists st' ws,
       SWVer_calls n st sdi = Some (st', ws)
       /\ length ws = n
       /\ swVersions st' = swVersions st
       /\ msg_idx st' = (p + Z.of_nat n) mod 16
       /\ sys_idx st' = ((p + Z.of_nat n) / 16) mod 3
       /\ 0 <= msg_idx st' <= 15
       /\ 0 <= sys_idx st' <= 2
       /\ forall (k : nat) (w : Z),
            ws !! k = Some w ->
            exists row byte subSys,
              swVersions st !! Z.to_nat (((p + Z.of_nat k) / 16) mod 3)
              = Some row
              /\ row !! Z.to_nat ((p + Z.of_nat k) mod 16) = Some byte
              /\ subsystemVersionArray
                   !! Z.to_nat (((p + Z.of_nat k) / 16) mod 3)
                 = Some subSys
              /\ w = SWVer_word sdi subSys ((p + Z.of_nat k) mod 16) byte.
Proof.
  intros Ht Hm Hs p. split.
  { destruct (SWVer_GetNextVersionARINCMsg_step st sdi Ht Hm Hs)
      as (st1 & row & byte & subSys & H & _ & _ & _ & _ & Hm1 & Hs1).
    by eexists st1, _. }
  subst p. revert st Ht Hm Hs.
  induction n as [|n IH]; intros st Ht Hm Hs;
    unfold MAX_MSG_IDX_VALUE, MAX_SYS_IDX_VALUE in *.
  - exists st, []. cbn [SWVer_calls length].
    replace (sys_idx st * 16 + msg_idx st + Z.of_nat 0)
      with (msg_idx st + sys_idx st * 16) by lia.
    rewrite Z.mod_add, Z.div_add by lia.
    rewrite (Z.mod_small (msg_idx st)), (Z.div_small (msg_idx st)) by lia.
    rewrite Z.mod_small by lia.
    repeat split; try done; try lia.
  - destruct (SWVer_GetNextVersionARINCMsg_step st sdi Ht Hm Hs)
      as (st1 & row & byte & subSys & H & Hrow & Hbyte & Hsub & Ht1 & Hm1
          & Hs1).
    unfold MAX_MSG_IDX_VALUE, MAX_SYS_IDX_VALUE in *.
    assert (0 <= msg_idx st1 < 16 /\ 0 <= sys_idx st1 < 3
            /\ exists q, sys_idx st1 * 16 + msg_idx st1
                         = sys_idx st * 16 + msg_idx st + 1 - 48 * q)
      as (Hm1' & Hs1' & q & Hq).
    { rewrite Hm1, Hs1.
      destruct (16 =? msg_idx st + 1) eqn:E;
        [apply Z.eqb_eq in E|apply Z.eqb_neq in E].
      - destruct (sys_idx st + 1 =? 3) eqn:E3;
          [apply Z.eqb_eq in E3|apply Z.eqb_neq in E3].
        + repeat split; try lia. exists 1. lia.
        + repeat split; try lia. exists 0. lia.
      - repeat split; try lia. exists 0. lia. }
    rewrite <- Ht1 in Ht.
    destruct (IH st1 Ht Hm1' Hs1')
      as (st' & ws & Hcalls & Hlen & Ht' & Hm' & Hs' & Hmr & Hsr & Hws).
    exists st', (SWVer_word sdi subSys (msg_idx st) byte :: ws).
    cbn [SWVer_calls]. rewrite H, Hcalls.
    assert (forall k : Z,
              (sys_idx st1 * 16 + msg_idx st1 + k) mod 16
              = (sys_idx st * 16 + msg_idx st + (k + 1)) mod 16
              /\ ((sys_idx st1 * 16 + msg_idx st1 + k) / 16) mod 3
                 = ((sys_idx st * 16 + msg_idx st + (k + 1)) / 16) mod 3)
      as Hshift.
    { intros k. rewrite Hq.
      replace (sys_idx st * 16 + msg_idx st + 1 - 48 * q + k)
        with (sys_idx st * 16 + msg_idx st + (k + 1) + (- (3 * q)) * 16)
        by lia.
      rewrite Z.mod_add, Z.div_add by lia. split; [done|].
      replace ((sys_idx st * 16 + msg_idx st + (k + 1)) / 16 + - (3 * q))
        with ((sys_idx st * 16 + msg_idx st + (k + 1)) / 16 + (- q) * 3)
        by lia.
      by rewrite Z.mod_add by lia. }
    destruct (Hshift (Z.of_nat n)) as [Hs16 Hs3].
    replace (Z.of_nat (S n)) with (Z.of_nat n + 1) by lia.
    split; [done|]. split; [cbn; lia|]. split; [congruence|].
    split; [congruence|]. split; [congruence|].
    split; [done|]. split; [done|].
    intros [|k] w Hk.
    + cbn in Hk. injection Hk as <-.
      replace (sys_idx st * 16 + msg_idx st + Z.of_nat 0)
        with (msg_idx st + sys_idx st * 16) by lia.
      rewrite Z.mod_add, Z.div_add by lia.
      rewrite (Z.mod_small (msg_idx st)), (Z.div_small (msg_idx st)) by lia.
      rewrite Z.mod_small by lia.
      by exists row, byte, subSys.
    + cbn in Hk. destruct (Hws k w Hk) as (row' & byte' & subSys' & Hr').
      destruct (Hshift (Z.of_nat k)) as [Hk16 Hk3].
      replace (Z.of_nat (S k)) with (Z.of_nat k + 1) by lia.
      rewrite <- Hk16, <- Hk3, <- Ht1.
      by exists row', byte', subSys'.
Qed.

Lemma SWVer_indices_walk_table_witness :
  exists st' ws,
    SWVer_calls 50 (mkSWVerState SWVer_sample_table 14 2) 1 = Some (st', ws)
    /\ msg_idx st' = 0
    /\ sys_idx st' = 0.
Proof.
  destruct (proj2 (SWVer_indices_walk_table
                     (mkSWVerState SWVer_sample_table 14 2) 1 50
                     ltac:(split; [reflexivity|repeat constructor])
                     ltac:(cbn; unfold MAX_MSG_IDX_VALUE; lia)
                     ltac:(cbn; unfold MAX_SYS_IDX_VALUE; lia)))
    as (st' & ws & H & _ & _ & Hm & Hs & _).
  exists st', ws. split; [exact H|]. split; [exact Hm|exact Hs].
Defined.

(** ** Bit fields *)

Lemma shr32_UINT32_MAX k :
  0 <= k <= 32 -> shr32 UINT32_MAX k = Z.ones (32 - k).
Proof.
  intros Hk. unfold shr32. change UINT32_MAX with (Z.ones 32).
  apply Z.bits_inj'. intros i Hi.
  rewrite Z.shiftr_spec, !Z.testbit_ones_nonneg by lia.
  destruct (Z.ltb_spec (i + k) 32), (Z.ltb_spec i (32 - k)); lia || done.
Qed.

Lemma shl32_UINT32_MAX n :
  0 <= n <= 32 -> shl32 UINT32_MAX n = Z.shiftl (Z.ones (32 - n)) n.
Proof.
  intros Hn. unfold shl32. change UINT32_MAX with (Z.ones 32).
  apply Z.bits_inj'. intros i Hi.
  rewrite testbit_wrap32, !Z.shiftl_spec by lia.
  destruct (Z.ltb_spec i 32), (Z.le_gt_cases n i).
  - rewrite !Z.testbit_ones_nonneg by lia.
    destruct (Z.ltb_spec (i - n) 32), (Z.ltb_spec (i - n) (32 - n));
      lia || done.
  - rewrite !Z.testbit_neg_r by lia. done.
  - rewrite (Z.testbit_ones_nonneg (32 - n)) by lia.
    destruct (Z.ltb_spec (i - n) (32 - n)); lia || done.
  - rewrite !Z.testbit_neg_r by lia. done.
Qed.

(** Masking with the bits from [n] upward clears the low [n] bits. *)
Lemma land_high_mask u n :
  0 <= u < 2 ^ 32 -> 0 <= n <= 32 ->
  Z.land u (shl32 UINT32_MAX n) = u / 2 ^ n * 2 ^ n.
Proof.
  intros Hu Hn. rewrite shl32_UINT32_MAX by done.
  rewrite <- Z.shiftl_mul_pow2, <- Z.shiftr_div_pow2 by lia.
  apply Z.bits_inj'. intros i Hi.
  rewrite Z.land_spec, !Z.shiftl_spec by lia.
  destruct (Z.le_gt_cases n i).
  - rewrite Z.shiftr_spec, Z.testbit_ones_nonneg by lia.
    replace (i - n + n) with i by lia.
    destruct (Z.ltb_spec (i - n) (32 - n)).
    + apply andb_true_r.
    + rewrite andb_false_r. symmetry. apply (testbit_small u 32 i Hu). lia.
  - rewrite !(Z.testbit_neg_r _ (i - n)) by lia. apply andb_false_r.
Qed.

Lemma wrap32_int32 v :
  INT32_MIN <= v <= INT32_MAX ->
  wrap32 v = if v <? 0 then v + 2 ^ 32 else v.
Proof.
  unfold INT32_MIN, INT32_MAX, wrap32. intros Hv.
  destruct (Z.ltb_spec v 0).
  - symmetry. apply (Z.mod_unique _ _ (-1)); lia.
  - apply Z.mod_small. lia.
Qed.

(** ** BNR encoding: overflow *)

Ltac enum_numSigBits n :=
  let H := fresh in
  assert (n = 1 \/ n = 2 \/ n = 3 \/ n = 4 \/ n = 5 \/ n = 6 \/ n = 7
          \/ n = 8 \/ n = 9 \/ n = 10 \/ n = 11 \/ n = 12 \/ n = 13
          \/ n = 14 \/ n = 15 \/ n = 16 \/ n = 17 \/ n = 18 \/ n = 19
          \/ n = 20) as H by lia;
  repeat (destruct H as [H|H]; [subst n|]); [..|subst n].

Lemma BNR_limitDataField_spec n v :
  1 <= n <= 20 -> INT32_MIN <= v <= INT32_MAX ->
  BNR_limitDataField n (wrap32 v)
  = if BNR_fits n v then (wrap32 v, false)
    else if v <? 0 then (2 ^ n, true) else (2 ^ n - 1, true).
Proof.
  intros Hn Hv. unfold BNR_limitDataField, BNR_fits.
  change INT32_SIGN_BIT_MASK with (shl32 UINT32_MAX 31).
  rewrite !land_high_mask by (lia || apply wrap32_range).
  rewrite shr32_UINT32_MAX by (unfold NUM_BITS_IN_UINT32; lia).
  rewrite Z.shiftl_1_l, Z.ones_equiv.
  replace (32 - (NUM_BITS_IN_UINT32 - n)) with n
    by (unfold NUM_BITS_IN_UINT32; lia).
  rewrite wrap32_int32 by done.
  unfold INT32_MIN, INT32_MAX in Hv.
  enum_numSigBits n;
    repeat match goal with
      | |- context [shl32 UINT32_MAX ?k] =>
          let c := eval vm_compute in (shl32 UINT32_MAX k) in
          change (shl32 UINT32_MAX k) with c
      end;
    cbn;
    repeat match goal with
      | |- context [Z.eqb ?x ?y] => destruct (Z.eqb_spec x y)
      | |- context [Z.ltb ?x ?y] => destruct (Z.ltb_spec x y)
      | |- context [Z.leb ?x ?y] => destruct (Z.leb_spec x y)
      end; cbn; try reflexivity;
    exfalso; Z.to_euclidean_division_equations; lia.
Qed.

Lemma cast_int32_range x z :
  cast_int32 x = Some z -> INT32_MIN <= z <= INT32_MAX.
Proof.
  unfold cast_int32. destruct (Ftrunc x) as [t|]; [|discriminate].
  destruct ((INT32_MIN <=? t) && (t <=? INT32_MAX)) eqn:E; [|discriminate].
  intros [= <-]. apply andb_true_iff in E. destruct E as [E1 E2].
  apply Z.leb_le in E1, E2. done.
Qed.

Lemma BNR_calcValueAsInt_range res eng v :
  BNR_calcValueAsInt res eng = Some v -> INT32_MIN <= v <= INT32_MAX.
Proof. unfold BNR_calcValueAsInt. apply cast_int32_range. Qed.

Lemma BNR_ConvertEngValToRawBNRmsgData_spec n res eng v r0 c0 :
  1 <= n <= 20 ->
  BNR_calcValueAsInt res eng = Some v ->
  ARINC429_BNR_ConvertEngValToRawBNRmsgData n res eng r0 c0
  = Some (EXIT_SUCCESS,
          if BNR_fits n v then wrap32 v
          else if v <? 0 then 2 ^ n else 2 ^ n - 1,
          negb (BNR_fits n v)).
Proof.
  intros Hn Hv. unfold ARINC429_BNR_ConvertEngValToRawBNRmsgData.
  unfold ARINC429_BNR_STD_MSG_MAX_NUM_SIGBITS.
  destruct (Z.ltb_spec n 1); [lia|]. destruct (Z.ltb_spec 20 n); [lia|].
  cbn [orb]. rewrite Hv.
  rewrite BNR_limitDataField_spec
    by (done || by apply BNR_calcValueAsInt_range in Hv).
  destruct (BNR_fits n v); [done|]. by destruct (v <? 0).
Qed.

Lemma BNR_field_value_clip n v :
  1 <= n <= 20 -> INT32_MIN <= v <= INT32_MAX ->
  BNR_field_value n
    (if BNR_fits n v then wrap32 v
     else if v <? 0 then 2 ^ n else 2 ^ n - 1)
  = BNR_clip n v.
Proof.
  intros Hn Hv. unfold BNR_field_value, BNR_clip, BNR_fits.
  rewrite wrap32_int32 by done. unfold INT32_MIN, INT32_MAX in Hv.
  enum_numSigBits n; cbn;
    repeat match goal with
      | |- context [Z.ltb ?x ?y] => destruct (Z.ltb_spec x y)
      | |- context [Z.leb ?x ?y] => destruct (Z.leb_spec x y)
      end; cbn in *; Z.to_euclidean_division_equations; lia.
Qed.

Lemma format_discreteBits_defined nd bits :
  nd <= NUM_BITS_IN_UINT32 -> is_Some (format_discreteBits nd bits).
Proof.
  intros Hnd. unfold format_discreteBits, shift_ok, NUM_BITS_IN_UINT32 in *.
  destruct (Z.ltb_spec 0 nd); [|done].
  destruct (Z.leb_spec 0 (32 - nd)); [|lia].
  destruct (Z.ltb_spec (32 - nd) 32); [|lia]. done.
Qed.

(** C3: for a BNR label with 1 to 20 significant bits, when the scaled
    value of the engineering value does not fit in the significant bits
    and the sign, the conversion returns the extreme value of the field of
    the same sign (the field reads as the scaled value limited to
    [-2^n, 2^n - 1], not as a wrapped value) with the clipped flag set, and
    ARINC429_AssembleStdBNRmessage returns
    [ARINC429_WRITE_MSG_SENT_DATA_CLIPPED]; when the scaled value fits, the
    flag is clear and the status is [ARINC429_WRITE_MSG_SUCCESS]. *)
Theorem BNR_overflow_is_clipping (txMsg : ARINC429_TxMsg) (w0 v : Z) :
  let cfg := tx_msgConfig txMsg in
  let n := numSigBits cfg in
  1 <= n <= ARINC429_BNR_STD_MSG_MAX_NUM_SIGBITS ->
  numDiscreteBits cfg <= NUM_BITS_IN_UINT32 ->
  BNR_calcValueAsInt (resolution cfg) (tx_engData txMsg) = Some v ->
  exists field W,
    ARINC429_BNR_ConvertEngValToRawBNRmsgData n (resolution cfg)
      (tx_engData txMsg) 0 false
    = Some (EXIT_SUCCESS, field, negb (BNR_fits n v))
    /\ field = (if BNR_fits n v then wrap32 v
                else if v <? 0 then 2 ^ n else 2 ^ n - 1)
    /\ BNR_field_value n field = BNR_clip n v
    /\ ARINC429_AssembleStdBNRmessage txMsg w0
       = Some (if BNR_fits n v then ARINC429_WRITE_MSG_SUCCESS
               else ARINC429_WRITE_MSG_SENT_DATA_CLIPPED, W).
Proof.
  intros cfg n Hn Hnd Hv.
  unfold ARINC429_BNR_STD_MSG_MAX_NUM_SIGBITS in Hn.
  pose proof (BNR_calcValueAsInt_range _ _ _ Hv) as Hr.
  pose proof (BNR_ConvertEngValToRawBNRmsgData_spec n _ _ v 0 false Hn Hv)
    as Hconv.
  destruct (format_discreteBits_defined _ (tx_discreteBits txMsg) Hnd)
    as [disc Hdisc].
  assert (exists W,
            ARINC429_AssembleStdBNRmessage txMsg w0
            = Some (if BNR_fits n v then ARINC429_WRITE_MSG_SUCCESS
                    else ARINC429_WRITE_MSG_SENT_DATA_CLIPPED, W))
    as [W HW].
  { unfold ARINC429_AssembleStdBNRmessage. fold cfg. fold n.
    rewrite Hconv. cbn [Z.eqb EXIT_SUCCESS EXIT_FAILURE]. rewrite Hdisc.
    destruct (BNR_fits n v); eexists; reflexivity. }
  eexists _, W. split; [exact Hconv|]. split; [reflexivity|].
  split; [by apply BNR_field_value_clip|exact HW].
Qed.

Lemma BNR_overflow_is_clipping_witness :
  exists W,
    ARINC429_AssembleStdBNRmessage
      (mkTxMsg arincLabel250Config ARINC429_SSM_BNR_NORMAL_OPERATION 1
         (F32.of_Z (-500)) 0) 0
    = Some (ARINC429_WRITE_MSG_SENT_DATA_CLIPPED, W)
    /\ BNR_clip 12 (-11378) = -4096.
Proof.
  destruct (BNR_overflow_is_clipping
              (mkTxMsg arincLabel250Config ARINC429_SSM_BNR_NORMAL_OPERATION
                 1 (F32.of_Z (-500)) 0) 0 (-11378))
    as (field & W & _ & _ & _ & HW).
  - cbn. unfold ARINC429_BNR_STD_MSG_MAX_NUM_SIGBITS. lia.
  - cbn. unfold NUM_BITS_IN_UINT32. lia.
  - vm_compute. reflexivity.
  - exists W. split; [exact HW|reflexivity].
Defined.

(** ** Floating point: results that are numbers *)

Lemma shr_1_nonneg mrs : 0 <= shr_m mrs -> 0 <= shr_m (shr_1 mrs).
Proof.
  destruct mrs as [m r s]. cbn.
  destruct m as [|[p|p|]|[p|p|]]; cbn; lia.
Qed.

Lemma iter_pos_shr_1_nonneg p :
  forall mrs, 0 <= shr_m mrs -> 0 <= shr_m (SpecFloat.iter_pos shr_1 p mrs).
Proof.
  induction p as [p IH|p IH|]; intros mrs H; cbn.
  - apply IH, IH. by apply shr_1_nonneg.
  - by apply IH, IH.
  - by apply shr_1_nonneg.
Qed.

Lemma shr_fexp_nonneg prec emax m e l :
  0 <= m -> 0 <= shr_m (fst (shr_fexp prec emax m e l)).
Proof.
  intros Hm. unfold shr_fexp, shr.
  assert (0 <= shr_m (shr_record_of_loc m l)) as H0
    by (by destruct l as [|[]]).
  destruct (_ - e) as [|p|p]; cbn; try done.
  by apply iter_pos_shr_1_nonneg.
Qed.

Lemma round_nearest_even_nonneg m l :
  0 <= m -> 0 <= round_nearest_even m l.
Proof.
  intros Hm. unfold round_nearest_even.
  destruct l as [|[]]; try lia. destruct (Z.even m); lia.
Qed.

Lemma binary_round_aux_not_nan prec emax s m e l :
  0 <= m -> binary_round_aux prec emax s m e l <> S754_nan.
Proof.
  intros Hm. unfold binary_round_aux.
  pose proof (shr_fexp_nonneg prec emax m e l Hm) as H1.
  destruct (shr_fexp prec emax m e l) as [mrs' e'].
  cbn [fst] in H1.
  pose proof (shr_fexp_nonneg prec emax
                (round_nearest_even (shr_m mrs') (loc_of_shr_record mrs'))
                e' loc_Exact (round_nearest_even_nonneg _ _ H1)) as H2.
  destruct (shr_fexp prec emax _ e' loc_Exact) as [mrs'' e''].
  cbn [fst] in H2.
  destruct (shr_m mrs'') as [|p|p]; [done| |lia].
  by destruct (e'' <=? emax - prec).
Qed.

Lemma binary_normalize_not_nan prec emax m e sz :
  binary_normalize prec emax m e sz <> S754_nan.
Proof.
  unfold binary_normalize, binary_round.
  destruct m as [|p|p]; [done| |].
  - destruct (shl_align _ _ _). by apply binary_round_aux_not_nan.
  - destruct (shl_align _ _ _). by apply binary_round_aux_not_nan.
Qed.

Lemma SFadd_finite_not_nan prec emax x s m e :
  x <> S754_nan -> SFadd prec emax x (S754_finite s m e) <> S754_nan.
Proof.
  intros Hx. destruct x as [sx|sx| |sx mx ex]; cbn; try done.
  apply binary_normalize_not_nan.
Qed.

Lemma SFsub_finite_not_nan prec emax x s m e :
  x <> S754_nan -> SFsub prec emax x (S754_finite s m e) <> S754_nan.
Proof.
  intros Hx. destruct x as [sx|sx| |sx mx ex]; cbn; try done.
  apply binary_normalize_not_nan.
Qed.

Lemma SFdiv_finite_not_nan prec emax x s m e :
  x <> S754_nan -> SFdiv prec emax x (S754_finite s m e) <> S754_nan.
Proof.
  intros Hx. destruct x as [sx|sx| |sx mx ex]; cbn -[SFdiv_core_binary];
    try done.
  destruct (SFdiv_core_binary prec emax (Z.pos mx) ex (Z.pos m) e)
    as [[q e'] l] eqn:Hd.
  apply binary_round_aux_not_nan.
  unfold SFdiv_core_binary in Hd.
  match type of Hd with
  | context [Z.div_eucl ?a ?b] =>
      pose proof (Z_div_mod a b ltac:(lia)) as Hdm;
      assert (0 <= a) as Ha;
      [|destruct (Z.div_eucl a b) as [q0 r0]]
  end.
  - destruct (ex - e - _) as [|p|p]; try lia.
    apply Z.shiftl_nonneg. lia.
  - injection Hd as <- _ _. destruct Hdm as [Heq Hr]. nia.
Qed.

(** ** Floating point: comparison and truncation *)

(** A positive value [m * 2^e] that is not above the integer [H], both
    aligned as [Fcompare] aligns them, truncates to at most [H]. *)
Lemma trunc_le_of_aligned (m : positive) (e mh eh H : Z) :
  eh <= 0 -> mh = H * 2 ^ (- eh) ->
  Z.pos m * 2 ^ (e - Z.min e eh) <= mh * 2 ^ (eh - Z.min e eh) ->
  (if 0 <=? e then Z.pos m * 2 ^ e else Z.pos m / 2 ^ (- e)) <= H.
Proof.
  intros Heh -> Hle.
  destruct (Z.leb_spec 0 e).
  - rewrite Z.min_r in Hle by lia.
    replace (eh - eh) with 0 in Hle by lia.
    replace (e - eh) with (e + - eh) in Hle by lia.
    rewrite Z.pow_add_r, Z.pow_0_r in Hle by lia.
    assert (0 < 2 ^ (- eh)) by (apply Z.pow_pos_nonneg; lia).
    assert (0 < 2 ^ e) by (apply Z.pow_pos_nonneg; lia).
    nia.
  - assert (0 < 2 ^ (- e)) by (apply Z.pow_pos_nonneg; lia).
    apply Z.div_le_upper_bound; [lia|].
    destruct (Z.le_gt_cases eh e).
    + rewrite Z.min_r in Hle by lia.
      replace (eh - eh) with 0 in Hle by lia.
      rewrite Z.pow_0_r in Hle.
      replace (- eh) with (- e + (e - eh)) in Hle by lia.
      rewrite Z.pow_add_r in Hle by lia.
      assert (0 < 2 ^ (e - eh)) by (apply Z.pow_pos_nonneg; lia).
      nia.
    + rewrite Z.min_l in Hle by lia.
      replace (e - e) with 0 in Hle by lia.
      rewrite Z.pow_0_r in Hle.
      replace (- e) with (- eh + (eh - e)) by lia.
      rewrite Z.pow_add_r by lia.
      assert (0 < 2 ^ (eh - e)) by (apply Z.pow_pos_nonneg; lia).
      nia.
Qed.

Lemma Ftrunc_nonneg_pos m e :
  0 <= (if 0 <=? e then Z.pos m * 2 ^ e else Z.pos m / 2 ^ (- e)).
Proof.
  destruct (Z.leb_spec 0 e).
  - assert (0 < 2 ^ e) by (apply Z.pow_pos_nonneg; lia). lia.
  - apply Z.div_pos; [lia|]. apply Z.pow_pos_nonneg; lia.
Qed.

(** After [clamp], the conversion to [int32_t] is defined for every value
    that is a number. *)
Lemma cast_int32_clamp_defined x :
  x <> S754_nan -> is_Some (cast_int32 (clamp x INT32_MIN INT32_MAX)).
Proof.
  intros Hx. unfold clamp.
  set (hi := F64.of_Z INT32_MAX). set (lo := F64.of_Z INT32_MIN).
  assert (hi = S754_finite false 9007199250546688 (-22)) as Hhi
    by (vm_compute; reflexivity).
  assert (lo = S754_finite true 4503599627370496 (-21)) as Hlo
    by (vm_compute; reflexivity).
  destruct (Fgt x hi) eqn:Hgt; [rewrite Hhi; vm_compute; eauto|].
  destruct (Flt x lo) eqn:Hlt; [rewrite Hlo; vm_compute; eauto|].
  destruct x as [s|s| |s m e]; [vm_compute; eauto| |done|].
  - exfalso. rewrite Hhi in Hgt. rewrite Hlo in Hlt.
    destruct s; [vm_compute in Hlt|vm_compute in Hgt]; discriminate.
  - unfold cast_int32, Ftrunc.
    set (t := if 0 <=? e then Z.pos m * 2 ^ e else Z.pos m / 2 ^ (- e)).
    pose proof (Ftrunc_nonneg_pos m e) as Ht0. fold t in Ht0.
    assert (INT32_MIN <= (if s then - t else t) <= INT32_MAX) as Hr.
    { unfold INT32_MIN, INT32_MAX.
      destruct s.
      - (* negative: compare with the lower bound *)
        rewrite Hlo in Hlt. unfold Flt, Fcompare, Fnum in Hlt.
        assert (t <= 2147483648); [|lia].
        apply (trunc_le_of_aligned m e 4503599627370496 (-21));
          [lia|reflexivity|].
        destruct (Z.compare_spec
                    (Z.neg m * 2 ^ (e - Z.min e (-21)))
                    (-4503599627370496 * 2 ^ (-21 - Z.min e (-21))))
          as [Heq|Hl|Hg]; try discriminate; lia.
      - rewrite Hhi in Hgt. unfold Fgt, Fcompare, Fnum in Hgt.
        assert (t <= 2147483647); [|lia].
        apply (trunc_le_of_aligned m e 9007199250546688 (-22));
          [lia|reflexivity|].
        destruct (Z.compare_spec
                    (Z.pos m * 2 ^ (e - Z.min e (-22)))
                    (9007199250546688 * 2 ^ (-22 - Z.min e (-22))))
          as [Heq|Hl|Hg]; try discriminate; lia. }
    destruct Hr as [Hr1 Hr2].
    apply Z.leb_le in Hr1, Hr2. rewrite Hr1, Hr2. cbn. eauto.
Qed.

Lemma BNR_calcValueAsInt_defined res eng :
  (if Fne res Fzero then F32.div eng res else Fzero) <> S754_nan ->
  is_Some (BNR_calcValueAsInt res eng).
Proof.
  intros H. unfold BNR_calcValueAsInt.
  apply cast_int32_clamp_defined.
  unfold F64.add, F64.of_float.
  destruct (Flt _ Fzero); by apply SFadd_finite_not_nan.
Qed.

(** ** BNR: the data field on the wire *)

Ltac split_cmp :=
  repeat match goal with
    | |- context [Z.ltb ?x ?y] => destruct (Z.ltb_spec x y)
    | |- context [Z.leb ?x ?y] => destruct (Z.leb_spec x y)
    | |- context [Z.eqb ?x ?y] => destruct (Z.eqb_spec x y)
    end.

Lemma testbit_shl32 a n i :
  0 <= i -> Z.testbit (shl32 a n) i = (i <? 32) && Z.testbit a (i - n).
Proof.
  intros Hi. unfold shl32. by rewrite testbit_wrap32, Z.shiftl_spec by lia.
Qed.

Lemma testbit_mask_shifted k t j :
  0 <= k -> 0 <= j ->
  Z.testbit (Z.shiftl (Z.ones k) t) j = (t <=? j) && (j - t <? k).
Proof.
  intros Hk Hj. rewrite Z.shiftl_spec, Z.testbit_ones by lia.
  split_cmp; lia || done.
Qed.

Lemma format_discreteBits_bits n nd bits disc j :
  (nd <= 0 \/ n + nd <= 18) ->
  format_discreteBits nd bits = Some disc ->
  0 <= j -> j < 10 \/ 28 - n <= j ->
  Z.testbit disc j = false.
Proof.
  unfold format_discreteBits, shift_ok, NUM_BITS_IN_UINT32,
    ARINC429_BNR_BCD_MSG_DISCRETE_BITS_SHIFT_VAL.
  intros Hnd H Hj Hout.
  destruct (Z.ltb_spec 0 nd); [|injection H as <-; apply Z.bits_0].
  destruct ((0 <=? 32 - nd) && (32 - nd <? 32)) eqn:E; [|discriminate].
  injection H as <-.
  apply andb_true_iff in E. destruct E as [E1 E2].
  apply Z.leb_le in E1. apply Z.ltb_lt in E2.
  rewrite testbit_shl32, Z.land_spec, shr32_UINT32_MAX by lia.
  destruct (Z.le_gt_cases 10 j).
  - rewrite Z.testbit_ones_nonneg by lia.
    replace (32 - (32 - nd)) with nd by lia.
    destruct (Z.ltb_spec (j - 10) nd); [lia|].
    by rewrite andb_false_r, andb_false_r.
  - rewrite (Z.testbit_neg_r _ (j - 10)) by lia.
    by rewrite andb_false_l, andb_false_r.
Qed.

(** The word assembled by ARINC429_AssembleStdBNRmessage, from its
    parts. *)
Lemma BNR_word_data_field n lbl field disc sdi sm :
  1 <= n <= 20 -> 0 <= lbl < 256 ->
  (forall j, 0 <= j -> j < 10 \/ 28 - n <= j -> Z.testbit disc j = false) ->
  let shifted := shl32 field (ARINC429_BNR_MAX_DATA_FIELD_SHIFT - n) in
  let shifted :=
    if ARINC429_BNR_STD_MSG_NUM_SIGBITS_20 =? n
    then Z.land shifted ARINC429_BNR_STD_MSG_DATAFIELDMASK_20SIGBITS
    else if ARINC429_BNR_STD_MSG_NUM_SIGBITS_19 =? n
    then Z.land shifted ARINC429_BNR_STD_MSG_DATAFIELDMASK_19SIGBITS
    else Z.land shifted ARINC429_BNR_STD_MSG_DATAFIELDMASK_UPTO18SIGBITS in
  let X := Z.lor (Z.lor lbl shifted) disc in
  let Y :=
    if n <=? ARINC429_BNR_STD_MSG_NUM_SIGBITS_18
    then Z.lor X (Z.shiftl (Z.land sdi ARINC429_SDI_FIELD_LIMIT_MASK)
                           ARINC429_SDI_FIELD_SHIFT_VAL)
    else X in
  let W := Z.lor Y (shl32 (Z.land sm ARINC429_SSM_FIELD_LIMIT_MASK)
                          ARINC429_SSM_FIELD_SHIFT_VAL) in
  Z.land (shr32 W (ARINC429_BNR_MAX_DATA_FIELD_SHIFT - n))
         (shr32 UINT32_MAX (NUM_BITS_IN_UINT32 - n - 1))
  = field mod 2 ^ (n + 1).
Proof.
  intros Hn Hl Hdisc.
  unfold ARINC429_BNR_MAX_DATA_FIELD_SHIFT, NUM_BITS_IN_UINT32,
    ARINC429_BNR_STD_MSG_NUM_SIGBITS_20, ARINC429_BNR_STD_MSG_NUM_SIGBITS_19,
    ARINC429_BNR_STD_MSG_NUM_SIGBITS_18, ARINC429_SDI_FIELD_LIMIT_MASK,
    ARINC429_SDI_FIELD_SHIFT_VAL, ARINC429_SSM_FIELD_LIMIT_MASK,
    ARINC429_SSM_FIELD_SHIFT_VAL.
  change ARINC429_BNR_STD_MSG_DATAFIELDMASK_20SIGBITS
    with (Z.shiftl (Z.ones 21) 8).
  change ARINC429_BNR_STD_MSG_DATAFIELDMASK_19SIGBITS
    with (Z.shiftl (Z.ones 20) 9).
  change ARINC429_BNR_STD_MSG_DATAFIELDMASK_UPTO18SIGBITS
    with (Z.shiftl (Z.ones 19) 10).
  cbv zeta.
  rewrite shr32_UINT32_MAX by lia.
  replace (32 - (32 - n - 1)) with (n + 1) by lia.
  apply Z.bits_inj'. intros i Hi.
  rewrite Z.land_spec, Z.testbit_ones_nonneg, Z.testbit_mod_pow2 by lia.
  unfold shr32. rewrite Z.shiftr_spec by lia.
  destruct (Z.ltb_spec i (n + 1)); [|by rewrite andb_false_r].
  rewrite andb_true_r, andb_true_l.
  rewrite Z.lor_spec, testbit_shl32 by lia.
  rewrite (Z.testbit_neg_r _ (i + (28 - n) - 29)) by lia.
  rewrite andb_false_r, orb_false_r.
  assert (Z.testbit lbl (i + (28 - n)) = false) as Hlbl
    by (apply (testbit_small lbl 8); lia).
  assert (Z.testbit disc (i + (28 - n)) = false) as Hd
    by (apply Hdisc; lia).
  assert (Z.testbit (Z.shiftl (Z.land sdi 3) 8) (i + (28 - n)) = false
          \/ 18 < n) as Hsdi.
  { destruct (Z.le_gt_cases n 18); [left|by right].
    rewrite Z.shiftl_spec, Z.land_spec by lia.
    change 3 with (Z.ones 2). rewrite Z.testbit_ones_nonneg by lia.
    destruct (Z.ltb_spec (i + (28 - n) - 8) 2); [lia|].
    apply andb_false_r. }
  assert (forall shifted,
            Z.testbit shifted (i + (28 - n)) = Z.testbit field i ->
            Z.testbit
              (if n <=? 18
               then Z.lor (Z.lor (Z.lor lbl shifted) disc)
                          (Z.shiftl (Z.land sdi 3) 8)
               else Z.lor (Z.lor lbl shifted) disc) (i + (28 - n))
            = Z.testbit field i) as Hword.
  { intros shifted Hs.
    destruct (Z.leb_spec n 18).
    - destruct Hsdi as [Hsdi|?]; [|lia].
      by rewrite !Z.lor_spec, Hlbl, Hd, Hsdi, Hs, !orb_false_r.
    - by rewrite !Z.lor_spec, Hlbl, Hd, Hs, !orb_false_r. }
  assert (Z.testbit (shl32 field (28 - n)) (i + (28 - n)) = Z.testbit field i)
    as Hshift.
  { rewrite testbit_shl32 by lia.
    replace (i + (28 - n) - (28 - n)) with i by lia.
    destruct (Z.ltb_spec (i + (28 - n)) 32); [done|lia]. }
  apply Hword.
  destruct (Z.eqb_spec 20 n); [|destruct (Z.eqb_spec 19 n)];
    rewrite Z.land_spec, Hshift, testbit_mask_shifted by lia;
    split_cmp; try lia; apply andb_true_r.
Qed.

Lemma land_sign_bit n raw :
  0 <= n < 32 -> 0 <= raw < 2 ^ (n + 1) ->
  Z.land (shl32 1 n) raw = raw / 2 ^ n * 2 ^ n.
Proof.
  intros Hn Hraw.
  unfold shl32. rewrite Z.shiftl_1_l, wrap32_small
    by (split; [lia|apply Z.pow_lt_mono_r; lia]).
  rewrite <- Z.shiftl_mul_pow2, <- Z.shiftr_div_pow2 by lia.
  apply Z.bits_inj'. intros i Hi.
  rewrite Z.land_spec, Z.pow2_bits_eqb, Z.shiftl_spec by lia.
  destruct (Z.eqb_spec n i) as [<-|Hne].
  - rewrite Z.shiftr_spec by lia. by replace (n - n + n) with n by lia.
  - destruct (Z.le_gt_cases n i).
    + rewrite Z.shiftr_spec by lia. replace (i - n + n) with i by lia.
      symmetry. apply (testbit_small raw (n + 1) i Hraw). lia.
    + by rewrite (Z.testbit_neg_r _ (i - n)) by lia.
Qed.

(** The sign extension of ARINC429_BNR_ConvertRawMsgDataToEngUnits reads
    the field as a two's complement number. *)
Lemma BNR_ConvertRawMsgDataToEngUnits_spec n res d0 field :
  1 <= n <= 20 ->
  ARINC429_BNR_ConvertRawMsgDataToEngUnits n res d0 (field mod 2 ^ (n + 1))
  = (EXIT_SUCCESS, F32.mul (F32.of_Z (BNR_field_value n field)) res).
Proof.
  intros Hn. unfold ARINC429_BNR_ConvertRawMsgDataToEngUnits.
  unfold ARINC429_BNR_STD_MSG_MAX_NUM_SIGBITS.
  destruct (Z.ltb_spec n 1); [lia|]. destruct (Z.ltb_spec 20 n); [lia|].
  cbn [orb]. do 3 f_equal.
  unfold BNR_field_value.
  set (raw := field mod 2 ^ (n + 1)).
  assert (0 <= raw < 2 ^ (n + 1)) as Hraw
    by (apply Z.mod_pos_bound, Z.pow_pos_nonneg; lia).
  assert (raw < 2 ^ 32) as Hraw32.
  { apply (Z.lt_le_trans _ (2 ^ (n + 1))); [lia|].
    apply Z.pow_le_mono_r; lia. }
  rewrite land_sign_bit by lia.
  pose proof (Z.add_lor_land raw (shl32 UINT32_MAX n)) as Hlor.
  rewrite land_high_mask in Hlor by lia.
  unfold to_int32.
  clearbody raw. revert Hlor.
  enum_numSigBits n;
    match goal with
    | |- context [shl32 UINT32_MAX ?k] =>
        let c := eval vm_compute in (shl32 UINT32_MAX k) in
        change (shl32 UINT32_MAX k) with c
    end;
    intros Hlor; unfold wrap32; cbn in Hraw; cbn in Hlor |- *;
    split_cmp; cbn [negb] in *; split_cmp;
    Z.to_euclidean_division_equations; lia.
Qed.

Lemma extract_discreteBits_defined nd w :
  nd <= NUM_BITS_IN_UINT32 -> is_Some (extract_discreteBits nd w).
Proof.
  intros Hnd. unfold extract_discreteBits, shift_ok, NUM_BITS_IN_UINT32 in *.
  destruct (Z.ltb_spec 0 nd); [|done].
  destruct (Z.leb_spec 0 (32 - nd)); [|lia].
  destruct (Z.ltb_spec (32 - nd) 32); [|lia]. done.
Qed.

(** ** Floating point: the size of a significand *)

Lemma digits2_pos_bounds (p : positive) :
  2 ^ (Z.pos (digits2_pos p) - 1) <= Z.pos p < 2 ^ Z.pos (digits2_pos p).
Proof.
  induction p as [p IH|p IH|]; cbn [digits2_pos].
  - rewrite Pos2Z.inj_succ.
    replace (Z.succ (Z.pos (digits2_pos p)) - 1)
      with (Z.succ (Z.pos (digits2_pos p) - 1)) by lia.
    rewrite !Z.pow_succ_r by lia. lia.
  - rewrite Pos2Z.inj_succ.
    replace (Z.succ (Z.pos (digits2_pos p)) - 1)
      with (Z.succ (Z.pos (digits2_pos p) - 1)) by lia.
    rewrite !Z.pow_succ_r by lia. lia.
  - cbn. lia.
Qed.

Lemma Zdigits2_bounds (m : Z) :
  0 < m -> 2 ^ (Zdigits2 m - 1) <= m < 2 ^ Zdigits2 m.
Proof.
  destruct m as [|p|p]; [lia| |lia]. intros _. apply digits2_pos_bounds.
Qed.

Lemma Zdigits2_nonneg (m : Z) : 0 <= Zdigits2 m.
Proof. destruct m; cbn; lia. Qed.

Lemma Zdigits2_pos (m : Z) : 0 < m -> 0 < Zdigits2 m.
Proof. destruct m; cbn; lia. Qed.

(** The size of [m] is the [k] with [2^(k-1) <= m < 2^k]. *)
Lemma Zdigits2_unique (m k : Z) :
  2 ^ (k - 1) <= m < 2 ^ k -> 0 < m -> Zdigits2 m = k.
Proof.
  intros [Hlo Hhi] Hm.
  pose proof (Zdigits2_bounds m Hm) as [Hlo' Hhi'].
  pose proof (Zdigits2_pos m Hm).
  assert (0 < k).
  { destruct (Z.ltb_spec 0 k); [done|].
    destruct (Z.eq_dec k 0) as [->|]; [cbn in Hhi; lia|].
    rewrite Z.pow_neg_r in Hhi by lia. lia. }
  destruct (Z.lt_trichotomy (Zdigits2 m) k) as [Hlt|[Heq|Hgt]]; [|done|].
  - assert (2 ^ Zdigits2 m <= 2 ^ (k - 1))
      by (apply Z.pow_le_mono_r; lia).
    lia.
  - assert (2 ^ k <= 2 ^ (Zdigits2 m - 1))
      by (apply Z.pow_le_mono_r; lia).
    lia.
Qed.

Lemma Zdigits2_le (a b : Z) : 0 <= a <= b -> Zdigits2 a <= Zdigits2 b.
Proof.
  intros [Ha Hab].
  destruct (Z.eq_dec a 0) as [->|Hne]; [apply Zdigits2_nonneg|].
  pose proof (Zdigits2_bounds a ltac:(lia)) as [Hlo _].
  pose proof (Zdigits2_bounds b ltac:(lia)) as [_ Hhi].
  destruct (Z.le_gt_cases (Zdigits2 a) (Zdigits2 b)) as [|Hgt]; [done|].
  assert (2 ^ Zdigits2 b <= 2 ^ (Zdigits2 a - 1))
    by (apply Z.pow_le_mono_r; lia).
  lia.
Qed.

(** A lower bound by a power of two is a lower bound on the size. *)
Lemma Zdigits2_ge (m k : Z) : 0 <= k -> 2 ^ k <= m -> k < Zdigits2 m.
Proof.
  intros Hk Hm.
  assert (0 < 2 ^ k) by (apply Z.pow_pos_nonneg; lia).
  pose proof (Zdigits2_bounds m ltac:(lia)) as [_ Hhi].
  destruct (Z.lt_ge_cases k (Zdigits2 m)) as [|Hge]; [done|].
  assert (2 ^ Zdigits2 m <= 2 ^ k)
    by (apply Z.pow_le_mono_r; [lia|done]).
  lia.
Qed.

(** Dropping [n] low bits drops [n] from the size, down to nothing. *)
Lemma Zdigits2_div_pow2 (m n : Z) :
  0 < m -> 0 <= n ->
  Zdigits2 (m / 2 ^ n) = Z.max 0 (Zdigits2 m - n).
Proof.
  intros Hm Hn.
  pose proof (Zdigits2_bounds m Hm) as [Hlo Hhi].
  pose proof (Zdigits2_pos m Hm) as Hd.
  assert (0 < 2 ^ n) as Hp by (apply Z.pow_pos_nonneg; lia).
  destruct (Z.le_gt_cases (Zdigits2 m) n) as [Hle|Hgt].
  - rewrite Z.max_l by lia.
    rewrite Z.div_small; [done|].
    split; [lia|].
    assert (2 ^ Zdigits2 m <= 2 ^ n) by (apply Z.pow_le_mono_r; lia).
    lia.
  - rewrite Z.max_r by lia.
    assert (2 ^ (Zdigits2 m - 1) = 2 ^ (Zdigits2 m - n - 1) * 2 ^ n) as E1.
    { rewrite <- Z.pow_add_r by lia. f_equal. lia. }
    assert (2 ^ Zdigits2 m = 2 ^ (Zdigits2 m - n) * 2 ^ n) as E2.
    { rewrite <- Z.pow_add_r by lia. f_equal. lia. }
    assert (0 < 2 ^ (Zdigits2 m - n - 1))
      by (apply Z.pow_pos_nonneg; lia).
    apply Zdigits2_unique.
    + split.
      * apply Z.div_le_lower_bound; [done|]. rewrite E1 in Hlo. lia.
      * apply Z.div_lt_upper_bound; [done|]. rewrite E2 in Hhi. lia.
    + apply Z.div_str_pos.
      assert (2 ^ n <= 2 ^ (Zdigits2 m - 1))
        by (apply Z.pow_le_mono_r; lia).
      lia.
Qed.

Lemma digits2_pos_iter_xO (m d : positive) :
  Z.pos (digits2_pos (Pos.iter xO m d)) = Z.pos (digits2_pos m) + Z.pos d.
Proof.
  revert m. induction d as [|d IH] using Pos.peano_ind; intros m.
  - cbn. lia.
  - rewrite Pos.iter_succ. cbn [digits2_pos].
    rewrite Pos2Z.inj_succ, IH. lia.
Qed.

Lemma Pos_iter_xO_value (m d : positive) :
  Z.pos (Pos.iter xO m d) = Z.pos m * 2 ^ Z.pos d.
Proof.
  revert m. induction d as [|d IH] using Pos.peano_ind; intros m.
  - cbn. lia.
  - rewrite Pos.iter_succ, Pos2Z.inj_xO, IH.
    rewrite Pos2Z.inj_succ, Z.pow_succ_r by lia. lia.
Qed.

(** ** Floating point: shifting right and rounding *)

Lemma shr_1_m mrs : 0 <= shr_m mrs -> shr_m (shr_1 mrs) = shr_m mrs / 2.
Proof.
  destruct mrs as [m r s]. cbn [shr_m]. intros Hm.
  destruct m as [|q|q]; [reflexivity| |lia].
  destruct q as [p|p|]; cbn [shr_1 shr_m].
  - change (Z.pos p = (2 * Z.pos p + 1) / 2).
    apply (Z.div_unique _ _ _ 1); lia.
  - change (Z.pos p = (2 * Z.pos p) / 2).
    apply (Z.div_unique _ _ _ 0); lia.
  - reflexivity.
Qed.

Lemma pow2_xI (p : positive) :
  2 ^ Z.pos p~1 = 2 * (2 ^ Z.pos p * 2 ^ Z.pos p).
Proof.
  rewrite Pos2Z.inj_xI, <- Z.pow_add_r, <- Z.pow_succ_r by lia.
  f_equal. lia.
Qed.

Lemma pow2_xO (p : positive) : 2 ^ Z.pos p~0 = 2 ^ Z.pos p * 2 ^ Z.pos p.
Proof. rewrite Pos2Z.inj_xO, <- Z.pow_add_r by lia. f_equal. lia. Qed.

Lemma iter_pos_shr_1_m p :
  forall mrs,
    0 <= shr_m mrs ->
    shr_m (SpecFloat.iter_pos shr_1 p mrs) = shr_m mrs / 2 ^ Z.pos p.
Proof.
  induction p as [p IH|p IH|]; intros mrs H; cbn [SpecFloat.iter_pos].
  - assert (0 < 2 ^ Z.pos p) by (apply Z.pow_pos_nonneg; lia).
    assert (0 <= shr_m (shr_1 mrs)) as H1
      by (rewrite shr_1_m; [|done]; apply Z.div_pos; lia).
    assert (0 <= shr_m (SpecFloat.iter_pos shr_1 p (shr_1 mrs))) as H2
      by (rewrite IH by done; apply Z.div_pos; lia).
    rewrite IH, IH, shr_1_m by done.
    rewrite !Z.div_div by lia. by rewrite pow2_xI, Z.mul_assoc.
  - assert (0 < 2 ^ Z.pos p) by (apply Z.pow_pos_nonneg; lia).
    assert (0 <= shr_m (SpecFloat.iter_pos shr_1 p mrs)) as H2
      by (rewrite IH by done; apply Z.div_pos; lia).
    rewrite IH, IH by done.
    rewrite !Z.div_div by lia. by rewrite pow2_xO.
  - by rewrite shr_1_m.
Qed.

Lemma shr_record_of_loc_m m l : shr_m (shr_record_of_loc m l) = m.
Proof. by destruct l as [|[]]. Qed.

(** [shr_fexp] drops [n = fexp (size + e) - e] bits when [n] is positive
    and nothing otherwise. *)
Lemma shr_fexp_spec prec emax m e l :
  0 <= m ->
  let n := Z.max 0 (fexp prec emax (Zdigits2 m + e) - e) in
  shr_m (fst (shr_fexp prec emax m e l)) = m / 2 ^ n
  /\ snd (shr_fexp prec emax m e l) = e + n.
Proof.
  intros Hm n. unfold shr_fexp, shr. subst n.
  destruct (fexp prec emax (Zdigits2 m + e) - e) as [|p|p] eqn:E.
  - cbn [fst snd]. rewrite shr_record_of_loc_m, Z.max_l by lia.
    rewrite Z.pow_0_r, Z.div_1_r. split; [done|lia].
  - cbn [fst snd]. rewrite Z.max_r by lia.
    rewrite iter_pos_shr_1_m by (by rewrite shr_record_of_loc_m).
    by rewrite shr_record_of_loc_m.
  - cbn [fst snd]. rewrite shr_record_of_loc_m, Z.max_l by lia.
    rewrite Z.pow_0_r, Z.div_1_r. split; [done|lia].
Qed.

Lemma round_nearest_even_cases m l :
  round_nearest_even m l = m \/ round_nearest_even m l = m + 1.
Proof.
  unfold round_nearest_even. destruct l as [|[]]; auto.
  destruct (Z.even m); auto.
Qed.


(** The least exponent bounds [fexp] from below, and [fexp] is monotone. *)
Lemma fexp_ge_emin prec emax e : emin prec emax <= fexp prec emax e.
Proof. unfold fexp. lia. Qed.

Lemma fexp_mono prec emax a b :
  a <= b -> fexp prec emax a <= fexp prec emax b.
Proof. unfold fexp. lia. Qed.

(** Rounding to [prec] bits.  When the significand [mx] is long enough for
    its exponent [ex], the result is [m2 * 2^e2] with [m2] at most one
    unit of its last place away from everything between [mx * 2^ex] and
    [(mx + 1) * 2^ex], and [m2] has [prec] bits unless the exponent is the
    least one. *)
Lemma binary_round_aux_spec prec emax sx mx ex lx :
  0 < prec ->
  0 <= mx ->
  ex <= fexp prec emax (Zdigits2 mx + ex) ->
  exists m2 e2 : Z,
    binary_round_aux prec emax sx mx ex lx
    = match m2 with
      | Z0 => S754_zero sx
      | Zpos m =>
          if e2 <=? emax - prec then S754_finite sx m e2
          else S754_infinity sx
      | Zneg _ => S754_nan
      end
    /\ 0 <= m2 /\ ex <= e2
    /\ (m2 - 1) * 2 ^ (e2 - ex) <= mx
    /\ mx + 1 <= (m2 + 1) * 2 ^ (e2 - ex)
    /\ (e2 = emin prec emax \/ 2 ^ (prec - 1) <= m2).
Proof.
  intros Hprec Hmx Hex. unfold binary_round_aux.
  pose proof (shr_fexp_spec prec emax mx ex lx Hmx) as [Hm1 He1].
  destruct (shr_fexp prec emax mx ex lx) as [mrs' e']. cbn [fst snd] in *.
  set (E := fexp prec emax (Zdigits2 mx + ex)) in *.
  rewrite Z.max_r in Hm1, He1 by lia.
  set (n1 := E - ex) in *.
  assert (0 < 2 ^ n1) as HP1 by (apply Z.pow_pos_nonneg; lia).
  set (m1 := mx / 2 ^ n1) in *.
  assert (0 <= m1) as Hm1pos by (apply Z.div_pos; lia).
  set (mr := round_nearest_even (shr_m mrs') (loc_of_shr_record mrs')).
  assert (mr = m1 \/ mr = m1 + 1) as Hmr
    by (unfold mr; rewrite Hm1; apply round_nearest_even_cases).
  assert (0 <= mr) as Hmrpos by lia.
  pose proof (shr_fexp_spec prec emax mr e' loc_Exact Hmrpos) as [Hm2 He2].
  destruct (shr_fexp prec emax mr e' loc_Exact) as [mrs'' e''].
  cbn [fst snd] in *.
  assert (e' = E) as -> by (unfold n1 in He1; lia).
  (* the second shift is by a nonnegative count *)
  assert (E <= fexp prec emax (Zdigits2 mr + E)) as HE2.
  { pose proof (fexp_ge_emin prec emax (Zdigits2 mr + E)).
    destruct (Z.eq_dec E (emin prec emax)) as [->|HEne]; [done|].
    assert (E = Zdigits2 mx + ex - prec) as HEeq
      by (unfold E, fexp in *; lia).
    assert (0 < mx) as Hmxpos.
    { destruct (Z.eq_dec mx 0) as [->|]; [|lia].
      unfold E, fexp in *. cbn [Zdigits2] in *. lia. }
    assert (Zdigits2 m1 = prec) as Hd1.
    { unfold m1. rewrite Zdigits2_div_pow2 by lia. unfold n1. lia. }
    assert (Zdigits2 m1 <= Zdigits2 mr)
      by (apply Zdigits2_le; lia).
    unfold fexp. lia. }
  rewrite Z.max_r in Hm2, He2 by lia.
  set (n2 := fexp prec emax (Zdigits2 mr + E) - E) in *.
  assert (0 < 2 ^ n2) as HP2 by (apply Z.pow_pos_nonneg; lia).
  set (m2 := mr / 2 ^ n2) in *.
  assert (0 <= m2) as Hm2pos by (apply Z.div_pos; lia).
  exists m2, e''. rewrite Hm2.
  split; [reflexivity|]. split; [done|]. split; [lia|].
  assert (2 ^ (e'' - ex) = 2 ^ n1 * 2 ^ n2) as ->.
  { rewrite <- Z.pow_add_r by lia. f_equal. lia. }
  pose proof (Z.mul_div_le mx (2 ^ n1) HP1) as Hlo1.
  pose proof (Z.mul_succ_div_gt mx (2 ^ n1) HP1) as Hhi1.
  pose proof (Z.mul_div_le mr (2 ^ n2) HP2) as Hlo2.
  pose proof (Z.mul_succ_div_gt mr (2 ^ n2) HP2) as Hhi2.
  fold m1 in Hlo1, Hhi1. fold m2 in Hlo2, Hhi2.
  split; [nia|]. split; [nia|].
  destruct (Z.eq_dec e'' (emin prec emax)) as [|Hne]; [by left|]. right.
  assert (e'' = Zdigits2 mr + E - prec) as He''
    by (unfold n2, fexp in *; lia).
  assert (0 < mr) as Hmrpos'.
  { destruct (Z.eq_dec mr 0) as [Hz|]; [|lia].
    rewrite Hz in He''. cbn [Zdigits2] in He''. lia. }
  assert (Zdigits2 m2 = prec) as Hd2.
  { unfold m2. rewrite Zdigits2_div_pow2 by lia. unfold n2, fexp in *. lia. }
  assert (0 < m2) as Hm2pos'.
  { destruct (Z.eq_dec m2 0) as [Hz|]; [|lia].
    rewrite Hz in Hd2. cbn [Zdigits2] in Hd2. lia. }
  pose proof (Zdigits2_bounds m2 Hm2pos') as [Hb _]. by rewrite Hd2 in Hb.
Qed.

(** With an exact significand that is short enough for its exponent,
    nothing is rounded. *)
Lemma binary_round_aux_exact prec emax sx (m : positive) ex :
  fexp prec emax (Z.pos (digits2_pos m) + ex) <= ex ->
  ex <= emax - prec ->
  binary_round_aux prec emax sx (Z.pos m) ex loc_Exact = S754_finite sx m ex.
Proof.
  intros Hex Hmax. unfold binary_round_aux, shr_fexp, shr.
  cbn [Zdigits2 shr_record_of_loc].
  destruct (fexp prec emax (Z.pos (digits2_pos m) + ex) - ex) as [|p|p] eqn:E;
    [|lia|].
  - cbn [shr_m loc_of_shr_record round_nearest_even Zdigits2].
    rewrite E. cbn [shr_record_of_loc shr_m].
    by destruct (Z.leb_spec ex (emax - prec)); [|lia].
  - cbn [shr_m loc_of_shr_record round_nearest_even Zdigits2].
    rewrite E. cbn [shr_record_of_loc shr_m].
    by destruct (Z.leb_spec ex (emax - prec)); [|lia].
Qed.

(** [binary_round] first lengthens a short significand, which changes
    neither the value nor the sum of size and exponent. *)
Lemma shl_align_fexp_spec prec emax (mx : positive) ex :
  exists (mz : positive) (ez : Z),
    shl_align mx ex (fexp prec emax (Z.pos (digits2_pos mx) + ex)) = (mz, ez)
    /\ ez <= ex
    /\ Z.pos mz = Z.pos mx * 2 ^ (ex - ez)
    /\ Z.pos (digits2_pos mz) + ez = Z.pos (digits2_pos mx) + ex
    /\ ez <= fexp prec emax (Z.pos (digits2_pos mz) + ez)
    /\ (fexp prec emax (Z.pos (digits2_pos mx) + ex) <= ex ->
        ez = fexp prec emax (Z.pos (digits2_pos mx) + ex)).
Proof.
  unfold shl_align.
  set (E := fexp prec emax (Z.pos (digits2_pos mx) + ex)).
  destruct (E - ex) as [|d|d] eqn:Hd.
  - exists mx, ex. rewrite Z.sub_diag, Z.pow_0_r.
    repeat split; fold E; lia.
  - exists mx, ex. rewrite Z.sub_diag, Z.pow_0_r.
    repeat split; fold E; lia.
  - exists (Pos.iter xO mx d), E.
    assert (ex - E = Z.pos d) as -> by lia.
    rewrite digits2_pos_iter_xO, Pos_iter_xO_value.
    replace (Z.pos (digits2_pos mx) + Z.pos d + E)
      with (Z.pos (digits2_pos mx) + ex) by lia.
    repeat split; fold E; lia.
Qed.


(** ** Powers of two in [Q] *)

Lemma pow2Q_pos (e : Z) : (0 < 2 ^ e)%Q.
Proof. apply Qpower_0_lt. lra. Qed.

Lemma pow2Q_add (a b : Z) : (2 ^ (a + b) == 2 ^ a * 2 ^ b)%Q.
Proof. apply Qpower_plus. lra. Qed.

Lemma pow2Q_Z (n : Z) : 0 <= n -> (2 ^ n == inject_Z (2 ^ n))%Q.
Proof. intros Hn. by rewrite Zpower_Qpower. Qed.

Lemma pow2Q_le (a b : Z) : a <= b -> (2 ^ a <= 2 ^ b)%Q.
Proof. intros Hab. apply Qpower_le_compat_l; [done|lra]. Qed.

Lemma pow2Q_succ (a : Z) : (2 ^ (a + 1) == 2 * 2 ^ a)%Q.
Proof. rewrite pow2Q_add. change (2 ^ 1)%Q with 2%Q. lra. Qed.

(** An inequality between integers scaled by powers of two. *)
Lemma scaled_le (a b : Z) (e k : Z) :
  0 <= k -> a * 2 ^ k <= b ->
  (inject_Z a * 2 ^ (e + k) <= inject_Z b * 2 ^ e)%Q.
Proof.
  intros Hk H. rewrite pow2Q_add, (pow2Q_Z k) by done.
  pose proof (pow2Q_pos e) as He.
  assert (inject_Z a * inject_Z (2 ^ k) <= inject_Z b)%Q as H'.
  { rewrite <- inject_Z_mult. by rewrite <- Zle_Qle. }
  setoid_replace (inject_Z a * (2 ^ e * inject_Z (2 ^ k)))%Q
    with (inject_Z a * inject_Z (2 ^ k) * 2 ^ e)%Q using relation Qeq
    by ring.
  apply Qmult_le_compat_r; [done|lra].
Qed.

Lemma scaled_ge (a b : Z) (e k : Z) :
  0 <= k -> b <= a * 2 ^ k ->
  (inject_Z b * 2 ^ e <= inject_Z a * 2 ^ (e + k))%Q.
Proof.
  intros Hk H. rewrite pow2Q_add, (pow2Q_Z k) by done.
  pose proof (pow2Q_pos e) as He.
  assert (inject_Z b <= inject_Z a * inject_Z (2 ^ k))%Q as H'.
  { rewrite <- inject_Z_mult. by rewrite <- Zle_Qle. }
  setoid_replace (inject_Z a * (2 ^ e * inject_Z (2 ^ k)))%Q
    with (inject_Z a * inject_Z (2 ^ k) * 2 ^ e)%Q using relation Qeq
    by ring.
  apply Qmult_le_compat_r; [done|lra].
Qed.

Lemma F2Q_Fmag (x : float) :
  (F2Q x == if Fsign x then - Fmag x else Fmag x)%Q.
Proof.
  destruct x as [s|s| |s m e]; cbn; try (destruct s; reflexivity).
  - reflexivity.
  - destruct s; cbn; [|reflexivity].
    change (Z.neg m) with (- Z.pos m). rewrite inject_Z_opp. ring.
Qed.

Lemma Fmag_nonneg (x : float) : (0 <= Fmag x)%Q.
Proof.
  destruct x as [s|s| |s m e]; cbn; try lra.
  pose proof (pow2Q_pos e).
  apply Qmult_le_0_compat; [|lra].
  change 0%Q with (inject_Z 0). rewrite <- Zle_Qle. lia.
Qed.

Lemma Qabs_F2Q (x : float) : (Qabs (F2Q x) == Fmag x)%Q.
Proof.
  rewrite F2Q_Fmag. pose proof (Fmag_nonneg x).
  destruct (Fsign x).
  - rewrite Qabs_opp. by apply Qabs_pos.
  - by apply Qabs_pos.
Qed.


Lemma inject_Z_pred (m : Z) : (inject_Z (m - 1) == inject_Z m - 1)%Q.
Proof.
  unfold Z.sub. rewrite inject_Z_plus. change (inject_Z (-1)) with (-1)%Q.
  reflexivity.
Qed.

Lemma inject_Z_succ (m : Z) : (inject_Z (m + 1) == inject_Z m + 1)%Q.
Proof. rewrite inject_Z_plus. reflexivity. Qed.

Lemma Qabs_le_iff (x b : Q) : (Qabs x <= b <-> - b <= x /\ x <= b)%Q.
Proof. apply Qabs_Qle_condition. Qed.

(** The error of a rounding: the value [y] lies between [mx * 2^ex] and
    [(mx + 1) * 2^ex], as the location of a division says, or is
    [mx * 2^ex] itself.  Below the overflow threshold the result is a zero
    or a finite number of the sign asked for, and its magnitude is within
    one unit of the last place of [y]: within [2^(1 - prec)] of itself in
    relative terms, or within [2^emin]. *)
Lemma binary_round_aux_Q prec emax sx mx ex lx (y : Q) :
  2 <= prec -> 2 <= emax ->
  0 <= mx ->
  ex <= fexp prec emax (Zdigits2 mx + ex) ->
  (inject_Z mx * 2 ^ ex <= y)%Q ->
  (y <= inject_Z (mx + 1) * 2 ^ ex)%Q ->
  (y <= 2 ^ (emax - 2))%Q ->
  let f := binary_round_aux prec emax sx mx ex lx in
  Ffinite f = true
  /\ (f = S754_zero sx \/ exists m e, f = S754_finite sx m e)
  /\ (Qabs (Fmag f - y)
      <= 2 ^ (1 - prec) * Fmag f + 2 ^ emin prec emax)%Q.
Proof.
  intros Hprec Hemax Hmx Hex Hlo Hhi Hmax f.
  destruct (binary_round_aux_spec prec emax sx mx ex lx
              ltac:(lia) Hmx Hex)
    as (m2 & e2 & Hf & Hm2 & He2 & Hb1 & Hb2 & Hnorm).
  fold f in Hf.
  set (k := e2 - ex) in *.
  assert (e2 = ex + k) as Hek by (unfold k; lia).
  assert (0 <= k) as Hk by (unfold k; lia).
  pose proof (scaled_le (m2 - 1) mx ex k Hk Hb1) as Q1.
  pose proof (scaled_ge (m2 + 1) (mx + 1) ex k Hk Hb2) as Q2.
  rewrite <- Hek in Q1, Q2.
  rewrite inject_Z_pred in Q1. rewrite !inject_Z_succ in Q2.
  rewrite inject_Z_succ in Hhi.
  pose proof (pow2Q_pos e2) as Hpe2.
  pose proof (pow2Q_pos (emin prec emax)) as Hpemin.
  set (a := (inject_Z m2 * 2 ^ e2)%Q) in *.
  assert (a - 2 ^ e2 <= y /\ y <= a + 2 ^ e2)%Q as [Hya Hyb].
  { unfold a. split; lra. }
  assert (0 <= inject_Z m2)%Q as Hm2Q.
  { change 0%Q with (inject_Z 0). by rewrite <- Zle_Qle. }
  (* the relative form of the unit of the last place *)
  assert (2 ^ (prec - 1) <= m2 -> (2 ^ e2 <= 2 ^ (1 - prec) * a)%Q) as Hrel.
  { intros Hn. unfold a.
    assert (inject_Z (2 ^ (prec - 1)) <= inject_Z m2)%Q as Hn'
      by (by rewrite <- Zle_Qle).
    rewrite <- pow2Q_Z in Hn' by lia.
    assert (2 ^ (1 - prec) * 2 ^ (prec - 1) == 1)%Q as Hone.
    { rewrite <- pow2Q_add. by replace (1 - prec + (prec - 1)) with 0 by lia. }
    pose proof (pow2Q_pos (1 - prec)) as Hp1.
    assert (2 ^ (1 - prec) * 2 ^ (prec - 1) * 2 ^ e2
            <= 2 ^ (1 - prec) * inject_Z m2 * 2 ^ e2)%Q as Hmul.
    { apply Qmult_le_compat_r; [|lra].
      apply Qmult_le_l; [done|done]. }
    rewrite Hone in Hmul. lra. }
  (* no overflow *)
  assert (0 < m2 -> e2 <= emax - prec) as Hnoovf.
  { intros Hpos. destruct (Z.le_gt_cases e2 (emax - prec)) as [|Hgt]; [done|].
    exfalso.
    destruct Hnorm as [He|Hn]; [unfold emin in He; lia|].
    assert (2 ^ (prec - 1) = 2 * 2 ^ (prec - 2)) as Hp2.
    { rewrite <- Z.pow_succ_r by lia. f_equal. lia. }
    assert (0 < 2 ^ (prec - 2)) by (apply Z.pow_pos_nonneg; lia).
    assert (inject_Z (2 ^ (prec - 2)) <= inject_Z (m2 - 1))%Q as Hn'
      by (rewrite <- Zle_Qle; lia).
    rewrite <- pow2Q_Z, inject_Z_pred in Hn' by lia.
    assert (2 ^ (prec - 2) * 2 ^ e2 <= (inject_Z m2 - 1) * 2 ^ e2)%Q as Hmul
      by (apply Qmult_le_compat_r; [done|lra]).
    rewrite <- pow2Q_add in Hmul.
    pose proof (pow2Q_le (emax - 2 + 1) (prec - 2 + e2) ltac:(lia)) as Hle.
    rewrite pow2Q_succ in Hle.
    pose proof (pow2Q_pos (emax - 2)).
    lra. }
  destruct m2 as [|p|p]; [| |lia].
  - (* the result is a zero *)
    rewrite Hf. split; [done|]. split; [by left|].
    cbn [Fmag].
    destruct Hnorm as [He|Hn].
    2:{ assert (0 < 2 ^ (prec - 1)) by (apply Z.pow_pos_nonneg; lia). lia. }
    assert (a == 0)%Q as Ha0
      by (unfold a; change (inject_Z 0) with 0%Q; ring).
    rewrite He in Hya, Hyb.
    apply Qabs_le_iff. split; lra.
  - specialize (Hnoovf ltac:(lia)).
    destruct (Z.leb_spec e2 (emax - prec)); [|lia].
    rewrite Hf. split; [done|]. split; [right; by eexists _, _|].
    cbn [Fmag]. fold a.
    assert (0 <= a)%Q by (unfold a; apply Qmult_le_0_compat; lra).
    pose proof (pow2Q_pos (1 - prec)).
    assert (0 <= 2 ^ (1 - prec) * a)%Q by (apply Qmult_le_0_compat; lra).
    apply Qabs_le_iff.
    destruct Hnorm as [He|Hn].
    + rewrite He in Hya, Hyb. split; lra.
    + specialize (Hrel Hn). split; lra.
Qed.


(** ** Floating point: division, multiplication and addition *)

(** The quotient and the exponent that [SFdiv] hands to the rounding. *)
Lemma SFdiv_core_binary_spec prec emax (m1 e1 m2 e2 : Z) :
  0 < prec -> 0 < m1 -> 0 < m2 ->
  exists (q e' : Z) (l : location),
    SFdiv_core_binary prec emax m1 e1 m2 e2 = (q, e', l)
    /\ 0 <= q /\ e' <= e1 - e2
    /\ q * m2 <= m1 * 2 ^ (e1 - e2 - e')
    /\ m1 * 2 ^ (e1 - e2 - e') <= (q + 1) * m2
    /\ e' <= fexp prec emax (Zdigits2 q + e').
Proof.
  intros Hprec Hm1 Hm2. unfold SFdiv_core_binary.
  set (d1 := Zdigits2 m1). set (d2 := Zdigits2 m2).
  set (e' := Z.min (fexp prec emax (d1 + e1 - (d2 + e2))) (e1 - e2)).
  set (s := e1 - e2 - e').
  assert (0 <= s) as Hs by (unfold s, e'; lia).
  assert (0 < 2 ^ s) as Hps by (apply Z.pow_pos_nonneg; lia).
  assert (match s with
          | 0 => m1
          | Z.pos _ => Z.shiftl m1 s
          | Z.neg _ => 0
          end = m1 * 2 ^ s) as ->.
  { destruct s as [|p|p] eqn:E; [lia| |lia].
    by rewrite Z.shiftl_mul_pow2 by lia. }
  pose proof (Z_div_mod (m1 * 2 ^ s) m2 ltac:(lia)) as Hdm.
  destruct (Z.div_eucl (m1 * 2 ^ s) m2) as [q r].
  destruct Hdm as [Heq Hr].
  assert (0 <= q) as Hq by nia.
  exists q, e', (new_location m2 r).
  split; [reflexivity|]. split; [done|]. split; [unfold e'; lia|].
  fold s. split; [nia|]. split; [nia|].
  pose proof (fexp_ge_emin prec emax (Zdigits2 q + e')) as Hmin.
  destruct (Z.le_gt_cases e' (emin prec emax)) as [|Hgt]; [lia|].
  set (D := d1 + s - d2).
  assert (prec <= D) as HD by (unfold D, s, e', fexp in *; lia).
  pose proof (Zdigits2_bounds m1 Hm1) as [Hlo1 _]. fold d1 in Hlo1.
  pose proof (Zdigits2_bounds m2 Hm2) as [_ Hhi2]. fold d2 in Hhi2.
  pose proof (Zdigits2_pos m2 Hm2) as Hd2. fold d2 in Hd2.
  pose proof (Zdigits2_pos m1 Hm1) as Hd1. fold d1 in Hd1.
  assert (2 ^ (d1 - 1) * 2 ^ s = 2 ^ (D - 1) * 2 ^ d2) as Hpow.
  { rewrite <- !Z.pow_add_r by lia. f_equal. unfold D. lia. }
  assert (0 < 2 ^ (D - 1)) by (apply Z.pow_pos_nonneg; lia).
  assert (2 ^ (D - 1) <= q) as Hqlo by nia.
  pose proof (Zdigits2_ge q (D - 1) ltac:(lia) Hqlo).
  unfold fexp, D, s in *. lia.
Qed.

(** [SFdiv] on finite operands: the quotient [y] of the magnitudes is
    given by [y * |d| = |n|]. *)
Lemma SFdiv_Q prec emax sx mx ex sy my ey (y : Q) :
  2 <= prec -> 2 <= emax ->
  (y * Fmag (S754_finite sy my ey) == Fmag (S754_finite sx mx ex))%Q ->
  (y <= 2 ^ (emax - 2))%Q ->
  let f := SFdiv prec emax (S754_finite sx mx ex) (S754_finite sy my ey) in
  Ffinite f = true
  /\ (f = S754_zero (xorb sx sy)
      \/ exists m e, f = S754_finite (xorb sx sy) m e)
  /\ (Qabs (Fmag f - y)
      <= 2 ^ (1 - prec) * Fmag f + 2 ^ emin prec emax)%Q.
Proof.
  intros Hprec Hemax Hy Hmax. cbn [SFdiv Fmag] in *.
  destruct (SFdiv_core_binary_spec prec emax (Z.pos mx) ex (Z.pos my) ey)
    as (q & e' & l & -> & Hq & He' & Hlo & Hhi & Hfexp); [lia..|].
  set (s := ex - ey - e') in *.
  assert (0 <= s) as Hs by (unfold s; lia).
  apply binary_round_aux_Q; try done.
  - (* q * 2^e' <= y *)
    pose proof (pow2Q_pos e') as Hpe. pose proof (pow2Q_pos ey) as Hpy.
    assert (0 < inject_Z (Z.pos my))%Q as Hmy
      by (change 0%Q with (inject_Z 0); rewrite <- Zlt_Qlt; lia).
    assert (2 ^ ex == 2 ^ e' * 2 ^ ey * inject_Z (2 ^ s))%Q as Hex.
    { rewrite <- (pow2Q_Z s), <- !pow2Q_add by done.
      by replace (e' + ey + s) with ex by (unfold s; lia). }
    assert (inject_Z q * inject_Z (Z.pos my)
            <= inject_Z (Z.pos mx) * inject_Z (2 ^ s))%Q as Hlo'
      by (rewrite <- !inject_Z_mult, <- Zle_Qle; lia).
    rewrite Hex in Hy.
    apply (Qmult_le_r _ _ (inject_Z (Z.pos my) * 2 ^ ey)%Q).
    { apply Qmult_lt_0_compat; lra. }
    rewrite Hy.
    setoid_replace (inject_Z q * 2 ^ e' * (inject_Z (Z.pos my) * 2 ^ ey))%Q
      with (inject_Z q * inject_Z (Z.pos my) * (2 ^ e' * 2 ^ ey))%Q
      using relation Qeq by ring.
    setoid_replace (inject_Z (Z.pos mx)
                    * (2 ^ e' * 2 ^ ey * inject_Z (2 ^ s)))%Q
      with (inject_Z (Z.pos mx) * inject_Z (2 ^ s) * (2 ^ e' * 2 ^ ey))%Q
      using relation Qeq by ring.
    apply Qmult_le_compat_r; [done|].
    apply Qlt_le_weak, Qmult_lt_0_compat; lra.
  - pose proof (pow2Q_pos e') as Hpe. pose proof (pow2Q_pos ey) as Hpy.
    assert (0 < inject_Z (Z.pos my))%Q as Hmy
      by (change 0%Q with (inject_Z 0); rewrite <- Zlt_Qlt; lia).
    assert (2 ^ ex == 2 ^ e' * 2 ^ ey * inject_Z (2 ^ s))%Q as Hex.
    { rewrite <- (pow2Q_Z s), <- !pow2Q_add by done.
      by replace (e' + ey + s) with ex by (unfold s; lia). }
    assert (inject_Z (Z.pos mx) * inject_Z (2 ^ s)
            <= inject_Z (q + 1) * inject_Z (Z.pos my))%Q as Hhi'
      by (rewrite <- !inject_Z_mult, <- Zle_Qle; lia).
    rewrite Hex in Hy.
    apply (Qmult_le_r _ _ (inject_Z (Z.pos my) * 2 ^ ey)%Q).
    { apply Qmult_lt_0_compat; lra. }
    rewrite Hy.
    setoid_replace (inject_Z (q + 1) * 2 ^ e'
                    * (inject_Z (Z.pos my) * 2 ^ ey))%Q
      with (inject_Z (q + 1) * inject_Z (Z.pos my) * (2 ^ e' * 2 ^ ey))%Q
      using relation Qeq by ring.
    setoid_replace (inject_Z (Z.pos mx)
                    * (2 ^ e' * 2 ^ ey * inject_Z (2 ^ s)))%Q
      with (inject_Z (Z.pos mx) * inject_Z (2 ^ s) * (2 ^ e' * 2 ^ ey))%Q
      using relation Qeq by ring.
    apply Qmult_le_compat_r; [done|].
    apply Qlt_le_weak, Qmult_lt_0_compat; lra.
Qed.

(** [SFmul] on finite operands, the first with a significand of [prec]
    bits at least. *)
Lemma SFmul_Q prec emax sx mx ex sy my ey :
  2 <= prec -> 2 <= emax ->
  2 ^ (prec - 1) <= Z.pos mx ->
  (Fmag (S754_finite sx mx ex) * Fmag (S754_finite sy my ey)
   <= 2 ^ (emax - 2))%Q ->
  let f := SFmul prec emax (S754_finite sx mx ex) (S754_finite sy my ey) in
  Ffinite f = true
  /\ (f = S754_zero (xorb sx sy)
      \/ exists m e, f = S754_finite (xorb sx sy) m e)
  /\ (Qabs (Fmag f
            - Fmag (S754_finite sx mx ex) * Fmag (S754_finite sy my ey))
      <= 2 ^ (1 - prec) * Fmag f + 2 ^ emin prec emax)%Q.
Proof.
  intros Hprec Hemax Hmx Hmax. cbn [SFmul Fmag] in *.
  assert (inject_Z (Z.pos (mx * my)) * 2 ^ (ex + ey)
          == inject_Z (Z.pos mx) * 2 ^ ex * (inject_Z (Z.pos my) * 2 ^ ey))%Q
    as Hval.
  { rewrite Pos2Z.inj_mul, inject_Z_mult, pow2Q_add. ring. }
  apply binary_round_aux_Q; try done.
  - assert (0 < 2 ^ (prec - 1)) by (apply Z.pow_pos_nonneg; lia).
    assert (2 ^ (prec - 1) <= Z.pos (mx * my)) as Hprod
      by (rewrite Pos2Z.inj_mul; nia).
    pose proof (Zdigits2_ge _ (prec - 1) ltac:(lia) Hprod).
    unfold fexp. lia.
  - rewrite Hval. lra.
  - rewrite inject_Z_succ, <- Hval.
    pose proof (pow2Q_pos (ex + ey)). lra.
Qed.

Lemma shl_align_value (m : positive) (e ez : Z) :
  ez <= e -> Z.pos (fst (shl_align m e ez)) = Z.pos m * 2 ^ (e - ez).
Proof.
  intros H. unfold shl_align.
  destruct (ez - e) as [|d|d] eqn:Hd; cbn [fst].
  - replace (e - ez) with 0 by lia. lia.
  - lia.
  - rewrite Pos_iter_xO_value. f_equal. f_equal. lia.
Qed.

(** [SFadd] on finite operands of the same sign. *)
Lemma SFadd_Q prec emax s m1 e1 m2 e2 :
  2 <= prec -> 2 <= emax ->
  (Fmag (S754_finite s m1 e1) + Fmag (S754_finite s m2 e2)
   <= 2 ^ (emax - 2))%Q ->
  let f := SFadd prec emax (S754_finite s m1 e1) (S754_finite s m2 e2) in
  Ffinite f = true
  /\ (f = S754_zero s \/ exists m e, f = S754_finite s m e)
  /\ (Qabs (Fmag f
            - (Fmag (S754_finite s m1 e1) + Fmag (S754_finite s m2 e2)))
      <= 2 ^ (1 - prec) * Fmag f + 2 ^ emin prec emax)%Q.
Proof.
  intros Hprec Hemax Hmax. cbn [SFadd Fmag] in *.
  set (ez := Z.min e1 e2).
  pose proof (shl_align_value m1 e1 ez ltac:(unfold ez; lia)) as Ha.
  pose proof (shl_align_value m2 e2 ez ltac:(unfold ez; lia)) as Hb.
  set (a := fst (shl_align m1 e1 ez)) in *.
  set (b := fst (shl_align m2 e2 ez)) in *.
  assert (binary_normalize prec emax
            (cond_Zopp s (Z.pos a) + cond_Zopp s (Z.pos b)) ez false
          = binary_round prec emax s (a + b) ez) as ->.
  { by destruct s. }
  unfold binary_round.
  destruct (shl_align_fexp_spec prec emax (a + b) ez)
    as (mz & ez' & -> & Hez & Hmz & Hdig & Hfexp & _).
  assert (inject_Z (Z.pos mz) * 2 ^ ez'
          == inject_Z (Z.pos m1) * 2 ^ e1 + inject_Z (Z.pos m2) * 2 ^ e2)%Q
    as Hval.
  { rewrite Hmz, Pos2Z.inj_add, Ha, Hb.
    rewrite !inject_Z_mult, inject_Z_plus, !inject_Z_mult.
    rewrite <- !pow2Q_Z by (unfold ez; lia).
    setoid_replace ((inject_Z (Z.pos m1) * 2 ^ (e1 - ez)
                     + inject_Z (Z.pos m2) * 2 ^ (e2 - ez))
                    * 2 ^ (ez - ez') * 2 ^ ez')%Q
      with (inject_Z (Z.pos m1) * (2 ^ (e1 - ez) * 2 ^ (ez - ez') * 2 ^ ez')
            + inject_Z (Z.pos m2)
              * (2 ^ (e2 - ez) * 2 ^ (ez - ez') * 2 ^ ez'))%Q
      using relation Qeq by ring.
    rewrite <- !pow2Q_add.
    replace (e1 - ez + (ez - ez') + ez') with e1 by lia.
    replace (e2 - ez + (ez - ez') + ez') with e2 by lia.
    reflexivity. }
  apply binary_round_aux_Q; try done.
  - rewrite Hval. lra.
  - rewrite inject_Z_succ, <- Hval.
    pose proof (pow2Q_pos ez'). lra.
Qed.


(** ** Floating point: comparison, truncation and conversion *)

Lemma scaled_eq (m e k : Z) :
  0 <= k -> (inject_Z (m * 2 ^ k) * 2 ^ e == inject_Z m * 2 ^ (e + k))%Q.
Proof.
  intros Hk. rewrite inject_Z_mult, pow2Q_add, <- pow2Q_Z by done. ring.
Qed.

Lemma F2Q_Fnum (x : float) :
  (F2Q x == inject_Z (Fnum x).1 * 2 ^ (Fnum x).2)%Q.
Proof. unfold F2Q. by destruct (Fnum x). Qed.

Lemma Fcompare_finite (x y : float) :
  Ffinite x = true -> Ffinite y = true ->
  Fcompare x y
  = Some (Z.compare
            ((Fnum x).1 * 2 ^ ((Fnum x).2 - Z.min (Fnum x).2 (Fnum y).2))
            ((Fnum y).1 * 2 ^ ((Fnum y).2 - Z.min (Fnum x).2 (Fnum y).2))).
Proof.
  destruct x as [sx|sx| |sx mx ex], y as [sy|sy| |sy my ey];
    try discriminate; reflexivity.
Qed.

(** [Fcompare] orders finite values as their exact values are ordered. *)
Lemma Fcompare_Q (x y : float) (c : comparison) :
  Ffinite x = true -> Ffinite y = true ->
  Fcompare x y = Some c ->
  match c with
  | Lt => (F2Q x < F2Q y)%Q
  | Eq => (F2Q x == F2Q y)%Q
  | Gt => (F2Q y < F2Q x)%Q
  end.
Proof.
  intros Hx Hy. rewrite (Fcompare_finite x y Hx Hy).
  pose proof (F2Q_Fnum x) as Fx. pose proof (F2Q_Fnum y) as Fy.
  destruct (Fnum x) as [mx ex], (Fnum y) as [my ey]. cbn [fst snd] in *.
  set (e := Z.min ex ey).
  pose proof (scaled_eq mx e (ex - e) ltac:(unfold e; lia)) as Ex.
  pose proof (scaled_eq my e (ey - e) ltac:(unfold e; lia)) as Ey.
  replace (e + (ex - e)) with ex in Ex by lia.
  replace (e + (ey - e)) with ey in Ey by lia.
  pose proof (pow2Q_pos e) as He.
  intros [= <-].
  destruct (Z.compare_spec (mx * 2 ^ (ex - e)) (my * 2 ^ (ey - e)))
    as [Heq|Hlt|Hgt].
  - rewrite Fx, Fy, <- Ex, <- Ey. by rewrite Heq.
  - rewrite Fx, Fy, <- Ex, <- Ey.
    apply Qmult_lt_compat_r; [done|]. by rewrite <- Zlt_Qlt.
  - rewrite Fx, Fy, <- Ex, <- Ey.
    apply Qmult_lt_compat_r; [done|]. by rewrite <- Zlt_Qlt.
Qed.

Lemma Fgt_false_Q (x y : float) :
  Ffinite x = true -> Ffinite y = true ->
  (F2Q x <= F2Q y)%Q -> Fgt x y = false.
Proof.
  intros Hx Hy Hle. unfold Fgt.
  destruct (Fcompare x y) as [[]|] eqn:E; try done.
  apply (Fcompare_Q x y Gt Hx Hy) in E. lra.
Qed.

Lemma Flt_false_Q (x y : float) :
  Ffinite x = true -> Ffinite y = true ->
  (F2Q y <= F2Q x)%Q -> Flt x y = false.
Proof.
  intros Hx Hy Hle. unfold Flt.
  destruct (Fcompare x y) as [[]|] eqn:E; try done.
  apply (Fcompare_Q x y Lt Hx Hy) in E. lra.
Qed.

Lemma Flt_finite_zero s m e : Flt (S754_finite s m e) Fzero = s.
Proof.
  unfold Flt.
  destruct (Fcompare (S754_finite s m e) Fzero) as [c|] eqn:E.
  2:{ by rewrite Fcompare_finite in E. }
  pose proof (Fcompare_Q (S754_finite s m e) Fzero c eq_refl eq_refl E) as H.
  pose proof (F2Q_Fmag (S754_finite s m e)) as Hx.
  assert (F2Q Fzero == 0)%Q as Hz by reflexivity.
  pose proof (pow2Q_pos e).
  assert (0 < Fmag (S754_finite s m e))%Q as Hpos.
  { cbn [Fmag]. apply Qmult_lt_0_compat; [|done].
    change 0%Q with (inject_Z 0). rewrite <- Zlt_Qlt. lia. }
  cbn [Fsign] in Hx.
  destruct s, c; try done; lra.
Qed.

Lemma Fne_finite_zero s m e : Fne (S754_finite s m e) Fzero = true.
Proof.
  unfold Fne.
  destruct (Fcompare (S754_finite s m e) Fzero) as [c|] eqn:E; [|done].
  pose proof (Fcompare_Q (S754_finite s m e) Fzero c eq_refl eq_refl E) as H.
  pose proof (F2Q_Fmag (S754_finite s m e)) as Hx.
  assert (F2Q Fzero == 0)%Q as Hz by reflexivity.
  pose proof (pow2Q_pos e).
  assert (0 < Fmag (S754_finite s m e))%Q as Hpos.
  { cbn [Fmag]. apply Qmult_lt_0_compat; [|done].
    change 0%Q with (inject_Z 0). rewrite <- Zlt_Qlt. lia. }
  cbn [Fsign] in Hx.
  destruct s, c; try done; lra.
Qed.

(** The truncation of a finite value is the integer part of its magnitude,
    with its sign. *)
Lemma Ftrunc_Q s m e :
  exists t : Z,
    Ftrunc (S754_finite s m e) = Some (if s then - t else t)
    /\ 0 <= t
    /\ (inject_Z t <= Fmag (S754_finite s m e))%Q
    /\ (Fmag (S754_finite s m e) < inject_Z t + 1)%Q.
Proof.
  cbn [Ftrunc Fmag]. destruct (Z.leb_spec 0 e) as [He|He].
  - exists (Z.pos m * 2 ^ e).
    assert (0 < 2 ^ e) by (apply Z.pow_pos_nonneg; lia).
    split; [done|]. split; [lia|].
    rewrite inject_Z_mult, <- pow2Q_Z by done. split; lra.
  - assert (0 < 2 ^ (- e)) as Hp by (apply Z.pow_pos_nonneg; lia).
    exists (Z.pos m / 2 ^ (- e)).
    split; [done|]. split; [apply Z.div_pos; lia|].
    pose proof (Z.mul_div_le (Z.pos m) (2 ^ (- e)) Hp) as Hlo.
    pose proof (Z.mul_succ_div_gt (Z.pos m) (2 ^ (- e)) Hp) as Hhi.
    set (t := Z.pos m / 2 ^ (- e)) in *.
    pose proof (scaled_le t (Z.pos m) e (- e) ltac:(lia) ltac:(lia)) as Q1.
    pose proof (scaled_ge (t + 1) (Z.pos m + 1) e (- e) ltac:(lia)
                  ltac:(lia)) as Q2.
    replace (e + - e) with 0 in Q1, Q2 by lia.
    change (2 ^ 0)%Q with 1%Q in Q1, Q2.
    rewrite !inject_Z_succ in Q2.
    pose proof (pow2Q_pos e). split; lra.
Qed.

(** A nonzero integer below [2^24] converts to [float] exactly, with a
    significand of 24 bits. *)
Lemma F32_of_Z_exact (s : bool) (t : positive) :
  Z.pos t < 2 ^ 24 ->
  exists (m : positive) (e : Z),
    F32.of_Z (if s then Z.neg t else Z.pos t) = S754_finite s m e
    /\ 2 ^ 23 <= Z.pos m
    /\ (Fmag (S754_finite s m e) == inject_Z (Z.pos t))%Q.
Proof.
  intros Ht. unfold F32.of_Z.
  assert (binary_normalize F32.prec F32.emax
            (if s then Z.neg t else Z.pos t) 0 false
          = binary_round F32.prec F32.emax s t 0) as ->
    by (by destruct s).
  unfold binary_round.
  destruct (shl_align_fexp_spec F32.prec F32.emax t 0)
    as (mz & ez & -> & Hez & Hmz & Hdig & Hfexp & Hshift).
  pose proof (digits2_pos_bounds t) as [Hlo Hhi].
  assert (Z.pos (digits2_pos t) <= 24) as Hd.
  { destruct (Z.le_gt_cases (Z.pos (digits2_pos t)) 24) as [|Hgt]; [done|].
    assert (2 ^ 24 <= 2 ^ (Z.pos (digits2_pos t) - 1))
      by (apply Z.pow_le_mono_r; lia).
    lia. }
  assert (fexp F32.prec F32.emax (Z.pos (digits2_pos t) + 0)
          = Z.pos (digits2_pos t) - 24) as Hf
    by (unfold fexp, emin, F32.prec, F32.emax; lia).
  rewrite Hf in Hshift. specialize (Hshift ltac:(lia)).
  rewrite Hdig, Hf in Hfexp.
  rewrite binary_round_aux_exact.
  - exists mz, ez. split; [done|]. split.
    + pose proof (digits2_pos_bounds mz) as [Hlo' _].
      replace (Z.pos (digits2_pos mz) - 1) with 23 in Hlo' by lia. done.
    + cbn [Fmag]. rewrite Hmz, inject_Z_mult.
      rewrite <- pow2Q_Z by lia.
      setoid_replace (inject_Z (Z.pos t) * 2 ^ (0 - ez) * 2 ^ ez)%Q
        with (inject_Z (Z.pos t) * (2 ^ (0 - ez) * 2 ^ ez))%Q
        using relation Qeq by ring.
      rewrite <- pow2Q_add. replace (0 - ez + ez) with 0 by lia.
      change (2 ^ 0)%Q with 1%Q. ring.
  - rewrite Hdig, Hf. lia.
  - unfold F32.prec, F32.emax. lia.
Qed.


(** ** BNR: the scaled value and the decoded value, with their rounding *)

Lemma Fmag_finite_pos s m e : (0 < Fmag (S754_finite s m e))%Q.
Proof.
  cbn [Fmag]. apply Qmult_lt_0_compat; [|apply pow2Q_pos].
  change 0%Q with (inject_Z 0). rewrite <- Zlt_Qlt. lia.
Qed.

Lemma F2Q_finite_cases (x : float) (s : bool) :
  x = S754_zero s \/ (exists m e, x = S754_finite s m e) ->
  (F2Q x == if s then - Fmag x else Fmag x)%Q.
Proof.
  intros [->|(m & e & ->)].
  - cbn. by destruct s.
  - apply F2Q_Fmag.
Qed.

(** The scaling of the encoder.  For a finite engineering value and a
    positive resolution whose quotient [y] is at most [2^20], the scaled
    value is defined, has the sign of the engineering value, and its
    magnitude [t] is [y] rounded to the nearest integer, up to the
    rounding of the division and of the addition of one half. *)
Lemma BNR_calcValueAsInt_Q sx mx ex mr er (y : Q) :
  (y * Fmag (S754_finite false mr er) == Fmag (S754_finite sx mx ex))%Q ->
  (y <= 2 ^ 20)%Q ->
  exists t : Z,
    0 <= t
    /\ BNR_calcValueAsInt (S754_finite false mr er) (S754_finite sx mx ex)
       = Some (if sx then - t else t)
    /\ (Qabs (inject_Z t - y) <= (1 # 2) + 2 ^ (-22) * y + 2 ^ (-40))%Q.
Proof.
  intros Hy Hmax.
  assert (0 <= y)%Q as Hy0.
  { pose proof (Fmag_finite_pos false mr er) as Hr.
    pose proof (Fmag_finite_pos sx mx ex) as He.
    destruct (Qlt_le_dec y 0) as [Hneg|]; [|done].
    assert (y * Fmag (S754_finite false mr er) <= 0)%Q; [|lra].
    setoid_replace 0%Q with (0 * Fmag (S754_finite false mr er))%Q
      using relation Qeq by ring.
    apply Qmult_le_compat_r; lra. }
  unfold BNR_calcValueAsInt, F64.of_float.
  rewrite Fne_finite_zero.
  destruct (SFdiv_Q F32.prec F32.emax sx mx ex false mr er y)
    as (Hfin & Hcases & B1); [done|done|done| |].
  { change (F32.emax - 2) with 126.
    pose proof (pow2Q_le 20 126 ltac:(lia)). lra. }
  fold F32.div in Hfin, Hcases, B1. clear Hy.
  set (q := F32.div (S754_finite sx mx ex) (S754_finite false mr er)) in *.
  rewrite xorb_false_r in Hcases.
  change (1 - F32.prec) with (-23) in B1.
  change (emin F32.prec F32.emax) with (-149) in B1.
  apply Qabs_le_iff in B1. destruct B1 as [B1a B1b].
  pose proof (Fmag_nonneg q) as Hq0.
  destruct Hcases as [Hq|(mq & eq & Hq)].
  - (* the quotient underflows to a zero *)
    rewrite Hq in *. exists 0.
    split; [done|]. split.
    + assert (Flt (S754_zero sx) Fzero = false) as -> by (by destruct sx).
      by destruct sx.
    + cbn [Fmag] in *. change (inject_Z 0) with 0%Q.
      apply Qabs_le_iff. split; lra.
  - rewrite Hq in *. rewrite Flt_finite_zero.
    assert ((if sx then Fmhalf else Fhalf) = S754_finite sx 1 (-1)) as ->
      by (by destruct sx).
    destruct (SFadd_Q F64.prec F64.emax sx mq eq 1 (-1))
      as (Hfin2 & Hcases2 & B2); [done|done| |].
    { change (Fmag (S754_finite sx 1 (-1))) with (1 # 2)%Q.
      change (F64.emax - 2) with 1022.
      pose proof (pow2Q_le 22 1022 ltac:(lia)). lra. }
    fold F64.add in Hfin2, Hcases2, B2.
    set (sm := F64.add (S754_finite sx mq eq) (S754_finite sx 1 (-1))) in *.
    change (Fmag (S754_finite sx 1 (-1))) with (1 # 2)%Q in B2.
    change (1 - F64.prec) with (-52) in B2.
    change (emin F64.prec F64.emax) with (-1074) in B2.
    apply Qabs_le_iff in B2. destruct B2 as [B2a B2b].
    pose proof (Fmag_nonneg sm) as Hs0.
    pose proof (pow2Q_pos (-1074)) as Hη2.
    pose proof (pow2Q_le (-1074) (-60) ltac:(lia)) as Hη2'.
    destruct Hcases2 as [Hs|(ms & es & Hs)].
    { exfalso. rewrite Hs in *. cbn [Fmag] in *. lra. }
    pose proof (F2Q_Fmag sm) as HsQ. rewrite Hs in HsQ. cbn [Fsign] in HsQ.
    rewrite <- Hs in HsQ.
    assert (clamp sm INT32_MIN INT32_MAX = sm) as Hclamp.
    { unfold clamp.
      rewrite Fgt_false_Q, Flt_false_Q; try done.
      - assert (F2Q (F64.of_Z INT32_MIN) == -2147483648 # 1)%Q
          by (vm_compute; reflexivity).
        destruct sx; lra.
      - assert (F2Q (F64.of_Z INT32_MAX) == 2147483647 # 1)%Q
          by (vm_compute; reflexivity).
        destruct sx; lra. }
    rewrite Hclamp. unfold cast_int32.
    destruct (Ftrunc_Q sx ms es) as (t & Htr & Ht0 & Hlo & Hhi).
    rewrite <- Hs in Hlo, Hhi. rewrite Hs, Htr. cbn [mbind option_bind].
    exists t. split; [done|].
    assert (t <= 2097152) as Htmax.
    { rewrite Zle_Qle. change (inject_Z 2097152) with (2097152 # 1)%Q. lra. }
    split.
    + unfold INT32_MIN, INT32_MAX.
      destruct sx.
      * destruct (Z.leb_spec (-2147483648) (- t)); [|lia].
        by destruct (Z.leb_spec (- t) 2147483647); [|lia].
      * destruct (Z.leb_spec (-2147483648) t); [|lia].
        by destruct (Z.leb_spec t 2147483647); [|lia].
    + apply Qabs_le_iff. split; lra.
Qed.


(** The scaled value of a zero is zero. *)
Lemma BNR_calcValueAsInt_zero s mr er :
  BNR_calcValueAsInt (S754_finite false mr er) (S754_zero s) = Some 0.
Proof.
  unfold BNR_calcValueAsInt, F64.of_float. rewrite Fne_finite_zero.
  by destruct s.
Qed.

Lemma F32_mul_zero mr er :
  F32.mul (F32.of_Z 0) (S754_finite false mr er) = S754_zero false.
Proof. reflexivity. Qed.

(** The decoded value: the product of a nonzero integer below [2^24] and
    the resolution, rounded once. *)
Lemma BNR_decoded_Q (sx : bool) (t : Z) mr er :
  0 < t < 2 ^ 24 ->
  (inject_Z t * Fmag (S754_finite false mr er) <= 2 ^ 126)%Q ->
  let d :=
    F32.mul (F32.of_Z (if sx then - t else t)) (S754_finite false mr er) in
  Ffinite d = true
  /\ (d = S754_zero sx \/ exists m e, d = S754_finite sx m e)
  /\ (Qabs (Fmag d - inject_Z t * Fmag (S754_finite false mr er))
      <= 2 ^ (-23) * Fmag d + 2 ^ (-149))%Q.
Proof.
  intros Ht Hmax. destruct t as [|p|p]; [lia| |lia].
  destruct (F32_of_Z_exact sx p) as (m & e & Hof & Hm & Hval); [lia|].
  assert ((if sx then - Z.pos p else Z.pos p)
          = (if sx then Z.neg p else Z.pos p)) as -> by (by destruct sx).
  rewrite Hof. rewrite <- Hval in Hmax.
  destruct (SFmul_Q F32.prec F32.emax sx m e false mr er)
    as (Hfin & Hcases & B); [done|done|done|done|].
  fold F32.mul in Hfin, Hcases, B. rewrite xorb_false_r in Hcases.
  cbv zeta. split; [done|]. split; [done|].
  rewrite <- Hval. exact B.
Qed.

(** The error budget of the round trip, in exact arithmetic: [y] is the
    quotient of the engineering value [e] by the resolution [r], [tv] the
    integer transmitted and [a] the magnitude decoded. *)
Lemma BNR_error_budget (e r y tv a : Q) :
  (0 < r)%Q -> (0 <= y)%Q -> (0 <= a)%Q ->
  (y * r == e)%Q ->
  (Qabs (tv - y) <= (1 # 2) + 2 ^ (-22) * y + 2 ^ (-40))%Q ->
  (Qabs (a - tv * r) <= 2 ^ (-23) * a + 2 ^ (-149))%Q ->
  (Qabs (a - e) <= r * (1 # 2) + (2 ^ (-21) * (e + r) + 2 ^ (-148)))%Q.
Proof.
  intros Hr Hy Ha He Ht Hd.
  apply Qabs_le_iff in Ht. destruct Ht as [Ht1 Ht2].
  apply Qabs_le_iff in Hd. destruct Hd as [Hd1 Hd2].
  assert ((tv - y) * r <= ((1 # 2) + 2 ^ (-22) * y + 2 ^ (-40)) * r)%Q as P1
    by (apply Qmult_le_compat_r; lra).
  assert (- ((1 # 2) + 2 ^ (-22) * y + 2 ^ (-40)) * r <= (tv - y) * r)%Q
    as P2 by (apply Qmult_le_compat_r; lra).
  assert ((tv - y) * r == tv * r - e)%Q as E1 by (rewrite <- He; ring).
  assert (((1 # 2) + 2 ^ (-22) * y + 2 ^ (-40)) * r
          == (1 # 2) * r + 2 ^ (-22) * e + 2 ^ (-40) * r)%Q as E2
    by (rewrite <- He; ring).
  assert (- ((1 # 2) + 2 ^ (-22) * y + 2 ^ (-40)) * r
          == - ((1 # 2) * r + 2 ^ (-22) * e + 2 ^ (-40) * r))%Q as E3
    by (rewrite <- He; ring).
  rewrite E1, E2 in P1. rewrite E1, E3 in P2.
  assert (0 <= e)%Q as He0.
  { rewrite <- He. apply Qmult_le_0_compat; lra. }
  clear He E1 E2 E3 Ht1 Ht2.
  generalize dependent (tv * r)%Q. intros X Hd1 Hd2 P1 P2.
  apply Qabs_le_iff. split; lra.
Qed.

(** ** BNR: assemble, then decode *)

(** The wire round trip of the scaled value.  For a BNR label with 1 to
    20 significant bits whose discrete bits, if any, end below the data
    field: when the scaled value [v] of the engineering value is defined,
    the assembled word decodes successfully, and the decoded
    [engDataFloat] is the [float] product of [v], limited to the field,
    and the resolution. *)
Lemma BNR_wire_round_trip
    (txMsg : ARINC429_TxMsg) (slot : ARINC429_RxMsg) (w0 v : Z) :
  let cfg := tx_msgConfig txMsg in
  let n := numSigBits cfg in
  1 <= n <= ARINC429_BNR_STD_MSG_MAX_NUM_SIGBITS ->
  0 <= label cfg < 256 ->
  BNR_discrete_below_data cfg ->
  msgConfig slot = cfg ->
  BNR_calcValueAsInt (resolution cfg) (tx_engData txMsg) = Some v ->
  F32.mul (F32.of_Z (BNR_clip n v)) (resolution cfg) <> S754_nan ->
  exists W slot',
    ARINC429_AssembleStdBNRmessage txMsg w0
    = Some (if BNR_fits n v then ARINC429_WRITE_MSG_SUCCESS
            else ARINC429_WRITE_MSG_SENT_DATA_CLIPPED, W)
    /\ ARINC429_ProcessStdBNRmessage slot W
       = Some (ARINC429_READ_MSG_SUCCESS, slot')
    /\ rawARINCword (data slot') = W
    /\ engDataFloat (data slot')
       = F32.mul (F32.of_Z (BNR_clip n v)) (resolution cfg).
Proof.
  intros cfg n Hn Hl Hdb Hcfg Hv Hnan.
  unfold ARINC429_BNR_STD_MSG_MAX_NUM_SIGBITS in Hn.
  pose proof (BNR_calcValueAsInt_range _ _ _ Hv) as Hr.
  pose proof (BNR_ConvertEngValToRawBNRmsgData_spec n _ _ v 0 false Hn Hv)
    as Hconv.
  set (field := if BNR_fits n v then wrap32 v
                else if v <? 0 then 2 ^ n else 2 ^ n - 1) in Hconv.
  assert (numDiscreteBits cfg <= NUM_BITS_IN_UINT32) as Hnd.
  { unfold BNR_discrete_below_data, NUM_BITS_IN_UINT32,
      ARINC429_BNR_STD_MSG_NUM_SIGBITS_18 in *. fold n in Hdb. lia. }
  destruct (format_discreteBits_defined _ (tx_discreteBits txMsg) Hnd)
    as [disc Hdisc].
  assert (forall j, 0 <= j -> j < 10 \/ 28 - n <= j ->
                    Z.testbit disc j = false) as Hdbits.
  { intros j Hj Hout.
    apply (format_discreteBits_bits n (numDiscreteBits cfg)
             (tx_discreteBits txMsg) disc j); done. }
  pose proof (BNR_word_data_field n (label cfg) field disc (tx_SDI txMsg)
                (tx_SM txMsg) Hn Hl Hdbits) as Hfield.
  cbv zeta in Hfield.
  match type of Hfield with
  | Z.land (shr32 ?W0 _) _ = _ => set (W := W0) in Hfield
  end.
  assert (ARINC429_AssembleStdBNRmessage txMsg w0
          = Some (if BNR_fits n v then ARINC429_WRITE_MSG_SUCCESS
                  else ARINC429_WRITE_MSG_SENT_DATA_CLIPPED, W)) as HW.
  { unfold ARINC429_AssembleStdBNRmessage. fold cfg. fold n.
    rewrite Hconv. cbn [Z.eqb EXIT_SUCCESS EXIT_FAILURE]. rewrite Hdisc.
    fold W. by destruct (BNR_fits n v). }
  destruct (extract_discreteBits_defined _ W Hnd) as [dbits Hdbits'].
  set (dataEng := F32.mul (F32.of_Z (BNR_clip n v)) (resolution cfg)) in *.
  assert (is_Some
            (cast_int32
               (clamp
                  (F64.of_float
                     (if Flt (F64.of_float dataEng) Fzero
                      then F32.sub dataEng Fhalf else F32.add dataEng Fhalf))
                  INT32_MIN INT32_MAX))) as [engInt HengInt].
  { apply cast_int32_clamp_defined. unfold F64.of_float.
    destruct (Flt dataEng Fzero).
    - by apply SFsub_finite_not_nan.
    - by apply SFadd_finite_not_nan. }
  eexists W, _. split; [exact HW|].
  split; [|split].
  - unfold ARINC429_ProcessStdBNRmessage. rewrite Hcfg. fold cfg. fold n.
    replace (shift_ok (ARINC429_BNR_MAX_DATA_FIELD_SHIFT - n)
             && shift_ok (NUM_BITS_IN_UINT32 - n - 1)) with true.
    2:{ unfold shift_ok, ARINC429_BNR_MAX_DATA_FIELD_SHIFT,
          NUM_BITS_IN_UINT32.
        symmetry. split_cmp; lia || done. }
    cbn [negb]. rewrite Hfield.
    rewrite BNR_ConvertRawMsgDataToEngUnits_spec by done.
    unfold field. rewrite BNR_field_value_clip by done.
    cbn [Z.eqb EXIT_SUCCESS EXIT_FAILURE]. fold dataEng.
    rewrite HengInt, Hdbits'. reflexivity.
  - reflexivity.
  - reflexivity.
Qed.

Lemma BNR_clip_fits n v : BNR_fits n v = true -> BNR_clip n v = v.
Proof.
  unfold BNR_fits, BNR_clip. intros [H1 H2]%andb_true_iff.
  apply Z.leb_le in H1. apply Z.ltb_lt in H2. lia.
Qed.

(** C2 (as amended).  For a BNR label with 1 to 20 significant bits whose
    discrete bits, if any, end below the data field, a finite resolution
    that is not negative and whose range [(2^(n-1) - 1) * resolution] is at
    most [2^126], and a finite engineering value [eng] with
    [|eng| <= (2^(n-1) - 1) * resolution]: ARINC429_AssembleStdBNRmessage
    succeeds without clipping, ARINC429_ProcessStdBNRmessage decodes the
    word successfully, and the decoded [engDataFloat] is a finite number
    within half a resolution of [eng], up to the allowance for the rounding
    of the [float] division and multiplication,
    [2^-21 * (|eng| + resolution) + 2^-148]. *)
Theorem BNR_round_trip
    (txMsg : ARINC429_TxMsg) (slot : ARINC429_RxMsg) (w0 : Z) :
  let cfg := tx_msgConfig txMsg in
  let n := numSigBits cfg in
  let eng := tx_engData txMsg in
  1 <= n <= ARINC429_BNR_STD_MSG_MAX_NUM_SIGBITS ->
  0 <= label cfg < 256 ->
  BNR_discrete_below_data cfg ->
  msgConfig slot = cfg ->
  Ffinite (resolution cfg) = true ->
  (0 <= F2Q (resolution cfg))%Q ->
  (inject_Z (2 ^ (n - 1) - 1) * F2Q (resolution cfg) <= 2 ^ 126)%Q ->
  Ffinite eng = true ->
  (Qabs (F2Q eng) <= inject_Z (2 ^ (n - 1) - 1) * F2Q (resolution cfg))%Q ->
  exists W slot',
    ARINC429_AssembleStdBNRmessage txMsg w0
    = Some (ARINC429_WRITE_MSG_SUCCESS, W)
    /\ ARINC429_ProcessStdBNRmessage slot W
       = Some (ARINC429_READ_MSG_SUCCESS, slot')
    /\ rawARINCword (data slot') = W
    /\ Ffinite (engDataFloat (data slot')) = true
    /\ (Qabs (F2Q (engDataFloat (data slot')) - F2Q eng)
        <= F2Q (resolution cfg) / 2
           + BNR_rounding_allowance (resolution cfg) eng)%Q.
Proof.
  intros cfg n eng Hn Hl Hdb Hcfg Hrfin Hrpos Hrmax Hefin Hrange.
  unfold ARINC429_BNR_STD_MSG_MAX_NUM_SIGBITS in Hn.
  unfold BNR_rounding_allowance.
  change (F2Q (resolution cfg) / 2)%Q with (F2Q (resolution cfg) * (1 # 2))%Q.
  remember (resolution cfg) as res eqn:Hres. symmetry in Hres.
  remember eng as eng' eqn:Heng. unfold eng in Heng. symmetry in Heng.
  (* the bound of the claim on the quotient *)
  assert (0 < 2 ^ (n - 1) <= 2 ^ 19) as Hpow.
  { split; [apply Z.pow_pos_nonneg; lia|apply Z.pow_le_mono_r; lia]. }
  assert (inject_Z (2 ^ (n - 1) - 1) <= 524287 # 1)%Q as HN.
  { change (524287 # 1)%Q with (inject_Z 524287). rewrite <- Zle_Qle.
    change (2 ^ 19) with 524288 in Hpow. lia. }
  assert (0 <= inject_Z (2 ^ (n - 1) - 1))%Q as HN0.
  { change 0%Q with (inject_Z 0). rewrite <- Zle_Qle. lia. }
  pose proof (Qabs_F2Q eng') as Habs. rewrite Habs in Hrange.
  pose proof (Fmag_nonneg eng') as He0.
  (* the wire round trip, once the scaled value is known *)
  assert (forall v : Z,
            BNR_calcValueAsInt res eng' = Some v ->
            BNR_fits n v = true ->
            F32.mul (F32.of_Z v) res <> S754_nan ->
            exists W slot',
              ARINC429_AssembleStdBNRmessage txMsg w0
              = Some (ARINC429_WRITE_MSG_SUCCESS, W)
              /\ ARINC429_ProcessStdBNRmessage slot W
                 = Some (ARINC429_READ_MSG_SUCCESS, slot')
              /\ rawARINCword (data slot') = W
              /\ engDataFloat (data slot') = F32.mul (F32.of_Z v) res)
    as Hwire.
  { intros v Hv Hfits Hnan.
    destruct (BNR_wire_round_trip txMsg slot w0 v)
      as (W & slot' & HW & Hdec & Hraw & Hd); try done.
    - fold cfg. by rewrite Hres, Heng.
    - fold cfg n. by rewrite Hres, (BNR_clip_fits n v Hfits).
    - fold cfg n in HW, Hd. rewrite Hfits in HW.
      rewrite Hres, (BNR_clip_fits n v Hfits) in Hd.
      by exists W, slot'. }
  assert (BNR_fits n 0 = true) as Hfits0.
  { unfold BNR_fits. apply andb_true_iff.
    split; [apply Z.leb_le|apply Z.ltb_lt]; lia. }
  pose proof (pow2Q_pos (-148)) as Hη.
  destruct res as [sr|sr| |sr mr er]; try discriminate.
  - (* the resolution is zero, and so is the engineering value *)
    assert (F2Q (S754_zero sr) == 0)%Q as Hr by (by destruct sr).
    rewrite Hr in Hrange.
    destruct eng' as [se|se| |se me ee]; try discriminate.
    2:{ exfalso. pose proof (Fmag_finite_pos se me ee). lra. }
    destruct (Hwire 0) as (W & slot' & HW & Hdec & Hraw & Hd);
      [by destruct sr, se|done|by destruct sr|].
    exists W, slot'. rewrite Hd.
    repeat (split; [done|]).
    assert (F2Q (F32.mul (F32.of_Z 0) (S754_zero sr)) == 0)%Q as ->
      by (by destruct sr).
    assert (F2Q (S754_zero se) == 0)%Q as Hz by (by destruct se).
    cbn [Fmag] in Habs.
    apply Qabs_le_iff. split; lra.
  - destruct sr.
    { exfalso. pose proof (F2Q_Fmag (S754_finite true mr er)) as H.
      pose proof (Fmag_finite_pos true mr er). cbn [Fsign] in H. lra. }
    pose proof (F2Q_Fmag (S754_finite false mr er)) as Hr.
    cbn [Fsign] in Hr.
    pose proof (Fmag_finite_pos false mr er) as Hr0.
    set (r := Fmag (S754_finite false mr er)) in *.
    rewrite Hr in Hrange, Hrmax. clear Hrpos.
    destruct eng' as [se|se| |se me ee]; try discriminate.
    + (* a zero is transmitted as zero and comes back as zero *)
      destruct (Hwire 0) as (W & slot' & HW & Hdec & Hraw & Hd);
        [apply BNR_calcValueAsInt_zero|done|by rewrite F32_mul_zero|].
      exists W, slot'. rewrite Hd, F32_mul_zero.
      repeat (split; [done|]).
      assert (F2Q (S754_zero false) == 0)%Q as -> by reflexivity.
      assert (F2Q (S754_zero se) == 0)%Q as Hz by (by destruct se).
      cbn [Fmag] in Habs.
      apply Qabs_le_iff. split; lra.
    + (* a finite value *)
      set (e := Fmag (S754_finite se me ee)) in *.
      set (y := (e / r)%Q).
      assert (y * r == e)%Q as Hy by (unfold y; field; lra).
      assert (0 <= y)%Q as Hy0.
      { destruct (Qlt_le_dec y 0) as [Hneg|]; [|done].
        pose proof (Fmag_finite_pos se me ee) as Hepos. fold e in Hepos.
        assert (y * r <= 0 * r)%Q by (apply Qmult_le_compat_r; lra). lra. }
      assert (y <= inject_Z (2 ^ (n - 1) - 1))%Q as HyN.
      { apply (Qmult_le_r _ _ r); [done|]. by rewrite Hy. }
      destruct (BNR_calcValueAsInt_Q se me ee mr er y)
        as (t & Ht0 & Hv & Bt); [done|lra|].
      assert (Bt' := Bt). apply Qabs_le_iff in Bt'.
      destruct Bt' as [Bt1 Bt2].
      assert (t <= 2 ^ (n - 1) - 1) as HtN.
      { assert (t < (2 ^ (n - 1) - 1) + 1); [|lia].
        rewrite Zlt_Qlt, inject_Z_succ. lra. }
      assert (BNR_fits n (if se then - t else t) = true) as Hfits.
      { unfold BNR_fits. apply andb_true_iff.
        assert (2 ^ n = 2 * 2 ^ (n - 1)) as ->.
        { rewrite <- Z.pow_succ_r by lia. f_equal. lia. }
        destruct se; split; (apply Z.leb_le || apply Z.ltb_lt); lia. }
      destruct (Z.eq_dec t 0) as [->|Htne].
      * (* the value is transmitted as zero *)
        assert ((if se then - 0 else 0) = 0) as Hz by (by destruct se).
        rewrite Hz in Hv.
        destruct (Hwire 0 Hv Hfits0) as (W & slot' & HW & Hdec & Hraw & Hd).
        { by rewrite F32_mul_zero. }
        exists W, slot'. rewrite Hd, F32_mul_zero.
        repeat (split; [done|]).
        assert (F2Q (S754_zero false) == 0)%Q as -> by reflexivity.
        pose proof (F2Q_Fmag (S754_finite se me ee)) as HeQ.
        cbn [Fsign] in HeQ. fold e in HeQ.
        change (inject_Z 0) with 0%Q in Bt1, Bt2.
        assert (e <= r * (1 # 2) + 2 ^ (-21) * (e + r))%Q as Hbound.
        { assert (y * r
                  <= ((1 # 2) + 2 ^ (-22) * y + 2 ^ (-40)) * r)%Q as P
            by (apply Qmult_le_compat_r; lra).
          assert (((1 # 2) + 2 ^ (-22) * y + 2 ^ (-40)) * r
                  == (1 # 2) * r + 2 ^ (-22) * e + 2 ^ (-40) * r)%Q as E2
            by (rewrite <- Hy; ring).
          rewrite E2, Hy in P. lra. }
        apply Qabs_le_iff. destruct se; split; lra.
      * (* the value is transmitted as a nonzero integer *)
        destruct (BNR_decoded_Q se t mr er) as (Hdfin & Hdcases & Bd).
        { change (2 ^ 19) with 524288 in Hpow. lia. }
        { fold r.
          assert (inject_Z t <= inject_Z (2 ^ (n - 1) - 1))%Q
            by (by rewrite <- Zle_Qle).
          assert (inject_Z t * r <= inject_Z (2 ^ (n - 1) - 1) * r)%Q
            by (apply Qmult_le_compat_r; lra).
          lra. }
        fold r in Bd.
        set (d := F32.mul (F32.of_Z (if se then - t else t))
                    (S754_finite false mr er)) in *.
        destruct (Hwire _ Hv Hfits) as (W & slot' & HW & Hdec & Hraw & Hd).
        { fold d. intros Hnan. by rewrite Hnan in Hdfin. }
        fold d in Hd.
        exists W, slot'. rewrite Hd.
        repeat (split; [done|]).
        pose proof (BNR_error_budget e r y (inject_Z t) (Fmag d)
                      Hr0 Hy0 (Fmag_nonneg d) Hy Bt Bd) as Hbudget.
        pose proof (F2Q_finite_cases d se Hdcases) as HdQ.
        pose proof (F2Q_Fmag (S754_finite se me ee)) as HeQ.
        cbn [Fsign] in HeQ. fold e in HeQ.
        apply Qabs_le_iff in Hbudget. destruct Hbudget as [Hb1 Hb2].
        apply Qabs_le_iff. destruct se; split; lra.
Qed.

Lemma BNR_round_trip_witness :
  let cfg := arincLabel250Config in
  let eng := F32.of_Z (-45) in
  exists W slot',
    ARINC429_AssembleStdBNRmessage
      (mkTxMsg cfg ARINC429_SSM_BNR_NORMAL_OPERATION 1 eng 0) 0
    = Some (ARINC429_WRITE_MSG_SUCCESS, W)
    /\ ARINC429_ProcessStdBNRmessage (mkRxMsg cfg RxMsgData_init) W
       = Some (ARINC429_READ_MSG_SUCCESS, slot')
    /\ (Qabs (F2Q (engDataFloat (data slot')) - F2Q eng)
        <= F2Q (resolution cfg) / 2
           + BNR_rounding_allowance (resolution cfg) eng)%Q.
Proof.
  intros cfg eng.
  destruct (BNR_round_trip
              (mkTxMsg cfg ARINC429_SSM_BNR_NORMAL_OPERATION 1 eng 0)
              (mkRxMsg cfg RxMsgData_init) 0)
    as (W & slot' & HW & Hdec & _ & _ & Hbound).
  - cbn. unfold ARINC429_BNR_STD_MSG_MAX_NUM_SIGBITS. lia.
  - split; [vm_compute; discriminate|vm_compute; reflexivity].
  - left. cbn. lia.
  - reflexivity.
  - reflexivity.
  - vm_compute. discriminate.
  - vm_compute. discriminate.
  - reflexivity.
  - vm_compute. discriminate.
  - exists W, slot'. split; [exact HW|]. split; [exact Hdec|exact Hbound].
Defined.

(** C2 as stated fails in three ways.  With 12 significant bits, the
    resolution 0.1f and the engineering value 0.25, inside the range of the
    claim, the quotient rounds to 2.5, the transmitted integer is 3, and
    the decoded value 3 * 0.1f is farther from 0.25 than half of 0.1f: the
    bound holds only up to the rounding.  With 18 significant bits and one
    discrete bit, the discrete bit is transmitted on the least significant
    bit of the data field, and the engineering value 0 comes back as 1.
    With 3 significant bits and a resolution of about 1.14e38, the
    engineering value [FLT_MAX], inside the range of the claim, is
    transmitted as 3, and the product of 3 and the resolution overflows:
    the decoded value is an infinity. *)
Lemma BNR_round_trip_counterexample :
  (let cfg := bnr_tenth_config in
   let eng := F32.dec 25 2 in
   1 <= numSigBits cfg <= 20
   /\ (Qabs (F2Q eng)
       <= inject_Z (2 ^ (numSigBits cfg - 1) - 1) * F2Q (resolution cfg))%Q
   /\ exists dec,
        BNR_encode_decode
          (mkTxMsg cfg ARINC429_SSM_BNR_NORMAL_OPERATION 0 eng 0)
        = Some dec
        /\ dec = F32.mul (F32.of_Z 3) (resolution cfg)
        /\ (F2Q (resolution cfg) / 2 < Qabs (F2Q dec - F2Q eng))%Q)
  /\ (let cfg := bnr_overlap_config in
      let eng := F32.of_Z 0 in
      1 <= numSigBits cfg <= 20
      /\ (Qabs (F2Q eng)
          <= inject_Z (2 ^ (numSigBits cfg - 1) - 1)
             * F2Q (resolution cfg))%Q
      /\ exists dec,
           BNR_encode_decode
             (mkTxMsg cfg ARINC429_SSM_BNR_NORMAL_OPERATION 0 eng 1)
           = Some dec
           /\ dec = F32.of_Z 1
           /\ (F2Q (resolution cfg) / 2 < Qabs (F2Q dec - F2Q eng))%Q)
  /\ (let cfg := bnr_large_config in
      let eng := FLT_MAX in
      1 <= numSigBits cfg <= 20
      /\ Ffinite (resolution cfg) = true
      /\ Ffinite eng = true
      /\ (Qabs (F2Q eng)
          <= inject_Z (2 ^ (numSigBits cfg - 1) - 1)
             * F2Q (resolution cfg))%Q
      /\ BNR_encode_decode
           (mkTxMsg cfg ARINC429_SSM_BNR_NORMAL_OPERATION 0 eng 0)
         = Some (S754_infinity false)).
Proof.
  split; [|split].
  - cbv zeta. split; [cbn; lia|]. split; [vm_compute; discriminate|].
    eexists. split; [vm_compute; reflexivity|].
    split; [vm_compute; reflexivity|]. vm_compute. reflexivity.
  - cbv zeta. split; [cbn; lia|]. split; [vm_compute; discriminate|].
    eexists. split; [vm_compute; reflexivity|].
    split; [vm_compute; reflexivity|]. vm_compute. reflexivity.
  - cbv zeta. split; [cbn; lia|]. split; [reflexivity|].
    split; [reflexivity|]. split; [vm_compute; discriminate|].
    vm_compute. reflexivity.
Qed.

(** ** BCD: the digit loops *)

Lemma BCD_pattern_0 digits : BCD_pattern digits 0 = 0.
Proof.
  induction digits as [|f IH]; cbn [BCD_pattern]; [done|].
  change (0 / 10) with 0. by rewrite IH.
Qed.

Lemma BCD_pattern_range digits t :
  0 <= t -> 0 <= BCD_pattern digits t < 16 ^ Z.of_nat digits.
Proof.
  revert t. induction digits as [|f IH]; intros t Ht; cbn [BCD_pattern].
  - cbn. lia.
  - replace (Z.of_nat (S f)) with (Z.of_nat f + 1) by lia.
    rewrite Z.pow_add_r, Z.pow_1_r by lia.
    pose proof (IH (t / 10) ltac:(apply Z.div_pos; lia)).
    pose proof (Z.mod_pos_bound t 10 ltac:(lia)). lia.
Qed.

(** With a most significant character below 8, the pattern leaves the top
    bit of its last digit clear. *)
Lemma BCD_pattern_msc digits t :
  0 <= t -> 10 * t < 8 * 10 ^ Z.of_nat (S digits) ->
  BCD_pattern (S digits) t < 8 * 16 ^ Z.of_nat digits.
Proof.
  revert t. induction digits as [|f IH]; intros t Ht Hb.
  - cbn in Hb |- *. Z.to_euclidean_division_equations; lia.
  - cbn [BCD_pattern] in IH |- *.
    replace (Z.of_nat (S (S f))) with (Z.of_nat (S f) + 1) in Hb by lia.
    rewrite Z.pow_add_r, Z.pow_1_r in Hb by lia.
    replace (Z.of_nat (S f)) with (Z.of_nat f + 1) by lia.
    rewrite Z.pow_add_r, Z.pow_1_r by lia.
    assert (10 * (t / 10) < 8 * 10 ^ Z.of_nat (S f)) as Hb'
      by (Z.to_euclidean_division_equations; lia).
    pose proof (IH (t / 10) ltac:(apply Z.div_pos; lia) Hb').
    pose proof (Z.mod_pos_bound t 10 ltac:(lia)). lia.
Qed.

Lemma BCD_pattern_zero_inv digits t :
  0 <= t < 10 ^ Z.of_nat digits -> BCD_pattern digits t = 0 -> t = 0.
Proof.
  revert t. induction digits as [|f IH]; intros t Ht H.
  - cbn in Ht. lia.
  - cbn [BCD_pattern] in H.
    replace (Z.of_nat (S f)) with (Z.of_nat f + 1) in Ht by lia.
    rewrite Z.pow_add_r, Z.pow_1_r in Ht by lia.
    assert (0 <= t / 10 < 10 ^ Z.of_nat f) as Hq
      by (split; [apply Z.div_pos; lia|apply Z.div_lt_upper_bound; lia]).
    pose proof (BCD_pattern_range f (t / 10) (proj1 Hq)).
    pose proof (Z.mod_pos_bound t 10 ltac:(lia)).
    assert (BCD_pattern f (t / 10) = 0) as Hz by lia.
    apply IH in Hz; [|done].
    Z.to_euclidean_division_equations; lia.
Qed.

Lemma shl32_small x n :
  0 <= n -> 0 <= x -> x * 2 ^ n < 2 ^ 32 -> shl32 x n = x * 2 ^ n.
Proof.
  intros Hn Hx Hb. unfold shl32. rewrite Z.shiftl_mul_pow2 by done.
  apply wrap32_small. split; [|done].
  apply Z.mul_nonneg_nonneg; [done|]. apply Z.pow_nonneg. lia.
Qed.

Lemma pow16 c : 0 <= c -> 2 ^ (4 * c) = 16 ^ c.
Proof. intros Hc. by rewrite Z.pow_mul_r by lia. Qed.

(** The first loop of ARINC429_BCD_ConvertEngValToBCD writes the pattern
    of the value and leaves nothing of it when the value fits. *)
Lemma EngValToBCD_loop_spec (fuel : nat) :
  forall (d t asBCD count : Z),
    d = count + Z.of_nat fuel -> 0 <= count -> 0 <= t ->
    0 <= asBCD < 16 ^ count ->
    10 * t < 8 * 10 ^ Z.of_nat fuel ->
    16 ^ count * 16 ^ Z.of_nat fuel <= 2 ^ 32 ->
    EngValToBCD_loop fuel d ARINC429_BCD_STD_MSG_MAX_NUM_BITS_MSC
      t asBCD count
    = (0, asBCD + 16 ^ count * BCD_pattern fuel t).
Proof.
  induction fuel as [|f IH]; intros d t asBCD count Hd Hc Ht Ha Hb Hw.
  - cbn in Hb |- *. assert (t = 0) as -> by lia. f_equal. lia.
  - cbn [EngValToBCD_loop BCD_pattern].
    destruct (Z.ltb_spec 0 t) as [Hpos|Hz].
    2:{ assert (t = 0) as -> by lia.
        rewrite Z.mod_0_l, Z.div_0_l, BCD_pattern_0 by lia. f_equal. lia. }
    replace (Z.of_nat (S f)) with (Z.of_nat f + 1) in * by lia.
    rewrite Z.pow_add_r, Z.pow_1_r in Hb, Hw by lia.
    pose proof (Z.mod_pos_bound t 10 ltac:(lia)) as Hdig.
    assert (0 < 16 ^ count) as H16 by (apply Z.pow_pos_nonneg; lia).
    assert (0 < 16 ^ Z.of_nat f) as H16f by (apply Z.pow_pos_nonneg; lia).
    assert (0 < 10 ^ Z.of_nat f) as H10f by (apply Z.pow_pos_nonneg; lia).
    rewrite shr32_UINT32_MAX
      by (unfold NUM_BITS_IN_UINT32, ARINC429_BCD_STD_MSG_MAX_NUM_BITS_MSC;
          lia).
    unfold NUM_BITS_IN_UINT32, ARINC429_BCD_STD_MSG_MAX_NUM_BITS_MSC,
      ARINC429_BCD_BITS_PER_DIGIT in IH |- *.
    change (Z.ones (32 - (32 - 3))) with 7.
    replace ((d =? count + 1) && (7 <? t mod 10)) with false.
    2:{ symmetry. apply andb_false_iff.
        destruct (Z.eqb_spec d (count + 1)); [right|by left].
        assert (f = 0%nat) as -> by lia. cbn in Hb.
        apply Z.ltb_ge. Z.to_euclidean_division_equations; lia. }
    rewrite shl32_small, pow16 by (rewrite ?pow16 by lia; nia).
    rewrite wrap32_small by nia.
    rewrite (IH d (t / 10) (asBCD + t mod 10 * 16 ^ count) (count + 1));
      try lia.
    + f_equal. rewrite Z.pow_add_r, Z.pow_1_r by lia. ring.
    + apply Z.div_pos; lia.
    + rewrite Z.pow_add_r, Z.pow_1_r by lia. nia.
    + pose proof (Z.mul_div_le t 10 ltac:(lia)). lia.
    + rewrite Z.pow_add_r, Z.pow_1_r by lia. nia.
Qed.

(** The digit loop of ARINC429_BCD_ConvertBCDvalToEngVal reads a pattern
    back. *)
Lemma BCDvalToEngVal_loop_spec (fuel : nat) :
  forall (calcValue t multVal : Z),
    0 <= calcValue < multVal -> 0 <= t < 10 ^ Z.of_nat fuel ->
    multVal * 10 ^ Z.of_nat fuel < 2 ^ 32 ->
    BCDvalToEngVal_loop fuel calcValue (BCD_pattern fuel t) multVal
    = (calcValue + multVal * t, 0).
Proof.
  induction fuel as [|f IH]; intros calc t mult Hc Ht Hw.
  - cbn in Ht |- *. assert (t = 0) as -> by lia. f_equal. lia.
  - cbn [BCDvalToEngVal_loop].
    replace (Z.of_nat (S f)) with (Z.of_nat f + 1) in * by lia.
    rewrite Z.pow_add_r, Z.pow_1_r in Ht, Hw by lia.
    assert (0 < 10 ^ Z.of_nat f) as H10f by (apply Z.pow_pos_nonneg; lia).
    assert (0 <= t / 10 < 10 ^ Z.of_nat f) as Hq
      by (split; [apply Z.div_pos; lia|apply Z.div_lt_upper_bound; lia]).
    pose proof (Z.mod_pos_bound t 10 ltac:(lia)) as Hdig.
    pose proof (BCD_pattern_range f (t / 10) (proj1 Hq)) as HP.
    destruct (Z.ltb_spec 0 (BCD_pattern (S f) t)) as [Hpos|Hz].
    + cbn [BCD_pattern] in Hpos |- *.
      set (P := BCD_pattern f (t / 10)) in *.
      change 15 with (Z.ones 4). rewrite Z.land_ones by lia.
      unfold shr32, ARINC429_BCD_BITS_PER_DIGIT, ARINC429_BCD_MAX_DIGIT_VAL.
      rewrite Z.shiftr_div_pow2 by lia.
      assert ((t mod 10 + 16 * P) mod 2 ^ 4 = t mod 10) as ->
        by (change (2 ^ 4) with 16; Z.to_euclidean_division_equations; lia).
      assert ((t mod 10 + 16 * P) / 2 ^ 4 = P) as ->
        by (change (2 ^ 4) with 16; Z.to_euclidean_division_equations; lia).
      destruct (Z.ltb_spec 9 (t mod 10)); [lia|].
      rewrite !wrap32_small by nia.
      unfold P. rewrite IH; try lia; try nia.
      f_equal. rewrite (Z.div_mod t 10) at 3 by lia. ring.
    + cbn [BCD_pattern] in Hz.
      assert (BCD_pattern (S f) t = 0) as H0
        by (cbn [BCD_pattern]; lia).
      rewrite H0.
      apply BCD_pattern_zero_inv in H0.
      2:{ replace (Z.of_nat (S f)) with (Z.of_nat f + 1) by lia.
          rewrite Z.pow_add_r, Z.pow_1_r by lia. lia. }
      subst t. f_equal. lia.
Qed.

Lemma BCD_ConvertEngValToBCD_spec d res eng k r0 c0 :
  1 <= d <= 5 ->
  BCD_tempValue res eng = Some k -> BCD_fits d k ->
  ARINC429_BCD_ConvertEngValToBCD d res
    ARINC429_BCD_STD_MSG_MAX_NUM_BITS_MSC eng r0 c0
  = Some (EXIT_SUCCESS, BCD_pattern (Z.to_nat d) k, false).
Proof.
  intros Hd Hk [Hk0 Hfit]. unfold ARINC429_BCD_ConvertEngValToBCD.
  unfold ARINC429_BCD_STD_MSG_MAX_NUM_SIGDIGITS, ARINC429_BCD_BITS_PER_DIGIT.
  destruct (Z.ltb_spec d 1); [lia|]. destruct (Z.ltb_spec 5 d); [lia|].
  cbn [orb]. rewrite Hk.
  rewrite (EngValToBCD_loop_spec (Z.to_nat d) d k 0 0); try lia.
  - change ((ARINC429_BCD_STD_MSG_MAX_NUM_BITS_MSC <? 1)
            || (4 <? ARINC429_BCD_STD_MSG_MAX_NUM_BITS_MSC)) with false.
    cbn [Z.eqb]. by rewrite Z.pow_0_r, Z.mul_1_l, Z.add_0_l.
  - rewrite Z2Nat.id by lia.
    replace d with (d - 1 + 1) at 1 by lia.
    rewrite Z.pow_add_r, Z.pow_1_r by lia. lia.
  - rewrite Z2Nat.id, Z.pow_0_r, Z.mul_1_l by lia.
    apply (Z.le_trans _ (16 ^ 8)); [|done].
    apply Z.pow_le_mono_r; lia.
Qed.

Lemma BCD_fits_lt_pow d k : 1 <= d -> BCD_fits d k -> 0 <= k < 10 ^ d.
Proof.
  intros Hd [Hk0 Hfit]. split; [done|].
  replace d with (d - 1 + 1) by lia.
  rewrite Z.pow_add_r, Z.pow_1_r by lia.
  assert (0 < 10 ^ (d - 1)) by (apply Z.pow_pos_nonneg; lia). lia.
Qed.

Lemma BCD_ConvertBCDvalToEngVal_spec d res d0 k :
  1 <= d <= 5 -> BCD_fits d k ->
  ARINC429_BCD_ConvertBCDvalToEngVal d res d0 (BCD_pattern (Z.to_nat d) k)
  = (EXIT_SUCCESS, F32.mul (F32.of_Z k) res).
Proof.
  intros Hd Hfit. pose proof (BCD_fits_lt_pow d k ltac:(lia) Hfit) as Hk.
  unfold ARINC429_BCD_ConvertBCDvalToEngVal.
  unfold ARINC429_BCD_STD_MSG_MAX_NUM_SIGDIGITS.
  destruct (Z.ltb_spec d 1); [lia|]. destruct (Z.ltb_spec 5 d); [lia|].
  cbn [orb].
  rewrite (BCDvalToEngVal_loop_spec (Z.to_nat d) 0 k 1); try lia.
  - cbn [Z.eqb]. by rewrite Z.add_0_l, Z.mul_1_l.
  - by rewrite Z2Nat.id by lia.
  - rewrite Z2Nat.id, Z.mul_1_l by lia.
    apply (Z.le_lt_trans _ (10 ^ 5)); [|done].
    apply Z.pow_le_mono_r; lia.
Qed.

Lemma BCD_pattern_bits d k :
  1 <= d -> BCD_fits d k ->
  0 <= BCD_pattern (Z.to_nat d) k < 2 ^ (4 * d - 1).
Proof.
  intros Hd [Hk0 Hfit].
  split; [apply BCD_pattern_range; lia|].
  replace (Z.to_nat d) with (S (Z.to_nat (d - 1))) by lia.
  replace (4 * d - 1) with (3 + 4 * (d - 1)) by lia.
  rewrite Z.pow_add_r, pow16 by lia.
  replace (d - 1) with (Z.of_nat (Z.to_nat (d - 1))) at 2 by lia.
  apply BCD_pattern_msc; [done|].
  replace (Z.of_nat (S (Z.to_nat (d - 1)))) with (d - 1 + 1) by lia.
  rewrite Z.pow_add_r, Z.pow_1_r by lia. lia.
Qed.

(** The data field of the word assembled by
    ARINC429_AssembleStdBCDmessage. *)
Lemma BCD_word_data_field d lbl bcd disc sdi sm :
  1 <= d <= 5 -> 0 <= lbl < 256 -> 0 <= bcd < 2 ^ (4 * d - 1) ->
  (forall j, 0 <= j -> j < 10 \/ 10 + 4 * (5 - d) <= j ->
             Z.testbit disc j = false) ->
  let s := ARINC429_BCD_STD_MSG_DATA_FIELD_SHIFT
           + ARINC429_BCD_BITS_PER_DIGIT
             * (ARINC429_BCD_STD_MSG_MAX_NUM_SIGDIGITS - d) in
  let shifted := Z.land (shl32 bcd s) ARINC429_BCD_DATAFIELDMASK in
  let W :=
    Z.lor
      (Z.lor (Z.lor (Z.lor lbl shifted) disc)
             (Z.shiftl (Z.land sdi ARINC429_SDI_FIELD_LIMIT_MASK)
                       ARINC429_SDI_FIELD_SHIFT_VAL))
      (shl32 (Z.land sm ARINC429_SSM_FIELD_LIMIT_MASK)
             ARINC429_SSM_FIELD_SHIFT_VAL) in
  shr32 (Z.land W ARINC429_BCD_DATAFIELDMASK) s = bcd.
Proof.
  intros Hd Hl Hb Hdisc.
  unfold ARINC429_BCD_STD_MSG_DATA_FIELD_SHIFT, ARINC429_BCD_BITS_PER_DIGIT,
    ARINC429_BCD_STD_MSG_MAX_NUM_SIGDIGITS, ARINC429_SDI_FIELD_LIMIT_MASK,
    ARINC429_SDI_FIELD_SHIFT_VAL, ARINC429_SSM_FIELD_LIMIT_MASK,
    ARINC429_SSM_FIELD_SHIFT_VAL.
  change ARINC429_BCD_DATAFIELDMASK with (Z.shiftl (Z.ones 19) 10).
  cbv zeta. set (s := 10 + 4 * (5 - d)).
  assert (10 <= s <= 26) as Hs by (unfold s; lia).
  apply Z.bits_inj'. intros i Hi.
  unfold shr32. rewrite Z.shiftr_spec, Z.land_spec by lia.
  rewrite testbit_mask_shifted by lia.
  destruct (Z.leb_spec 10 (i + s)); [|lia]. rewrite andb_true_l.
  destruct (Z.ltb_spec (i + s - 10) 19).
  - rewrite andb_true_r.
    assert (Z.testbit lbl (i + s) = false) as Hlbl
      by (apply (testbit_small lbl 8); lia).
    assert (Z.testbit disc (i + s) = false) as Hd'
      by (apply Hdisc; unfold s in *; lia).
    assert (Z.testbit (Z.shiftl (Z.land sdi 3) 8) (i + s) = false) as Hsdi.
    { rewrite Z.shiftl_spec, Z.land_spec by lia.
      change 3 with (Z.ones 2). rewrite Z.testbit_ones_nonneg by lia.
      destruct (Z.ltb_spec (i + s - 8) 2); [lia|]. apply andb_false_r. }
    assert (Z.testbit (shl32 (Z.land sm 3) 29) (i + s) = false) as Hssm.
    { rewrite testbit_shl32 by lia.
      rewrite (Z.testbit_neg_r _ (i + s - 29)) by lia. apply andb_false_r. }
    assert (Z.testbit (Z.land (shl32 bcd s) (Z.shiftl (Z.ones 19) 10)) (i + s)
            = Z.testbit bcd i) as Hshift.
    { rewrite Z.land_spec, testbit_shl32, testbit_mask_shifted by lia.
      replace (i + s - s) with i by lia.
      split_cmp; try lia. by rewrite !andb_true_r. }
    by rewrite !Z.lor_spec, Hlbl, Hd', Hsdi, Hssm, Hshift, !orb_false_r.
  - rewrite andb_false_r. symmetry.
    apply (testbit_small bcd (4 * d - 1) i Hb). unfold s in *. lia.
Qed.

(** ** BCD: assemble, then decode *)

(** C9, as far as the code goes.  For a valid BCD label, when the
    engineering value is not negative and its scaled value [k] is defined
    and fits in the digits (most significant character below 8), the
    assembled word decodes successfully and the decoded [engDataFloat] is
    the [float] product of [k] and the resolution: the digits come back
    exactly.  (The product is the original engineering value only when
    that value is itself the product of [k] and the resolution.) *)
Theorem BCD_round_trip
    (txMsg : ARINC429_TxMsg) (slot : ARINC429_RxMsg) (w0 k : Z) :
  let cfg := tx_msgConfig txMsg in
  let d := numSigDigits cfg in
  1 <= d <= ARINC429_BCD_STD_MSG_MAX_NUM_SIGDIGITS ->
  d * 4 - 1 + numDiscreteBits cfg
  <= ARINC429_BCD_STD_DATA_MAX_DATA_FIELD_SIZE ->
  0 <= label cfg < 256 ->
  msgConfig slot = cfg ->
  Flt (tx_engData txMsg) (F32.of_Z 0) = false ->
  BCD_tempValue (resolution cfg) (tx_engData txMsg) = Some k ->
  BCD_fits d k ->
  F32.mul (F32.of_Z k) (resolution cfg) <> S754_nan ->
  exists W slot',
    ARINC429_AssembleStdBCDmessage txMsg w0
    = Some (ARINC429_WRITE_MSG_SUCCESS, W)
    /\ ARINC429_ProcessStdBCDmessage slot W
       = Some (ARINC429_READ_MSG_SUCCESS, slot')
    /\ engDataFloat (data slot') = F32.mul (F32.of_Z k) (resolution cfg).
Proof.
  intros cfg d Hd Hsize Hl Hcfg Hpos Hk Hfit Hnan.
  unfold ARINC429_BCD_STD_MSG_MAX_NUM_SIGDIGITS,
    ARINC429_BCD_STD_DATA_MAX_DATA_FIELD_SIZE in Hd, Hsize.
  pose proof (BCD_ConvertEngValToBCD_spec d _ _ k 0 false Hd Hk Hfit)
    as Hconv.
  set (bcd := BCD_pattern (Z.to_nat d) k) in *.
  pose proof (BCD_pattern_bits d k ltac:(lia) Hfit) as Hbits. fold bcd in Hbits.
  assert (numDiscreteBits cfg <= NUM_BITS_IN_UINT32) as Hnd
    by (unfold NUM_BITS_IN_UINT32; lia).
  destruct (format_discreteBits_defined _ (tx_discreteBits txMsg) Hnd)
    as [disc Hdisc].
  assert (forall j, 0 <= j -> j < 10 \/ 10 + 4 * (5 - d) <= j ->
                    Z.testbit disc j = false) as Hdbits.
  { intros j Hj Hout.
    apply (format_discreteBits_bits (4 * d - 2) (numDiscreteBits cfg)
             (tx_discreteBits txMsg) disc j); try done; lia. }
  pose proof (BCD_word_data_field d (label cfg) bcd disc (tx_SDI txMsg)
                (tx_SM txMsg) Hd Hl Hbits Hdbits) as Hfield.
  cbv zeta in Hfield.
  match type of Hfield with
  | shr32 (Z.land ?W0 _) _ = _ => set (W := W0) in Hfield
  end.
  assert ((numSigDigits cfg <? 1)
          || (ARINC429_BCD_STD_MSG_MAX_NUM_SIGDIGITS <? numSigDigits cfg)
          || (ARINC429_BCD_STD_DATA_MAX_DATA_FIELD_SIZE
              <? numSigDigits cfg * 4 - 1 + numDiscreteBits cfg) = false)
    as Hvalid.
  { fold d. unfold ARINC429_BCD_STD_MSG_MAX_NUM_SIGDIGITS,
      ARINC429_BCD_STD_DATA_MAX_DATA_FIELD_SIZE.
    split_cmp; lia || done. }
  assert (ARINC429_AssembleStdBCDmessage txMsg w0
          = Some (ARINC429_WRITE_MSG_SUCCESS, W)) as HW.
  { unfold ARINC429_AssembleStdBCDmessage. fold cfg. rewrite Hvalid, Hpos.
    fold d. rewrite Hconv. cbn [Z.eqb EXIT_SUCCESS EXIT_FAILURE].
    rewrite Hdisc. reflexivity. }
  destruct (extract_discreteBits_defined _ W Hnd) as [dbits Hdbits'].
  set (dataEng := F32.mul (F32.of_Z k) (resolution cfg)) in *.
  assert (is_Some
            (cast_int32
               (clamp
                  (F64.of_float
                     (F32.add dataEng
                        (if Flt (F64.of_float dataEng) Fzero
                         then Fmhalf else Fhalf)))
                  INT32_MIN INT32_MAX))) as [engInt HengInt].
  { apply cast_int32_clamp_defined. unfold F64.of_float.
    destruct (Flt dataEng Fzero); by apply SFadd_finite_not_nan. }
  eexists W, _. split; [exact HW|]. split.
  - unfold ARINC429_ProcessStdBCDmessage. rewrite Hcfg. fold cfg.
    rewrite Hvalid. fold d. rewrite Hfield. unfold bcd.
    rewrite BCD_ConvertBCDvalToEngVal_spec by done.
    cbn [Z.eqb EXIT_SUCCESS EXIT_FAILURE]. fold dataEng.
    rewrite HengInt, Hdbits'. reflexivity.
  - reflexivity.
Qed.

Lemma BCD_round_trip_witness :
  exists W slot',
    ARINC429_AssembleStdBCDmessage
      (mkTxMsg arincLabel235Config ARNIC429_SSM_BCD_PLUS 1
         (F32.dec 29921 3) 0) 0
    = Some (ARINC429_WRITE_MSG_SUCCESS, W)
    /\ ARINC429_ProcessStdBCDmessage
         (mkRxMsg arincLabel235Config RxMsgData_init) W
       = Some (ARINC429_READ_MSG_SUCCESS, slot')
    /\ engDataFloat (data slot')
       = F32.mul (F32.of_Z 29921) (resolution arincLabel235Config).
Proof.
  refine (BCD_round_trip
            (mkTxMsg arincLabel235Config ARNIC429_SSM_BCD_PLUS 1
               (F32.dec 29921 3) 0)
            (mkRxMsg arincLabel235Config RxMsgData_init) 0 29921
            _ _ _ _ _ _ _ _).
  - cbn. unfold ARINC429_BCD_STD_MSG_MAX_NUM_SIGDIGITS. lia.
  - cbn. unfold ARINC429_BCD_STD_DATA_MAX_DATA_FIELD_SIZE. lia.
  - split; [vm_compute; discriminate|vm_compute; reflexivity].
  - reflexivity.
  - vm_compute. reflexivity.
  - vm_compute. reflexivity.
  - split; [lia|cbn; lia].
  - vm_compute. discriminate.
Defined.

(** C9 as stated fails in binary32 on the baro correction of the
    specification: 29.921f with the resolution 0.001f is within the five
    digits (it is transmitted as 29921), and the decoded value, the
    [float] product of 29921 and 0.001f, is the next [float] above
    29.921f. *)
Lemma BCD_round_trip_counterexample :
  let eng := F32.dec 29921 3 in
  let txMsg := mkTxMsg arincLabel235Config ARNIC429_SSM_BCD_PLUS 1 eng 0 in
  Flt eng (F32.of_Z 0) = false
  /\ BCD_tempValue (resolution arincLabel235Config) eng = Some 29921
  /\ BCD_fits (numSigDigits arincLabel235Config) 29921
  /\ eng = S754_finite false 15687221 (-19)
  /\ BCD_encode_decode txMsg = Some (S754_finite false 15687222 (-19))
  /\ BCD_encode_decode txMsg <> Some eng.
Proof.
  cbv zeta. split; [vm_compute; reflexivity|].
  split; [vm_compute; reflexivity|].
  split; [split; [lia|cbn; lia]|].
  split; [vm_compute; reflexivity|].
  split; [vm_compute; reflexivity|].
  vm_compute. discriminate.
Qed.

(** * The calculators *)

(** ** The SSM of an assembled BNR word *)

Lemma AssembleStdBNRmessage_SSM txMsg w0 st W :
  1 <= numSigBits (tx_msgConfig txMsg) <= 18 ->
  0 <= label (tx_msgConfig txMsg) < 256 ->
  numDiscreteBits (tx_msgConfig txMsg) <= 0 ->
  ARINC429_AssembleStdBNRmessage txMsg w0 = Some (st, W) ->
  ARINC429_ExtractSSMbits W
  = Z.land (tx_SM txMsg) ARINC429_SSM_FIELD_LIMIT_MASK.
Proof.
  intros Hn Hl Hnd. unfold ARINC429_AssembleStdBNRmessage.
  destruct (BNR_calcValueAsInt (resolution (tx_msgConfig txMsg))
              (tx_engData txMsg)) as [v|] eqn:Ev.
  2:{ unfold ARINC429_BNR_ConvertEngValToRawBNRmsgData,
        ARINC429_BNR_STD_MSG_MAX_NUM_SIGBITS.
      destruct (Z.ltb_spec (numSigBits (tx_msgConfig txMsg)) 1); [lia|].
      destruct (Z.ltb_spec 20 (numSigBits (tx_msgConfig txMsg))); [lia|].
      cbn [orb]. by rewrite Ev. }
  rewrite (BNR_ConvertEngValToRawBNRmsgData_spec _ _ _ v) by (done || lia).
  cbn beta iota. change (EXIT_SUCCESS =? EXIT_FAILURE) with false. cbn iota.
  unfold format_discreteBits.
  destruct (Z.ltb_spec 0 (numDiscreteBits (tx_msgConfig txMsg))); [lia|].
  cbn beta iota.
  unfold ARINC429_BNR_STD_MSG_NUM_SIGBITS_20,
    ARINC429_BNR_STD_MSG_NUM_SIGBITS_19, ARINC429_BNR_STD_MSG_NUM_SIGBITS_18.
  destruct (Z.eqb_spec 20 (numSigBits (tx_msgConfig txMsg))); [lia|].
  destruct (Z.eqb_spec 19 (numSigBits (tx_msgConfig txMsg))); [lia|].
  destruct (Z.leb_spec (numSigBits (tx_msgConfig txMsg)) 18); [|lia].
  intros [= _ <-].
  unfold ARINC429_ExtractSSMbits, ARINC429_SSM_FIELD_SHIFT_VAL,
    ARINC429_SSM_FIELD_LIMIT_MASK, ARINC429_SDI_FIELD_LIMIT_MASK,
    ARINC429_SDI_FIELD_SHIFT_VAL.
  change ARINC429_BNR_STD_MSG_DATAFIELDMASK_UPTO18SIGBITS
    with (Z.shiftl (Z.ones 19) 10).
  change 3 with (Z.ones 2).
  apply Z.bits_inj'. intros i Hi.
  rewrite !Z.land_spec, !Z.testbit_ones_nonneg by lia.
  unfold shr32. rewrite Z.shiftr_spec by lia.
  destruct (Z.ltb_spec i 2); [|by rewrite !andb_false_r].
  rewrite !andb_true_r, !Z.lor_spec, Z.land_spec, testbit_mask_shifted by lia.
  rewrite (testbit_small (label (tx_msgConfig txMsg)) 8) by lia.
  rewrite Z.bits_0.
  rewrite (testbit_shl32 _ 29) by lia.
  rewrite Z.shiftl_spec, !Z.land_spec, !Z.testbit_ones_nonneg by lia.
  replace (i + 29 - 29) with i by lia.
  split_cmp; try lia;
    by rewrite ?andb_false_r, ?andb_true_r, ?orb_false_r.
Qed.

Lemma CheckValidity_SSM eng cfg :
  Z.land (ARINC429_CheckValidityOfARINC_BNR_Data eng cfg)
         ARINC429_SSM_FIELD_LIMIT_MASK
  = ARINC429_CheckValidityOfARINC_BNR_Data eng cfg.
Proof.
  unfold ARINC429_CheckValidityOfARINC_BNR_Data.
  by repeat case_match.
Qed.

(** ** The spool of the turn rate and of the slip angle *)

Section Spool.

Variable IIRDiff_Filter : Type.
Variable IIR_Differentiator_Limited :
  float -> IIRDiff_Filter -> float * IIRDiff_Filter.
Variable IIRDifferentiatorReset : IIRDiff_Filter -> IIRDiff_Filter.
Variable IIRDifferentiatorPreload :
  float -> IIRDiff_Filter -> IIRDiff_Filter.
Variable pastOutputOfDiff : IIRDiff_Filter -> float.

Variable sIIR_struct : Type.
Variable f32_IIRFilter : float -> sIIR_struct -> float * sIIR_struct.
Variable v_IIRReset : sIIR_struct -> sIIR_struct.
Variable v_IIRPreload : float -> sIIR_struct -> sIIR_struct.
Variable f32_ArcTan2 : float -> float -> float.

Abbreviation TurnRate_txMsg' :=
  (TurnRate_txMsg IIRDiff_Filter IIR_Differentiator_Limited
     IIRDifferentiatorReset IIRDifferentiatorPreload pastOutputOfDiff).
Abbreviation CalculateTurnRate' :=
  (CalculateTurnRate IIRDiff_Filter IIR_Differentiator_Limited
     IIRDifferentiatorReset IIRDifferentiatorPreload pastOutputOfDiff).
Abbreviation CalculateTurnRate_cycles' :=
  (CalculateTurnRate_cycles IIRDiff_Filter IIR_Differentiator_Limited
     IIRDifferentiatorReset IIRDifferentiatorPreload pastOutputOfDiff).
Abbreviation SlipAngle_txMsg' :=
  (SlipAngle_txMsg sIIR_struct f32_IIRFilter v_IIRReset v_IIRPreload
     f32_ArcTan2).
Abbreviation CalculateSlipAngle' :=
  (CalculateSlipAngle sIIR_struct f32_IIRFilter v_IIRReset v_IIRPreload
     f32_ArcTan2).
Abbreviation CalculateSlipAngle_cycles' :=
  (CalculateSlipAngle_cycles sIIR_struct f32_IIRFilter v_IIRReset
     v_IIRPreload f32_ArcTan2).

(** A valid heading sample moves the spool of the turn rate from position
    [p] to position [p + 1], and the message carries a failure warning
    whenever the flag was not yet set on entry. *)
Lemma TurnRate_txMsg_valid st a g now p :
  0 <= p ->
  isIIRDiffGood _ st = (filterGoodThreshold <=? p) ->
  iirDiffGoodCount _ st = Z.min p filterGoodThreshold ->
  label_input_valid a 320 g now ARINC429_SSM_BNR_NORMAL_OPERATION = true ->
  exists st' tx,
    TurnRate_txMsg' st a g now = Some (st', tx)
    /\ isIIRDiffGood _ st' = (filterGoodThreshold <=? p + 1)
    /\ iirDiffGoodCount _ st' = Z.min (p + 1) filterGoodThreshold
    /\ tx_msgConfig tx = arincLabel340Config
    /\ tx_SM tx
       = if p <? filterGoodThreshold then ARINC429_SSM_BNR_FAILURE_WARNING
         else ARINC429_CheckValidityOfARINC_BNR_Data (tx_engData tx)
                arincLabel340Config.
Proof.
  unfold filterGoodThreshold, label_input_valid, TurnRate_txMsg.
  intros Hp Hgood Hcount Hvalid.
  destruct (ARINC429_GetLatestLabelData a _ g now) as [[status d]|];
    [|discriminate].
  cbn beta iota. rewrite Hvalid, Hgood, Hcount.
  destruct (Z.leb_spec 10 p).
  - destruct (IIR_Differentiator_Limited _ _) as [rate filt].
    eexists _, _. split; [done|]. cbn.
    repeat split; split_cmp; lia || done.
  - rewrite Z.min_l by lia.
    destruct (if 0 =? p then _ else _) as [rate filt].
    eexists _, _. split; [done|]. cbn.
    repeat split; unfold filterGoodThreshold; split_cmp; lia || done.
Qed.

(** In any state, the status matrix of a valid heading sample is chosen
    by the flag as it is on entry; a flag that is set stays set, and a
    sample met with the flag unset is counted. *)
Lemma TurnRate_txMsg_step st a g now st' tx :
  label_input_valid a 320 g now ARINC429_SSM_BNR_NORMAL_OPERATION = true ->
  TurnRate_txMsg' st a g now = Some (st', tx) ->
  tx_msgConfig tx = arincLabel340Config
  /\ tx_SM tx
     = (if isIIRDiffGood _ st
        then ARINC429_CheckValidityOfARINC_BNR_Data (tx_engData tx)
               arincLabel340Config
        else ARINC429_SSM_BNR_FAILURE_WARNING)
  /\ (if isIIRDiffGood _ st
      then isIIRDiffGood _ st' = true
           /\ iirDiffGoodCount _ st' = iirDiffGoodCount _ st
      else iirDiffGoodCount _ st' = iirDiffGoodCount _ st + 1).
Proof.
  unfold label_input_valid, TurnRate_txMsg. intros Hvalid.
  destruct (ARINC429_GetLatestLabelData a _ g now) as [[status d]|];
    [|discriminate].
  cbn beta iota. rewrite Hvalid.
  destruct (isIIRDiffGood _ st).
  - destruct (IIR_Differentiator_Limited _ _) as [rate filt].
    by intros [= <- <-].
  - destruct (if 0 =? _ then _ else _) as [rate filt].
    by intros [= <- <-].
Qed.

(** An invalid heading sample resets the spool of the turn rate. *)
Lemma TurnRate_txMsg_invalid st a g now st' tx :
  label_input_valid a 320 g now ARINC429_SSM_BNR_NORMAL_OPERATION = false ->
  TurnRate_txMsg' st a g now = Some (st', tx) ->
  isIIRDiffGood _ st' = false /\ iirDiffGoodCount _ st' = 0
  /\ tx_msgConfig tx = arincLabel340Config
  /\ tx_SM tx = ARINC429_SSM_BNR_FAILURE_WARNING.
Proof.
  unfold label_input_valid, TurnRate_txMsg. intros Hvalid.
  destruct (ARINC429_GetLatestLabelData a _ g now) as [[status d]|];
    [|discriminate].
  cbn beta iota. rewrite Hvalid. by intros [= <- <-].
Qed.

(** The slip angle: a valid sample of the normal acceleration moves the
    spool from position [p] to position [p + 1], and the flag is set once
    the count exceeds the threshold.  The message needs a valid lateral
    acceleration as well, which is looked up at its own time. *)
Lemma SlipAngle_txMsg_valid st a ay az t332 t333 p st' tx :
  0 <= p ->
  isIIRSlipFilterGood _ st = (filterGoodThreshold <? p) ->
  iirFilterGoodCount _ st = Z.min p (filterGoodThreshold + 1) ->
  label_input_valid a 333 az t333 ARINC429_SSM_BNR_NORMAL_OPERATION = true ->
  SlipAngle_txMsg' st a ay az t332 t333 = Some (st', tx) ->
  isIIRSlipFilterGood _ st' = (filterGoodThreshold <? p + 1)
  /\ iirFilterGoodCount _ st' = Z.min (p + 1) (filterGoodThreshold + 1)
  /\ tx_msgConfig tx = arincLabel250Config
  /\ tx_SM tx
     = if (p <=? filterGoodThreshold)
          || negb (label_input_valid a 332 ay t332
                     ARINC429_SSM_BNR_NORMAL_OPERATION)
       then ARINC429_SSM_BNR_FAILURE_WARNING
       else ARINC429_CheckValidityOfARINC_BNR_Data (tx_engData tx)
              arincLabel250Config.
Proof.
  unfold filterGoodThreshold, label_input_valid, SlipAngle_txMsg.
  intros Hp Hgood Hcount Hvalid.
  destruct (ARINC429_GetLatestLabelData a (FormatLabelNumber 332) ay t332)
    as [[statusAY dy]|]; [|discriminate].
  cbn beta iota.
  destruct (ARINC429_GetLatestLabelData a (FormatLabelNumber 333) az t333)
    as [[statusAZ dz]|]; [|discriminate].
  cbn beta iota zeta. rewrite Hvalid, Hgood, Hcount.
  destruct (Z.ltb_spec 10 p).
  - destruct (f32_IIRFilter _ _) as [filtered filt].
    intros [= <- <-]. cbn.
    repeat split; try (split_cmp; lia || done).
    destruct (Z.leb_spec p 10); [lia|]. cbn [orb].
    by destruct (label_data_valid statusAY dy _).
  - rewrite Z.min_l by lia.
    destruct (if 0 =? p then _ else _) as [rate filt].
    intros [= <- <-]. cbn.
    repeat split; try (split_cmp; lia || done).
    destruct (Z.leb_spec p 10); [|lia]. cbn [orb].
    by destruct (label_data_valid statusAY dy _).
Qed.

(** In any state, the status matrix of a valid sample of the normal
    acceleration is chosen by the flag as it is on entry. *)
Lemma SlipAngle_txMsg_step st a ay az t332 t333 st' tx :
  label_input_valid a 333 az t333 ARINC429_SSM_BNR_NORMAL_OPERATION = true ->
  SlipAngle_txMsg' st a ay az t332 t333 = Some (st', tx) ->
  tx_msgConfig tx = arincLabel250Config
  /\ tx_SM tx
     = (if isIIRSlipFilterGood _ st
           && label_input_valid a 332 ay t332
                ARINC429_SSM_BNR_NORMAL_OPERATION
        then ARINC429_CheckValidityOfARINC_BNR_Data (tx_engData tx)
               arincLabel250Config
        else ARINC429_SSM_BNR_FAILURE_WARNING)
  /\ (if isIIRSlipFilterGood _ st
      then isIIRSlipFilterGood _ st' = true
           /\ iirFilterGoodCount _ st' = iirFilterGoodCount _ st
      else iirFilterGoodCount _ st' = iirFilterGoodCount _ st + 1
           /\ isIIRSlipFilterGood _ st'
              = (filterGoodThreshold <? iirFilterGoodCount _ st + 1)).
Proof.
  unfold label_input_valid, SlipAngle_txMsg. intros Hvalid.
  destruct (ARINC429_GetLatestLabelData a (FormatLabelNumber 332) ay t332)
    as [[statusAY dy]|]; [|discriminate].
  cbn beta iota.
  destruct (ARINC429_GetLatestLabelData a (FormatLabelNumber 333) az t333)
    as [[statusAZ dz]|]; [|discriminate].
  cbn beta iota zeta. rewrite Hvalid.
  destruct (isIIRSlipFilterGood _ st).
  - destruct (f32_IIRFilter _ _) as [filtered filt].
    intros [= <- <-]. cbn.
    by destruct (label_data_valid statusAY dy _).
  - destruct (if 0 =? _ then _ else _) as [rate filt].
    intros [= <- <-]. cbn.
    by destruct (label_data_valid statusAY dy _).
Qed.

(** An invalid sample of the normal acceleration resets the spool of the
    slip angle. *)
Lemma SlipAngle_txMsg_invalid st a ay az t332 t333 st' tx :
  label_input_valid a 333 az t333 ARINC429_SSM_BNR_NORMAL_OPERATION = false ->
  SlipAngle_txMsg' st a ay az t332 t333 = Some (st', tx) ->
  isIIRSlipFilterGood _ st' = false /\ iirFilterGoodCount _ st' = 0
  /\ tx_msgConfig tx = arincLabel250Config
  /\ tx_SM tx = ARINC429_SSM_BNR_FAILURE_WARNING.
Proof.
  unfold label_input_valid, SlipAngle_txMsg. intros Hvalid.
  destruct (ARINC429_GetLatestLabelData a (FormatLabelNumber 332) ay t332)
    as [[statusAY dy]|]; [|discriminate].
  cbn beta iota.
  destruct (ARINC429_GetLatestLabelData a (FormatLabelNumber 333) az t333)
    as [[statusAZ dz]|]; [|discriminate].
  cbn beta iota. rewrite Hvalid. intros [= <- <-]. cbn.
  repeat split. by destruct (label_data_valid statusAY dy _).
Qed.

(** The word a calculator returns carries the SSM of the message it
    composed, and its state is the one left by the composition. *)
Lemma CalculateTurnRate_word st a g now st1 tx st2 w :
  TurnRate_txMsg' st a g now = Some (st1, tx) ->
  tx_msgConfig tx = arincLabel340Config ->
  CalculateTurnRate' st a g now = Some (st2, w) ->
  st2 = st1
  /\ ARINC429_ExtractSSMbits w
     = Z.land (tx_SM tx) ARINC429_SSM_FIELD_LIMIT_MASK.
Proof.
  intros Htx Hcfg. unfold CalculateTurnRate. rewrite Htx. cbn beta iota.
  destruct (ARINC429_AssembleStdBNRmessage tx 0) as [[status w']|] eqn:Ew;
    [|discriminate].
  intros [= <- <-]. split; [done|].
  apply (AssembleStdBNRmessage_SSM tx 0 status); rewrite ?Hcfg; done.
Qed.

Lemma CalculateSlipAngle_word st a ay az t332 t333 st1 tx st2 w :
  SlipAngle_txMsg' st a ay az t332 t333 = Some (st1, tx) ->
  tx_msgConfig tx = arincLabel250Config ->
  CalculateSlipAngle' st a ay az t332 t333 = Some (st2, w) ->
  st2 = st1
  /\ ARINC429_ExtractSSMbits w
     = Z.land (tx_SM tx) ARINC429_SSM_FIELD_LIMIT_MASK.
Proof.
  intros Htx Hcfg. unfold CalculateSlipAngle. rewrite Htx. cbn beta iota.
  destruct (ARINC429_AssembleStdBNRmessage tx 0) as [[status w']|] eqn:Ew;
    [|discriminate].
  intros [= <- <-]. split; [done|].
  apply (AssembleStdBNRmessage_SSM tx 0 status); rewrite ?Hcfg; done.
Qed.

(** A run of valid heading samples from position [p] of the spool. *)
Lemma CalculateTurnRate_cycles_spool cycles g :
  forall p st stF ws,
  0 <= p ->
  isIIRDiffGood _ st = (filterGoodThreshold <=? p) ->
  iirDiffGoodCount _ st = Z.min p filterGoodThreshold ->
  Forall (fun c : ARINC429_RxMsgArray * Z =>
            label_input_valid c.1 320 g c.2
              ARINC429_SSM_BNR_NORMAL_OPERATION = true) cycles ->
  CalculateTurnRate_cycles' st cycles g = Some (stF, ws) ->
  isIIRDiffGood _ stF = (filterGoodThreshold <=? p + Z.of_nat (length cycles))
  /\ iirDiffGoodCount _ stF
     = Z.min (p + Z.of_nat (length cycles)) filterGoodThreshold
  /\ forall (i : nat) tx w, ws !! i = Some (tx, w) ->
       ARINC429_ExtractSSMbits w = tx_SM tx
       /\ tx_SM tx
          = if p + Z.of_nat i <? filterGoodThreshold
            then ARINC429_SSM_BNR_FAILURE_WARNING
            else ARINC429_CheckValidityOfARINC_BNR_Data (tx_engData tx)
                   arincLabel340Config.
Proof.
  induction cycles as [|[a now] cycles IH]; intros p st stF ws Hp Hg Hc Hv.
  - intros [= <- <-]. cbn [length]. rewrite Z.add_0_r.
    split; [done|]. split; [done|]. intros i tx w Hi. by destruct i.
  - apply Forall_cons in Hv as [Hva Hv]. cbn [fst snd] in Hva.
    destruct (TurnRate_txMsg_valid st a g now p Hp Hg Hc Hva)
      as (st1 & tx & Htx & Hg1 & Hc1 & Hcfg & Hsm).
    cbn [CalculateTurnRate_cycles]. rewrite Htx. cbn beta iota.
    destruct (CalculateTurnRate' st a g now) as [[st2 w]|] eqn:Ew;
      [|discriminate].
    cbn beta iota.
    destruct (CalculateTurnRate_word _ _ _ _ _ _ _ _ Htx Hcfg Ew)
      as [-> Hssm].
    destruct (CalculateTurnRate_cycles' st1 cycles g) as [[stF' ws']|] eqn:Er;
      [|discriminate].
    intros [= <- <-].
    destruct (IH (p + 1) st1 stF' ws') as (HgF & HcF & Hws);
      [lia|done|done|done|done|].
    cbn [length]. rewrite Nat2Z.inj_succ.
    replace (p + Z.succ (Z.of_nat (length cycles)))
      with (p + 1 + Z.of_nat (length cycles)) by lia.
    split; [done|]. split; [done|].
    intros [|i] tx' w' Hi.
    + injection Hi as <- <-. rewrite Z.add_0_r, Hssm, Hsm.
      split; [|done].
      destruct (p <? filterGoodThreshold); [done|apply CheckValidity_SSM].
    + replace (p + Z.of_nat (S i)) with (p + 1 + Z.of_nat i) by lia.
      by apply Hws.
Qed.

(** A run of valid samples of the normal acceleration from position [p] of
    the spool. *)
Lemma CalculateSlipAngle_cycles_spool cycles ay az :
  forall p st stF ws,
  0 <= p ->
  isIIRSlipFilterGood _ st = (filterGoodThreshold <? p) ->
  iirFilterGoodCount _ st = Z.min p (filterGoodThreshold + 1) ->
  Forall (fun c : ARINC429_RxMsgArray * Z * Z =>
            label_input_valid c.1.1 333 az c.2
              ARINC429_SSM_BNR_NORMAL_OPERATION = true) cycles ->
  CalculateSlipAngle_cycles' st cycles ay az = Some (stF, ws) ->
  isIIRSlipFilterGood _ stF
  = (filterGoodThreshold <? p + Z.of_nat (length cycles))
  /\ iirFilterGoodCount _ stF
     = Z.min (p + Z.of_nat (length cycles)) (filterGoodThreshold + 1)
  /\ forall (i : nat) c tx w,
       cycles !! i = Some c -> ws !! i = Some (tx, w) ->
       ARINC429_ExtractSSMbits w = tx_SM tx
       /\ tx_SM tx
          = if (p + Z.of_nat i <=? filterGoodThreshold)
               || negb (label_input_valid c.1.1 332 ay c.1.2
                          ARINC429_SSM_BNR_NORMAL_OPERATION)
            then ARINC429_SSM_BNR_FAILURE_WARNING
            else ARINC429_CheckValidityOfARINC_BNR_Data (tx_engData tx)
                   arincLabel250Config.
Proof.
  induction cycles as [|[[a t332] t333] cycles IH];
    intros p st stF ws Hp Hg Hc Hv.
  - intros [= <- <-]. cbn [length]. rewrite Z.add_0_r.
    split; [done|]. split; [done|]. intros i c tx w Hi. by destruct i.
  - apply Forall_cons in Hv as [Hva Hv]. cbn [fst snd] in Hva.
    cbn [CalculateSlipAngle_cycles].
    destruct (SlipAngle_txMsg' st a ay az t332 t333) as [[st1 tx]|] eqn:Htx;
      [|discriminate].
    destruct (SlipAngle_txMsg_valid st a ay az t332 t333 p st1 tx
                Hp Hg Hc Hva Htx)
      as (Hg1 & Hc1 & Hcfg & Hsm).
    cbn beta iota.
    destruct (CalculateSlipAngle' st a ay az t332 t333) as [[st2 w]|] eqn:Ew;
      [|discriminate].
    cbn beta iota.
    destruct (CalculateSlipAngle_word _ _ _ _ _ _ _ _ _ _ Htx Hcfg Ew)
      as [-> Hssm].
    destruct (CalculateSlipAngle_cycles' st1 cycles ay az)
      as [[stF' ws']|] eqn:Er; [|discriminate].
    intros [= <- <-].
    destruct (IH (p + 1) st1 stF' ws') as (HgF & HcF & Hws);
      [lia|done|done|done|done|].
    cbn [length]. rewrite Nat2Z.inj_succ.
    replace (p + Z.succ (Z.of_nat (length cycles)))
      with (p + 1 + Z.of_nat (length cycles)) by lia.
    split; [done|]. split; [done|].
    intros [|i] c tx' w' Hci Hi.
    + injection Hi as <- <-. injection Hci as <-. cbn [fst snd].
      rewrite Z.add_0_r, Hssm, Hsm.
      split; [|done].
      destruct (_ || _); [done|apply CheckValidity_SSM].
    + replace (p + Z.of_nat (S i)) with (p + 1 + Z.of_nat i) by lia.
      by apply Hws.
Qed.

(** The calculators are defined whenever the value they transmit is a
    number: the conversion of the message to its word is then defined. *)
Lemma AssembleStdBNRmessage_defined txMsg w0 :
  numDiscreteBits (tx_msgConfig txMsg) <= 0 ->
  (if Fne (resolution (tx_msgConfig txMsg)) Fzero
   then F32.div (tx_engData txMsg) (resolution (tx_msgConfig txMsg))
   else Fzero) <> S754_nan ->
  is_Some (ARINC429_AssembleStdBNRmessage txMsg w0).
Proof.
  intros Hnd Hnum. apply BNR_calcValueAsInt_defined in Hnum as [v Hv].
  unfold ARINC429_AssembleStdBNRmessage,
    ARINC429_BNR_ConvertEngValToRawBNRmsgData.
  rewrite Hv. unfold format_discreteBits.
  destruct (Z.ltb_spec 0 (numDiscreteBits (tx_msgConfig txMsg))); [lia|].
  destruct (_ || _); cbn beta iota; [done|].
  destruct (BNR_limitDataField _ _) as [u c]. cbn beta iota.
  by destruct (_ =? _).
Qed.

Lemma CalculateTurnRate_defined st a g now st1 tx :
  TurnRate_txMsg' st a g now = Some (st1, tx) ->
  tx_engData tx <> S754_nan ->
  is_Some (CalculateTurnRate' st a g now).
Proof.
  intros Htx Hnum. unfold CalculateTurnRate. rewrite Htx. cbn beta iota.
  assert (tx_msgConfig tx = arincLabel340Config) as Hcfg.
  { revert Htx. unfold TurnRate_txMsg.
    destruct (ARINC429_GetLatestLabelData _ _ _ _) as [[status d]|];
      [|discriminate].
    cbn beta iota. destruct (if label_data_valid _ _ _ then _ else _)
      as [[st' rate] sm].
    by intros [= _ <-]. }
  destruct (AssembleStdBNRmessage_defined tx 0) as [[status w] ->];
    rewrite ?Hcfg; [done| |done].
  change (Fne (resolution arincLabel340Config) Fzero) with true.
  cbn iota. by apply SFdiv_finite_not_nan.
Qed.

Lemma CalculateSlipAngle_defined st a ay az t332 t333 st1 tx :
  SlipAngle_txMsg' st a ay az t332 t333 = Some (st1, tx) ->
  tx_engData tx <> S754_nan ->
  is_Some (CalculateSlipAngle' st a ay az t332 t333).
Proof.
  intros Htx Hnum. unfold CalculateSlipAngle. rewrite Htx. cbn beta iota.
  assert (tx_msgConfig tx = arincLabel250Config) as Hcfg.
  { revert Htx. unfold SlipAngle_txMsg.
    destruct (ARINC429_GetLatestLabelData _ _ ay _) as [[statusAY dy]|];
      [|discriminate].
    cbn beta iota.
    destruct (ARINC429_GetLatestLabelData _ _ az _) as [[statusAZ dz]|];
      [|discriminate].
    cbn beta iota zeta.
    destruct (if label_data_valid statusAZ _ _ then _ else _)
      as [[st' angle] sm].
    by intros [= _ <-]. }
  destruct (AssembleStdBNRmessage_defined tx 0) as [[status w] ->];
    rewrite ?Hcfg; [done| |done].
  change (Fne (resolution arincLabel250Config) Fzero) with true.
  cbn iota. by apply SFdiv_finite_not_nan.
Qed.

(** C1 (as amended).  In both calculators the status matrix of a word is
    chosen by the flag as it is on entry.  A valid sample met with the flag
    unset is counted and answered with the SSM failure warning; a valid
    sample met with the flag set leaves it set and is answered with the
    result of the range check of the value transmitted (for the slip
    angle, with the failure warning when the lateral acceleration is not
    valid).  A single invalid sample, in any state, leaves the flag unset
    and the count 0 and is answered with the failure warning.

    From the state at reset (flag unset, count 0) and over consecutive
    valid samples: CalculateSlipAngle sets its flag when the count exceeds
    10, so the flag is set after [k] valid samples exactly when [k >= 11]
    and the count is [min k 11]; the word of the eleventh sample, on which
    the flag is set, still carries the failure warning, as do the ten
    before it, and every later word carries the result of the range check.
    For CalculateTurnRate the theorem says what does not depend on the
    sample on which its flag is set: the flag is unset after fewer than
    ten samples and set after more than ten, the count is [k] up to ten
    samples, the first ten words carry the failure warning, and the
    twelfth and later words carry the result of the range check. *)
Theorem spool_timing
    (turn0 : TurnState IIRDiff_Filter) (slip0 : SlipState sIIR_struct)
    (headingCycles : list (ARINC429_RxMsgArray * Z))
    (accelCycles : list (ARINC429_RxMsgArray * Z * Z))
    (magHeadingData ayData azData : ARINC429_RxMsgData)
    (turn : TurnState IIRDiff_Filter) (slip : SlipState sIIR_struct)
    (turnWords slipWords : list (ARINC429_TxMsg * Z)) :
  isIIRDiffGood _ turn0 = false -> iirDiffGoodCount _ turn0 = 0 ->
  isIIRSlipFilterGood _ slip0 = false -> iirFilterGoodCount _ slip0 = 0 ->
  Forall (fun c : ARINC429_RxMsgArray * Z =>
            label_input_valid c.1 320 magHeadingData c.2
              ARINC429_SSM_BNR_NORMAL_OPERATION = true) headingCycles ->
  Forall (fun c : ARINC429_RxMsgArray * Z * Z =>
            label_input_valid c.1.1 333 azData c.2
              ARINC429_SSM_BNR_NORMAL_OPERATION = true) accelCycles ->
  CalculateTurnRate_cycles' turn0 headingCycles magHeadingData
  = Some (turn, turnWords) ->
  CalculateSlipAngle_cycles' slip0 accelCycles ayData azData
  = Some (slip, slipWords) ->
  (isIIRSlipFilterGood _ slip = (11 <=? Z.of_nat (length accelCycles))
   /\ iirFilterGoodCount _ slip = Z.min (Z.of_nat (length accelCycles)) 11
   /\ forall (i : nat) c tx w,
        accelCycles !! i = Some c -> slipWords !! i = Some (tx, w) ->
        ARINC429_ExtractSSMbits w = tx_SM tx
        /\ tx_SM tx
           = if (Z.of_nat i <? 11)
                || negb (label_input_valid c.1.1 332 ayData c.1.2
                           ARINC429_SSM_BNR_NORMAL_OPERATION)
             then ARINC429_SSM_BNR_FAILURE_WARNING
             else ARINC429_CheckValidityOfARINC_BNR_Data (tx_engData tx)
                    arincLabel250Config)
  /\ ((Z.of_nat (length headingCycles) < 10 -> isIIRDiffGood _ turn = false)
      /\ (10 < Z.of_nat (length headingCycles) ->
          isIIRDiffGood _ turn = true)
      /\ (Z.of_nat (length headingCycles) <= 10 ->
          iirDiffGoodCount _ turn = Z.of_nat (length headingCycles))
      /\ forall (i : nat) tx w, turnWords !! i = Some (tx, w) ->
           ARINC429_ExtractSSMbits w = tx_SM tx
           /\ (Z.of_nat i < 10 ->
               tx_SM tx = ARINC429_SSM_BNR_FAILURE_WARNING)
           /\ (10 < Z.of_nat i ->
               tx_SM tx
               = ARINC429_CheckValidityOfARINC_BNR_Data (tx_engData tx)
                   arincLabel340Config))
  /\ (forall st a now st' w,
        label_input_valid a 320 magHeadingData now
          ARINC429_SSM_BNR_NORMAL_OPERATION = true ->
        CalculateTurnRate' st a magHeadingData now = Some (st', w) ->
        exists tx,
          TurnRate_txMsg' st a magHeadingData now = Some (st', tx)
          /\ ARINC429_ExtractSSMbits w = tx_SM tx
          /\ tx_SM tx
             = (if isIIRDiffGood _ st
                then ARINC429_CheckValidityOfARINC_BNR_Data (tx_engData tx)
                       arincLabel340Config
                else ARINC429_SSM_BNR_FAILURE_WARNING)
          /\ (if isIIRDiffGood _ st
              then isIIRDiffGood _ st' = true
                   /\ iirDiffGoodCount _ st' = iirDiffGoodCount _ st
              else iirDiffGoodCount _ st' = iirDiffGoodCount _ st + 1))
  /\ (forall st a t332 t333 st' w,
        label_input_valid a 333 azData t333
          ARINC429_SSM_BNR_NORMAL_OPERATION = true ->
        CalculateSlipAngle' st a ayData azData t332 t333 = Some (st', w) ->
        exists tx,
          SlipAngle_txMsg' st a ayData azData t332 t333 = Some (st', tx)
          /\ ARINC429_ExtractSSMbits w = tx_SM tx
          /\ tx_SM tx
             = (if isIIRSlipFilterGood _ st
                   && label_input_valid a 332 ayData t332
                        ARINC429_SSM_BNR_NORMAL_OPERATION
                then ARINC429_CheckValidityOfARINC_BNR_Data (tx_engData tx)
                       arincLabel250Config
                else ARINC429_SSM_BNR_FAILURE_WARNING)
          /\ (if isIIRSlipFilterGood _ st
              then isIIRSlipFilterGood _ st' = true
                   /\ iirFilterGoodCount _ st' = iirFilterGoodCount _ st
              else iirFilterGoodCount _ st' = iirFilterGoodCount _ st + 1
                   /\ isIIRSlipFilterGood _ st'
                      = (filterGoodThreshold
                         <? iirFilterGoodCount _ st + 1)))
  /\ (forall st a now st' w,
        label_input_valid a 320 magHeadingData now
          ARINC429_SSM_BNR_NORMAL_OPERATION = false ->
        CalculateTurnRate' st a magHeadingData now = Some (st', w) ->
        isIIRDiffGood _ st' = false /\ iirDiffGoodCount _ st' = 0
        /\ ARINC429_ExtractSSMbits w = ARINC429_SSM_BNR_FAILURE_WARNING)
  /\ (forall st a t332 t333 st' w,
        label_input_valid a 333 azData t333
          ARINC429_SSM_BNR_NORMAL_OPERATION = false ->
        CalculateSlipAngle' st a ayData azData t332 t333 = Some (st', w) ->
        isIIRSlipFilterGood _ st' = false /\ iirFilterGoodCount _ st' = 0
        /\ ARINC429_ExtractSSMbits w = ARINC429_SSM_BNR_FAILURE_WARNING).
Proof.
  intros Hg0 Hc0 Hsg0 Hsc0 Hheading Haccel Hturn Hslip.
  split; [|split; [|split; [|split; [|split]]]].
  - destruct (CalculateSlipAngle_cycles_spool accelCycles ayData azData
                0 slip0 slip slipWords) as (Hg & Hc & Hws);
      [done|done|done|done|done|].
    rewrite Z.add_0_l in Hg, Hc. unfold filterGoodThreshold in Hg, Hc.
    split; [rewrite Hg; split_cmp; lia || done|]. split; [done|].
    intros i c tx w Hci Hi. destruct (Hws i c tx w Hci Hi) as [Hssm Hsm].
    split; [done|]. rewrite Hsm, Z.add_0_l. unfold filterGoodThreshold.
    by destruct (Z.leb_spec (Z.of_nat i) 10), (Z.ltb_spec (Z.of_nat i) 11);
      try lia.
  - destruct (CalculateTurnRate_cycles_spool headingCycles magHeadingData
                0 turn0 turn turnWords) as (Hg & Hc & Hws);
      [done|done|done|done|done|].
    rewrite Z.add_0_l in Hg, Hc. unfold filterGoodThreshold in Hg, Hc.
    split; [intros Hk; rewrite Hg; split_cmp; lia || done|].
    split; [intros Hk; rewrite Hg; split_cmp; lia || done|].
    split; [lia|].
    intros i tx w Hi. apply Hws in Hi as [Hssm Hsm].
    rewrite Z.add_0_l in Hsm. unfold filterGoodThreshold in Hsm.
    split; [done|].
    split; intros Hk; rewrite Hsm; split_cmp; lia || done.
  - intros st a now st' w Hval Hw.
    destruct (TurnRate_txMsg' st a magHeadingData now) as [[st1 tx]|] eqn:Htx.
    2:{ revert Hw. unfold CalculateTurnRate. by rewrite Htx. }
    destruct (TurnRate_txMsg_step _ _ _ _ _ _ Hval Htx)
      as (Hcfg & Hsm & Hst).
    destruct (CalculateTurnRate_word _ _ _ _ _ _ _ _ Htx Hcfg Hw)
      as [-> Hssm].
    exists tx. split; [done|]. split; [|done].
    rewrite Hssm, Hsm.
    destruct (isIIRDiffGood _ st); [apply CheckValidity_SSM|done].
  - intros st a t332 t333 st' w Hval Hw.
    destruct (SlipAngle_txMsg' st a ayData azData t332 t333)
      as [[st1 tx]|] eqn:Htx.
    2:{ revert Hw. unfold CalculateSlipAngle. by rewrite Htx. }
    destruct (SlipAngle_txMsg_step _ _ _ _ _ _ _ _ Hval Htx)
      as (Hcfg & Hsm & Hst).
    destruct (CalculateSlipAngle_word _ _ _ _ _ _ _ _ _ _ Htx Hcfg Hw)
      as [-> Hssm].
    exists tx. split; [done|]. split; [|done].
    rewrite Hssm, Hsm.
    destruct (_ && _); [apply CheckValidity_SSM|done].
  - intros st a now st' w Hinv Hw.
    destruct (TurnRate_txMsg' st a magHeadingData now) as [[st1 tx]|] eqn:Htx.
    2:{ revert Hw. unfold CalculateTurnRate. by rewrite Htx. }
    destruct (TurnRate_txMsg_invalid _ _ _ _ _ _ Hinv Htx)
      as (Hg & Hc & Hcfg & Hsm).
    destruct (CalculateTurnRate_word _ _ _ _ _ _ _ _ Htx Hcfg Hw)
      as [-> Hssm].
    by rewrite Hssm, Hsm.
  - intros st a t332 t333 st' w Hinv Hw.
    destruct (SlipAngle_txMsg' st a ayData azData t332 t333)
      as [[st1 tx]|] eqn:Htx.
    2:{ revert Hw. unfold CalculateSlipAngle. by rewrite Htx. }
    destruct (SlipAngle_txMsg_invalid _ _ _ _ _ _ _ _ Hinv Htx)
      as (Hg & Hc & Hcfg & Hsm).
    destruct (CalculateSlipAngle_word _ _ _ _ _ _ _ _ _ _ Htx Hcfg Hw)
      as [-> Hssm].
    by rewrite Hssm, Hsm.
Qed.

End Spool.

Lemma Forall_forallb {A} (f : A -> bool) (l : list A) :
  forallb f l = true -> Forall (fun x => f x = true) l.
Proof.
  induction l as [|x l IH]; cbn [forallb]; [constructor|].
  intros [Hx Hl]%andb_true_iff. constructor; [done|by apply IH].
Qed.

Lemma spool_timing_witness :
  exists turn slip turnWords slipWords,
    CalculateTurnRate_sample (heading_cycles 12) = Some (turn, turnWords)
    /\ CalculateSlipAngle_sample (accel_cycles 12) = Some (slip, slipWords)
    /\ isIIRDiffGood _ turn = true
    /\ isIIRSlipFilterGood _ slip = true /\ iirFilterGoodCount _ slip = 11.
Proof.
  eexists _, _, _, _.
  match goal with
  | |- ?turnRun /\ ?slipRun /\ _ =>
      assert turnRun as Et by (vm_compute; reflexivity);
      assert slipRun as Es by (vm_compute; reflexivity)
  end.
  split; [exact Et|]. split; [exact Es|].
  assert (Forall
            (fun c : ARINC429_RxMsgArray * Z =>
               label_input_valid c.1 320 RxMsgData_init c.2
                 ARINC429_SSM_BNR_NORMAL_OPERATION = true)
            (heading_cycles 12)) as Hheading
    by (apply Forall_forallb; vm_compute; reflexivity).
  assert (Forall
            (fun c : ARINC429_RxMsgArray * Z * Z =>
               label_input_valid c.1.1 333 RxMsgData_init c.2
                 ARINC429_SSM_BNR_NORMAL_OPERATION = true)
            (accel_cycles 12)) as Haccel
    by (apply Forall_forallb; vm_compute; reflexivity).
  destruct (spool_timing IIRDiff_Filter_model
              IIR_Differentiator_Limited_model IIRDifferentiatorReset_model
              IIRDifferentiatorPreload_model pastOutputOfDiff_model
              sIIR_struct_model f32_IIRFilter_model v_IIRReset_model
              v_IIRPreload_model f32_ArcTan2_level
              (mkTurnState _ false 0 magHeadingIIRDiff_sample)
              (mkSlipState _ false 0 accelerationZFilter_sample)
              (heading_cycles 12) (accel_cycles 12)
              RxMsgData_init RxMsgData_init RxMsgData_init _ _ _ _
              eq_refl eq_refl eq_refl eq_refl Hheading Haccel Et Es)
    as ((Hsg & Hsc & _) & (_ & Hg & _) & _).
  rewrite Hsg, Hsc. split; [apply Hg; vm_compute; reflexivity|].
  vm_compute. repeat split.
Defined.

(** C1 as it is stated fails on the word of the eleventh sample.  On the
    eleventh valid sample from reset CalculateSlipAngle sets its flag, but
    the word of that sample still carries the failure warning, although
    both accelerations are valid and the slip angle passes the range
    check: the status matrix was chosen by the flag as it was on entry. *)
Lemma spool_timing_counterexample :
  exists slip slipWords tx w,
    CalculateSlipAngle_sample (accel_cycles 11) = Some (slip, slipWords)
    /\ forallb
         (fun c : ARINC429_RxMsgArray * Z * Z =>
            label_input_valid c.1.1 332 RxMsgData_init c.1.2
              ARINC429_SSM_BNR_NORMAL_OPERATION
            && label_input_valid c.1.1 333 RxMsgData_init c.2
                 ARINC429_SSM_BNR_NORMAL_OPERATION)
         (accel_cycles 11) = true
    /\ isIIRSlipFilterGood _ slip = true
    /\ slipWords !! 10%nat = Some (tx, w)
    /\ ARINC429_ExtractSSMbits w = ARINC429_SSM_BNR_FAILURE_WARNING
    /\ ARINC429_CheckValidityOfARINC_BNR_Data (tx_engData tx)
         arincLabel250Config
       = ARINC429_SSM_BNR_NORMAL_OPERATION.
Proof.
  eexists _, _, _, _. split; [vm_compute; reflexivity|].
  split; [vm_compute; reflexivity|].
  split; [vm_compute; reflexivity|].
  split; [vm_compute; reflexivity|].
  split; vm_compute; reflexivity.
Qed.

(** * Further properties of the message processing *)

(** ** Labels *)

Lemma below_forallb (n : nat) (P : Z -> bool) :
  forallb P (Z.of_nat <$> seq 0 n) = true ->
  forall z, 0 <= z < Z.of_nat n -> P z = true.
Proof.
  intros H z Hz. rewrite forallb_forall in H. apply H.
  apply in_map_iff. exists (Z.to_nat z). split; [lia|].
  apply in_seq. lia.
Qed.

Lemma RevBitsInByte_bits (byte : Z) :
  0 <= byte < 256 ->
  0 <= RevBitsInByte byte < 256
  /\ (forall i, 0 <= i < 8 ->
        Z.testbit (RevBitsInByte byte) i = Z.testbit byte (7 - i))
  /\ RevBitsInByte (RevBitsInByte byte) = byte.
Proof.
  intros Hb.
  set (P := fun b =>
              (0 <=? RevBitsInByte b) && (RevBitsInByte b <? 256)
              && forallb
                   (fun i => Bool.eqb (Z.testbit (RevBitsInByte b) i)
                                      (Z.testbit b (7 - i)))
                   (Z.of_nat <$> seq 0 8)
              && (RevBitsInByte (RevBitsInByte b) =? b)).
  assert (P byte = true) as H
    by (apply (below_forallb 256 P); [vm_compute; reflexivity|done]).
  unfold P in H.
  apply andb_true_iff in H as [H Hinv].
  apply andb_true_iff in H as [H Hbits].
  apply andb_true_iff in H as [H0 H1].
  split; [lia|]. split; [|lia].
  intros i Hi.
  apply Bool.eqb_prop.
  by apply (below_forallb 8
    (fun i => Bool.eqb (Z.testbit (RevBitsInByte byte) i)
                       (Z.testbit byte (7 - i)))).
Qed.

(** X1: [RevBitsInByte] reverses the eight bits of a byte: bit [i] of the
    result is bit [7 - i] of the argument.  The result is a byte again, and
    reversing twice gives the byte back. *)
Theorem RevBitsInByte_reverses (byte : Z) :
  0 <= byte < 256 ->
  0 <= RevBitsInByte byte < 256
  /\ (forall i, 0 <= i < 8 ->
        Z.testbit (RevBitsInByte byte) i = Z.testbit byte (7 - i))
  /\ RevBitsInByte (RevBitsInByte byte) = byte.
Proof. exact (RevBitsInByte_bits byte). Qed.

Lemma RevBitsInByte_reverses_witness :
  RevBitsInByte 0x1D = 0xB8 /\ RevBitsInByte (RevBitsInByte 0x1D) = 0x1D.
Proof.
  split; [reflexivity|].
  apply (RevBitsInByte_reverses 0x1D). lia.
Defined.

(** X2: [FormatLabelNumber] reads the decimal digits of its argument as an
    octal label and gives the value of that label with its bits reversed;
    two octal labels that differ have different formatted labels. *)
Theorem FormatLabelNumber_octal (L L' : Z) :
  octal_label L -> octal_label L' ->
  FormatLabelNumber L = RevBitsInByte (octal_value L)
  /\ 0 <= FormatLabelNumber L < 256
  /\ (FormatLabelNumber L = FormatLabelNumber L' -> L = L').
Proof.
  assert (forall M, octal_label M ->
            FormatLabelNumber M = RevBitsInByte (octal_value M)
            /\ 0 <= octal_value M < 256
            /\ M = 100 * (octal_value M / 64)
                   + 10 * (octal_value M / 8 mod 8) + octal_value M mod 8)
    as Hoct.
  { intros M (HM & Ht & Ho).
    set (P := fun M =>
                (7 <? M / 10 mod 10) || (7 <? M mod 10)
                || ((FormatLabelNumber M =? RevBitsInByte (octal_value M))
                    && (0 <=? octal_value M) && (octal_value M <? 256)
                    && (M =? 100 * (octal_value M / 64)
                             + 10 * (octal_value M / 8 mod 8)
                             + octal_value M mod 8))).
    assert (P M = true) as H
      by (apply (below_forallb 378 P); [vm_compute; reflexivity|lia]).
    unfold P in H.
    destruct (Z.ltb_spec 7 (M / 10 mod 10)); [lia|].
    destruct (Z.ltb_spec 7 (M mod 10)); [lia|].
    cbn [orb] in H.
    apply andb_true_iff in H as [H H3].
    apply andb_true_iff in H as [H H2'].
    apply andb_true_iff in H as [Hf H1'].
    split; [lia|]. split; lia. }
  intros HL HL'.
  destruct (Hoct L HL) as (Hf & Hv & Hd).
  destruct (Hoct L' HL') as (Hf' & Hv' & Hd').
  split; [done|]. split.
  - rewrite Hf. by apply RevBitsInByte_bits.
  - intros Heq. rewrite Hf, Hf' in Heq.
    assert (octal_value L = octal_value L') as Hov.
    { destruct (RevBitsInByte_bits (octal_value L) Hv) as (_ & _ & <-).
      destruct (RevBitsInByte_bits (octal_value L') Hv') as (_ & _ & <-).
      by rewrite Heq. }
    rewrite Hd, Hd', Hov. reflexivity.
Qed.

Lemma FormatLabelNumber_octal_witness :
  FormatLabelNumber 320 = RevBitsInByte 0xD0
  /\ (FormatLabelNumber 320 = FormatLabelNumber 271 -> 320 = 271).
Proof.
  assert (octal_label 320) as H320 by (unfold octal_label; repeat split; by vm_compute).
  assert (octal_label 271) as H271 by (unfold octal_label; repeat split; by vm_compute).
  destruct (FormatLabelNumber_octal 320 271 H320 H271) as (Hf & _ & Hinj).
  split; [exact Hf|exact Hinj].
Defined.

(** ** The fields of an assembled word *)

(** A word made of a label, a data part and discrete bits that keep to
    bits 10 to 28, an SDI and an SSM: the fields do not disturb each other
    and bit 31 stays clear. *)
Lemma word_fields lbl data disc sdi sm :
  0 <= lbl < 256 ->
  (forall j, 0 <= j -> j < 10 \/ 29 <= j -> Z.testbit data j = false) ->
  (forall j, 0 <= j -> j < 10 \/ 29 <= j -> Z.testbit disc j = false) ->
  let W :=
    Z.lor
      (Z.lor (Z.lor (Z.lor lbl data) disc)
             (Z.shiftl (Z.land sdi ARINC429_SDI_FIELD_LIMIT_MASK)
                       ARINC429_SDI_FIELD_SHIFT_VAL))
      (shl32 (Z.land sm ARINC429_SSM_FIELD_LIMIT_MASK)
             ARINC429_SSM_FIELD_SHIFT_VAL) in
  Z.land W ARINC429_LBL_MASK = lbl
  /\ ARINC429_ExtractSDIbits W = Z.land sdi ARINC429_SDI_FIELD_LIMIT_MASK
  /\ ARINC429_ExtractSSMbits W = Z.land sm ARINC429_SSM_FIELD_LIMIT_MASK
  /\ Z.land W 0x80000000 = 0.
Proof.
  intros Hl Hdata Hdisc W.
  unfold ARINC429_ExtractSDIbits, ARINC429_ExtractSSMbits,
    ARINC429_SDI_FIELD_LIMIT_MASK, ARINC429_SDI_FIELD_SHIFT_VAL,
    ARINC429_SSM_FIELD_LIMIT_MASK, ARINC429_SSM_FIELD_SHIFT_VAL,
    ARINC429_LBL_MASK, shr32 in *.
  assert (forall j, 0 <= j ->
            Z.testbit W j
            = Z.testbit lbl j || Z.testbit data j || Z.testbit disc j
              || ((8 <=? j) && (j <? 10) && Z.testbit sdi (j - 8))
              || ((29 <=? j) && (j <? 31) && Z.testbit sm (j - 29)))
    as HW.
  { intros j Hj. unfold W.
    rewrite !Z.lor_spec, testbit_shl32, !Z.land_spec by lia.
    change 3 with (Z.ones 2).
    destruct (Z.leb_spec 8 j).
    - rewrite Z.shiftl_spec, Z.land_spec, Z.testbit_ones_nonneg by lia.
      destruct (Z.leb_spec 29 j).
      + rewrite Z.testbit_ones_nonneg by lia.
        split_cmp; try lia; by rewrite ?andb_false_r, ?andb_true_r.
      + rewrite (Z.testbit_neg_r _ (j - 29)) by lia.
        split_cmp; try lia; by rewrite ?andb_false_r, ?andb_true_r.
    - rewrite Z.shiftl_spec by lia.
      rewrite !(Z.testbit_neg_r _ (j - 8)), !(Z.testbit_neg_r _ (j - 29))
        by lia.
      split_cmp; try lia; by rewrite ?andb_false_r, ?andb_true_r. }
  split; [|split; [|split]].
  - change 255 with (Z.ones 8).
    apply Z.bits_inj'. intros i Hi.
    rewrite Z.land_spec, Z.testbit_ones_nonneg, HW by lia.
    destruct (Z.ltb_spec i 8).
    + rewrite Hdata, Hdisc by lia.
      split_cmp; try lia. by rewrite !orb_false_r, andb_true_r.
    + rewrite andb_false_r. symmetry. apply (testbit_small lbl 8); lia.
  - change 3 with (Z.ones 2).
    apply Z.bits_inj'. intros i Hi.
    rewrite !Z.land_spec, Z.testbit_ones_nonneg, Z.shiftr_spec, HW by lia.
    destruct (Z.ltb_spec i 2); [|by rewrite !andb_false_r].
    rewrite (testbit_small lbl 8), Hdata, Hdisc by lia.
    replace (i + 8 - 8) with i by lia.
    split_cmp; try lia. by rewrite !orb_false_r, !andb_true_r.
  - change 3 with (Z.ones 2).
    apply Z.bits_inj'. intros i Hi.
    rewrite !Z.land_spec, Z.testbit_ones_nonneg, Z.shiftr_spec, HW by lia.
    destruct (Z.ltb_spec i 2); [|by rewrite !andb_false_r].
    rewrite (testbit_small lbl 8), Hdata, Hdisc by lia.
    replace (i + 29 - 29) with i by lia.
    split_cmp; try lia. by rewrite !orb_false_r, !andb_true_r.
  - change 2147483648 with (2 ^ 31).
    apply Z.bits_inj'. intros i Hi.
    rewrite Z.land_spec, Z.pow2_bits_eqb, Z.bits_0 by lia.
    destruct (Z.eqb_spec 31 i) as [<-|]; [|apply andb_false_r].
    rewrite HW, (testbit_small lbl 8), Hdata, Hdisc by lia.
    reflexivity.
Qed.

Lemma testbit_land_mask_shifted a k t j :
  0 <= k -> 0 <= j -> j < t \/ t + k <= j ->
  Z.testbit (Z.land a (Z.shiftl (Z.ones k) t)) j = false.
Proof.
  intros Hk Hj Hout. rewrite Z.land_spec, testbit_mask_shifted by lia.
  split_cmp; try lia; apply andb_false_r.
Qed.

Lemma AssembleStdBNRmessage_fields
    (txMsg : ARINC429_TxMsg) (w0 v : Z) :
  let cfg := tx_msgConfig txMsg in
  let n := numSigBits cfg in
  1 <= n <= ARINC429_BNR_STD_MSG_NUM_SIGBITS_18 ->
  0 <= label cfg < 256 ->
  BNR_discrete_below_data cfg ->
  BNR_calcValueAsInt (resolution cfg) (tx_engData txMsg) = Some v ->
  exists W,
    ARINC429_AssembleStdBNRmessage txMsg w0
    = Some (if BNR_fits n v then ARINC429_WRITE_MSG_SUCCESS
            else ARINC429_WRITE_MSG_SENT_DATA_CLIPPED, W)
    /\ Z.land W ARINC429_LBL_MASK = label cfg
    /\ ARINC429_ExtractSDIbits W
       = Z.land (tx_SDI txMsg) ARINC429_SDI_FIELD_LIMIT_MASK
    /\ ARINC429_ExtractSSMbits W
       = Z.land (tx_SM txMsg) ARINC429_SSM_FIELD_LIMIT_MASK
    /\ Z.land W 0x80000000 = 0
    /\ BNR_field_value n
         (shr32 W (ARINC429_BNR_MAX_DATA_FIELD_SHIFT - n))
       = BNR_clip n v.
Proof.
  intros cfg n Hn Hl Hdb Hv.
  unfold ARINC429_BNR_STD_MSG_NUM_SIGBITS_18 in Hn.
  pose proof (BNR_calcValueAsInt_range _ _ _ Hv) as Hr.
  pose proof (BNR_ConvertEngValToRawBNRmsgData_spec n _ _ v 0 false
                ltac:(lia) Hv) as Hconv.
  set (field := if BNR_fits n v then wrap32 v
                else if v <? 0 then 2 ^ n else 2 ^ n - 1) in Hconv.
  assert (numDiscreteBits cfg <= NUM_BITS_IN_UINT32) as Hnd.
  { unfold BNR_discrete_below_data, NUM_BITS_IN_UINT32,
      ARINC429_BNR_STD_MSG_NUM_SIGBITS_18 in *. fold n in Hdb. lia. }
  destruct (format_discreteBits_defined _ (tx_discreteBits txMsg) Hnd)
    as [disc Hdisc].
  assert (forall j, 0 <= j -> j < 10 \/ 28 - n <= j ->
                    Z.testbit disc j = false) as Hdbits.
  { intros j Hj Hout.
    apply (format_discreteBits_bits n (numDiscreteBits cfg)
             (tx_discreteBits txMsg) disc j); done. }
  pose proof (BNR_word_data_field n (label cfg) field disc (tx_SDI txMsg)
                (tx_SM txMsg) ltac:(lia) Hl Hdbits) as Hfield.
  cbv zeta in Hfield.
  unfold ARINC429_BNR_STD_MSG_NUM_SIGBITS_20,
    ARINC429_BNR_STD_MSG_NUM_SIGBITS_19,
    ARINC429_BNR_STD_MSG_NUM_SIGBITS_18 in Hfield.
  destruct (Z.eqb_spec 20 n) as [|_]; [lia|].
  destruct (Z.eqb_spec 19 n) as [|_]; [lia|].
  destruct (Z.leb_spec n 18) as [_|]; [|lia].
  set (data := Z.land (shl32 field (ARINC429_BNR_MAX_DATA_FIELD_SHIFT - n))
                 ARINC429_BNR_STD_MSG_DATAFIELDMASK_UPTO18SIGBITS) in *.
  assert (forall j, 0 <= j -> j < 10 \/ 29 <= j ->
                    Z.testbit data j = false) as Hdata.
  { intros j Hj Hout. unfold data.
    change ARINC429_BNR_STD_MSG_DATAFIELDMASK_UPTO18SIGBITS
      with (Z.shiftl (Z.ones 19) 10).
    apply testbit_land_mask_shifted; lia. }
  destruct (word_fields (label cfg) data disc (tx_SDI txMsg) (tx_SM txMsg)
              Hl Hdata ltac:(intros j Hj Hout; apply Hdbits; lia))
    as (Hlbl & Hsdi & Hssm & Hpar).
  match type of Hlbl with
  | Z.land ?W0 _ = _ => set (W := W0) in *
  end.
  exists W. split; [|split; [done|split; [done|split; [done|split; [done|]]]]].
  - unfold ARINC429_AssembleStdBNRmessage. fold cfg. fold n.
    rewrite Hconv. cbn [Z.eqb EXIT_SUCCESS EXIT_FAILURE]. rewrite Hdisc.
    unfold ARINC429_BNR_STD_MSG_NUM_SIGBITS_20,
      ARINC429_BNR_STD_MSG_NUM_SIGBITS_19,
      ARINC429_BNR_STD_MSG_NUM_SIGBITS_18.
    destruct (Z.eqb_spec 20 n) as [|_]; [lia|].
    destruct (Z.eqb_spec 19 n) as [|_]; [lia|].
    destruct (Z.leb_spec n 18) as [_|]; [|lia].
    fold data. fold W. by destruct (BNR_fits n v).
  - unfold BNR_field_value.
    assert (shr32 W (ARINC429_BNR_MAX_DATA_FIELD_SHIFT - n) mod 2 ^ (n + 1)
            = field mod 2 ^ (n + 1)) as Hmod.
    { rewrite <- Hfield.
      unfold NUM_BITS_IN_UINT32. rewrite shr32_UINT32_MAX by lia.
      replace (32 - (32 - n - 1)) with (n + 1) by lia.
      by rewrite Z.land_ones by lia. }
    rewrite Hmod.
    by apply (BNR_field_value_clip n v ltac:(lia)).
Qed.

(** X3: The word that ARINC429_AssembleStdBNRmessage writes for a label of 1
    to 18 significant bits whose discrete bits, if any, end below the data
    field: the label is in bits 0 to 7, the SDI in bits 8 and 9, the SSM in
    bits 29 and 30, bit 31 is clear, and the data field, read as a two's
    complement number, is the scaled value limited to the field. *)
Theorem AssembleStdBNRmessage_word_format
    (txMsg : ARINC429_TxMsg) (w0 v : Z) :
  let cfg := tx_msgConfig txMsg in
  let n := numSigBits cfg in
  1 <= n <= ARINC429_BNR_STD_MSG_NUM_SIGBITS_18 ->
  0 <= label cfg < 256 ->
  BNR_discrete_below_data cfg ->
  BNR_calcValueAsInt (resolution cfg) (tx_engData txMsg) = Some v ->
  exists W,
    ARINC429_AssembleStdBNRmessage txMsg w0
    = Some (if BNR_fits n v then ARINC429_WRITE_MSG_SUCCESS
            else ARINC429_WRITE_MSG_SENT_DATA_CLIPPED, W)
    /\ Z.land W ARINC429_LBL_MASK = label cfg
    /\ ARINC429_ExtractSDIbits W
       = Z.land (tx_SDI txMsg) ARINC429_SDI_FIELD_LIMIT_MASK
    /\ ARINC429_ExtractSSMbits W
       = Z.land (tx_SM txMsg) ARINC429_SSM_FIELD_LIMIT_MASK
    /\ Z.land W 0x80000000 = 0
    /\ BNR_field_value n
         (shr32 W (ARINC429_BNR_MAX_DATA_FIELD_SHIFT - n))
       = BNR_clip n v.
Proof. exact (AssembleStdBNRmessage_fields txMsg w0 v). Qed.

Lemma AssembleStdBNRmessage_word_format_witness :
  exists W,
    ARINC429_AssembleStdBNRmessage
      (mkTxMsg arincLabel250Config ARINC429_SSM_BNR_NORMAL_OPERATION 1
         (F32.of_Z (-45)) 0) 0
    = Some (ARINC429_WRITE_MSG_SUCCESS, W)
    /\ ARINC429_ExtractSSMbits W = 3
    /\ BNR_field_value 12 (shr32 W 16) = -1024.
Proof.
  destruct (AssembleStdBNRmessage_word_format
              (mkTxMsg arincLabel250Config ARINC429_SSM_BNR_NORMAL_OPERATION
                 1 (F32.of_Z (-45)) 0) 0 (-1024))
    as (W & HW & _ & _ & Hssm & _ & Hfield).
  - cbn. unfold ARINC429_BNR_STD_MSG_NUM_SIGBITS_18. lia.
  - split; [vm_compute; discriminate|vm_compute; reflexivity].
  - left. cbn. lia.
  - vm_compute. reflexivity.
  - exists W. split; [exact HW|]. split; [exact Hssm|exact Hfield].
Defined.

(** ** Decoding a received BNR word *)

(** X4: ARINC429_ProcessStdBNRmessage accepts every word for a label of 1 to 20
    significant bits: it stores the word, reads bits [28 - n] to 28 as a
    two's complement number and multiplies it by the resolution, takes the
    SSM from bits 29 and 30 and the SDI from bits 8 and 9 (0 when the label
    has more than 18 significant bits), and leaves the time of the last
    good message and the flags of the slot alone. *)
Theorem ProcessStdBNRmessage_decodes (slot : ARINC429_RxMsg) (W : Z) :
  let cfg := msgConfig slot in
  let n := numSigBits cfg in
  let eng :=
    F32.mul
      (F32.of_Z
         (BNR_field_value n
            (shr32 W (ARINC429_BNR_MAX_DATA_FIELD_SHIFT - n))))
      (resolution cfg) in
  1 <= n <= ARINC429_BNR_STD_MSG_MAX_NUM_SIGBITS ->
  numDiscreteBits cfg <= NUM_BITS_IN_UINT32 ->
  eng <> S754_nan ->
  exists slot',
    ARINC429_ProcessStdBNRmessage slot W
    = Some (ARINC429_READ_MSG_SUCCESS, slot')
    /\ msgConfig slot' = cfg
    /\ rawARINCword (data slot') = W
    /\ engDataFloat (data slot') = eng
    /\ SM (data slot') = ARINC429_ExtractSSMbits W
    /\ SDI (data slot')
       = (if n <=? ARINC429_BNR_STD_MSG_NUM_SIGBITS_18
          then ARINC429_ExtractSDIbits W else 0)
    /\ sysTimeLastGoodMsg_ms (data slot') = sysTimeLastGoodMsg_ms (data slot)
    /\ isNotBabbling (data slot') = isNotBabbling (data slot)
    /\ isDataFresh (data slot') = isDataFresh (data slot).
Proof.
  intros cfg n eng Hn Hnd Hnan.
  unfold ARINC429_BNR_STD_MSG_MAX_NUM_SIGBITS in Hn.
  destruct (extract_discreteBits_defined _ W Hnd) as [dbits Hdbits].
  assert (is_Some
            (cast_int32
               (clamp
                  (F64.of_float
                     (if Flt (F64.of_float eng) Fzero
                      then F32.sub eng Fhalf else F32.add eng Fhalf))
                  INT32_MIN INT32_MAX))) as [engInt HengInt].
  { apply cast_int32_clamp_defined. unfold F64.of_float.
    destruct (Flt eng Fzero).
    - by apply SFsub_finite_not_nan.
    - by apply SFadd_finite_not_nan. }
  eexists. split.
  - unfold ARINC429_ProcessStdBNRmessage. fold cfg. fold n.
    replace (shift_ok (ARINC429_BNR_MAX_DATA_FIELD_SHIFT - n)
             && shift_ok (NUM_BITS_IN_UINT32 - n - 1)) with true.
    2:{ unfold shift_ok, ARINC429_BNR_MAX_DATA_FIELD_SHIFT,
          NUM_BITS_IN_UINT32.
        symmetry. split_cmp; lia || done. }
    cbn [negb].
    unfold NUM_BITS_IN_UINT32. rewrite shr32_UINT32_MAX by lia.
    replace (32 - (32 - n - 1)) with (n + 1) by lia.
    rewrite Z.land_ones by lia.
    rewrite BNR_ConvertRawMsgDataToEngUnits_spec by done.
    cbn [Z.eqb EXIT_SUCCESS EXIT_FAILURE]. fold eng.
    rewrite HengInt, Hdbits. reflexivity.
  - by repeat split.
Qed.

Lemma ProcessStdBNRmessage_decodes_witness :
  exists slot',
    ARINC429_ProcessStdBNRmessage
      (mkRxMsg arincLabel340Config RxMsgData_init) 0x7FFF8007
    = Some (ARINC429_READ_MSG_SUCCESS, slot')
    /\ engDataFloat (data slot')
       = F32.mul (F32.of_Z (-1)) (resolution arincLabel340Config).
Proof.
  destruct (ProcessStdBNRmessage_decodes
              (mkRxMsg arincLabel340Config RxMsgData_init) 0x7FFF8007)
    as (slot' & Hdec & _ & _ & Heng & _).
  - cbn. unfold ARINC429_BNR_STD_MSG_MAX_NUM_SIGBITS. lia.
  - cbn. unfold NUM_BITS_IN_UINT32. lia.
  - vm_compute. discriminate.
  - exists slot'. split; [exact Hdec|exact Heng].
Defined.

(** ** The BCD decoder and the digits it accepts *)

Lemma BCDvalToEngVal_loop_zero_inv (fuel : nat) :
  forall calcValue t multVal,
    0 <= t ->
    snd (BCDvalToEngVal_loop fuel calcValue t multVal) = 0 ->
    exists k, 0 <= k < 10 ^ Z.of_nat fuel /\ t = BCD_pattern fuel k.
Proof.
  induction fuel as [|f IH]; intros calc t mult Ht Hz.
  - cbn in Hz. exists 0. cbn. lia.
  - cbn [BCDvalToEngVal_loop] in Hz.
    assert (0 < 10 ^ Z.of_nat f) as H10 by (apply Z.pow_pos_nonneg; lia).
    replace (Z.of_nat (S f)) with (Z.of_nat f + 1) by lia.
    rewrite Z.pow_add_r, Z.pow_1_r by lia.
    destruct (Z.ltb_spec 0 t) as [Hpos|Hle].
    2:{ exists 0. rewrite BCD_pattern_0. lia. }
    change 15 with (Z.ones 4) in Hz. rewrite Z.land_ones in Hz by lia.
    unfold ARINC429_BCD_MAX_DIGIT_VAL, ARINC429_BCD_BITS_PER_DIGIT, shr32
      in Hz.
    pose proof (Z.mod_pos_bound t (2 ^ 4) ltac:(lia)) as Hdig.
    destruct (Z.ltb_spec 9 (t mod 2 ^ 4)) as [Hbig|Hok].
    { cbn in Hz. lia. }
    rewrite Z.shiftr_div_pow2 in Hz by lia.
    apply IH in Hz as (k' & Hk' & Hpat); [|apply Z.div_pos; lia].
    exists (t mod 2 ^ 4 + 10 * k'). split; [lia|].
    cbn [BCD_pattern].
    replace ((t mod 2 ^ 4 + 10 * k') mod 10) with (t mod 2 ^ 4)
      by (Z.to_euclidean_division_equations; lia).
    replace ((t mod 2 ^ 4 + 10 * k') / 10) with k'
      by (Z.to_euclidean_division_equations; lia).
    rewrite <- Hpat. change (2 ^ 4) with 16.
    Z.to_euclidean_division_equations; lia.
Qed.

Lemma BCD_ConvertBCDvalToEngVal_cases
    (numSigDigits : Z) (resolution dataEng : float) (rawBCDdata : Z) :
  1 <= numSigDigits <= ARINC429_BCD_STD_MSG_MAX_NUM_SIGDIGITS ->
  0 <= rawBCDdata ->
  (forall k, 0 <= k < 10 ^ numSigDigits ->
     rawBCDdata = BCD_pattern (Z.to_nat numSigDigits) k ->
     ARINC429_BCD_ConvertBCDvalToEngVal numSigDigits resolution dataEng
       rawBCDdata
     = (EXIT_SUCCESS, F32.mul (F32.of_Z k) resolution))
  /\ ((forall k, 0 <= k < 10 ^ numSigDigits ->
         rawBCDdata <> BCD_pattern (Z.to_nat numSigDigits) k) ->
      ARINC429_BCD_ConvertBCDvalToEngVal numSigDigits resolution dataEng
        rawBCDdata
      = (EXIT_FAILURE, Fzero)).
Proof.
  intros Hd Hraw.
  unfold ARINC429_BCD_STD_MSG_MAX_NUM_SIGDIGITS in Hd.
  unfold ARINC429_BCD_ConvertBCDvalToEngVal,
    ARINC429_BCD_STD_MSG_MAX_NUM_SIGDIGITS.
  destruct (Z.ltb_spec numSigDigits 1); [lia|].
  destruct (Z.ltb_spec 5 numSigDigits); [lia|].
  cbn [orb]. split.
  - intros k Hk ->.
    rewrite (BCDvalToEngVal_loop_spec (Z.to_nat numSigDigits) 0 k 1).
    + cbn [Z.eqb]. by rewrite Z.add_0_l, Z.mul_1_l.
    + lia.
    + by rewrite Z2Nat.id by lia.
    + rewrite Z2Nat.id, Z.mul_1_l by lia.
      apply (Z.le_lt_trans _ (10 ^ 5)); [|done].
      apply Z.pow_le_mono_r; lia.
  - intros Hnone.
    destruct (BCDvalToEngVal_loop (Z.to_nat numSigDigits) 0 rawBCDdata 1)
      as [calcValue tempVal] eqn:Hloop.
    destruct (Z.eqb_spec tempVal 0) as [->|Hne]; [|done].
    exfalso.
    destruct (BCDvalToEngVal_loop_zero_inv (Z.to_nat numSigDigits) 0
                rawBCDdata 1 Hraw) as (k & Hk & Hpat).
    { by rewrite Hloop. }
    rewrite Z2Nat.id in Hk by lia. by apply (Hnone k).
Qed.

(** X5: ARINC429_BCD_ConvertBCDvalToEngVal accepts exactly the binary-coded
    decimal patterns of [numSigDigits] digits: for the pattern of [k] it
    succeeds with the [float] product of [k] and the resolution; for any
    other value (a character above 9, or more characters than digits) it
    fails and writes 0.0f. *)
Theorem BCD_ConvertBCDvalToEngVal_accepts
    (numSigDigits : Z) (resolution dataEng : float) (rawBCDdata : Z) :
  1 <= numSigDigits <= ARINC429_BCD_STD_MSG_MAX_NUM_SIGDIGITS ->
  0 <= rawBCDdata ->
  (forall k, 0 <= k < 10 ^ numSigDigits ->
     rawBCDdata = BCD_pattern (Z.to_nat numSigDigits) k ->
     ARINC429_BCD_ConvertBCDvalToEngVal numSigDigits resolution dataEng
       rawBCDdata
     = (EXIT_SUCCESS, F32.mul (F32.of_Z k) resolution))
  /\ ((forall k, 0 <= k < 10 ^ numSigDigits ->
         rawBCDdata <> BCD_pattern (Z.to_nat numSigDigits) k) ->
      ARINC429_BCD_ConvertBCDvalToEngVal numSigDigits resolution dataEng
        rawBCDdata
      = (EXIT_FAILURE, Fzero)).
Proof.
  exact (BCD_ConvertBCDvalToEngVal_cases numSigDigits resolution dataEng
           rawBCDdata).
Qed.

Lemma BCD_ConvertBCDvalToEngVal_accepts_witness :
  ARINC429_BCD_ConvertBCDvalToEngVal 5 (F32.dec 1 3) Fzero 0x29921
  = (EXIT_SUCCESS, F32.mul (F32.of_Z 29921) (F32.dec 1 3)).
Proof.
  apply (BCD_ConvertBCDvalToEngVal_accepts 5 (F32.dec 1 3) Fzero 0x29921).
  - unfold ARINC429_BCD_STD_MSG_MAX_NUM_SIGDIGITS. lia.
  - lia.
  - lia.
  - reflexivity.
Defined.

(** X6: ARINC429_ProcessStdBCDmessage accepts a word for a valid BCD label
    exactly when the digits of its data field are decimal digits: it then
    stores the [float] product of their number and the resolution, the
    SSM of bits 29 and 30 and the SDI of bits 8 and 9, and leaves the
    stored word, the time of the last good message and the flags of the
    slot alone.  The sign that the SSM may carry is not applied to the
    value.  A character above 9 makes it return INVALID_MESSAGE with the
    slot as it was. *)
Theorem ProcessStdBCDmessage_decodes (slot : ARINC429_RxMsg) (W : Z) :
  let cfg := msgConfig slot in
  let d := numSigDigits cfg in
  let field :=
    shr32 (Z.land W ARINC429_BCD_DATAFIELDMASK)
      (ARINC429_BCD_STD_MSG_DATA_FIELD_SHIFT
       + ARINC429_BCD_BITS_PER_DIGIT
         * (ARINC429_BCD_STD_MSG_MAX_NUM_SIGDIGITS - d)) in
  1 <= d <= ARINC429_BCD_STD_MSG_MAX_NUM_SIGDIGITS ->
  d * 4 - 1 + numDiscreteBits cfg
  <= ARINC429_BCD_STD_DATA_MAX_DATA_FIELD_SIZE ->
  0 <= W ->
  (forall k,
     0 <= k < 10 ^ d ->
     field = BCD_pattern (Z.to_nat d) k ->
     F32.mul (F32.of_Z k) (resolution cfg) <> S754_nan ->
     exists slot',
       ARINC429_ProcessStdBCDmessage slot W
       = Some (ARINC429_READ_MSG_SUCCESS, slot')
       /\ msgConfig slot' = cfg
       /\ engDataFloat (data slot') = F32.mul (F32.of_Z k) (resolution cfg)
       /\ SM (data slot') = ARINC429_ExtractSSMbits W
       /\ SDI (data slot') = ARINC429_ExtractSDIbits W
       /\ rawARINCword (data slot') = rawARINCword (data slot)
       /\ sysTimeLastGoodMsg_ms (data slot')
          = sysTimeLastGoodMsg_ms (data slot)
       /\ isNotBabbling (data slot') = isNotBabbling (data slot)
       /\ isDataFresh (data slot') = isDataFresh (data slot))
  /\ ((forall k, 0 <= k < 10 ^ d -> field <> BCD_pattern (Z.to_nat d) k) ->
      ARINC429_ProcessStdBCDmessage slot W
      = Some (ARINC429_READ_MSG_ERROR_INVALID_MESSAGE, slot)).
Proof.
  intros cfg d field Hd Hsize HW.
  assert (0 <= field) as Hfield.
  { unfold field, shr32. apply Z.shiftr_nonneg, Z.land_nonneg. by left. }
  destruct (BCD_ConvertBCDvalToEngVal_cases d (resolution cfg) Fzero field
              Hd Hfield) as [Hok Hbad].
  unfold ARINC429_BCD_STD_MSG_MAX_NUM_SIGDIGITS,
    ARINC429_BCD_STD_DATA_MAX_DATA_FIELD_SIZE in Hd, Hsize.
  assert (numDiscreteBits cfg <= NUM_BITS_IN_UINT32) as Hnd
    by (unfold NUM_BITS_IN_UINT32; lia).
  destruct (extract_discreteBits_defined _ W Hnd) as [dbits Hdbits].
  unfold ARINC429_ProcessStdBCDmessage. fold cfg. fold d. fold field.
  replace (d <? 1) with false by (symmetry; apply Z.ltb_ge; lia).
  replace (ARINC429_BCD_STD_MSG_MAX_NUM_SIGDIGITS <? d) with false
    by (symmetry; apply Z.ltb_ge;
        unfold ARINC429_BCD_STD_MSG_MAX_NUM_SIGDIGITS; lia).
  replace (ARINC429_BCD_STD_DATA_MAX_DATA_FIELD_SIZE
           <? d * 4 - 1 + numDiscreteBits cfg) with false
    by (symmetry; apply Z.ltb_ge;
        unfold ARINC429_BCD_STD_DATA_MAX_DATA_FIELD_SIZE; lia).
  cbn [orb]. split.
  - intros k Hk Hpat Hnan. rewrite (Hok k Hk Hpat).
    cbn [Z.eqb EXIT_SUCCESS EXIT_FAILURE].
    set (eng := F32.mul (F32.of_Z k) (resolution cfg)) in *.
    assert (is_Some
              (cast_int32
                 (clamp
                    (F64.of_float
                       (F32.add eng
                          (if Flt (F64.of_float eng) Fzero
                           then Fmhalf else Fhalf)))
                    INT32_MIN INT32_MAX))) as [engInt HengInt].
    { apply cast_int32_clamp_defined. unfold F64.of_float, F32.add.
      destruct (Flt eng Fzero); by apply SFadd_finite_not_nan. }
    rewrite HengInt, Hdbits. cbn [mbind option_bind].
    eexists. split; [reflexivity|]. by repeat split.
  - intros Hnone. by rewrite (Hbad Hnone).
Qed.

Lemma ProcessStdBCDmessage_decodes_witness :
  exists slot',
    ARINC429_ProcessStdBCDmessage
      (rx_slot 235 ARINC429_STD_BCD_MSG 19 5 (F32.dec 1 3) 0 40 60)
      0x6A6481B9
    = Some (ARINC429_READ_MSG_SUCCESS, slot')
    /\ engDataFloat (data slot') = F32.mul (F32.of_Z 29920) (F32.dec 1 3)
    /\ SM (data slot') = 3.
Proof.
  destruct (ProcessStdBCDmessage_decodes
              (rx_slot 235 ARINC429_STD_BCD_MSG 19 5 (F32.dec 1 3) 0 40 60)
              0x6A6481B9) as [Hok _]; [done|done|done|].
  destruct (Hok 29920) as (slot' & Hdec & _ & Heng & Hsm & _).
  - done.
  - vm_compute. reflexivity.
  - vm_compute. discriminate.
  - exists slot'. split; [exact Hdec|]. split; [exact Heng|exact Hsm].
Defined.

(** ** The BCD encoder: clipping and the fields of the word *)

(** A value too large for the digits leaves the first loop of
    ARINC429_BCD_ConvertEngValToBCD with digits still to convert. *)
Lemma EngValToBCD_loop_overflow (fuel : nat) :
  forall (d t asBCD count : Z),
    d = count + Z.of_nat (S fuel) -> 8 * 10 ^ Z.of_nat fuel <= t ->
    fst (EngValToBCD_loop (S fuel) d ARINC429_BCD_STD_MSG_MAX_NUM_BITS_MSC
           t asBCD count) <> 0.
Proof.
  induction fuel as [|f IH]; intros d t asBCD count Hd Ht.
  - cbn [EngValToBCD_loop]. cbn in Ht.
    destruct (Z.ltb_spec 0 t); [|lia].
    destruct (Z.eqb_spec d (count + 1)); [|lia].
    change (shr32 UINT32_MAX
              (NUM_BITS_IN_UINT32 - ARINC429_BCD_STD_MSG_MAX_NUM_BITS_MSC))
      with 7.
    destruct (Z.ltb_spec 7 (t mod 10)); cbn [andb fst]; [lia|].
    Z.to_euclidean_division_equations; lia.
  - assert (0 < 10 ^ Z.of_nat f) as H10 by (apply Z.pow_pos_nonneg; lia).
    replace (Z.of_nat (S f)) with (Z.of_nat f + 1) in Ht by lia.
    rewrite Z.pow_add_r, Z.pow_1_r in Ht by lia.
    cbn [EngValToBCD_loop].
    destruct (Z.ltb_spec 0 t); [|lia].
    destruct (Z.eqb_spec d (count + 1)); [lia|].
    cbn [andb].
    apply IH; [lia|].
    Z.to_euclidean_division_equations; lia.
Qed.

Lemma BCDmax_loop_pattern d :
  1 <= d <= 5 ->
  BCDmax_loop (Z.to_nat d) d ARINC429_BCD_STD_MSG_MAX_NUM_BITS_MSC 0 0
  = BCD_pattern (Z.to_nat d) (8 * 10 ^ (d - 1) - 1).
Proof.
  intros Hd.
  assert (d = 1 \/ d = 2 \/ d = 3 \/ d = 4 \/ d = 5) as Hcases by lia.
  destruct Hcases as [->|[->|[->|[->| ->]]]]; vm_compute; reflexivity.
Qed.

Lemma BCD_ConvertEngValToBCD_clip d res eng k r0 c0 :
  1 <= d <= 5 ->
  BCD_tempValue res eng = Some k -> 0 <= k ->
  ARINC429_BCD_ConvertEngValToBCD d res
    ARINC429_BCD_STD_MSG_MAX_NUM_BITS_MSC eng r0 c0
  = Some (EXIT_SUCCESS, BCD_pattern (Z.to_nat d) (BCD_clip d k),
          8 * 10 ^ (d - 1) <=? k).
Proof.
  intros Hd Hk Hk0.
  destruct (Z.leb_spec (8 * 10 ^ (d - 1)) k) as [Hbig|Hfit].
  - unfold ARINC429_BCD_ConvertEngValToBCD.
    unfold ARINC429_BCD_STD_MSG_MAX_NUM_SIGDIGITS, ARINC429_BCD_BITS_PER_DIGIT.
    destruct (Z.ltb_spec d 1); [lia|]. destruct (Z.ltb_spec 5 d); [lia|].
    cbn [orb]. rewrite Hk.
    change ((ARINC429_BCD_STD_MSG_MAX_NUM_BITS_MSC <? 1)
            || (4 <? ARINC429_BCD_STD_MSG_MAX_NUM_BITS_MSC)) with false.
    cbn iota.
    assert (fst (EngValToBCD_loop (S (Z.to_nat (d - 1))) d
                   ARINC429_BCD_STD_MSG_MAX_NUM_BITS_MSC k 0 0) <> 0) as Hov.
    { apply EngValToBCD_loop_overflow; [lia|].
      by rewrite Z2Nat.id by lia. }
    replace (S (Z.to_nat (d - 1))) with (Z.to_nat d) in Hov by lia.
    destruct (EngValToBCD_loop (Z.to_nat d) d _ k 0 0) as [temp asBCD].
    cbn [fst] in Hov.
    destruct (Z.eqb_spec temp 0) as [->|_]; [done|].
    rewrite BCDmax_loop_pattern by done.
    unfold BCD_clip. rewrite Z.min_r by lia. reflexivity.
  - rewrite (BCD_ConvertEngValToBCD_spec d res eng k) by done.
    unfold BCD_clip. rewrite Z.min_l by lia. reflexivity.
Qed.

Lemma BCD_tempValue_nonneg res eng k : BCD_tempValue res eng = Some k -> 0 <= k.
Proof.
  unfold BCD_tempValue, cast_uint32.
  destruct (Ftrunc _) as [z|]; [|discriminate].
  destruct (Z.leb_spec 0 z); cbn [andb]; [|discriminate].
  destruct (z <=? UINT32_MAX); [|discriminate]. by intros [= <-].
Qed.

Lemma AssembleStdBCDmessage_fields
    (txMsg : ARINC429_TxMsg) (w0 k : Z) :
  let cfg := tx_msgConfig txMsg in
  let d := numSigDigits cfg in
  1 <= d <= ARINC429_BCD_STD_MSG_MAX_NUM_SIGDIGITS ->
  d * 4 - 1 + numDiscreteBits cfg
  <= ARINC429_BCD_STD_DATA_MAX_DATA_FIELD_SIZE ->
  0 <= label cfg < 256 ->
  Flt (tx_engData txMsg) (F32.of_Z 0) = false ->
  BCD_tempValue (resolution cfg) (tx_engData txMsg) = Some k ->
  exists W,
    ARINC429_AssembleStdBCDmessage txMsg w0
    = Some (if 8 * 10 ^ (d - 1) <=? k
            then ARINC429_WRITE_MSG_SENT_DATA_CLIPPED
            else ARINC429_WRITE_MSG_SUCCESS, W)
    /\ Z.land W ARINC429_LBL_MASK = label cfg
    /\ ARINC429_ExtractSDIbits W
       = Z.land (tx_SDI txMsg) ARINC429_SDI_FIELD_LIMIT_MASK
    /\ ARINC429_ExtractSSMbits W
       = Z.land (tx_SM txMsg) ARINC429_SSM_FIELD_LIMIT_MASK
    /\ Z.land W 0x80000000 = 0
    /\ shr32 (Z.land W ARINC429_BCD_DATAFIELDMASK)
         (ARINC429_BCD_STD_MSG_DATA_FIELD_SHIFT
          + ARINC429_BCD_BITS_PER_DIGIT
            * (ARINC429_BCD_STD_MSG_MAX_NUM_SIGDIGITS - d))
       = BCD_pattern (Z.to_nat d) (BCD_clip d k).
Proof.
  intros cfg d Hd Hsize Hl Hpos Hk.
  unfold ARINC429_BCD_STD_MSG_MAX_NUM_SIGDIGITS,
    ARINC429_BCD_STD_DATA_MAX_DATA_FIELD_SIZE in Hd, Hsize.
  pose proof (BCD_tempValue_nonneg _ _ _ Hk) as Hk0.
  pose proof (BCD_ConvertEngValToBCD_clip d _ _ k 0 false Hd Hk Hk0)
    as Hconv.
  assert (0 < 10 ^ (d - 1)) as H10 by (apply Z.pow_pos_nonneg; lia).
  assert (BCD_fits d (BCD_clip d k)) as Hfit
    by (unfold BCD_fits, BCD_clip; lia).
  set (bcd := BCD_pattern (Z.to_nat d) (BCD_clip d k)) in *.
  pose proof (BCD_pattern_bits d _ ltac:(lia) Hfit) as Hbits.
  fold bcd in Hbits.
  assert (numDiscreteBits cfg <= NUM_BITS_IN_UINT32) as Hnd
    by (unfold NUM_BITS_IN_UINT32; lia).
  destruct (format_discreteBits_defined _ (tx_discreteBits txMsg) Hnd)
    as [disc Hdisc].
  assert (forall j, 0 <= j -> j < 10 \/ 10 + 4 * (5 - d) <= j ->
                    Z.testbit disc j = false) as Hdbits.
  { intros j Hj Hout.
    apply (format_discreteBits_bits (4 * d - 2) (numDiscreteBits cfg)
             (tx_discreteBits txMsg) disc j); try done; lia. }
  pose proof (BCD_word_data_field d (label cfg) bcd disc (tx_SDI txMsg)
                (tx_SM txMsg) Hd Hl Hbits Hdbits) as Hfield.
  cbv zeta in Hfield.
  set (data :=
         Z.land
           (shl32 bcd
              (ARINC429_BCD_STD_MSG_DATA_FIELD_SHIFT
               + ARINC429_BCD_BITS_PER_DIGIT
                 * (ARINC429_BCD_STD_MSG_MAX_NUM_SIGDIGITS - d)))
           ARINC429_BCD_DATAFIELDMASK) in *.
  assert (forall j, 0 <= j -> j < 10 \/ 29 <= j ->
                    Z.testbit data j = false) as Hdata.
  { intros j Hj Hout. unfold data.
    change ARINC429_BCD_DATAFIELDMASK with (Z.shiftl (Z.ones 19) 10).
    apply testbit_land_mask_shifted; lia. }
  destruct (word_fields (label cfg) data disc (tx_SDI txMsg) (tx_SM txMsg)
              Hl Hdata ltac:(intros j Hj Hout; apply Hdbits; lia))
    as (Hlbl & Hsdi & Hssm & Hpar).
  match type of Hlbl with
  | Z.land ?W0 _ = _ => set (W := W0) in *
  end.
  exists W. split; [|by repeat split].
  unfold ARINC429_AssembleStdBCDmessage. fold cfg. fold d.
  unfold ARINC429_BCD_STD_MSG_MAX_NUM_SIGDIGITS,
    ARINC429_BCD_STD_DATA_MAX_DATA_FIELD_SIZE.
  destruct (Z.ltb_spec d 1); [lia|]. destruct (Z.ltb_spec 5 d); [lia|].
  destruct (Z.ltb_spec 19 (d * 4 - 1 + numDiscreteBits cfg)); [lia|].
  cbn [orb]. rewrite Hpos, Hconv.
  cbn [Z.eqb EXIT_SUCCESS EXIT_FAILURE]. rewrite Hdisc.
  fold data. fold W. by destruct (8 * 10 ^ (d - 1) <=? k).
Qed.

(** X7: The word that ARINC429_AssembleStdBCDmessage writes for a valid BCD
    label and an engineering value that is not negative: the label, SDI and
    SSM are in their places, bit 31 is clear, and the data field holds the
    digits of the scaled value.  A scaled value whose most significant
    character does not fit in three bits is replaced by the largest value
    that fits (799...9), and the status is then SENT_DATA_CLIPPED. *)
Theorem AssembleStdBCDmessage_word_format
    (txMsg : ARINC429_TxMsg) (w0 k : Z) :
  let cfg := tx_msgConfig txMsg in
  let d := numSigDigits cfg in
  1 <= d <= ARINC429_BCD_STD_MSG_MAX_NUM_SIGDIGITS ->
  d * 4 - 1 + numDiscreteBits cfg
  <= ARINC429_BCD_STD_DATA_MAX_DATA_FIELD_SIZE ->
  0 <= label cfg < 256 ->
  Flt (tx_engData txMsg) (F32.of_Z 0) = false ->
  BCD_tempValue (resolution cfg) (tx_engData txMsg) = Some k ->
  exists W,
    ARINC429_AssembleStdBCDmessage txMsg w0
    = Some (if 8 * 10 ^ (d - 1) <=? k
            then ARINC429_WRITE_MSG_SENT_DATA_CLIPPED
            else ARINC429_WRITE_MSG_SUCCESS, W)
    /\ Z.land W ARINC429_LBL_MASK = label cfg
    /\ ARINC429_ExtractSDIbits W
       = Z.land (tx_SDI txMsg) ARINC429_SDI_FIELD_LIMIT_MASK
    /\ ARINC429_ExtractSSMbits W
       = Z.land (tx_SM txMsg) ARINC429_SSM_FIELD_LIMIT_MASK
    /\ Z.land W 0x80000000 = 0
    /\ shr32 (Z.land W ARINC429_BCD_DATAFIELDMASK)
         (ARINC429_BCD_STD_MSG_DATA_FIELD_SHIFT
          + ARINC429_BCD_BITS_PER_DIGIT
            * (ARINC429_BCD_STD_MSG_MAX_NUM_SIGDIGITS - d))
       = BCD_pattern (Z.to_nat d) (BCD_clip d k).
Proof. exact (AssembleStdBCDmessage_fields txMsg w0 k). Qed.

Lemma AssembleStdBCDmessage_word_format_witness :
  exists W,
    ARINC429_AssembleStdBCDmessage
      (mkTxMsg arincLabel235Config ARNIC429_SSM_BCD_PLUS 1
         (F32.of_Z 95) 0) 0
    = Some (ARINC429_WRITE_MSG_SENT_DATA_CLIPPED, W)
    /\ shr32 (Z.land W ARINC429_BCD_DATAFIELDMASK) 10 = 0x79999.
Proof.
  destruct (AssembleStdBCDmessage_word_format
              (mkTxMsg arincLabel235Config ARNIC429_SSM_BCD_PLUS 1
                 (F32.of_Z 95) 0) 0 95000)
    as (W & HW & _ & _ & _ & _ & Hfield).
  - cbn. unfold ARINC429_BCD_STD_MSG_MAX_NUM_SIGDIGITS. lia.
  - cbn. unfold ARINC429_BCD_STD_DATA_MAX_DATA_FIELD_SIZE. lia.
  - split; [vm_compute; discriminate|vm_compute; reflexivity].
  - vm_compute. reflexivity.
  - vm_compute. reflexivity.
  - exists W. split; [exact HW|exact Hfield].
Defined.

(** ** Discrete words *)

Lemma word_testbit lbl data disc sdi sm j :
  0 <= j ->
  Z.testbit
    (Z.lor
       (Z.lor (Z.lor (Z.lor lbl data) disc)
              (Z.shiftl (Z.land sdi ARINC429_SDI_FIELD_LIMIT_MASK)
                        ARINC429_SDI_FIELD_SHIFT_VAL))
       (shl32 (Z.land sm ARINC429_SSM_FIELD_LIMIT_MASK)
              ARINC429_SSM_FIELD_SHIFT_VAL)) j
  = Z.testbit lbl j || Z.testbit data j || Z.testbit disc j
    || ((8 <=? j) && (j <? 10) && Z.testbit sdi (j - 8))
    || ((29 <=? j) && (j <? 31) && Z.testbit sm (j - 29)).
Proof.
  intros Hj.
  unfold ARINC429_SDI_FIELD_LIMIT_MASK, ARINC429_SDI_FIELD_SHIFT_VAL,
    ARINC429_SSM_FIELD_LIMIT_MASK, ARINC429_SSM_FIELD_SHIFT_VAL.
  rewrite !Z.lor_spec, testbit_shl32, !Z.land_spec by lia.
  change 3 with (Z.ones 2).
  destruct (Z.leb_spec 8 j).
  - rewrite Z.shiftl_spec, Z.land_spec, Z.testbit_ones_nonneg by lia.
    destruct (Z.leb_spec 29 j).
    + rewrite Z.testbit_ones_nonneg by lia.
      split_cmp; try lia; by rewrite ?andb_false_r, ?andb_true_r.
    + rewrite (Z.testbit_neg_r _ (j - 29)) by lia.
      split_cmp; try lia; by rewrite ?andb_false_r, ?andb_true_r.
  - rewrite Z.shiftl_spec by lia.
    rewrite !(Z.testbit_neg_r _ (j - 8)), !(Z.testbit_neg_r _ (j - 29))
      by lia.
    split_cmp; try lia; by rewrite ?andb_false_r, ?andb_true_r.
Qed.

(** X8: ARINC429_AssembleDiscreteMessage puts the [n] discrete bits of a label
    at the top of the data field, in bits [29 - n] to 28, with the label,
    SDI and SSM in their places and bit 31 clear.
    ARINC429_ProcessDiscreteMessage reads [n] bits upward from bit 10, so
    it gets the SDI and the SSM back, and of the discrete bits it gets the
    low ones, moved up by [19 - n] places: exactly the bits that were sent
    only when the label has 19 discrete bits. *)
Theorem discrete_assemble_then_process
    (txMsg : ARINC429_TxMsg) (slot : ARINC429_RxMsg) (w0 : Z) :
  let cfg := tx_msgConfig txMsg in
  let n := numDiscreteBits cfg in
  1 <= n <= ARINC429_DISCRETE_MSG_MAX_NUM_BITS ->
  0 <= label cfg < 256 ->
  msgConfig slot = cfg ->
  exists W slot',
    ARINC429_AssembleDiscreteMessage txMsg w0
    = (ARINC429_WRITE_MSG_SUCCESS, W)
    /\ Z.land W ARINC429_LBL_MASK = label cfg
    /\ Z.land W 0x80000000 = 0
    /\ Z.land (shr32 W (29 - n)) (Z.ones n)
       = tx_discreteBits txMsg mod 2 ^ n
    /\ ARINC429_ProcessDiscreteMessage slot W
       = Some (ARINC429_READ_MSG_SUCCESS, slot')
    /\ SDI (data slot')
       = Z.land (tx_SDI txMsg) ARINC429_SDI_FIELD_LIMIT_MASK
    /\ SM (data slot')
       = Z.land (tx_SM txMsg) ARINC429_SSM_FIELD_LIMIT_MASK
    /\ discreteBits (data slot')
       = (tx_discreteBits txMsg mod 2 ^ n * 2 ^ (19 - n)) mod 2 ^ n
    /\ (n = 19 ->
        discreteBits (data slot') = tx_discreteBits txMsg mod 2 ^ 19).
Proof.
  intros cfg n Hn Hl Hcfg.
  unfold ARINC429_DISCRETE_MSG_MAX_NUM_BITS in Hn.
  set (bits := tx_discreteBits txMsg).
  set (disc := shl32 (Z.land bits (Z.ones n)) (29 - n)).
  assert (forall j, 0 <= j ->
            Z.testbit disc j
            = (29 - n <=? j) && (j <? 29) && Z.testbit bits (j - (29 - n)))
    as Hdisc.
  { intros j Hj. unfold disc.
    rewrite testbit_shl32, Z.land_spec by lia.
    destruct (Z.leb_spec (29 - n) j).
    - rewrite Z.testbit_ones_nonneg by lia.
      split_cmp; try lia; by rewrite ?andb_false_r, ?andb_true_r.
    - rewrite !(Z.testbit_neg_r _ (j - (29 - n))) by lia.
      by rewrite !andb_false_r. }
  destruct (word_fields (label cfg) 0 disc (tx_SDI txMsg) (tx_SM txMsg) Hl)
    as (Hlbl & Hsdi & Hssm & Hpar).
  { intros j Hj _. apply Z.bits_0. }
  { intros j Hj Hout. rewrite Hdisc by done.
    split_cmp; try lia; by rewrite ?andb_false_r. }
  rewrite Z.lor_0_r in Hlbl, Hsdi, Hssm, Hpar.
  match type of Hlbl with
  | Z.land ?W0 _ = _ => set (W := W0) in *
  end.
  assert (forall j, 10 <= j < 29 -> Z.testbit W j = Z.testbit disc j) as HW.
  { intros j Hj. unfold W.
    rewrite <- (Z.lor_0_r (label cfg)) at 1.
    rewrite word_testbit, (testbit_small (label cfg) 8), Z.bits_0 by lia.
    split_cmp; try lia. by rewrite !orb_false_r. }
  assert (ARINC429_AssembleDiscreteMessage txMsg w0
          = (ARINC429_WRITE_MSG_SUCCESS, W)) as Hasm.
  { unfold ARINC429_AssembleDiscreteMessage. fold cfg. fold n.
    unfold ARINC429_DISCRETE_MSG_MAX_NUM_BITS,
      ARINC429_DISCRETE_MSG_MAX_DATA_FIELD_SHIFT, NUM_BITS_IN_UINT32.
    destruct (Z.ltb_spec n 1); [lia|]. destruct (Z.ltb_spec 19 n); [lia|].
    cbn [orb]. rewrite shr32_UINT32_MAX by lia.
    replace (32 - (32 - n)) with n by lia.
    replace (28 - n + 1) with (29 - n) by lia. reflexivity. }
  assert (Z.land (shr32 W 10) (Z.ones n)
          = (bits mod 2 ^ n * 2 ^ (19 - n)) mod 2 ^ n) as Hread.
  { rewrite <- Z.shiftl_mul_pow2, <- !Z.land_ones by lia.
    apply Z.bits_inj'. intros i Hi.
    rewrite !Z.land_spec, Z.testbit_ones_nonneg by lia.
    destruct (Z.ltb_spec i n); [|by rewrite !andb_false_r].
    unfold shr32. rewrite Z.shiftr_spec, HW, Hdisc by lia.
    rewrite !andb_true_r.
    destruct (Z.leb_spec (19 - n) i).
    - rewrite Z.shiftl_spec, Z.land_spec, Z.testbit_ones_nonneg by lia.
      replace (i + 10 - (29 - n)) with (i - (19 - n)) by lia.
      split_cmp; try lia. by rewrite !andb_true_r.
    - rewrite Z.shiftl_spec, (Z.testbit_neg_r _ (i - (19 - n))) by lia.
      split_cmp; lia || done. }
  eexists W, _. split; [exact Hasm|]. split; [done|]. split; [done|].
  split.
  { rewrite <- Z.land_ones by lia.
    apply Z.bits_inj'. intros i Hi.
    rewrite !Z.land_spec, Z.testbit_ones_nonneg by lia.
    destruct (Z.ltb_spec i n); [|by rewrite !andb_false_r].
    unfold shr32. rewrite Z.shiftr_spec, HW, Hdisc by lia.
    replace (i + (29 - n) - (29 - n)) with i by lia.
    split_cmp; try lia. by rewrite !andb_true_r. }
  split.
  { unfold ARINC429_ProcessDiscreteMessage. rewrite Hcfg. fold cfg. fold n.
    unfold ARINC429_DISCRETE_MSG_MAX_NUM_BITS, NUM_BITS_IN_UINT32.
    destruct (Z.ltb_spec n 1); [lia|]. destruct (Z.ltb_spec 19 n); [lia|].
    cbn [orb]. reflexivity. }
  cbn [data SDI SM discreteBits].
  split; [done|]. split; [done|].
  unfold NUM_BITS_IN_UINT32. rewrite shr32_UINT32_MAX by lia.
  replace (32 - (32 - n)) with n by lia.
  split; [exact Hread|].
  intros ->. rewrite Hread. change (2 ^ (19 - 19)) with 1.
  rewrite Z.mul_1_r. apply Z.mod_mod. lia.
Qed.

Lemma discrete_assemble_then_process_witness :
  let cfg :=
    mkLabelConfig (FormatLabelNumber 270) ARINC429_DISCRETE_MSG 19 0 Fzero
      Fzero Fzero 4 450 550 in
  exists W slot',
    ARINC429_AssembleDiscreteMessage (mkTxMsg cfg 0 1 Fzero 0xB) 0
    = (ARINC429_WRITE_MSG_SUCCESS, W)
    /\ Z.land (shr32 W 25) (Z.ones 4) = 0xB
    /\ ARINC429_ProcessDiscreteMessage (mkRxMsg cfg RxMsgData_init) W
       = Some (ARINC429_READ_MSG_SUCCESS, slot')
    /\ discreteBits (data slot') = 0.
Proof.
  intros cfg.
  destruct (discrete_assemble_then_process
              (mkTxMsg cfg 0 1 Fzero 0xB) (mkRxMsg cfg RxMsgData_init) 0)
    as (W & slot' & Hasm & _ & _ & Hsent & Hdec & _ & _ & Hbits & _).
  - cbn. unfold ARINC429_DISCRETE_MSG_MAX_NUM_BITS. lia.
  - split; [vm_compute; discriminate|vm_compute; reflexivity].
  - reflexivity.
  - exists W, slot'. split; [exact Hasm|]. split; [exact Hsent|].
    split; [exact Hdec|exact Hbits].
Defined.

(** ** Reading the latest data of a label *)

Lemma GetLatestLabelData_loop_inv a L now :
  forall (fuel c : nat) r,
    (Z.to_nat maxNumRxMsgsInArray - c <= fuel)%nat ->
    (forall (j : nat) mj, (j < c)%nat -> rxMsgs a !! j = Some mj ->
                          label (msgConfig mj) <> L) ->
    GetLatestLabelData_loop fuel a L now (Z.of_nat c) = Some r ->
    match r with
    | None => no_slot_for a L
    | Some d =>
        exists (i : nat) (m : ARINC429_RxMsg),
          slot_for a L i m
          /\ d = mkRxMsgData (rawARINCword (data m)) (SM (data m))
                   (SDI (data m)) (engDataFloat (data m))
                   (engDataInt (data m)) (discreteBits (data m))
                   (sysTimeLastGoodMsg_ms (data m))
                   (isEngDataInBounds (data m)) (isNotBabbling (data m))
                   (ARINC429_IsLabelDataFresh now m)
    end.
Proof.
  unfold maxNumRxMsgsInArray.
  induction fuel as [|fuel IH]; intros c r Hfuel Hbefore H.
  - cbn in H. injection H as <-.
    intros j m Hj H64 Hm. unfold maxNumRxMsgsInArray in H64.
    apply (Hbefore j m); [lia|done].
  - cbn [GetLatestLabelData_loop] in H.
    destruct ((Z.of_nat c <? numMsgs a)
              && (Z.of_nat c <? maxNumRxMsgsInArray)) eqn:Hg.
    + apply andb_true_iff in Hg. destruct Hg as [Hn H64].
      apply Z.ltb_lt in Hn, H64.
      rewrite Nat2Z.id in H.
      destruct (rxMsgs a !! c) as [m0|] eqn:Hm0; [|discriminate].
      destruct (Z.eqb_spec (label (msgConfig m0)) L) as [Hl|Hl].
      * injection H as <-. exists c, m0. split; [|done].
        unfold slot_for. auto 10.
      * replace (Z.of_nat c + 1) with (Z.of_nat (S c)) in H by lia.
        apply IH in H; [done|lia|].
        intros j mj Hj Hmj.
        destruct (decide (j = c)) as [->|]; [congruence|].
        apply (Hbefore j mj); [lia|done].
    + injection H as <-.
      apply andb_false_iff in Hg.
      intros j m Hj H64 Hm.
      destruct (decide (j < c)%nat); [by apply (Hbefore j m)|].
      destruct Hg as [Hg|Hg]; apply Z.ltb_ge in Hg; lia.
Qed.

Lemma GetLatestLabelData_cases a L g now st d :
  ARINC429_GetLatestLabelData a L g now = Some (st, d) ->
  (st = ARINC429_GET_LABEL_DATA_ERROR_NO_MATCHING_LABEL /\ d = g
   /\ no_slot_for a L)
  \/ (exists (i : nat) (m : ARINC429_RxMsg),
        slot_for a L i m
        /\ st = ARINC429_GET_LABEL_DATA_MSG_SUCCESS
        /\ rawARINCword d = rawARINCword (data m)
        /\ SM d = SM (data m) /\ SDI d = SDI (data m)
        /\ engDataFloat d = engDataFloat (data m)
        /\ sysTimeLastGoodMsg_ms d = sysTimeLastGoodMsg_ms (data m)
        /\ isNotBabbling d = isNotBabbling (data m)
        /\ isDataFresh d = ARINC429_IsLabelDataFresh now m).
Proof.
  unfold ARINC429_GetLatestLabelData. intros H.
  destruct (GetLatestLabelData_loop _ a L now 0) as [r|] eqn:Hloop;
    [|discriminate].
  change 0 with (Z.of_nat 0) in Hloop.
  apply GetLatestLabelData_loop_inv in Hloop; [|lia|intros; lia].
  destruct r as [d0|]; injection H as <- <-.
  - right. destruct Hloop as (i & m & Hs & ->).
    exists i, m. split; [exact Hs|]. cbn. by repeat split.
  - by left.
Qed.

Lemma slot_for_insert a L i m m' :
  slot_for a L i m -> msgConfig m' = msgConfig m ->
  slot_for (set_rxMsgs (<[i := m']> (rxMsgs a)) a) L i m'.
Proof.
  intros (Hi & Hl & Hn & H64 & Hfirst) Hcfg.
  unfold slot_for. cbn [rxMsgs numMsgs set_rxMsgs].
  split; [|split; [|split; [|split]]]; try done.
  - apply list_lookup_insert_eq. by apply lookup_lt_Some in Hi.
  - by rewrite Hcfg.
  - intros j mj Hj Hmj.
    rewrite list_lookup_insert_ne in Hmj by lia. by apply (Hfirst j mj).
Qed.

(** The slot that a successful receipt has written. *)
Lemma ProcessReceivedMessage_success_slot a a' w t :
  ARINC429_ProcessReceivedMessage a w t
  = Some (ARINC429_READ_MSG_SUCCESS, a') ->
  let L := Z.land w ARINC429_LBL_MASK in
  exists (i : nat) (m m' : ARINC429_RxMsg),
    slot_for a L i m /\ slot_for a' L i m'
    /\ msgConfig m' = msgConfig m
    /\ rawARINCword (data m') = w
    /\ sysTimeLastGoodMsg_ms (data m') = t
    /\ isNotBabbling (data m') = ARINC429_IsLabelDataNotBabbling t m.
Proof.
  intros Hrecv L.
  apply ProcessReceivedMessage_cases in Hrecv. fold L in Hrecv.
  destruct Hrecv as [(Hst & _)|(i & m & m' & Hs & Hslot & ->)];
    [discriminate|].
  apply ProcessReceivedMessage_slot_inv in Hslot
    as (Hcfg & Hraw & Hok & _).
  destruct (Hok eq_refl) as [Hbab Htime].
  exists i, m, m'. split; [done|].
  split; [by apply (slot_for_insert a L i m m')|done].
Qed.

(** X9: A word that ARINC429_ProcessReceivedMessage has accepted is what a
    later ARINC429_GetLatestLabelData of its label returns: the read
    succeeds with the word as [rawARINCword], the time of the receipt as
    [sysTimeLastGoodMsg_ms], the babbling flag as set by the receipt, and
    flagged fresh exactly while the [uint32_t] difference between the time
    of the read and the time of the receipt is within the maximum transmit
    interval of the label. *)
Theorem receive_then_read
    (a a' : ARINC429_RxMsgArray) (w t t' : Z) (rxMsgData : ARINC429_RxMsgData) :
  ARINC429_ProcessReceivedMessage a w t
  = Some (ARINC429_READ_MSG_SUCCESS, a') ->
  let L := Z.land w ARINC429_LBL_MASK in
  exists (i : nat) (m : ARINC429_RxMsg) (d : ARINC429_RxMsgData),
    slot_for a L i m
    /\ ARINC429_GetLatestLabelData a' L rxMsgData t'
       = Some (ARINC429_GET_LABEL_DATA_MSG_SUCCESS, d)
    /\ rawARINCword d = w
    /\ sysTimeLastGoodMsg_ms d = t
    /\ isNotBabbling d = ARINC429_IsLabelDataNotBabbling t m
    /\ isDataFresh d
       = (wrap32 (t' - t) <=? maxTransmitInterval_ms (msgConfig m)).
Proof.
  intros Hrecv L.
  destruct (ProcessReceivedMessage_success_slot a a' w t Hrecv)
    as (i & m & m' & Hs & Hs' & Hcfg & Hraw & Htime & Hbab).
  exists i, m. eexists. split; [done|].
  split; [by apply (GetLatestLabelData_found _ _ _ _ i m')|].
  cbn [rawARINCword sysTimeLastGoodMsg_ms isNotBabbling isDataFresh].
  split; [done|]. split; [done|]. split; [done|].
  unfold ARINC429_IsLabelDataFresh. by rewrite Htime, Hcfg.
Qed.

Lemma receive_then_read_witness :
  exists a' d,
    ARINC429_ProcessReceivedMessage arincAHR75array 0x6000AA0B 1000
    = Some (ARINC429_READ_MSG_SUCCESS, a')
    /\ ARINC429_GetLatestLabelData a' 0x0B RxMsgData_init 1025
       = Some (ARINC429_GET_LABEL_DATA_MSG_SUCCESS, d)
    /\ rawARINCword d = 0x6000AA0B.
Proof.
  destruct (ARINC429_ProcessReceivedMessage arincAHR75array 0x6000AA0B 1000)
    as [[st a']|] eqn:Hrecv; [|vm_compute in Hrecv; discriminate].
  assert (st = ARINC429_READ_MSG_SUCCESS) as ->
    by (vm_compute in Hrecv; by injection Hrecv as <- _).
  destruct (receive_then_read arincAHR75array a' 0x6000AA0B 1000 1025
              RxMsgData_init Hrecv) as (i & m & d & _ & Hread & Hraw & _).
  exists a', d. split; [reflexivity|]. split; [exact Hread|exact Hraw].
Defined.

(** X10: ARINC429_GetLatestARINC429Word hands out the stored word of a label
    only while the label is fresh and not babbling.  With a slot for the
    label it returns true and the stored word when the octal label is
    between 1 and 377, the slot is not babbling and the data is fresh;
    otherwise, and whenever no slot has the label, it returns false and
    leaves the output word as it was. *)
Theorem GetLatestARINC429Word_returns
    (a : ARINC429_RxMsgArray) (octalStdLabel arincWord now : Z)
    (data0 : ARINC429_RxMsgData) :
  0 <= octalStdLabel ->
  (forall (i : nat) (m : ARINC429_RxMsg),
     slot_for a (FormatLabelNumber octalStdLabel) i m ->
     ARINC429_GetLatestARINC429Word a octalStdLabel arincWord data0 now
     = Some (if (1 <=? octalStdLabel)
                && (octalStdLabel <=? MAX_OCTAL_LABEL_VALUE)
                && ARINC429_IsLabelDataFresh now m
                && isNotBabbling (data m)
             then (true, rawARINCword (data m))
             else (false, arincWord)))
  /\ (no_slot_for a (FormatLabelNumber octalStdLabel) ->
      forall b x,
        ARINC429_GetLatestARINC429Word a octalStdLabel arincWord data0 now
        = Some (b, x) ->
        b = false /\ x = arincWord).
Proof.
  intros Hoct. unfold ARINC429_GetLatestARINC429Word, MAX_OCTAL_LABEL_VALUE.
  split.
  - intros i m Hs.
    destruct (Z.eqb_spec 0 octalStdLabel), (Z.ltb_spec 377 octalStdLabel),
      (Z.leb_spec 1 octalStdLabel), (Z.leb_spec octalStdLabel 377);
      try lia; cbn [orb andb]; try done.
    rewrite (GetLatestLabelData_found _ _ _ _ i m Hs).
    cbn [isDataFresh isNotBabbling rawARINCword].
    change (ARINC429_GET_LABEL_DATA_MSG_SUCCESS
            =? ARINC429_GET_LABEL_DATA_MSG_SUCCESS) with true.
    cbn [andb]. by destruct (_ && _).
  - intros Hnone b x.
    destruct ((0 =? octalStdLabel) || (377 <? octalStdLabel));
      [by intros [= <- <-]|].
    destruct (ARINC429_GetLatestLabelData _ _ _ _) as [[st d]|] eqn:Hget;
      [|discriminate].
    apply GetLatestLabelData_cases in Hget
      as [(-> & -> & _)|(i & m & Hs & _)].
    + cbn. by intros [= <- <-].
    + destruct Hs as (Hi & Hl & Hn & H64 & _).
      by destruct (Hnone i m).
Qed.

Lemma GetLatestARINC429Word_returns_witness :
  ARINC429_GetLatestARINC429Word ahr75_status_received 271 0 RxMsgData_init
    1400
  = Some (true, 0x0000059D).
Proof.
  assert (slot_for ahr75_status_received (FormatLabelNumber 271) 1
            (mkRxMsg
               (mkLabelConfig (FormatLabelNumber 271) ARINC429_DISCRETE_MSG
                  19 0 Fzero Fzero Fzero 1 450 550)
               (mkRxMsgData 0x0000059D 0 1 Fzero 0 1 1000 false true false)))
    as Hs.
  { apply first_slot_spec; vm_compute; reflexivity. }
  destruct (GetLatestARINC429Word_returns ahr75_status_received 271 0 1400
              RxMsgData_init ltac:(lia)) as [Hfound _].
  exact (Hfound _ _ Hs).
Defined.

(** ** ArincDownload.c *)

(** X11: A word accepted by ARINC429_ProcessReceivedMessage is relayed unchanged
    by a later TransmitLatestARINCMsgIfValid of its label, on the channel
    asked for, provided the receipt did not flag the label as babbling and
    the data is still fresh at the time of the call; otherwise nothing is
    transmitted. *)
Theorem relay_after_receipt
    (a a' : ARINC429_RxMsgArray) (w t t' octalStdLabel : Z)
    (channel : ARINC429_TX_CHANNEL) (data0 : ARINC429_RxMsgData) :
  ARINC429_ProcessReceivedMessage a w t
  = Some (ARINC429_READ_MSG_SUCCESS, a') ->
  octalStdLabel <= MAX_OCTAL_LABEL_VALUE ->
  FormatLabelNumber octalStdLabel = Z.land w ARINC429_LBL_MASK ->
  exists (i : nat) (m : ARINC429_RxMsg),
    slot_for a (Z.land w ARINC429_LBL_MASK) i m
    /\ TransmitLatestARINCMsgIfValid a' octalStdLabel channel data0 t'
       = Some (if ARINC429_IsLabelDataNotBabbling t m
                  && (wrap32 (t' - t)
                      <=? maxTransmitInterval_ms (msgConfig m))
               then Some (channel, w) else None).
Proof.
  intros Hrecv Hoct Hlbl.
  destruct (ProcessReceivedMessage_success_slot a a' w t Hrecv)
    as (i & m & m' & Hs & Hs' & Hcfg & Hraw & Htime & Hbab).
  exists i, m. split; [done|].
  unfold TransmitLatestARINCMsgIfValid, MAX_OCTAL_LABEL_VALUE in *.
  destruct (Z.ltb_spec 377 octalStdLabel); [lia|].
  rewrite Hlbl, (GetLatestLabelData_found _ _ _ _ i m' Hs').
  cbn [isDataFresh isNotBabbling rawARINCword].
  unfold ARINC429_IsLabelDataFresh. rewrite Hraw, Hbab, Htime, Hcfg.
  change (ARINC429_GET_LABEL_DATA_MSG_SUCCESS
          =? ARINC429_GET_LABEL_DATA_MSG_SUCCESS) with true.
  rewrite andb_true_r, andb_comm. by destruct (_ && _).
Qed.

Lemma relay_after_receipt_witness :
  exists a',
    ARINC429_ProcessReceivedMessage arincAHR75array 0x6000AA0B 1000
    = Some (ARINC429_READ_MSG_SUCCESS, a')
    /\ TransmitLatestARINCMsgIfValid a' 320 A429_CHANNEL_B RxMsgData_init
         1025
       = Some (Some (A429_CHANNEL_B, 0x6000AA0B))
    /\ TransmitLatestARINCMsgIfValid a' 320 A429_CHANNEL_B RxMsgData_init
         1026
       = Some None.
Proof.
  destruct (ARINC429_ProcessReceivedMessage arincAHR75array 0x6000AA0B 1000)
    as [[st a']|] eqn:Hrecv; [|vm_compute in Hrecv; discriminate].
  assert (st = ARINC429_READ_MSG_SUCCESS) as ->
    by (vm_compute in Hrecv; by injection Hrecv as <- _).
  exists a'. split; [reflexivity|].
  assert (first_slot arincAHR75array (Z.land 0x6000AA0B ARINC429_LBL_MASK)
          = Some 2%nat) as Hfirst by (vm_compute; reflexivity).
  split.
  - destruct (relay_after_receipt arincAHR75array a' 0x6000AA0B 1000 1025
                320 A429_CHANNEL_B RxMsgData_init Hrecv)
      as (i & m & Hs & Hrelay);
      [unfold MAX_OCTAL_LABEL_VALUE; lia|vm_compute; reflexivity|].
    rewrite Hrelay.
    assert (i = 2%nat /\ Some m = arincWordsRxFromAHR75 !! 2%nat) as [-> Hm].
    { pose proof (first_slot_spec _ _ 2
                    (rx_slot 320 ARINC429_STD_BNR_MSG 15 0 (F32.dec 55 4)
                       0 15 25) Hfirst eq_refl) as Hs2.
      destruct Hs as (Hi & Hl & _ & _ & Hmin).
      destruct Hs2 as (Hi2 & Hl2 & _ & _ & Hmin2).
      destruct (lt_eq_lt_dec i 2) as [[Hlt| ->]|Hgt].
      - by destruct (Hmin2 i m Hlt Hi).
      - split; [done|]. by rewrite <- Hi.
      - by destruct (Hmin 2%nat _ Hgt Hi2). }
    injection Hm as ->. reflexivity.
  - destruct (relay_after_receipt arincAHR75array a' 0x6000AA0B 1000 1026
                320 A429_CHANNEL_B RxMsgData_init Hrecv)
      as (i & m & Hs & Hrelay);
      [unfold MAX_OCTAL_LABEL_VALUE; lia|vm_compute; reflexivity|].
    rewrite Hrelay.
    assert (i = 2%nat /\ Some m = arincWordsRxFromAHR75 !! 2%nat) as [-> Hm].
    { pose proof (first_slot_spec _ _ 2
                    (rx_slot 320 ARINC429_STD_BNR_MSG 15 0 (F32.dec 55 4)
                       0 15 25) Hfirst eq_refl) as Hs2.
      destruct Hs as (Hi & Hl & _ & _ & Hmin).
      destruct Hs2 as (Hi2 & Hl2 & _ & _ & Hmin2).
      destruct (lt_eq_lt_dec i 2) as [[Hlt| ->]|Hgt].
      - by destruct (Hmin2 i m Hlt Hi).
      - split; [done|]. by rewrite <- Hi.
      - by destruct (Hmin 2%nat _ Hgt Hi2). }
    injection Hm as ->. reflexivity.
Defined.

(** ARINC429_ProcessReceivedMessage neither reads nor writes the
    bus-failure counter. *)
Lemma ProcessReceivedMessage_loop_counts c a w now L :
  forall (fuel : nat) (count : Z),
    ProcessReceivedMessage_loop fuel (set_currentCounts c a) w now L count
    = match ProcessReceivedMessage_loop fuel a w now L count with
      | Some (st, found, a') => Some (st, found, set_currentCounts c a')
      | None => None
      end.
Proof.
  induction fuel as [|fuel IH]; intros count; [done|].
  cbn [ProcessReceivedMessage_loop numMsgs rxMsgs set_currentCounts].
  destruct (_ && _); [|done].
  destruct (rxMsgs a !! Z.to_nat count) as [m|]; [|done].
  destruct (label (msgConfig m) =? L).
  - by destruct (ProcessReceivedMessage_slot m w now) as [[st m']|].
  - apply IH.
Qed.

Lemma ProcessReceivedMessage_counts c a w now :
  ARINC429_ProcessReceivedMessage (set_currentCounts c a) w now
  = match ARINC429_ProcessReceivedMessage a w now with
    | Some (st, a') => Some (st, set_currentCounts c a')
    | None => None
    end.
Proof.
  unfold ARINC429_ProcessReceivedMessage.
  rewrite ProcessReceivedMessage_loop_counts.
  destruct (ProcessReceivedMessage_loop _ a w now _ 0)
    as [[[st found] a']|]; [|done].
  by destruct found.
Qed.

Lemma ProcessReceivedMessage_keeps_counts a w now st a' :
  ARINC429_ProcessReceivedMessage a w now = Some (st, a') ->
  currentCounts a' = currentCounts a.
Proof.
  intros H. apply ProcessReceivedMessage_cases in H.
  by destruct H as [(_ & -> & _)|(i & m & m' & _ & _ & ->)].
Qed.

Lemma receive_all_counts c ws :
  forall a,
    receive_all (set_currentCounts c a) ws
    = match receive_all a ws with
      | Some (sts, a') => Some (sts, set_currentCounts c a')
      | None => None
      end.
Proof.
  induction ws as [|[w now] ws IH]; intros a; [done|].
  cbn [receive_all]. rewrite ProcessReceivedMessage_counts.
  destruct (ARINC429_ProcessReceivedMessage a w now) as [[st a1]|]; [|done].
  rewrite IH. by destruct (receive_all a1 ws) as [[sts a2]|].
Qed.

Lemma receive_all_keeps_counts ws :
  forall a sts a',
    receive_all a ws = Some (sts, a') -> currentCounts a' = currentCounts a.
Proof.
  induction ws as [|[w now] ws IH]; intros a sts a' H.
  - by injection H as _ <-.
  - cbn [receive_all] in H.
    destruct (ARINC429_ProcessReceivedMessage a w now) as [[st a1]|] eqn:H1;
      [|discriminate].
    destruct (receive_all a1 ws) as [[sts' a2]|] eqn:H2; [|discriminate].
    injection H as _ <-.
    rewrite (IH _ _ _ H2). by apply ProcessReceivedMessage_keeps_counts in H1.
Qed.

Lemma DownloadMessages_loop_receives (fuel : nat) :
  forall a rx2 sts a1,
    receive_all a (filter parity_ok (take fuel rx2)) = Some (sts, a1) ->
    DownloadMessages_loop fuel a rx2
    = Some (set_currentCounts
              (if existsb (Z.eqb ARINC429_READ_MSG_SUCCESS) sts
               then 0 else currentCounts a) a1,
            drop fuel rx2).
Proof.
  induction fuel as [|fuel IH]; intros a rx2 sts a1 H.
  - rewrite take_0 in H. injection H as <- <-. cbn. by destruct a.
  - destruct rx2 as [|[w now] rx2].
    { injection H as <- <-. cbn. by destruct a. }
    cbn [DownloadMessages_loop take drop].
    cbn [take] in H. rewrite filter_cons in H.
    assert (Hpar : parity_ok (w, now) = (Z.land w 2147483648 =? 0)) by done.
    destruct (Z.land w 2147483648 =? 0).
    + rewrite decide_True in H by (by rewrite Hpar).
      cbn [negb receive_all] in H |- *.
      destruct (ARINC429_ProcessReceivedMessage a w now)
        as [[st a2]|] eqn:H2; [|discriminate].
      destruct (receive_all a2 _) as [[sts' a3]|] eqn:H3; [|discriminate].
      injection H as <- <-.
      pose proof (ProcessReceivedMessage_keeps_counts _ _ _ _ _ H2) as Hc.
      cbn [existsb].
      destruct (Z.eqb_spec ARINC429_READ_MSG_SUCCESS st) as [<-|Hst].
      * change (mkRxMsgArray (numMsgs a2) (rxMsgs a2)
                  (maxBusFailureCounts a2) 0 (hasBusFailed a2))
          with (set_currentCounts 0 a2).
        rewrite (IH (set_currentCounts 0 a2) rx2 sts'
                   (set_currentCounts 0 a3)).
        -- cbn [orb]. by destruct (existsb _ sts').
        -- by rewrite receive_all_counts, H3.
      * rewrite (IH a2 rx2 sts' a3 H3). by rewrite Hc.
    + rewrite decide_False in H by (rewrite Hpar; intros []).
      cbn [negb]. by apply IH.
Qed.

(** X12: One call of DownloadMessagesFromARINCtxvrArx2 (and of its twin
    for transceiver B) takes the first 32 words out of the receiver and
    leaves the others.  Of the words taken, those with bit 31 set never
    reach the group; the others are handed to
    ARINC429_ProcessReceivedMessage in their order.  The bus-failure
    counter is set to zero when at least one of them is accepted and keeps
    its value otherwise. *)
Theorem DownloadMessages_receives
    (a : ARINC429_RxMsgArray) (rx2 : list (Z * Z))
    (sts : list Z) (a1 : ARINC429_RxMsgArray) :
  receive_all a (filter parity_ok (take 32 rx2)) = Some (sts, a1) ->
  let received :=
    Some (set_currentCounts
            (if existsb (Z.eqb ARINC429_READ_MSG_SUCCESS) sts
             then 0 else currentCounts a) a1,
          drop 32 rx2) in
  DownloadMessagesFromARINCtxvrArx2 a rx2 = received
  /\ DownloadMessagesFromARINCtxvrBrx2 a rx2 = received.
Proof.
  intros H. split; by apply (DownloadMessages_loop_receives 32).
Qed.

Lemma DownloadMessages_receives_witness :
  let a := set_currentCounts 7 arincAHR75array in
  let rx2 := [(0x8000059D, 990); (0x0000059D, 1000); (0x000000FF, 1001)] in
  let received :=
    Some (set_currentCounts
            (if existsb (Z.eqb ARINC429_READ_MSG_SUCCESS)
                  [ARINC429_READ_MSG_SUCCESS;
                   ARINC429_READ_MSG_ERROR_NO_MATCHING_LABEL]
             then 0 else currentCounts a)
            (set_currentCounts 7 ahr75_status_received),
          drop 32 rx2) in
  DownloadMessagesFromARINCtxvrArx2 a rx2 = received
  /\ DownloadMessagesFromARINCtxvrBrx2 a rx2 = received.
Proof.
  apply DownloadMessages_receives. vm_compute. reflexivity.
Defined.

Lemma ProcessARINCBusFailure_calls_spec (n : nat) :
  forall a,
    ProcessARINCBusFailure_calls n a
    = ((fun i : nat =>
          maxBusFailureCounts a <=? wrap32 (currentCounts a + Z.of_nat i + 1))
         <$> seq 0 n,
       set_currentCounts
         (if n is O then currentCounts a
          else wrap32 (currentCounts a + Z.of_nat n)) a).
Proof.
  induction n as [|n IH]; intros a.
  - cbn. by destruct a.
  - cbn [ProcessARINCBusFailure_calls ProcessARINCBusFailure].
    rewrite IH. cbn [maxBusFailureCounts currentCounts seq fmap list_fmap].
    rewrite <- fmap_S_seq, <- list_fmap_compose.
    f_equal.
    + f_equal; [by rewrite Z.add_0_r|].
      apply list_fmap_ext. intros _ i _. cbn. f_equal.
      unfold wrap32. rewrite <- (Z.add_assoc _ _ 1).
      rewrite Zplus_mod_idemp_l. f_equal. lia.
    + unfold set_currentCounts. cbn. f_equal.
      destruct n as [|n]; [f_equal; lia|].
      unfold wrap32. rewrite Zplus_mod_idemp_l. f_equal. lia.
Qed.

(** X13: ProcessARINCBusFailure called [n] times in a row on a group whose
    counter stands at [c] reports a failure at its call number [i + 1]
    exactly when [c + i + 1] has reached maxBusFailureCounts, as long as
    the counter stays below 2^32; once reported, the failure is reported
    by every later call.  The calls change nothing but the counter, which
    ends at [c + n]. *)
Theorem bus_failure_after_ticks (a : ARINC429_RxMsgArray) (n : nat) :
  0 <= currentCounts a ->
  currentCounts a + Z.of_nat n < 2 ^ 32 ->
  let '(flags, a') := ProcessARINCBusFailure_calls n a in
  a' = set_currentCounts (currentCounts a + Z.of_nat n) a
  /\ (forall i : nat,
        (i < n)%nat ->
        flags !! i
        = Some (maxBusFailureCounts a <=? currentCounts a + Z.of_nat i + 1))
  /\ (forall i j : nat,
        (i <= j < n)%nat -> flags !! i = Some true -> flags !! j = Some true).
Proof.
  intros H0 Hn. rewrite ProcessARINCBusFailure_calls_spec.
  assert (Hflag : forall i : nat,
             (i < n)%nat ->
             ((fun i : nat =>
                 maxBusFailureCounts a
                 <=? wrap32 (currentCounts a + Z.of_nat i + 1))
                <$> seq 0 n) !! i
             = Some (maxBusFailureCounts a
                     <=? currentCounts a + Z.of_nat i + 1)).
  { intros i Hi. rewrite list_lookup_fmap, lookup_seq_lt by done. cbn.
    by rewrite wrap32_small by lia. }
  split; [|split].
  - destruct n as [|n]; [by rewrite Z.add_0_r|].
    by rewrite wrap32_small by lia.
  - exact Hflag.
  - intros i j Hij. rewrite !Hflag by lia. intros [= Hi]. f_equal.
    apply Z.leb_le in Hi. apply Z.leb_le. lia.
Qed.

Lemma bus_failure_after_ticks_witness :
  let '(flags, a') := ProcessARINCBusFailure_calls 12 arincAHR75array in
  a' = set_currentCounts (currentCounts arincAHR75array + Z.of_nat 12)
         arincAHR75array
  /\ (forall i : nat,
        (i < 12)%nat ->
        flags !! i
        = Some (maxBusFailureCounts arincAHR75array
                <=? currentCounts arincAHR75array + Z.of_nat i + 1))
  /\ (forall i j : nat,
        (i <= j < 12)%nat ->
        flags !! i = Some true -> flags !! j = Some true).
Proof.
  apply (bus_failure_after_ticks arincAHR75array 12); [done|done].
Defined.

(** ** calculateNewARINCLabels.c: the status words *)

Lemma land_bit_test R k :
  0 <= k -> negb (Z.land R (2 ^ k) =? 0) = Z.testbit R k.
Proof.
  intros Hk.
  assert (Z.land R (2 ^ k) = if Z.testbit R k then 2 ^ k else 0) as ->.
  { apply Z.bits_inj'. intros n Hn.
    rewrite Z.land_spec, Z.pow2_bits_eqb by lia.
    destruct (Z.eqb_spec k n) as [->|Hne].
    - rewrite andb_true_r.
      destruct (Z.testbit R n) eqn:E; [|by rewrite Z.bits_0].
      by rewrite Z.pow2_bits_eqb, Z.eqb_refl by lia.
    - rewrite andb_false_r.
      destruct (Z.testbit R k); [|by rewrite Z.bits_0].
      rewrite Z.pow2_bits_eqb by lia. symmetry. by apply Z.eqb_neq. }
  destruct (Z.testbit R k); [|done].
  assert (0 < 2 ^ k) by (apply Z.pow_pos_nonneg; lia).
  destruct (Z.eqb_spec (2 ^ k) 0); [lia|done].
Qed.

Lemma within_mask W m : 0 <= m < 2 ^ 32 -> Z.land W m = W -> 0 <= W < 2 ^ 32.
Proof.
  intros Hm HW.
  assert (W = W mod 2 ^ 32) as ->.
  { rewrite <- Z.land_ones by lia. rewrite <- HW at 1.
    rewrite <- HW at 2. rewrite <- Z.land_assoc. f_equal.
    rewrite Z.land_ones by lia. symmetry. apply Z.mod_small. lia. }
  apply Z.mod_pos_bound. lia.
Qed.

(** Folds the bitwise operations on literals that a goal contains. *)
Ltac fold_masks :=
  repeat match goal with
    | |- context [Z.land (Zpos ?p) (Zpos ?q)] =>
        let v := eval vm_compute in (Z.land (Zpos p) (Zpos q)) in
        change (Z.land (Zpos p) (Zpos q)) with v
    | |- context [Z.lor (Zpos ?p) (Zpos ?q)] =>
        let v := eval vm_compute in (Z.lor (Zpos p) (Zpos q)) in
        change (Z.lor (Zpos p) (Zpos q)) with v
    | |- context [Z.testbit (Zpos ?p) (Zpos ?q)] =>
        let v := eval vm_compute in (Z.testbit (Zpos p) (Zpos q)) in
        change (Z.testbit (Zpos p) (Zpos q)) with v
    end.

(** A word built with [Z.lor] from literals and masked parts of other
    words, under a literal mask. *)
Ltac mask_word :=
  rewrite ?Z.land_lor_distr_l, <- ?Z.land_assoc; fold_masks;
  rewrite ?Z.land_0_r, ?Z.lor_0_r, ?Z.lor_0_l; fold_masks;
  try reflexivity.

(** The bit of a literal index of a word built with [Z.lor]. *)
Ltac bit_of_word :=
  rewrite ?Z.lor_spec, ?Z.land_spec; fold_masks;
  rewrite ?andb_false_r, ?orb_false_r, ?orb_true_r, ?andb_true_r;
  try reflexivity.

Lemma GetLatestLabelData_loop_defined a L now :
  numMsgs a <= Z.of_nat (length (rxMsgs a)) ->
  forall (fuel : nat) (count : Z),
    0 <= count ->
    exists r, GetLatestLabelData_loop fuel a L now count = Some r.
Proof.
  intros Hlen. induction fuel as [|fuel IH]; intros count Hc; [by eexists|].
  cbn [GetLatestLabelData_loop].
  destruct ((count <? numMsgs a) && (count <? maxNumRxMsgsInArray)) eqn:Hg;
    [|by eexists].
  apply andb_prop in Hg as [Hg _]. apply Z.ltb_lt in Hg.
  destruct (lookup_lt_is_Some_2 (rxMsgs a) (Z.to_nat count)) as [m Hm];
    [lia|].
  rewrite Hm. cbn.
  destruct (label (msgConfig m) =? L); [by eexists|]. apply IH. lia.
Qed.

Lemma GetLatestLabelData_defined a L g now :
  numMsgs a <= Z.of_nat (length (rxMsgs a)) ->
  exists st d, ARINC429_GetLatestLabelData a L g now = Some (st, d).
Proof.
  intros Hlen. unfold ARINC429_GetLatestLabelData.
  destruct (GetLatestLabelData_loop_defined a L now Hlen
              (Z.to_nat maxNumRxMsgsInArray) 0) as [r ->]; [done|].
  destruct r; by do 2 eexists.
Qed.

(** X14: With label 271 and label 270 both read with success, fresh, not
    babbling and with the status matrix of discrete normal operation,
    CalculateARINCLabel274 returns a 32-bit word with the label byte 0x3D
    and the SDI and SSM bits of the raw word 271, whose bit 28 is the
    MSU-fail bit (bit 10) of the raw word 271, whose bit 11 is the
    calibration bit (bit 10) of the raw word 270 and whose bit 12 tells
    whether the ADC has timed out; every other bit is clear. *)
Theorem label274_composition
    (a : ARINC429_RxMsgArray) (hasADCTimedOut : bool)
    (g271 g270 d271 d270 : ARINC429_RxMsgData) (t271 t270 : Z) :
  ARINC429_GetLatestLabelData a (FormatLabelNumber 271) g271 t271
  = Some (ARINC429_GET_LABEL_DATA_MSG_SUCCESS, d271) ->
  ARINC429_GetLatestLabelData a (FormatLabelNumber 270) g270 t270
  = Some (ARINC429_GET_LABEL_DATA_MSG_SUCCESS, d270) ->
  isDataFresh d271 = true -> isNotBabbling d271 = true ->
  SM d271 = ARINC429_SSM_DIS_NORMAL_OPERATION ->
  isDataFresh d270 = true -> isNotBabbling d270 = true ->
  SM d270 = ARINC429_SSM_DIS_NORMAL_OPERATION ->
  exists W,
    CalculateARINCLabel274 a hasADCTimedOut g271 g270 t271 t270 = Some W
    /\ Z.land W 0xFF = 0x3D
    /\ Z.land W AHRS_STATUS_SDI_SSM_MASK
       = Z.land (rawARINCword d271) AHRS_STATUS_SDI_SSM_MASK
    /\ Z.testbit W 28 = Z.testbit (rawARINCword d271) 10
    /\ Z.testbit W 11 = Z.testbit (rawARINCword d270) 10
    /\ Z.testbit W 12 = hasADCTimedOut
    /\ Z.land W 0x8FFFE400 = 0
    /\ 0 <= W < 2 ^ 32.
Proof.
  intros H271 H270 Hf1 Hb1 Hs1 Hf0 Hb0 Hs0.
  unfold CalculateARINCLabel274.
  rewrite H271, H270, Hf1, Hb1, Hs1, Hf0, Hb0, Hs0. cbn [andb].
  unfold AHRS_LABEL_271_MSU_FAIL_MASK, AHRS_LABEL_270_CAL_MASK.
  change 1024 with (2 ^ 10). rewrite !land_bit_test by done.
  unfold AHRS_STATUS_SDI_SSM_MASK.
  set (R1 := rawARINCword d271). set (R0 := rawARINCword d270).
  cbn [Z.eqb ARINC429_SSM_DIS_NORMAL_OPERATION
         ARINC429_GET_LABEL_DATA_MSG_SUCCESS].
  eexists. split; [reflexivity|].
  assert (Hin : forall W : Z,
             Z.land W 0x70001BFF = W ->
             Z.land W 0x8FFFE400 = 0 /\ 0 <= W < 2 ^ 32).
  { intros W HW. split; [|by apply (within_mask W 0x70001BFF)].
    rewrite <- HW, <- Z.land_assoc. apply Z.land_0_r. }
  destruct (Z.testbit R1 10), (Z.testbit R0 10), hasADCTimedOut;
    (split; [mask_word|]); (split; [mask_word|]);
    (split; [bit_of_word|]); (split; [bit_of_word|]);
    (split; [bit_of_word|]); apply Hin; mask_word.
Qed.

Lemma label274_composition_witness :
  let d271 := mkRxMsgData 0x0000059D 0 1 Fzero 0 1 1000 false true true in
  let d270 := mkRxMsgData 0x0000051D 0 1 Fzero 0 1 1010 false true true in
  exists W,
    CalculateARINCLabel274 ahr75_status_words_received true RxMsgData_init
      RxMsgData_init 1030 1031 = Some W
    /\ Z.land W 0xFF = 0x3D
    /\ Z.land W AHRS_STATUS_SDI_SSM_MASK
       = Z.land (rawARINCword d271) AHRS_STATUS_SDI_SSM_MASK
    /\ Z.testbit W 28 = Z.testbit (rawARINCword d271) 10
    /\ Z.testbit W 11 = Z.testbit (rawARINCword d270) 10
    /\ Z.testbit W 12 = true
    /\ Z.land W 0x8FFFE400 = 0
    /\ 0 <= W < 2 ^ 32.
Proof.
  intros d271 d270.
  apply (label274_composition ahr75_status_words_received true
           RxMsgData_init RxMsgData_init d271 d270 1030 1031);
    vm_compute; reflexivity.
Defined.

(** X15: With label 271 read with success, fresh, not babbling and with the
    status matrix of discrete normal operation, and label 323 read with
    success, fresh and not babbling, CalculateARINCLabel275 returns a
    32-bit word with the label byte 0xBD and the SDI and SSM bits of the
    raw word 271, whose bit 14 and bit 25 are set, whose bit 22 is the
    MSU-fail bit (bit 10) of the raw word 271 and whose bit 24 is set
    exactly when the status matrix of label 323 is not that of normal
    operation; every other bit is clear. *)
Theorem label275_composition
    (a : ARINC429_RxMsgArray)
    (g271 g323 d271 d323 : ARINC429_RxMsgData) (t271 t323 : Z) :
  ARINC429_GetLatestLabelData a (FormatLabelNumber 271) g271 t271
  = Some (ARINC429_GET_LABEL_DATA_MSG_SUCCESS, d271) ->
  ARINC429_GetLatestLabelData a (FormatLabelNumber 323) g323 t323
  = Some (ARINC429_GET_LABEL_DATA_MSG_SUCCESS, d323) ->
  isDataFresh d271 = true -> isNotBabbling d271 = true ->
  SM d271 = ARINC429_SSM_DIS_NORMAL_OPERATION ->
  isDataFresh d323 = true -> isNotBabbling d323 = true ->
  exists W,
    CalculateARINCLabel275 a g271 g323 t271 t323 = Some W
    /\ Z.land W 0xFF = 0xBD
    /\ Z.land W AHRS_STATUS_SDI_SSM_MASK
       = Z.land (rawARINCword d271) AHRS_STATUS_SDI_SSM_MASK
    /\ Z.testbit W 14 = true
    /\ Z.testbit W 25 = true
    /\ Z.testbit W 22 = Z.testbit (rawARINCword d271) 10
    /\ Z.testbit W 24
       = negb (ARINC429_SSM_BNR_NORMAL_OPERATION =? SM d323)
    /\ Z.land W 0x9CBFBC00 = 0
    /\ 0 <= W < 2 ^ 32.
Proof.
  intros H271 H323 Hf1 Hb1 Hs1 Hf3 Hb3.
  unfold CalculateARINCLabel275.
  rewrite H271, H323, Hf1, Hb1, Hs1, Hf3, Hb3. cbn [andb].
  unfold AHRS_LABEL_271_MSU_FAIL_MASK.
  change 1024 with (2 ^ 10). rewrite !land_bit_test by done.
  unfold AHRS_STATUS_SDI_SSM_MASK.
  set (R1 := rawARINCword d271).
  cbn [Z.eqb ARINC429_SSM_DIS_NORMAL_OPERATION
         ARINC429_GET_LABEL_DATA_MSG_SUCCESS].
  eexists. split; [reflexivity|].
  assert (Hin : forall W : Z,
             Z.land W 0x634043FF = W ->
             Z.land W 0x9CBFBC00 = 0 /\ 0 <= W < 2 ^ 32).
  { intros W HW. split; [|by apply (within_mask W 0x634043FF)].
    rewrite <- HW, <- Z.land_assoc. apply Z.land_0_r. }
  destruct (Z.testbit R1 10),
    (negb (ARINC429_SSM_BNR_NORMAL_OPERATION =? SM d323));
    (split; [mask_word|]); (split; [mask_word|]);
    (split; [bit_of_word|]); (split; [bit_of_word|]);
    (split; [bit_of_word|]); (split; [bit_of_word|]);
    apply Hin; mask_word.
Qed.

Lemma label275_composition_witness :
  let d271 := mkRxMsgData 0x0000059D 0 1 Fzero 0 1 1000 false true true in
  let d323 :=
    mkRxMsgData 0x600101CB 3 1 (S754_finite false 8589935 (-33)) 0 0 1020
      false true true in
  exists W,
    CalculateARINCLabel275 ahr75_status_words_received RxMsgData_init
      RxMsgData_init 1030 1031 = Some W
    /\ Z.land W 0xFF = 0xBD
    /\ Z.land W AHRS_STATUS_SDI_SSM_MASK
       = Z.land (rawARINCword d271) AHRS_STATUS_SDI_SSM_MASK
    /\ Z.testbit W 14 = true
    /\ Z.testbit W 25 = true
    /\ Z.testbit W 22 = Z.testbit (rawARINCword d271) 10
    /\ Z.testbit W 24
       = negb (ARINC429_SSM_BNR_NORMAL_OPERATION =? SM d323)
    /\ Z.land W 0x9CBFBC00 = 0
    /\ 0 <= W < 2 ^ 32.
Proof.
  intros d271 d323.
  apply (label275_composition ahr75_status_words_received
           RxMsgData_init RxMsgData_init d271 d323 1030 1031);
    vm_compute; reflexivity.
Defined.

(** X16: The three status words fail together: whenever label 271 is not read
    with success, fresh, not babbling and with the status matrix of
    discrete normal operation, CalculateARINCLabel272,
    CalculateARINCLabel274 and CalculateARINCLabel275 return their bare
    words with both SSM bits set, 0x6000005D, 0x6000003D and 0x600040BD:
    no SDI and no status bit of the received words gets through, whatever
    the other labels and the ADC flag are. *)
Theorem status_words_fail_together
    (a : ARINC429_RxMsgArray) (hasADCTimedOut : bool)
    (g271 g270 g323 d271 : ARINC429_RxMsgData)
    (t271 t270 t323 status : Z) :
  numMsgs a <= Z.of_nat (length (rxMsgs a)) ->
  ARINC429_GetLatestLabelData a (FormatLabelNumber 271) g271 t271
  = Some (status, d271) ->
  label_data_valid status d271 ARINC429_SSM_DIS_NORMAL_OPERATION = false ->
  CalculateARINCLabel272 a hasADCTimedOut g271 t271 = Some 0x6000005D
  /\ CalculateARINCLabel274 a hasADCTimedOut g271 g270 t271 t270
     = Some 0x6000003D
  /\ CalculateARINCLabel275 a g271 g323 t271 t323 = Some 0x600040BD.
Proof.
  intros Hlen H271 Hbad.
  destruct (GetLatestLabelData_defined a (FormatLabelNumber 270) g270 t270
              Hlen) as (st0 & d0 & H270).
  destruct (GetLatestLabelData_defined a (FormatLabelNumber 323) g323 t323
              Hlen) as (st3 & d3 & H323).
  unfold CalculateARINCLabel272, CalculateARINCLabel274,
    CalculateARINCLabel275.
  rewrite H271, H270, H323. cbn [mbind option_bind].
  unfold label_data_valid in Hbad.
  destruct (ARINC429_GET_LABEL_DATA_MSG_SUCCESS =? status),
    (isDataFresh d271), (isNotBabbling d271),
    (ARINC429_SSM_DIS_NORMAL_OPERATION =? SM d271);
    try discriminate Hbad; cbn [andb]; by rewrite ?andb_false_r.
Qed.

Lemma status_words_fail_together_witness :
  CalculateARINCLabel272 ahr75_status_words_received true RxMsgData_init
    1600 = Some 0x6000005D
  /\ CalculateARINCLabel274 ahr75_status_words_received true RxMsgData_init
       RxMsgData_init 1600 1040 = Some 0x6000003D
  /\ CalculateARINCLabel275 ahr75_status_words_received RxMsgData_init
       RxMsgData_init 1600 1040 = Some 0x600040BD.
Proof.
  apply (status_words_fail_together ahr75_status_words_received true
           RxMsgData_init RxMsgData_init RxMsgData_init
           (mkRxMsgData 0x0000059D 0 1 Fzero 0 1 1000 false true false)
           1600 1040 1040 ARINC429_GET_LABEL_DATA_MSG_SUCCESS);
    vm_compute; (reflexivity || discriminate).
Defined.

(** ** calculateNewARINCLabels.c: the words derived from one label *)

Lemma BNR_word_assembled cfg sm sdi eng v w0 :
  1 <= numSigBits cfg <= ARINC429_BNR_STD_MSG_NUM_SIGBITS_18 ->
  0 <= label cfg < 256 ->
  BNR_discrete_below_data cfg ->
  BNR_calcValueAsInt (resolution cfg) eng = Some v ->
  exists st W,
    ARINC429_AssembleStdBNRmessage (mkTxMsg cfg sm sdi eng 0) w0
    = Some (st, W)
    /\ BNR_word_of cfg sm sdi v W.
Proof.
  intros Hn Hl Hdb Hv.
  destruct (AssembleStdBNRmessage_fields (mkTxMsg cfg sm sdi eng 0) w0 v
              Hn Hl Hdb Hv) as (W & HW & H).
  eexists _, W. split; [exact HW|]. exact H.
Qed.

(** The labels that calculateNewARINCLabels.c sends are BNR labels of 12
    or 13 significant bits without discrete bits. *)
Ltac Eclipse_config :=
  first
    [ by (cbn; unfold ARINC429_BNR_STD_MSG_NUM_SIGBITS_18; lia)
    | by (split; [vm_compute; discriminate|vm_compute; reflexivity])
    | by (left; cbn; lia) ].

(** X17: CalculateNewMagneticHeadingARINCWord sends the magnetic heading it
    reads from label 320 as a BNR word of 12 significant bits with the SDI
    of the received word.  The status matrix of the received word gets
    through only when label 320 is read with success, fresh and not
    babbling, label 271 is valid with the status matrix of discrete normal
    operation, and the MSU-fail bit (bit 10) of the raw word 271 is clear;
    in every other case the word carries the BNR failure warning. *)
Theorem magnetic_heading_word
    (a : ARINC429_RxMsgArray) (g320 g271 d320 d271 : ARINC429_RxMsgData)
    (t320 t271 st320 st271 v : Z) :
  ARINC429_GetLatestLabelData a (FormatLabelNumber 320) g320 t320
  = Some (st320, d320) ->
  ARINC429_GetLatestLabelData a (FormatLabelNumber 271) g271 t271
  = Some (st271, d271) ->
  BNR_calcValueAsInt (resolution Eclipse_ARINCLabel320Config)
    (engDataFloat d320) = Some v ->
  exists W,
    CalculateNewMagneticHeadingARINCWord a g320 g271 t320 t271 = Some W
    /\ BNR_word_of Eclipse_ARINCLabel320Config
         (if label_data_received st320 d320
             && label_data_valid st271 d271
                  ARINC429_SSM_DIS_NORMAL_OPERATION
             && negb (Z.testbit (rawARINCword d271) 10)
          then SM d320 else ARINC429_SSM_BNR_FAILURE_WARNING)
         (SDI d320) v W.
Proof.
  intros H320 H271 Hv.
  unfold CalculateNewMagneticHeadingARINCWord.
  rewrite H320, H271. cbn [mbind option_bind].
  unfold AHRS_LABEL_271_MSU_FAIL_MASK.
  change 1024 with (2 ^ 10). rewrite land_bit_test by done.
  match goal with
  | |- context [mkTxMsg _ ?sm _ _ _] =>
      destruct (BNR_word_assembled Eclipse_ARINCLabel320Config sm
                  (SDI d320) (engDataFloat d320) v 0)
        as (st & W & -> & HW); [Eclipse_config..|exact Hv|]
  end.
  exists W. split; [done|].
  by destruct (label_data_received st320 d320),
    (label_data_valid st271 d271 _), (Z.testbit (rawARINCword d271) 10).
Qed.

Lemma magnetic_heading_word_witness :
  let d320 :=
    mkRxMsgData 0x67FD810B 3 1 (S754_finite false 11796742 (-17)) 90 0 1010
      false true true in
  let d271 := mkRxMsgData 0x0000059D 0 1 Fzero 0 1 1000 false true true in
  exists W,
    CalculateNewMagneticHeadingARINCWord ahr75_heading_msu_fail_received
      RxMsgData_init RxMsgData_init 1020 1021 = Some W
    /\ BNR_word_of Eclipse_ARINCLabel320Config
         (if label_data_received ARINC429_GET_LABEL_DATA_MSG_SUCCESS d320
             && label_data_valid ARINC429_GET_LABEL_DATA_MSG_SUCCESS d271
                  ARINC429_SSM_DIS_NORMAL_OPERATION
             && negb (Z.testbit (rawARINCword d271) 10)
          then SM d320 else ARINC429_SSM_BNR_FAILURE_WARNING)
         (SDI d320) 2048 W.
Proof.
  intros d320 d271.
  apply (magnetic_heading_word ahr75_heading_msu_fail_received
           RxMsgData_init RxMsgData_init d320 d271 1020 1021
           ARINC429_GET_LABEL_DATA_MSG_SUCCESS
           ARINC429_GET_LABEL_DATA_MSG_SUCCESS 2048);
    vm_compute; reflexivity.
Defined.

Lemma passed_on_word cfg a L g now st d eng v :
  1 <= numSigBits cfg <= ARINC429_BNR_STD_MSG_NUM_SIGBITS_18 ->
  0 <= label cfg < 256 ->
  BNR_discrete_below_data cfg ->
  ARINC429_GetLatestLabelData a L g now = Some (st, d) ->
  BNR_calcValueAsInt (resolution cfg) (eng d) = Some v ->
  exists W,
    (do '(status, data) <- ARINC429_GetLatestLabelData a L g now in
     let sm :=
       if label_data_received status data then SM data
       else ARINC429_SSM_BNR_FAILURE_WARNING in
     do '(_, word) <-
       ARINC429_AssembleStdBNRmessage
         (mkTxMsg cfg sm (SDI data) (eng data) 0) 0 in
     Some word) = Some W
    /\ BNR_word_of cfg
         (if label_data_received st d then SM d
          else ARINC429_SSM_BNR_FAILURE_WARNING) (SDI d) v W.
Proof.
  intros Hn Hl Hdb Hget Hv. rewrite Hget. cbn [mbind option_bind].
  match goal with
  | |- context [mkTxMsg _ ?sm _ _ _] =>
      destruct (BNR_word_assembled cfg sm (SDI d) (eng d) v 0)
        as (s & W & -> & HW); [done..|]
  end.
  by exists W.
Qed.

(** X18: CalculateNewPitchAngleARINCWord and CalculateNewRollAngleARINCWord
    send the angle they read from label 324 and from label 325 as a BNR
    word of 13 and of 12 significant bits, with the SDI of the received
    word; the status matrix of the received word gets through when the
    label is read with success, fresh and not babbling, whatever it is,
    and is replaced by the BNR failure warning in every other case. *)
Theorem pitch_and_roll_words
    (a : ARINC429_RxMsgArray) (g324 g325 d324 d325 : ARINC429_RxMsgData)
    (now st324 st325 v324 v325 : Z) :
  ARINC429_GetLatestLabelData a (FormatLabelNumber 324) g324 now
  = Some (st324, d324) ->
  ARINC429_GetLatestLabelData a (FormatLabelNumber 325) g325 now
  = Some (st325, d325) ->
  BNR_calcValueAsInt (resolution Eclipse_ARINCLabel324Config)
    (engDataFloat d324) = Some v324 ->
  BNR_calcValueAsInt (resolution Eclipse_ARINClabel325Config)
    (engDataFloat d325) = Some v325 ->
  (exists W,
     CalculateNewPitchAngleARINCWord a g324 now = Some W
     /\ BNR_word_of Eclipse_ARINCLabel324Config
          (if label_data_received st324 d324 then SM d324
           else ARINC429_SSM_BNR_FAILURE_WARNING) (SDI d324) v324 W)
  /\ (exists W,
        CalculateNewRollAngleARINCWord a g325 now = Some W
        /\ BNR_word_of Eclipse_ARINClabel325Config
             (if label_data_received st325 d325 then SM d325
              else ARINC429_SSM_BNR_FAILURE_WARNING) (SDI d325) v325 W).
Proof.
  intros H324 H325 Hv324 Hv325. split.
  - destruct (passed_on_word Eclipse_ARINCLabel324Config a
                (FormatLabelNumber 324) g324 now st324
                d324 engDataFloat v324) as (W & HW & Hword);
      [Eclipse_config..|exact H324|exact Hv324|].
    exists W. split; [exact HW|exact Hword].
  - destruct (passed_on_word Eclipse_ARINClabel325Config a
                (FormatLabelNumber 325) g325 now st325
                d325 engDataFloat v325) as (W & HW & Hword);
      [Eclipse_config..|exact H325|exact Hv325|].
    exists W. split; [exact HW|exact Hword].
Qed.

(** X19: CalculateNewBodyLateralAccelARINCWord sends the acceleration it reads
    from label 332 with its sign inverted, and
    CalculateNewNormalAccelerationARINCWord the one it reads from label
    333 with 1 added, both as BNR words of 12 significant bits with the
    SDI of the received word.  A label that is not read with success,
    fresh and not babbling gives the BNR failure warning.  The status
    matrix of a received label 332 gets through as it is; that of a
    received label 333 does too unless it is that of normal operation, in
    which case the word is normal only while the shifted value is within
    the limits of the label, -3 to 5, and carries the failure warning
    outside. *)
Theorem acceleration_words
    (a : ARINC429_RxMsgArray) (g332 g333 d332 d333 : ARINC429_RxMsgData)
    (now st332 st333 v332 v333 : Z) :
  ARINC429_GetLatestLabelData a (FormatLabelNumber 332) g332 now
  = Some (st332, d332) ->
  ARINC429_GetLatestLabelData a (FormatLabelNumber 333) g333 now
  = Some (st333, d333) ->
  BNR_calcValueAsInt (resolution arincLabel332Config)
    (SFopp (engDataFloat d332)) = Some v332 ->
  BNR_calcValueAsInt (resolution Eclipse_ARINClabel333Config)
    (F32.add (engDataFloat d333) (F32.of_Z 1)) = Some v333 ->
  (exists W,
     CalculateNewBodyLateralAccelARINCWord a g332 now = Some W
     /\ BNR_word_of arincLabel332Config
          (if label_data_received st332 d332 then SM d332
           else ARINC429_SSM_BNR_FAILURE_WARNING) (SDI d332) v332 W)
  /\ (exists W,
        CalculateNewNormalAccelerationARINCWord a g333 now = Some W
        /\ BNR_word_of Eclipse_ARINClabel333Config
             (if label_data_received st333 d333 then
                if ARINC429_SSM_BNR_NORMAL_OPERATION =? SM d333 then
                  let az := F32.add (engDataFloat d333) (F32.of_Z 1) in
                  if Flt az (F32.of_Z (-3)) || Fgt az (F32.of_Z 5)
                  then ARINC429_SSM_BNR_FAILURE_WARNING
                  else ARINC429_SSM_BNR_NORMAL_OPERATION
                else SM d333
              else ARINC429_SSM_BNR_FAILURE_WARNING) (SDI d333) v333 W).
Proof.
  intros H332 H333 Hv332 Hv333. split.
  - destruct (passed_on_word arincLabel332Config a
                (FormatLabelNumber 332) g332 now st332 d332
                (fun d => SFopp (engDataFloat d)) v332)
      as (W & HW & Hword); [Eclipse_config..|exact H332|exact Hv332|].
    exists W. split; [exact HW|exact Hword].
  - unfold CalculateNewNormalAccelerationARINCWord.
    rewrite H333. cbn [mbind option_bind].
    match goal with
    | |- context [mkTxMsg _ ?sm _ _ _] =>
        destruct (BNR_word_assembled Eclipse_ARINClabel333Config sm
                    (SDI d333) (F32.add (engDataFloat d333) (F32.of_Z 1))
                    v333 0)
          as (s & W & -> & HW); [Eclipse_config..|exact Hv333|]
    end.
    exists W. split; [reflexivity|].
    unfold ARINC429_CheckValidityOfARINC_BNR_Data in HW.
    cbn [minValidValue maxValidValue Eclipse_ARINClabel333Config] in HW.
    exact HW.
Qed.

Lemma pitch_and_roll_words_witness :
  let d324 :=
    mkRxMsgData 0x60E3812B 3 1 (S754_finite false 10482887 (-20)) 10 0 1000
      false true true in
  let d325 :=
    mkRxMsgData 0x7E3901AB 3 1 (S754_finite true 10482887 (-19)) (-20) 0
      1001 false true true in
  let st := ARINC429_GET_LABEL_DATA_MSG_SUCCESS in
  (exists W,
     CalculateNewPitchAngleARINCWord ahr75_attitude_received RxMsgData_init
       1010 = Some W
     /\ BNR_word_of Eclipse_ARINCLabel324Config
          (if label_data_received st d324 then SM d324
           else ARINC429_SSM_BNR_FAILURE_WARNING) (SDI d324) 910 W)
  /\ (exists W,
        CalculateNewRollAngleARINCWord ahr75_attitude_received
          RxMsgData_init 1010 = Some W
        /\ BNR_word_of Eclipse_ARINClabel325Config
             (if label_data_received st d325 then SM d325
              else ARINC429_SSM_BNR_FAILURE_WARNING) (SDI d325) (-455) W).
Proof.
  intros d324 d325 st.
  apply (pitch_and_roll_words ahr75_attitude_received RxMsgData_init
           RxMsgData_init d324 d325 1010 st st 910 (-455));
    vm_compute; reflexivity.
Defined.

Lemma acceleration_words_witness :
  let d332 :=
    mkRxMsgData 0x6100015B 3 1 (S754_finite false 8388612 (-25)) 0 0 1002
      false true true in
  let d333 :=
    mkRxMsgData 0x7C0001DB 3 1 (S754_finite true 8388612 (-23)) (-1) 0 1003
      false true true in
  let st := ARINC429_GET_LABEL_DATA_MSG_SUCCESS in
  (exists W,
     CalculateNewBodyLateralAccelARINCWord ahr75_attitude_received
       RxMsgData_init 1010 = Some W
     /\ BNR_word_of arincLabel332Config
          (if label_data_received st d332 then SM d332
           else ARINC429_SSM_BNR_FAILURE_WARNING) (SDI d332) (-256) W)
  /\ (exists W,
        CalculateNewNormalAccelerationARINCWord ahr75_attitude_received
          RxMsgData_init 1010 = Some W
        /\ BNR_word_of Eclipse_ARINClabel333Config
             (if label_data_received st d333 then
                if ARINC429_SSM_BNR_NORMAL_OPERATION =? SM d333 then
                  let az := F32.add (engDataFloat d333) (F32.of_Z 1) in
                  if Flt az (F32.of_Z (-3)) || Fgt az (F32.of_Z 5)
                  then ARINC429_SSM_BNR_FAILURE_WARNING
                  else ARINC429_SSM_BNR_NORMAL_OPERATION
                else SM d333
              else ARINC429_SSM_BNR_FAILURE_WARNING) (SDI d333) 0 W).
Proof.
  intros d332 d333 st.
  apply (acceleration_words ahr75_attitude_received RxMsgData_init
           RxMsgData_init d332 d333 1010 st st (-256) 0);
    vm_compute; reflexivity.
Defined.

(** X20: CalculateBaroCorrection answers with the fixed word 0x200000B9, label
    235 with the status matrix "no computed data", no SDI and no digit,
    whenever label 235 is not read with success, fresh, not babbling and
    with the status matrix "plus".  When it is, the word carries the status
    matrix "plus", the SDI of the received word and the five digits of the
    received value, scaled by the resolution of the label and limited to
    79999. *)
Theorem baro_correction_word
    (a : ARINC429_RxMsgArray) (baroData d : ARINC429_RxMsgData)
    (baroARINCWord now status : Z) :
  ARINC429_GetLatestLabelData a (FormatLabelNumber 235) baroData now
  = Some (status, d) ->
  (label_data_valid status d ARNIC429_SSM_BCD_PLUS = false ->
   CalculateBaroCorrection a baroData baroARINCWord now = Some 0x200000B9)
  /\ (forall k,
        label_data_valid status d ARNIC429_SSM_BCD_PLUS = true ->
        Flt (engDataFloat d) (F32.of_Z 0) = false ->
        BCD_tempValue (resolution arincLabel235Config) (engDataFloat d)
        = Some k ->
        exists W,
          CalculateBaroCorrection a baroData baroARINCWord now = Some W
          /\ Z.land W ARINC429_LBL_MASK = FormatLabelNumber 235
          /\ ARINC429_ExtractSDIbits W
             = Z.land (SDI d) ARINC429_SDI_FIELD_LIMIT_MASK
          /\ ARINC429_ExtractSSMbits W = ARNIC429_SSM_BCD_PLUS
          /\ Z.land W 0x80000000 = 0
          /\ shr32 (Z.land W ARINC429_BCD_DATAFIELDMASK)
               ARINC429_BCD_STD_MSG_DATA_FIELD_SHIFT
             = BCD_pattern 5 (BCD_clip 5 k)).
Proof.
  intros Hget. unfold CalculateBaroCorrection. rewrite Hget.
  cbn [mbind option_bind]. split.
  - intros ->. vm_compute. reflexivity.
  - intros k -> Hpos Hk.
    destruct (AssembleStdBCDmessage_fields
                (mkTxMsg arincLabel235Config ARNIC429_SSM_BCD_PLUS (SDI d)
                   (engDataFloat d) 0) baroARINCWord k)
      as (W & -> & Hl & Hsdi & Hssm & Hpar & Hdigits).
    + by vm_compute.
    + by vm_compute.
    + split; [vm_compute; discriminate|vm_compute; reflexivity].
    + exact Hpos.
    + exact Hk.
    + exists W. by repeat split.
Qed.

Lemma baro_correction_word_witness :
  let d :=
    mkRxMsgData 0x0A6481B9 0 1 (S754_finite false 15686698 (-19)) 30 0 1000
      false true true in
  exists W,
    CalculateBaroCorrection pfd_baro_received RxMsgData_init 0 1030 = Some W
    /\ Z.land W ARINC429_LBL_MASK = FormatLabelNumber 235
    /\ ARINC429_ExtractSDIbits W
       = Z.land (SDI d) ARINC429_SDI_FIELD_LIMIT_MASK
    /\ ARINC429_ExtractSSMbits W = ARNIC429_SSM_BCD_PLUS
    /\ Z.land W 0x80000000 = 0
    /\ shr32 (Z.land W ARINC429_BCD_DATAFIELDMASK)
         ARINC429_BCD_STD_MSG_DATA_FIELD_SHIFT
       = BCD_pattern 5 (BCD_clip 5 29920).
Proof.
  intros d.
  apply (baro_correction_word pfd_baro_received RxMsgData_init d 0 1030
           ARINC429_GET_LABEL_DATA_MSG_SUCCESS);
    vm_compute; reflexivity.
Defined.

(** ** ARINC_HI3584.c: the 16-bit data bus *)

Lemma all_bits_spec (n : nat) :
  forall P, all_bits n P = true ->
            forall l, length l = n -> P l = true.
Proof.
  induction n as [|n IH]; intros P H l Hl.
  - by destruct l.
  - destruct l as [|b l]; [done|]. cbn in H.
    apply andb_prop in H as [Ht Hf]. injection Hl as Hl.
    destruct b; [apply (IH _ Ht l Hl)|apply (IH _ Hf l Hl)].
Qed.

Lemma bits_eqb_eq l : forall k, bits_eqb l k = true -> l = k.
Proof.
  induction l as [|b l IH]; intros [|c k] H; try done.
  cbn in H. apply andb_prop in H as [Hb Hl].
  apply Bool.eqb_prop in Hb. by rewrite Hb, (IH k Hl).
Qed.

Lemma data_bus_write_read pins :
  length pins = 16%nat ->
  WriteDataTo16bitDataBus (ReadDataFrom16bitDataBus pins) = pins
  /\ 0 <= ReadDataFrom16bitDataBus pins < 2 ^ 16.
Proof.
  intros Hl.
  set (P := fun pins =>
              let v := ReadDataFrom16bitDataBus pins in
              bits_eqb (WriteDataTo16bitDataBus v) pins
              && (0 <=? v) && (v <? 2 ^ 16)).
  assert (P pins = true) as H.
  { apply (all_bits_spec 16 P); [vm_compute; reflexivity|done]. }
  unfold P in H. cbv zeta in H.
  apply andb_prop in H as [H Hlt]. apply andb_prop in H as [H Hle].
  apply bits_eqb_eq in H. split; [exact H|lia].
Qed.

Lemma bit_of_land_shiftr v i :
  0 <= i -> bit_of (Z.land (Z.shiftr v i) 1) = Z.testbit v i.
Proof.
  intros Hi. unfold bit_of.
  rewrite <- Z.bit0_odd, Z.land_spec, Z.shiftr_spec by lia.
  by rewrite andb_true_r.
Qed.

Lemma WriteDataTo16bitDataBus_bits v (k : nat) :
  (k < 16)%nat ->
  nth k (WriteDataTo16bitDataBus v) false = Z.testbit v (Z.of_nat k).
Proof.
  intros Hk.
  assert (Z.land v 1 = Z.land (Z.shiftr v 0) 1) as H0
    by by rewrite Z.shiftr_0_r.
  unfold WriteDataTo16bitDataBus. rewrite H0.
  do 16 (destruct k as [|k]; [by rewrite <- bit_of_land_shiftr|]).
  lia.
Qed.

Lemma data_bus_read_write v :
  0 <= v < 2 ^ 16 ->
  ReadDataFrom16bitDataBus (WriteDataTo16bitDataBus v) = v.
Proof.
  intros Hv.
  destruct (data_bus_write_read (WriteDataTo16bitDataBus v) eq_refl)
    as [Heq Hr].
  set (w := ReadDataFrom16bitDataBus (WriteDataTo16bitDataBus v)) in *.
  apply Z.bits_inj'. intros i Hi.
  destruct (Z.lt_ge_cases i 16).
  - rewrite <- (Z2Nat.id i) by lia.
    rewrite <- !WriteDataTo16bitDataBus_bits by lia. by rewrite Heq.
  - by rewrite (testbit_small w 16), (testbit_small v 16) by lia.
Qed.

(** X21: The bit order of the data bus is the same in both directions: a
    16-bit value written to the pins DB00 to DB15 reads back as itself,
    and sixteen pins read as a value are the pins that writing this value
    sets.  So the check of ARINC429_HI3584_txvrA_LoadCtrlReg passes
    exactly when each of the sixteen pins read back is as it was
    written. *)
Theorem data_bus_round_trip (v : Z) (pins : list bool) :
  0 <= v < 2 ^ 16 ->
  length pins = 16%nat ->
  ReadDataFrom16bitDataBus (WriteDataTo16bitDataBus v) = v
  /\ WriteDataTo16bitDataBus (ReadDataFrom16bitDataBus pins) = pins
  /\ 0 <= ReadDataFrom16bitDataBus pins < 2 ^ 16
  /\ (snd (ARINC429_HI3584_txvrA_LoadCtrlReg v pins) = true
      <-> pins = fst (ARINC429_HI3584_txvrA_LoadCtrlReg v pins)).
Proof.
  intros Hv Hl.
  destruct (data_bus_write_read pins Hl) as [Hwr Hr].
  split; [by apply data_bus_read_write|]. split; [done|]. split; [done|].
  unfold ARINC429_HI3584_txvrA_LoadCtrlReg. cbn [fst snd]. split.
  - intros H%Z.eqb_eq. by rewrite H, Hwr.
  - intros ->. apply Z.eqb_eq. symmetry. by apply data_bus_read_write.
Qed.

Lemma data_bus_round_trip_witness :
  let v := 0xA038 in
  let pins := WriteDataTo16bitDataBus 0x8038 in
  ReadDataFrom16bitDataBus (WriteDataTo16bitDataBus v) = v
  /\ WriteDataTo16bitDataBus (ReadDataFrom16bitDataBus pins) = pins
  /\ 0 <= ReadDataFrom16bitDataBus pins < 2 ^ 16
  /\ (snd (ARINC429_HI3584_txvrA_LoadCtrlReg v pins) = true
      <-> pins = fst (ARINC429_HI3584_txvrA_LoadCtrlReg v pins)).
Proof.
  intros v pins. apply (data_bus_round_trip v pins); [done|reflexivity].
Defined.

(** X22: A 32-bit word goes over the bus as two halves, the lower one first,
    in the same order in both directions: the halves that
    ARINC429_HI3584_txvrA_TransmitWord writes, found again by
    ARINC429_HI3584_txvrA_rx1_ReadWord, give the word back. *)
Theorem transmit_then_read_word (ARINCword : Z) :
  0 <= ARINCword < 2 ^ 32 ->
  let '(lower, upper) := ARINC429_HI3584_txvrA_TransmitWord ARINCword in
  ARINC429_HI3584_txvrA_rx1_ReadWord lower upper = ARINCword.
Proof.
  intros HW.
  unfold ARINC429_HI3584_txvrA_TransmitWord,
    ARINC429_HI3584_txvrA_rx1_ReadWord.
  change 65535 with (Z.ones 16). unfold shr32.
  rewrite !Z.land_ones by lia.
  rewrite !Z.mod_mod by lia.
  rewrite !data_bus_read_write by (apply Z.mod_pos_bound; lia).
  unfold shl32, wrap32. rewrite !Z.shiftr_div_pow2, Z.shiftl_mul_pow2 by lia.
  rewrite (Z.mod_small (ARINCword / 2 ^ 16)) by
    (split; [apply Z.div_pos; lia|apply Z.div_lt_upper_bound; lia]).
  rewrite (Z.mod_small (_ * _)) by
    (pose proof (Z.mul_div_le ARINCword (2 ^ 16)); 
     assert (0 <= ARINCword / 2 ^ 16) by (apply Z.div_pos; lia); lia).
  rewrite <- Z.shiftl_mul_pow2, <- Z.shiftr_div_pow2, <- Z.land_ones by lia.
  rewrite Z.lor_comm. apply Z.bits_inj'. intros i Hi.
  rewrite Z.lor_spec, Z.land_spec, Z.testbit_ones_nonneg by lia.
  destruct (Z.ltb_spec i 16).
  - rewrite Z.shiftl_spec_low by lia. by rewrite andb_true_r.
  - rewrite Z.shiftl_spec, Z.shiftr_spec by lia.
    rewrite andb_false_r, orb_false_r. f_equal. lia.
Qed.

Lemma transmit_then_read_word_witness :
  let '(lower, upper) := ARINC429_HI3584_txvrA_TransmitWord 0xA5A5A500 in
  ARINC429_HI3584_txvrA_rx1_ReadWord lower upper = 0xA5A5A500.
Proof.
  apply (transmit_then_read_word 0xA5A5A500). done.
Defined.

(** ** Timer23.c *)

Lemma Timer23_timestamp_value st TMR2 TMR3HLD :
  isTimer23Initialized st = true ->
  0 < scaleFactor st ->
  0 <= TMR2 < 2 ^ 16 -> 0 <= TMR3HLD < 2 ^ 16 ->
  Timer23_GetTimestamp_ms st TMR2 TMR3HLD
  = (TMR3HLD * 2 ^ 16 + TMR2) / scaleFactor st
  /\ 0 <= Timer23_GetTimestamp_ms st TMR2 TMR3HLD
     <= UINT32_MAX / scaleFactor st.
Proof.
  intros Hinit Hsf H2 H3. unfold Timer23_GetTimestamp_ms.
  rewrite Hinit. destruct (Z.eqb_spec (scaleFactor st) 0) as [|_]; [lia|].
  cbn [andb negb].
  assert (Z.lor (shl32 TMR3HLD 16) TMR2 = TMR3HLD * 2 ^ 16 + TMR2) as ->.
  { unfold shl32, wrap32. rewrite Z.shiftl_mul_pow2 by lia.
    rewrite Z.mod_small by lia.
    rewrite <- Z.shiftl_mul_pow2 by lia.
    rewrite <- Z.add_nocarry_lor; [done|].
    apply Z.bits_inj'. intros i Hi.
    rewrite Z.land_spec, Z.bits_0.
    destruct (Z.ltb_spec i 16).
    - by rewrite Z.shiftl_spec_low by lia.
    - rewrite (testbit_small TMR2 16) by lia. apply andb_false_r. }
  split; [done|]. unfold UINT32_MAX. split.
  - apply Z.div_pos; lia.
  - apply Z.div_le_mono; lia.
Qed.

(** X23: Timer23_Initialize refuses a scale factor of 0 and leaves the module
    as it is; with any other scale factor it splits the 32-bit period over
    PR3 and PR2, and from then on Timer23_GetTimestamp_ms returns the
    32-bit count [TMR3HLD:TMR2] divided by the scale factor.  The
    timestamp therefore never exceeds 0xFFFFFFFF divided by the scale
    factor: it starts again from 0 when the counter wraps, before it has
    gone through the values of a [uint32_t] unless the scale factor is
    1. *)
Theorem Timer23_timestamp_bound
    (st : Timer23_state) (t2config timerPeriod configScaleFactor : Z)
    (TMR2 TMR3HLD : Z) :
  0 <= timerPeriod < 2 ^ 32 ->
  0 < configScaleFactor ->
  0 <= TMR2 < 2 ^ 16 -> 0 <= TMR3HLD < 2 ^ 16 ->
  let st' := Timer23_Initialize t2config timerPeriod configScaleFactor st in
  Timer23_Initialize t2config timerPeriod 0 st = st
  /\ PR3 st' * 2 ^ 16 + PR2 st' = timerPeriod
  /\ T2CON st' = t2config
  /\ Timer23_GetTimestamp_ms st' TMR2 TMR3HLD
     = (TMR3HLD * 2 ^ 16 + TMR2) / configScaleFactor
  /\ 0 <= Timer23_GetTimestamp_ms st' TMR2 TMR3HLD
     <= UINT32_MAX / configScaleFactor.
Proof.
  intros Hp Hsf H2 H3 st'.
  assert (st' = mkTimer23 configScaleFactor true t2config
                  (shr32 (Z.land timerPeriod MS_WORD_MASK) 16 mod 2 ^ 16)
                  (Z.land timerPeriod LS_WORD_MASK mod 2 ^ 16) 0 0) as ->.
  { unfold st', Timer23_Initialize.
    destruct (Z.eqb_spec 0 configScaleFactor); [lia|done]. }
  split; [done|]. split; [|split; [done|]].
  - cbn [PR3 PR2]. unfold shr32, MS_WORD_MASK, LS_WORD_MASK.
    change 65535 with (Z.ones 16).
    rewrite Z.land_ones, Z.mod_mod by lia.
    assert (Z.shiftr (Z.land timerPeriod 4294901760) 16
            = timerPeriod / 2 ^ 16) as ->.
    { rewrite <- Z.shiftr_div_pow2 by lia.
      apply Z.bits_inj'. intros i Hi.
      rewrite !Z.shiftr_spec, Z.land_spec by lia.
      change 4294901760 with (Z.shiftl (Z.ones 16) 16).
      rewrite testbit_mask_shifted by lia.
      destruct (Z.ltb_spec (i + 16) 32); split_cmp; try lia.
      - by rewrite andb_true_r.
      - rewrite andb_false_r. symmetry.
        apply (testbit_small timerPeriod 32); lia. }
    rewrite (Z.mod_small (timerPeriod / 2 ^ 16)) by
      (split; [apply Z.div_pos; lia|apply Z.div_lt_upper_bound; lia]).
    pose proof (Z.div_mod timerPeriod (2 ^ 16) ltac:(lia)). lia.
  - by apply Timer23_timestamp_value.
Qed.

Lemma Timer23_timestamp_bound_witness :
  let st := mkTimer23 0 false 0 0 0 0 0 in
  let st' := Timer23_Initialize 0x8038 0xFFFFFFFF 114 st in
  Timer23_Initialize 0x8038 0xFFFFFFFF 0 st = st
  /\ PR3 st' * 2 ^ 16 + PR2 st' = 0xFFFFFFFF
  /\ T2CON st' = 0x8038
  /\ Timer23_GetTimestamp_ms st' 0xFFFF 0xFFFF
     = (0xFFFF * 2 ^ 16 + 0xFFFF) / 114
  /\ 0 <= Timer23_GetTimestamp_ms st' 0xFFFF 0xFFFF <= UINT32_MAX / 114.
Proof.
  intros st.
  apply (Timer23_timestamp_bound st 0x8038 0xFFFFFFFF 114 0xFFFF 0xFFFF);
    done.
Defined.

(** X24: With a scale factor of 2 or more a timestamp taken after the counter
    has wrapped is smaller than one taken before, and the [uint32_t]
    difference of the two is more than 2^31.  A label whose last good
    word carries the earlier timestamp is then found stale by
    ARINC429_IsLabelDataFresh, whatever time has really passed, and is not
    found babbling by ARINC429_IsLabelDataNotBabbling. *)
Theorem stale_after_counter_wrap
    (st : Timer23_state) (rxMsg : ARINC429_RxMsg)
    (TMR2 TMR3HLD TMR2' TMR3HLD' : Z) :
  isTimer23Initialized st = true ->
  2 <= scaleFactor st ->
  0 <= TMR2 < 2 ^ 16 -> 0 <= TMR3HLD < 2 ^ 16 ->
  0 <= TMR2' < 2 ^ 16 -> 0 <= TMR3HLD' < 2 ^ 16 ->
  let received := Timer23_GetTimestamp_ms st TMR2 TMR3HLD in
  let now := Timer23_GetTimestamp_ms st TMR2' TMR3HLD' in
  sysTimeLastGoodMsg_ms (data rxMsg) = received ->
  now < received ->
  maxTransmitInterval_ms (msgConfig rxMsg) < 2 ^ 31 ->
  minTransmitInterval_ms (msgConfig rxMsg) < 2 ^ 31 ->
  ARINC429_IsLabelDataFresh now rxMsg = false
  /\ ARINC429_IsLabelDataNotBabbling now rxMsg = true.
Proof.
  intros Hinit Hsf H2 H3 H2' H3' received now Hrx Hlt Hmax Hmin.
  destruct (Timer23_timestamp_value st TMR2 TMR3HLD Hinit ltac:(lia) H2 H3)
    as [_ Hr].
  destruct (Timer23_timestamp_value st TMR2' TMR3HLD' Hinit ltac:(lia)
              H2' H3') as [_ Hn].
  fold received in Hr. fold now in Hn.
  assert (UINT32_MAX / scaleFactor st < 2 ^ 31) as Hb.
  { apply Z.div_lt_upper_bound; unfold UINT32_MAX; lia. }
  unfold ARINC429_IsLabelDataFresh, ARINC429_IsLabelDataNotBabbling.
  rewrite Hrx. cbv zeta.
  assert (wrap32 (now - received) = now - received + 2 ^ 32) as ->.
  { unfold wrap32. symmetry.
    apply (Z.mod_unique _ _ (-1)); lia. }
  split; [apply Z.leb_gt|apply Z.leb_le]; lia.
Qed.

Lemma stale_after_counter_wrap_witness :
  let st := Timer23_Initialize 0x8038 0xFFFFFFFF 114
              (mkTimer23 0 false 0 0 0 0 0) in
  let rxMsg :=
    mkRxMsg
      (mkLabelConfig (FormatLabelNumber 320) ARINC429_STD_BNR_MSG 15 0
         (F32.of_Z 1) Fzero Fzero 0 15 25)
      (mkRxMsgData 0x6000AA0B 3 0 Fzero 0 0 37675151 true true true) in
  let now := Timer23_GetTimestamp_ms st 570 0 in
  now = 5
  /\ ARINC429_IsLabelDataFresh now rxMsg = false
  /\ ARINC429_IsLabelDataNotBabbling now rxMsg = true.
Proof.
  intros st rxMsg now. split; [reflexivity|].
  apply (stale_after_counter_wrap st rxMsg 0xFFFF 0xFFFF 570 0); done.
Defined.

Lemma Timer23_Delay_loop_spec st start delay counts rest :
  Timer23_Delay_loop st start delay counts = Some rest
  <-> exists pre c,
        counts = pre ++ c :: rest
        /\ Forall
             (fun p =>
                wrap32 (Timer23_GetTimestamp_ms st p.1 p.2 - start)
                <= delay) pre
        /\ delay < wrap32 (Timer23_GetTimestamp_ms st c.1 c.2 - start).
Proof.
  revert rest. induction counts as [|[t2 t3] counts IH]; intros rest.
  - cbn. split; [done|]. intros (pre & c & H & _). by destruct pre.
  - cbn [Timer23_Delay_loop].
    destruct (Z.ltb_spec delay
                (wrap32 (Timer23_GetTimestamp_ms st t2 t3 - start)))
      as [Hgt|Hle].
    + split.
      * intros [= ->]. by exists [], (t2, t3).
      * intros (pre & c & H & Hpre & Hc).
        destruct pre as [|p pre]; [by injection H as _ ->|].
        injection H as <- _. apply Forall_cons in Hpre as [Hp _].
        cbn in Hp. lia.
    + rewrite IH. split.
      * intros (pre & c & -> & Hpre & Hc).
        exists ((t2, t3) :: pre), c. split; [done|].
        split; [by apply Forall_cons|done].
      * intros (pre & c & H & Hpre & Hc).
        destruct pre as [|p pre].
        -- injection H as <- _. cbn in Hc. lia.
        -- injection H as _ ->. apply Forall_cons in Hpre as [_ Hpre].
           by exists pre, c.
Qed.

(** X25: Timer23_Delay_ms returns at once when the module is not initialised.
    Otherwise it takes a first timestamp and returns at the first later
    one whose [uint32_t] difference from it is strictly more than the
    delay asked for; a delay of more than 1000 counts as 1000. *)
Theorem Timer23_Delay_ms_waits
    (st : Timer23_state) (delayInMilliseconds : Z)
    (c0 : Z * Z) (counts rest : list (Z * Z)) :
  let elapsed (p : Z * Z) :=
    wrap32 (Timer23_GetTimestamp_ms st p.1 p.2
            - Timer23_GetTimestamp_ms st c0.1 c0.2) in
  let delay := Z.min delayInMilliseconds MAX_DELAY_MS in
  (isTimer23Initialized st = false ->
   Timer23_Delay_ms st delayInMilliseconds (c0 :: counts)
   = Some (c0 :: counts))
  /\ (isTimer23Initialized st = true ->
      (Timer23_Delay_ms st delayInMilliseconds (c0 :: counts) = Some rest
       <-> exists pre c,
             counts = pre ++ c :: rest
             /\ Forall (fun p => elapsed p <= delay) pre
             /\ delay < elapsed c)).
Proof.
  intros elapsed delay. unfold Timer23_Delay_ms. split; intros ->; [done|].
  cbn [negb]. destruct c0 as [t2 t3].
  assert ((if MAX_DELAY_MS <? delayInMilliseconds then MAX_DELAY_MS
           else delayInMilliseconds) = delay) as ->.
  { unfold delay. destruct (Z.ltb_spec MAX_DELAY_MS delayInMilliseconds);
      lia. }
  apply Timer23_Delay_loop_spec.
Qed.

(** ** main.c *)

(** X26: The four rate groups of the main loop never fall into the same pass:
    whatever the value of the counter, one 100 Hz pass runs at most one of
    them. *)
Theorem rate_groups_never_coincide (rateCounter : Z) :
  (length (snd (main_100Hz_pass rateCounter)) <= 1)%nat.
Proof.
  unfold main_100Hz_pass. cbn [snd].
  set (n := wrap32 (rateCounter + 1)).
  destruct (Z.eqb_spec 0 (n mod 4)), (Z.eqb_spec 7 (n mod 10)),
    (Z.eqb_spec 2 (n mod 12)), (Z.eqb_spec 3 (n mod 20));
    cbn; try lia; exfalso;
    Z.to_euclidean_division_equations; lia.
Qed.

Lemma Timer23_Delay_ms_waits_witness :
  let st := Timer23_Initialize 0x8038 0xFFFFFFFF 114
              (mkTimer23 0 false 0 0 0 0 0) in
  Timer23_Delay_ms st 10 [(0, 0); (570, 0); (1140, 0); (1254, 0); (2000, 0)]
  = Some [(2000, 0)].
Proof.
  intros st.
  destruct (Timer23_Delay_ms_waits st 10 (0, 0)
              [(570, 0); (1140, 0); (1254, 0); (2000, 0)] [(2000, 0)])
    as [_ H].
  apply H; [reflexivity|].
  exists [(570, 0); (1140, 0)], (1254, 0).
  split; [reflexivity|]. split.
  - repeat constructor; vm_compute; discriminate.
  - vm_compute. reflexivity.
Defined.

Lemma ReadStrapping_loop_spec pins s1 s2 s3 sp :
  forall (fuel index : nat),
    ReadStrapping_loop fuel index pins (Z.b2z s1) (Z.b2z s2) (Z.b2z s3)
      (Z.b2z sp) = true
    <-> forall k : nat,
          (index <= k < index + fuel)%nat -> pins k = (s1, s2, s3, sp).
Proof.
  induction fuel as [|fuel IH]; intros index.
  - cbn. split; [intros _ k Hk; lia|done].
  - cbn [ReadStrapping_loop].
    destruct (pins index) as [[[p1 p2] p3] pp] eqn:Hp.
    destruct (negb (Z.b2z p1 =? Z.b2z s1) || negb (Z.b2z p2 =? Z.b2z s2)
              || negb (Z.b2z p3 =? Z.b2z s3) || negb (Z.b2z pp =? Z.b2z sp))
      eqn:Hne.
    + split; [done|]. intros H.
      specialize (H index ltac:(lia)). rewrite Hp in H.
      injection H as -> -> -> ->. by rewrite !Z.eqb_refl in Hne.
    + rewrite IH. 
      assert ((p1, p2, p3, pp) = (s1, s2, s3, sp)) as Heq.
      { by destruct p1, p2, p3, pp, s1, s2, s3, sp. }
      split.
      * intros H k Hk. destruct (decide (k = index)) as [->|].
        -- by rewrite Hp.
        -- apply H. lia.
      * intros H k Hk. apply H. lia.
Qed.

(** X27: ReadStrapping accepts the strapping exactly when ten looks at the four
    pins find them the same and their parity is odd; the strapping it then
    writes is [4 * S1 + 2 * S2 + S3], and 0 when it refuses.  So the value
    7, which opens the maintenance mode, is returned only when all ten
    looks find S1, S2 and S3 high and SP low. *)
Theorem ReadStrapping_valid (pins : nat -> strap_pins) :
  let '(s1, s2, s3, sp) := pins 0%nat in
  let consistent :=
    forall k : nat, (k < 10)%nat -> pins k = (s1, s2, s3, sp) in
  (fst (ReadStrapping pins) = true
   <-> consistent /\ xorb (xorb s1 s2) (xorb s3 sp) = true)
  /\ snd (ReadStrapping pins)
     = (if fst (ReadStrapping pins)
        then 4 * Z.b2z s1 + 2 * Z.b2z s2 + Z.b2z s3 else 0)
  /\ (ReadStrapping pins = (true, 7)
      <-> forall k : nat, (k < 10)%nat -> pins k = (true, true, true, false)).
Proof.
  destruct (pins 0%nat) as [[[s1 s2] s3] sp] eqn:H0. cbv zeta.
  unfold ReadStrapping. rewrite H0.
  change (10 - 1)%nat with 9%nat.
  pose proof (ReadStrapping_loop_spec pins s1 s2 s3 sp 9 1) as Hloop.
  assert ((forall k : nat, (k < 10)%nat -> pins k = (s1, s2, s3, sp))
          <-> forall k : nat, (1 <= k < 1 + 9)%nat ->
                              pins k = (s1, s2, s3, sp)) as Hall.
  { split; intros H k Hk; [apply H; lia|].
    destruct k; [done|apply H; lia]. }
  destruct (ReadStrapping_loop 9 1 pins _ _ _ _) eqn:Hok.
  - assert (forall k : nat, (k < 10)%nat -> pins k = (s1, s2, s3, sp))
      as Hc by exact (proj2 Hall (proj1 Hloop eq_refl)).
    destruct s1, s2, s3, sp; cbn; (split; [|split]); try reflexivity;
      (split;
       [intros H; first [discriminate H|exact Hc|split; [exact Hc|done]]
       |intros H;
        first
          [reflexivity
          |by destruct H as [_ H]
          |specialize (H 0%nat ltac:(lia)); rewrite H0 in H;
           discriminate H]]).
  - assert (~ forall k : nat, (k < 10)%nat -> pins k = (s1, s2, s3, sp))
      as Hc.
    { intros H. pose proof (proj2 Hloop (proj1 Hall H)). done. }
    split; [|split]; cbn [fst snd].
    + split; [done|]. by intros [? _].
    + done.
    + split; [done|]. intros H. exfalso. apply Hc. intros k Hk.
      rewrite (H k Hk). rewrite <- H0. symmetry. apply H. lia.
Qed.

(** ** SoftwareVersion.c *)

Lemma CRC_nibble crc k :
  0 <= crc < 2 ^ 32 -> 0 <= k <= 28 ->
  shr32 (Z.land (shl32 crc k) 0xF0000000) 28 mod 2 ^ 8
  = (crc / 2 ^ (28 - k)) mod 16.
Proof.
  intros Hc Hk.
  assert (shr32 (Z.land (shl32 crc k) 0xF0000000) 28
          = (crc / 2 ^ (28 - k)) mod 16) as ->.
  { change 16 with (2 ^ 4).
    rewrite <- Z.land_ones, <- Z.shiftr_div_pow2 by lia.
    unfold shr32. apply Z.bits_inj'. intros j Hj.
    rewrite Z.shiftr_spec, !Z.land_spec, testbit_shl32, Z.shiftr_spec,
      Z.testbit_ones_nonneg by lia.
    change 4026531840 with (Z.shiftl (Z.ones 4) 28).
    rewrite testbit_mask_shifted by lia.
    replace (j + 28 - k) with (j + (28 - k)) by lia.
    split_cmp; try lia; by rewrite ?andb_true_r, ?andb_false_r. }
  apply Z.mod_small.
  pose proof (Z.mod_pos_bound (crc / 2 ^ (28 - k)) 16 ltac:(lia)). lia.
Qed.

Lemma CRC_byte crc k :
  0 <= k ->
  Z.land (shr32 crc k) 0xFF mod 2 ^ 8 = (crc / 2 ^ k) mod 256.
Proof.
  intros Hk. unfold shr32. change 255 with (Z.ones 8).
  rewrite Z.land_ones, Z.shiftr_div_pow2, Z.mod_mod by lia. done.
Qed.

Lemma asciiConverter_hex n :
  0 <= n < 16 ->
  is_hex_char (asciiConverter n) /\ hex_value (asciiConverter n) = n.
Proof.
  intros Hn. unfold is_hex_char.
  set (P := fun n =>
              let c := asciiConverter n in
              ((48 <=? c) && (c <=? 57) || (65 <=? c) && (c <=? 70))
              && (hex_value c =? n)).
  assert (P n = true) as H
    by (apply (below_forallb 16 P); [vm_compute; reflexivity|lia]).
  unfold P in H. cbv zeta in H.
  apply andb_prop in H as [Hc Hv]. apply Z.eqb_eq in Hv.
  split; [|exact Hv].
  apply orb_prop in Hc as [Hc|Hc]; apply andb_prop in Hc as [H1 H2];
    apply Z.leb_le in H1, H2; [by left|by right].
Qed.

(** X28: The end of SWVer_GatherSWVersions fills the first twelve bytes of the
    AFC004 row of the version table from the CRC of the program memory
    and touches nothing else.  The first eight are the CRC spelled in
    hexadecimal, most significant digit first, with the digits 0 to 9 and
    the capital letters A to F, as asciiConverter makes them; the next
    four are the bytes of the CRC, the least significant one first.  A
    table of three rows of sixteen bytes stays one. *)
Theorem SWVer_CRC_row (u32PM_CRC : Z) (swVersions : list (list Z))
    (row : list Z) :
  0 <= u32PM_CRC < 2 ^ 32 ->
  SWVer_table_ok swVersions ->
  swVersions !! 0%nat = Some row ->
  let swVersions' := SWVer_GatherSWVersions_CRC u32PM_CRC swVersions in
  SWVer_table_ok swVersions'
  /\ (forall r : nat, r <> 0%nat -> swVersions' !! r = swVersions !! r)
  /\ exists row',
       swVersions' !! 0%nat = Some row'
       /\ Forall is_hex_char (take 8 row')
       /\ hex_number (take 8 row') = u32PM_CRC
       /\ little_endian (take 4 (drop 8 row')) = u32PM_CRC
       /\ drop 12 row' = drop 12 row.
Proof.
  intros Hc [Hrows Hcols] Hrow.
  assert (Z.of_nat (length row) = NUM_BYTES_PER_SCI_VERSION) as Hlen.
  { exact (Forall_lookup_1 _ _ _ _ Hcols Hrow). }
  unfold NUM_BYTES_PER_SCI_VERSION in Hlen.
  do 16 (destruct row as [|? row]; [cbn [length] in Hlen; lia|]).
  destruct row; [|cbn [length] in Hlen; lia].
  clear Hlen. unfold SWVer_GatherSWVersions_CRC.
  change (Z.to_nat afcSCIidx) with 0%nat. rewrite Hrow. cbv zeta.
  change (Z.to_nat NUM_CHARS_IN_32BIT_CRC) with 8%nat.
  change (Z.to_nat NUM_BYTES_IN_32BIT_CRC) with 4%nat.
  cbn [SWVer_CRC_chars_loop SWVer_CRC_bytes_loop].
  cbn [Z.add Z.mul Pos.add Pos.mul Pos.succ
         ECLIPSE_RS422_SWVERSION_CRC_POS_OFFSET].
  rewrite !CRC_nibble, !CRC_byte by lia.
  repeat match goal with
    | |- context [Z.to_nat ?e] =>
        let v := eval vm_compute in (Z.to_nat e) in
        progress change (Z.to_nat e) with v
    | |- context [2 ^ ?e] =>
        let v := eval vm_compute in (2 ^ e) in
        progress change (2 ^ e) with v
    end.
  cbn [insert list_insert].
  split; [|split].
  - split; [by rewrite length_insert|].
    apply Forall_insert; [done|]. done.
  - intros r Hr. by rewrite list_lookup_insert_ne.
  - eexists. split.
    { apply list_lookup_insert_eq. by apply lookup_lt_Some in Hrow. }
    cbn [take drop].
    assert (forall n, 0 <= n mod 16 < 16) as Hm
      by (intros; apply Z.mod_pos_bound; lia).
    split; [|split; [|split; [|done]]].
    + repeat (apply Forall_cons_2; [apply asciiConverter_hex, Hm|]).
      apply Forall_nil_2.
    + unfold hex_number. cbn [fold_left].
      rewrite !(proj2 (asciiConverter_hex _ (Hm _))).
      Z.to_euclidean_division_equations. lia.
    + unfold little_endian. cbn [fold_right].
      Z.to_euclidean_division_equations. lia.
Qed.

Lemma SWVer_CRC_row_witness :
  let swVersions' := SWVer_GatherSWVersions_CRC 0xDEADBEEF
                       (replicate 3 (replicate 16 0)) in
  SWVer_table_ok swVersions'
  /\ (forall r : nat,
        r <> 0%nat ->
        swVersions' !! r = replicate 3 (replicate 16 0) !! r)
  /\ exists row',
       swVersions' !! 0%nat = Some row'
       /\ Forall is_hex_char (take 8 row')
       /\ hex_number (take 8 row') = 0xDEADBEEF
       /\ little_endian (take 4 (drop 8 row')) = 0xDEADBEEF
       /\ drop 12 row' = drop 12 (replicate 16 0).
Proof.
  apply (SWVer_CRC_row 0xDEADBEEF (replicate 3 (replicate 16 0))
           (replicate 16 0)).
  - done.
  - split; [reflexivity|]. by repeat constructor.
  - reflexivity.
Defined.

(** ** main.c: the air data sent on to the PFD *)

Lemma TransmitLatestARINCMsgIfValid_sends a L ch g now :
  numMsgs a <= Z.of_nat (length (rxMsgs a)) ->
  exists r,
    TransmitLatestARINCMsgIfValid a L ch g now = Some r
    /\ forall p,
         r = Some p ->
         p.1 = ch
         /\ exists (i : nat) (m : ARINC429_RxMsg),
              slot_for a (FormatLabelNumber L) i m
              /\ rawARINCword (data m) = p.2
              /\ isNotBabbling (data m) = true
              /\ ARINC429_IsLabelDataFresh now m = true.
Proof.
  intros Hlen. unfold TransmitLatestARINCMsgIfValid.
  destruct (MAX_OCTAL_LABEL_VALUE <? L); [by eexists|].
  destruct (GetLatestLabelData_defined a (FormatLabelNumber L) g now Hlen)
    as (st & d & Hget).
  rewrite Hget. cbn [mbind option_bind].
  destruct (isDataFresh d && isNotBabbling d
            && (ARINC429_GET_LABEL_DATA_MSG_SUCCESS =? st)) eqn:Hok;
    [|by eexists].
  eexists. split; [reflexivity|]. intros p [= <-]. split; [done|].
  apply andb_prop in Hok as [Hok Hst]. apply andb_prop in Hok as [Hf Hb].
  apply Z.eqb_eq in Hst.
  apply GetLatestLabelData_cases in Hget
    as [(-> & _)|(i & m & Hs & _ & Hraw & _ & _ & _ & _ & Hnb & Hfr)];
    [done|].
  exists i, m. cbn [snd]. rewrite <- Hraw, <- Hnb, <- Hfr. done.
Qed.

Lemma TransmitLatestARINCMsgIfValid_calls_send a ch locals clock labels :
  numMsgs a <= Z.of_nat (length (rxMsgs a)) ->
  forall k : nat,
    exists sent,
      TransmitLatestARINCMsgIfValid_calls a ch labels locals clock k
      = Some sent
      /\ (length sent <= length labels)%nat
      /\ Forall
           (fun p =>
              p.1 = ch
              /\ exists (i : nat) (m : ARINC429_RxMsg),
                   rxMsgs a !! i = Some m
                   /\ rawARINCword (data m) = p.2
                   /\ isNotBabbling (data m) = true) sent.
Proof.
  intros Hlen. induction labels as [|L labels IH]; intros k.
  - exists []. by repeat split.
  - cbn [TransmitLatestARINCMsgIfValid_calls].
    destruct (TransmitLatestARINCMsgIfValid_sends a L ch (locals k) (clock k)
                Hlen) as (r & -> & Hr).
    destruct (IH (S k)) as (rest & -> & Hn & Hall).
    cbn [mbind option_bind]. eexists. split; [reflexivity|].
    destruct r as [p|]; cbn [length]; [|split; [lia|done]].
    split; [lia|]. apply Forall_cons_2; [|done].
    destruct (Hr p eq_refl) as (Hch & i & m & Hs & Hraw & Hnb & _).
    split; [done|]. exists i, m. by destruct Hs as (Hi & _).
Qed.

(** X29: TransmitA429ADCWords sends air data on only while the baro correction
    of the PFD is there: when label 235 of the PFD is not fresh or is
    babbling, or the status matrix of its word is not "plus", nothing is
    handed to a transmitter.  What is sent goes to channel B, is at most
    twenty words, and each word is the word stored in a slot of the ADC
    group that is not flagged as babbling.  The group of the AHR75 is
    downloaded in either case. *)
Theorem air_data_gated_by_baro
    (arincPFDarray arincADCarray arincAHR75array arincAHR75array'
       : ARINC429_RxMsgArray)
    (txvrA_rx2 txvrA_rx2' : list (Z * Z)) (baroWord0 baroWord : Z)
    (locals : nat -> ARINC429_RxMsgData) (clock : nat -> Z)
    (isBaroWordValid : bool) :
  numMsgs arincADCarray <= Z.of_nat (length (rxMsgs arincADCarray)) ->
  ARINC429_GetLatestARINC429Word arincPFDarray 235 baroWord0
    (locals 0%nat) (clock 0%nat) = Some (isBaroWordValid, baroWord) ->
  DownloadMessagesFromARINCtxvrArx2 arincAHR75array txvrA_rx2
  = Some (arincAHR75array', txvrA_rx2') ->
  exists sent,
    TransmitA429ADCWords arincPFDarray arincADCarray arincAHR75array
      txvrA_rx2 baroWord0 locals clock
    = Some (sent, arincAHR75array', txvrA_rx2')
    /\ (isBaroWordValid
        && (ARNIC429_SSM_BCD_PLUS =? ARINC429_ExtractSSMbits baroWord)
        = false -> sent = [])
    /\ (length sent <= 20)%nat
    /\ Forall
         (fun p =>
            p.1 = A429_CHANNEL_B
            /\ exists (i : nat) (m : ARINC429_RxMsg),
                 rxMsgs arincADCarray !! i = Some m
                 /\ rawARINCword (data m) = p.2
                 /\ isNotBabbling (data m) = true) sent.
Proof.
  intros Hlen Hbaro Hdl. unfold TransmitA429ADCWords.
  rewrite Hbaro. cbn [mbind option_bind].
  destruct (isBaroWordValid
            && (ARNIC429_SSM_BCD_PLUS =? ARINC429_ExtractSSMbits baroWord)).
  - destruct (TransmitLatestARINCMsgIfValid_calls_send arincADCarray
                A429_CHANNEL_B locals clock
                [200; 203; 204; 205; 206; 210; 211; 212; 213; 215] Hlen 1)
      as (first & -> & Hn1 & H1).
    cbn [mbind option_bind]. rewrite Hdl. cbn [mbind option_bind].
    destruct (TransmitLatestARINCMsgIfValid_calls_send arincADCarray
                A429_CHANNEL_B locals clock
                [221; 222; 223; 224; 231; 235; 242; 246; 271; 377] Hlen 11)
      as (second & -> & Hn2 & H2).
    cbn [mbind option_bind]. eexists. split; [reflexivity|].
    split; [done|]. split.
    + rewrite length_app. cbn [length] in Hn1, Hn2. lia.
    + by apply Forall_app.
  - cbn [mbind option_bind]. rewrite Hdl. cbn [mbind option_bind].
    eexists. split; [reflexivity|]. split; [done|]. split; [cbn; lia|done].
Qed.

Lemma air_data_gated_by_baro_witness :
  exists sent,
    TransmitA429ADCWords pfd_baro_received adc_altitude_received
      arincAHR75array [] 0 (fun _ => RxMsgData_init) (fun _ => 1030)
    = Some (sent, arincAHR75array, [])
    /\ (true && (ARNIC429_SSM_BCD_PLUS =? ARINC429_ExtractSSMbits 0x0A6481B9)
        = false -> sent = [])
    /\ (length sent <= 20)%nat
    /\ Forall
         (fun p =>
            p.1 = A429_CHANNEL_B
            /\ exists (i : nat) (m : ARINC429_RxMsg),
                 rxMsgs adc_altitude_received !! i = Some m
                 /\ rawARINCword (data m) = p.2
                 /\ isNotBabbling (data m) = true) sent.
Proof.
  apply (air_data_gated_by_baro pfd_baro_received adc_altitude_received
           arincAHR75array arincAHR75array [] [] 0 0x0A6481B9
           (fun _ => RxMsgData_init) (fun _ => 1030) true);
    vm_compute; first [reflexivity|discriminate].
Defined.

(** ** ARINC_HI3584.c: the label filters *)

Lemma SetupLabelFilters_pass_written rxLabels pins :
  SetupLabelFilters_pass rxLabels pins
  = (WriteDataTo16bitDataBus <$> rxLabels,
     snd (SetupLabelFilters_pass rxLabels pins)).
Proof. unfold SetupLabelFilters_pass. cbn [snd]. reflexivity. Qed.

Lemma SetupLabelFilters_pass_valid rxLabels pins :
  snd (SetupLabelFilters_pass rxLabels pins) = true
  <-> forall c : nat,
        (c < 16)%nat ->
        ReadDataFrom16bitDataBus (pins c) = nth c rxLabels 0.
Proof.
  unfold SetupLabelFilters_pass, MAX_NUM_REGOCNIZED_LABELS. cbn [snd].
  rewrite forallb_forall. split.
  - intros Hgood c Hc. apply Z.eqb_eq, Hgood, in_seq. lia.
  - intros Hgood c Hc%in_seq. apply Z.eqb_eq, Hgood. lia.
Qed.

(** The retry loop stops at the first pass that reads everything back. *)
Lemma SetupLabelFilters_loop_first rxLabels readBack :
  forall (n fuel retryCounter : nat) (v : bool),
    (n < fuel)%nat ->
    (forall t : nat,
       (t < n)%nat ->
       snd (SetupLabelFilters_pass rxLabels (readBack (retryCounter + t)%nat))
       = false) ->
    snd (SetupLabelFilters_pass rxLabels (readBack (retryCounter + n)%nat))
    = true ->
    SetupLabelFilters_loop fuel retryCounter rxLabels readBack v
    = (true, replicate (S n) (WriteDataTo16bitDataBus <$> rxLabels)).
Proof.
  induction n as [|n IH]; intros fuel retryCounter v Hfuel Hbad Hgood.
  - destruct fuel as [|fuel]; [lia|].
    cbn [SetupLabelFilters_loop].
    rewrite SetupLabelFilters_pass_written.
    rewrite Nat.add_0_r in Hgood. rewrite Hgood. reflexivity.
  - destruct fuel as [|fuel]; [lia|].
    cbn [SetupLabelFilters_loop].
    rewrite SetupLabelFilters_pass_written.
    pose proof (Hbad 0%nat ltac:(lia)) as H0.
    rewrite Nat.add_0_r in H0. rewrite H0.
    rewrite (IH fuel (S retryCounter) false); [reflexivity|lia| |].
    + intros t Ht. specialize (Hbad (S t) ltac:(lia)).
      by replace (S retryCounter + t)%nat with (retryCounter + S t)%nat
        by lia.
    + by replace (S retryCounter + n)%nat with (retryCounter + S n)%nat
        by lia.
Qed.

(** When no pass reads everything back, the loop makes all its passes. *)
Lemma SetupLabelFilters_loop_none rxLabels readBack :
  forall (fuel retryCounter : nat) (v : bool),
    (0 < fuel)%nat ->
    (forall t : nat,
       (t < fuel)%nat ->
       snd (SetupLabelFilters_pass rxLabels (readBack (retryCounter + t)%nat))
       = false) ->
    SetupLabelFilters_loop fuel retryCounter rxLabels readBack v
    = (false, replicate fuel (WriteDataTo16bitDataBus <$> rxLabels)).
Proof.
  induction fuel as [|fuel IH]; intros retryCounter v Hfuel Hbad; [lia|].
  cbn [SetupLabelFilters_loop].
  rewrite SetupLabelFilters_pass_written.
  pose proof (Hbad 0%nat ltac:(lia)) as H0.
  rewrite Nat.add_0_r in H0. rewrite H0.
  destruct fuel as [|fuel]; [reflexivity|].
  rewrite (IH (S retryCounter) false); [reflexivity|lia|].
  intros t Ht. specialize (Hbad (S t) ltac:(lia)).
  by replace (S retryCounter + t)%nat with (retryCounter + S t)%nat by lia.
Qed.

(** X30: ARINC429_HI3584_SetupLabelFiltersTxvrA refuses a group of more than
    sixteen slots without touching the transceiver.  Otherwise it writes
    the labels of the group, padded with zeros to sixteen, and reads them
    back, pass after pass, each pass preceded by a load of 0x02 into the
    control register.  When pass [n + 1] (of at most three) is the first
    that reads all sixteen back, the function makes exactly [n + 1] passes,
    returns true and loads the control register value read on entry at the
    end.  When none of three passes reads them back, it makes three passes
    and returns false. *)
Theorem SetupLabelFilters_retries
    (msgs : ARINC429_RxMsgArray) (currentControlReg : Z)
    (readBack : nat -> nat -> list bool) (isReadBackValid0 : bool) :
  0 <= numMsgs msgs <= Z.of_nat (length (rxMsgs msgs)) ->
  (MAX_NUM_REGOCNIZED_LABELS < numMsgs msgs ->
   ARINC429_HI3584_SetupLabelFiltersTxvrA msgs currentControlReg readBack
     isReadBackValid0 = Some (false, [], []))
  /\ (numMsgs msgs <= MAX_NUM_REGOCNIZED_LABELS ->
      exists rxLabels : list Z,
        SetupLabelFilters_rxLabels msgs = Some rxLabels
        /\ length rxLabels = 16%nat
        /\ (forall (i : nat) m,
              rxMsgs msgs !! i = Some m -> Z.of_nat i < numMsgs msgs ->
              rxLabels !! i = Some (label (msgConfig m)))
        /\ (forall i : nat,
              numMsgs msgs <= Z.of_nat i < 16 -> rxLabels !! i = Some 0)
        /\ (forall n : nat,
              (n < 3)%nat ->
              (forall t : nat,
                 (t < n)%nat ->
                 ~ forall c : nat,
                     (c < 16)%nat ->
                     ReadDataFrom16bitDataBus (readBack t c)
                     = nth c rxLabels 0) ->
              (forall c : nat,
                 (c < 16)%nat ->
                 ReadDataFrom16bitDataBus (readBack n c)
                 = nth c rxLabels 0) ->
              ARINC429_HI3584_SetupLabelFiltersTxvrA msgs currentControlReg
                readBack isReadBackValid0
              = Some (true,
                      replicate (S n) 0x02 ++ [currentControlReg],
                      replicate (S n)
                        (WriteDataTo16bitDataBus <$> rxLabels)))
        /\ ((forall t : nat,
               (t < 3)%nat ->
               ~ forall c : nat,
                   (c < 16)%nat ->
                   ReadDataFrom16bitDataBus (readBack t c)
                   = nth c rxLabels 0) ->
            exists lastControlReg : Z,
              ARINC429_HI3584_SetupLabelFiltersTxvrA msgs currentControlReg
                readBack isReadBackValid0
              = Some (false,
                      replicate 3 0x02 ++ [lastControlReg],
                      replicate 3
                        (WriteDataTo16bitDataBus <$> rxLabels)))).
Proof.
  intros Hn. unfold ARINC429_HI3584_SetupLabelFiltersTxvrA.
  unfold MAX_NUM_REGOCNIZED_LABELS. split.
  - intros H. by destruct (Z.ltb_spec 16 (numMsgs msgs)); [|lia].
  - intros H. destruct (Z.ltb_spec 16 (numMsgs msgs)); [lia|].
    unfold SetupLabelFilters_rxLabels, MAX_NUM_REGOCNIZED_LABELS.
    destruct (Nat.leb_spec (Z.to_nat (numMsgs msgs)) (length (rxMsgs msgs)));
      [|lia].
    set (rxLabels :=
           ((fun m => label (msgConfig m))
              <$> take (Z.to_nat (numMsgs msgs)) (rxMsgs msgs))
           ++ replicate (Z.to_nat 16 - Z.to_nat (numMsgs msgs)) 0).
    cbn [mbind option_bind].
    assert (length ((fun m => label (msgConfig m))
                      <$> take (Z.to_nat (numMsgs msgs)) (rxMsgs msgs))
            = Z.to_nat (numMsgs msgs)) as Hlen1.
    { rewrite length_fmap, length_take. lia. }
    assert (forall t : nat,
              (~ forall c : nat,
                   (c < 16)%nat ->
                   ReadDataFrom16bitDataBus (readBack t c)
                   = nth c rxLabels 0) ->
              snd (SetupLabelFilters_pass rxLabels (readBack t)) = false)
      as Hfalse.
    { intros t Hbad.
      destruct (snd (SetupLabelFilters_pass rxLabels (readBack t))) eqn:E;
        [|done].
      exfalso. apply Hbad.
      exact (proj1 (SetupLabelFilters_pass_valid rxLabels (readBack t)) E). }
    exists rxLabels. split; [done|]. split.
    { unfold rxLabels. rewrite length_app, Hlen1, length_replicate. lia. }
    split.
    { intros i m Hm Hi. unfold rxLabels.
      rewrite lookup_app_l by lia.
      rewrite list_lookup_fmap, lookup_take_lt by lia. by rewrite Hm. }
    split.
    { intros i Hi. unfold rxLabels.
      rewrite lookup_app_r by lia. apply lookup_replicate_2. lia. }
    split.
    + intros n Hn3 Hbad Hgood.
      rewrite (SetupLabelFilters_loop_first rxLabels readBack n 3 0
                 isReadBackValid0 Hn3).
      * cbn [negb]. by rewrite length_replicate.
      * intros t Ht. apply Hfalse, Hbad, Ht.
      * exact (proj2 (SetupLabelFilters_pass_valid rxLabels (readBack n))
                 Hgood).
    + intros Hbad.
      rewrite (SetupLabelFilters_loop_none rxLabels readBack 3 0
                 isReadBackValid0 ltac:(lia)).
      * cbn [negb]. rewrite length_replicate. by eexists.
      * intros t Ht. apply Hfalse, Hbad, Ht.
Qed.

Lemma SetupLabelFilters_retries_witness :
  let msgs := arincPFDarray in
  let readBack := fun _ _ : nat => replicate 16 false in
  (MAX_NUM_REGOCNIZED_LABELS < numMsgs msgs ->
   ARINC429_HI3584_SetupLabelFiltersTxvrA msgs 0x8038 readBack false
   = Some (false, [], []))
  /\ (numMsgs msgs <= MAX_NUM_REGOCNIZED_LABELS ->
      exists rxLabels : list Z,
        SetupLabelFilters_rxLabels msgs = Some rxLabels
        /\ length rxLabels = 16%nat
        /\ (forall (i : nat) m,
              rxMsgs msgs !! i = Some m -> Z.of_nat i < numMsgs msgs ->
              rxLabels !! i = Some (label (msgConfig m)))
        /\ (forall i : nat,
              numMsgs msgs <= Z.of_nat i < 16 -> rxLabels !! i = Some 0)
        /\ (forall n : nat,
              (n < 3)%nat ->
              (forall t : nat,
                 (t < n)%nat ->
                 ~ forall c : nat,
                     (c < 16)%nat ->
                     ReadDataFrom16bitDataBus (readBack t c)
                     = nth c rxLabels 0) ->
              (forall c : nat,
                 (c < 16)%nat ->
                 ReadDataFrom16bitDataBus (readBack n c)
                 = nth c rxLabels 0) ->
              ARINC429_HI3584_SetupLabelFiltersTxvrA msgs 0x8038
                readBack false
              = Some (true,
                      replicate (S n) 0x02 ++ [0x8038],
                      replicate (S n)
                        (WriteDataTo16bitDataBus <$> rxLabels)))
        /\ ((forall t : nat,
               (t < 3)%nat ->
               ~ forall c : nat,
                   (c < 16)%nat ->
                   ReadDataFrom16bitDataBus (readBack t c)
                   = nth c rxLabels 0) ->
            exists lastControlReg : Z,
              ARINC429_HI3584_SetupLabelFiltersTxvrA msgs 0x8038
                readBack false
              = Some (false,
                      replicate 3 0x02 ++ [lastControlReg],
                      replicate 3
                        (WriteDataTo16bitDataBus <$> rxLabels)))).
Proof.
  intros msgs readBack.
  apply (SetupLabelFilters_retries msgs 0x8038 readBack false).
  split; vm_compute; discriminate.
Defined.
